(** * Surveys: a shallow embedding of the Convex backend

    The development embeds the server-side TypeScript of the survey
    platform (validation and grading, the respondent session state
    machine, invite consumption, the analytics materialisation engine,
    the analytics read queries and the outbox dispatcher) as Rocq
    functions and proves the properties the specification states about
    them.

    Conventions of the embedding.
    - A JavaScript [number] is an extended rational: [Fin q], the two
      infinities and [NaN].  Arithmetic on finite values is exact;
      IEEE-754 rounding is not modelled, so a figure that the code
      rounds from a product or a quotient of doubles ([toPercent],
      the percentage of [calculateProgress], the tolerance of a numeric
      answer key) may differ from the one computed here by one unit of
      the last digit kept when the exact value lies on a rounding
      boundary.  Counters that the code only ever writes as integers
      are [Z].
    - A JavaScript string is a Rocq [string]; one character stands for
      one UTF-16 code unit below 256.
    - An answer of static type [unknown] is an [option Answer]: the
      Convex validator [answerValueValidator] admits exactly string,
      number, boolean, array of strings and null, and a missing key of
      the answer record reads as [undefined] ([None]); the properties
      that a JavaScript object inherits from [Object.prototype] (a
      field whose id is [constructor], say) are not modelled.
    - A Convex table is a list of slots indexed by document id; a
      deleted document leaves an empty slot, so ids are never reused
      and index order is creation order.
    - A mutation handler is a function from the database to a final
      database and a result; the Convex runtime commits the writes of a
      handler that returns and discards those of a handler that throws
      ([mutation]). *)

From Stdlib Require Import ZArith QArith Qabs Qround Lia Ascii String Bool.
From stdpp Require Import base option list gmap strings numbers.

Local Open Scope string_scope.
Local Open Scope list_scope.
Local Open Scope Z_scope.

(** ** JavaScript values *)

Module Js.

Inductive JsNum : Type :=
| Fin (q : Q)
| PInf
| NInf
| NaN.

Definition ofZ (z : Z) : JsNum := Fin (inject_Z z).

Definition Qlt_bool (x y : Q) : bool := negb (Qle_bool y x).

(** [a < b] *)
Definition num_lt (a b : JsNum) : bool :=
  match a, b with
  | NaN, _ | _, NaN => false
  | Fin x, Fin y => Qlt_bool x y
  | NInf, NInf => false
  | NInf, _ => true
  | _, NInf => false
  | PInf, _ => false
  | Fin _, PInf => true
  end.

(** [a > b] *)
Definition num_gt (a b : JsNum) : bool := num_lt b a.

(** [a <= b] *)
Definition num_le (a b : JsNum) : bool :=
  match a, b with
  | NaN, _ | _, NaN => false
  | Fin x, Fin y => Qle_bool x y
  | NInf, _ => true
  | _, PInf => true
  | _, NInf => false
  | PInf, Fin _ => false
  end.

(** [a - b] *)
Definition num_sub (a b : JsNum) : JsNum :=
  match a, b with
  | NaN, _ | _, NaN => NaN
  | Fin x, Fin y => Fin (x - y)
  | PInf, PInf | NInf, NInf => NaN
  | PInf, _ | _, NInf => PInf
  | NInf, _ | _, PInf => NInf
  end.

(** [Math.abs] *)
Definition num_abs (a : JsNum) : JsNum :=
  match a with
  | Fin x => Fin (Qabs x)
  | PInf | NInf => PInf
  | NaN => NaN
  end.

(** [Number.isNaN] *)
Definition isNaN (a : JsNum) : bool :=
  match a with NaN => true | _ => false end.

(** [Number.isFinite] *)
Definition isFinite (a : JsNum) : bool :=
  match a with Fin _ => true | _ => false end.

(** [Math.round] on a finite value: the nearest integer, ties towards
    positive infinity. *)
Definition round (x : Q) : Z := Qfloor (x + (1 # 2)).

(** The values a stored answer can take ([answerValueValidator]). *)
Inductive Answer : Type :=
| AStr (s : string)
| ANum (n : JsNum)
| ABool (b : bool)
| AArr (l : list string)
| ANull.

(** White space of [String.prototype.trim] among the code units below
    256: TAB, LF, VT, FF, CR, SPACE and NBSP. *)
Definition isWhite (c : ascii) : bool :=
  let n := nat_of_ascii c in
  ((9 <=? n)%nat && (n <=? 13)%nat) || (n =? 32)%nat || (n =? 160)%nat.

Fixpoint trimStart (s : string) : string :=
  match s with
  | EmptyString => EmptyString
  | String c r => if isWhite c then trimStart r else s
  end.

Fixpoint trimEnd (s : string) : string :=
  match s with
  | EmptyString => EmptyString
  | String c r =>
      match trimEnd r with
      | EmptyString => if isWhite c then EmptyString else String c EmptyString
      | r' => String c r'
      end
  end.

(** [String.prototype.trim] *)
Definition trim (s : string) : string := trimEnd (trimStart s).

Definition lowerChar (c : ascii) : ascii :=
  let n := nat_of_ascii c in
  if ((65 <=? n)%nat && (n <=? 90)%nat)
     || ((192 <=? n)%nat && (n <=? 222)%nat && negb (n =? 215)%nat)
  then ascii_of_nat (n + 32) else c.

(** [String.prototype.toLowerCase] *)
Fixpoint toLowerCase (s : string) : string :=
  match s with
  | EmptyString => EmptyString
  | String c r => String (lowerChar c) (toLowerCase r)
  end.

(** [s.length] *)
Definition strlen (s : string) : Z := Z.of_nat (String.length s).

(** A stable sort driven by a comparator, as [Array.prototype.sort]:
    [cmp a b > 0] places [a] after [b]; a [NaN] comparator result is
    read as [0] by the caller of [sortBy]. *)
Fixpoint insertBy {A} (cmp : A -> A -> Z) (x : A) (l : list A) : list A :=
  match l with
  | [] => [x]
  | y :: r => if 0 <? cmp x y then y :: insertBy cmp x r else x :: l
  end.

Definition sortBy {A} (cmp : A -> A -> Z) (l : list A) : list A :=
  foldr (insertBy cmp) [] l.

(** The sign of a number as a comparator result ([NaN] counts as [0]). *)
Definition num_sign (a : JsNum) : Z :=
  match a with
  | Fin q => match Qcompare q 0 with Lt => -1 | Eq => 0 | Gt => 1 end
  | PInf => 1
  | NInf => -1
  | NaN => 0
  end.

(** [Math.min(a, b)] and [Math.max(a, b)] *)
Definition num_min (a b : JsNum) : JsNum :=
  match a, b with
  | NaN, _ | _, NaN => NaN
  | _, _ => if num_le a b then a else b
  end.

Definition num_max (a b : JsNum) : JsNum :=
  match a, b with
  | NaN, _ | _, NaN => NaN
  | _, _ => if num_le a b then b else a
  end.

(** [l.slice(0, end)] with an integer [end]; a negative [end] counts
    from the end of the list. *)
Definition sliceTo {A} (end_ : Z) (l : list A) : list A :=
  if end_ <? 0 then take (Z.to_nat (Z.of_nat (length l) + end_)) l
  else take (Z.to_nat end_) l.

(** [l.slice(0, end)] with any number: [end] is truncated towards
    zero, [NaN] reads as [0]. *)
Definition sliceToNum {A} (end_ : JsNum) (l : list A) : list A :=
  match end_ with
  | Fin q => sliceTo (if Qle_bool 0 q then Qfloor q else Qceiling q) l
  | PInf => l
  | NInf | NaN => []
  end.

(** The order of two strings by code units, as a comparator result. *)
Definition compareStrings (a b : string) : Z :=
  match String.compare a b with Lt => -1 | Eq => 0 | Gt => 1 end.

End Js.

Export Js.

(** A JavaScript [Map] with string keys: an association list in
    insertion order.  [set] on a present key keeps the position of the
    entry; [delete] removes it. *)
Module OMap.

Section WithValue.
Context {V : Type}.

Definition t : Type := list (string * V).

Fixpoint get (k : string) (m : list (string * V)) : option V :=
  match m with
  | [] => None
  | (k', v) :: r => if String.eqb k k' then Some v else get k r
  end.

Definition has (k : string) (m : list (string * V)) : bool :=
  match get k m with Some _ => true | None => false end.

Fixpoint set (k : string) (v : V) (m : list (string * V)) : list (string * V) :=
  match m with
  | [] => [(k, v)]
  | (k', v') :: r => if String.eqb k k' then (k, v) :: r else (k', v') :: set k v r
  end.

Fixpoint delete (k : string) (m : list (string * V)) : list (string * V) :=
  match m with
  | [] => []
  | (k', v') :: r => if String.eqb k k' then r else (k', v') :: delete k r
  end.

Definition keys (m : list (string * V)) : list string := map fst m.
Definition values (m : list (string * V)) : list V := map snd m.

(** [new Map(entries)] *)
Definition ofEntries (entries : list (string * V)) : list (string * V) :=
  fold_left (fun m e => set (fst e) (snd e) m) entries [].

End WithValue.

End OMap.

(** ** The data model ([convex/lib/validators.ts], [convex/schema.ts]) *)

Inductive FieldKind : Type :=
| short_text | long_text | single_select | multi_select
| number | email | date | rating_1_5.

Global Instance FieldKind_eq_dec : EqDecision FieldKind.
Proof. solve_decision. Defined.

Record FieldOption : Type := mkOption {
  opt_label : string;
  opt_value : string;
}.

Record FieldValidation : Type := mkValidation {
  minLength : option JsNum;
  maxLength : option JsNum;
  vmin : option JsNum;
  vmax : option JsNum;
  pattern : option string;
}.

Inductive Correctness : Type :=
| text_exact (expectedText : string)
| single_select_exact (expectedOptionValue : string)
| multi_select_exact (expectedOptionValues : list string)
| numeric_exact (expectedNumber : JsNum) (tolerance : option JsNum).

Record Field : Type := mkField {
  id : string;
  kind : FieldKind;
  label : string;
  required : bool;
  order : Z;
  options : option (list FieldOption);
  validation : option FieldValidation;
  correctness : option Correctness;
}.

(** [Record<string, unknown>] restricted to stored answer values. *)
Abbreviation Answers := (gmap string Answer).

(** ** Grading ([convex/lib/scoring.ts]) *)

Module Scoring.

Record SubmissionGrading : Type := mkGrading {
  gradableCount : Z;
  correctCount : Z;
  incorrectCount : Z;
  scorePercent : Q;
  fieldResults : gmap string bool;
}.

Definition normalizeText (value : string) : string :=
  toLowerCase (trim value).

Definition compareExactMultiSelect (expected actual : list string) : bool :=
  let expectedSet : gset string := list_to_set expected in
  let actualSet : gset string := list_to_set actual in
  if negb (size expectedSet =? size actualSet)%nat then false
  else forallb (fun value => bool_decide (value ∈ actualSet)) (elements expectedSet).

(** [null] is [None]; the answer is [answers[field.id]]. *)
Definition evaluateFieldCorrectness (field : Field) (answer : option Answer) : option bool :=
  match correctness field with
  | None => None
  | Some (text_exact expectedText) =>
      match answer with
      | Some (AStr s) => Some (String.eqb (normalizeText s) (normalizeText expectedText))
      | _ => Some false
      end
  | Some (single_select_exact expectedOptionValue) =>
      match answer with
      | Some (AStr s) => Some (String.eqb s expectedOptionValue)
      | _ => Some false
      end
  | Some (multi_select_exact expectedOptionValues) =>
      match answer with
      | Some (AArr l) => Some (compareExactMultiSelect expectedOptionValues l)
      | _ => Some false
      end
  | Some (numeric_exact expectedNumber tol) =>
      match answer with
      | Some (ANum n) =>
          if isNaN n then Some false
          else
            let tolerance := default (ofZ 0) tol in
            Some (num_le (num_abs (num_sub n expectedNumber)) tolerance)
      | _ => Some false
      end
  end.

(** The three accumulators of the loop of [gradeSubmission]. *)
Record GradeAcc : Type := mkAcc {
  acc_gradable : Z;
  acc_correct : Z;
  acc_results : gmap string bool;
}.

Definition gradeStep (answers : Answers) (acc : GradeAcc) (field : Field) : GradeAcc :=
  match correctness field with
  | None => acc
  | Some _ =>
      let isCorrect :=
        match evaluateFieldCorrectness field (answers !! id field) with
        | Some true => true
        | _ => false
        end in
      {| acc_gradable := acc_gradable acc + 1;
         acc_correct := if isCorrect then acc_correct acc + 1 else acc_correct acc;
         acc_results := <[id field := isCorrect]> (acc_results acc) |}
  end.

Definition gradeSubmission (fields : list Field) (answers : Answers) : SubmissionGrading :=
  let acc := fold_left (gradeStep answers) fields (mkAcc 0 0 ∅) in
  let gradableCount := acc_gradable acc in
  let correctCount := acc_correct acc in
  let incorrectCount := Z.max 0 (gradableCount - correctCount) in
  let scorePercent :=
    if gradableCount =? 0 then 0%Q
    else (inject_Z (round ((inject_Z correctCount / inject_Z gradableCount) * 10000)) / 100)%Q in
  {| gradableCount := gradableCount;
     correctCount := correctCount;
     incorrectCount := incorrectCount;
     scorePercent := scorePercent;
     fieldResults := acc_results acc |}.

(** The fields that carry a correctness rule. *)
Definition gradable (fields : list Field) : list Field :=
  List.filter (fun f => match correctness f with Some _ => true | None => false end) fields.

End Scoring.

(** ** Errors and third-party libraries *)

(** What a handler can throw.  A [ConvexError] is the structured
    failure [{ code, message }]; only the code is kept. *)
Inductive Error : Type :=
| ConvexError (code : string)
| NotUnique          (* [.unique()] met more than one document *)
| ZodError           (* [schema.parse] rejected its input *)
| RegExpSyntaxError  (* [new RegExp(pattern)] rejected the pattern *)
| MissingDocument.   (* [db.patch] / [db.delete] on a deleted document *)

Definition Result (A : Type) : Type := Error + A.

(** zod's [z.number()] applied to a JavaScript number.  Every release
    of the library rejects [NaN]; whether the infinities pass depends
    on the release, so nothing is assumed about them. *)
Class ZodNumber : Type := {
  zNumberAccepts : JsNum -> bool;
  zNumber_rejects_NaN : zNumberAccepts NaN = false;
}.

(** The regular expression engine: the e-mail literal of
    [validateAnswerWithZod], and [new RegExp(pattern).test(value)],
    which is [None] when the constructor throws. *)
Class RegExpEngine : Type := {
  emailRegexTest : string -> bool;
  regexTest : string -> string -> option bool;
}.

(** ** Answer validation ([convex/lib/zod.ts]) *)

Module Zod.

(** The messages [validateAnswerWithZod] returns. *)
Inductive AnswerIssue : Type :=
| IssueRequired          (* This field is required. *)
| IssueExpectedString    (* Expected a string. *)
| IssueEmailFormat       (* Invalid email format. *)
| IssueInvalidOption     (* Invalid option selected. *)
| IssueMinLength (n : JsNum)
| IssueMaxLength (n : JsNum)
| IssuePattern           (* Value does not match pattern. *)
| IssueExpectedStrings   (* Expected an array of strings. *)
| IssueInvalidOptions    (* One or more selected options are invalid. *)
| IssueExpectedNumber    (* Expected a number. *)
| IssueRating            (* Rating must be between 1 and 5. *)
| IssueMinValue (n : JsNum)
| IssueMaxValue (n : JsNum).

Section WithLibraries.
Context `{zod : ZodNumber} `{re : RegExpEngine}.

(** [value === undefined || value === null || blank string || empty array] *)
Definition absent (value : option Answer) : bool :=
  match value with
  | None | Some ANull => true
  | Some (AStr s) => strlen (trim s) =? 0
  | Some (AArr l) => Z.of_nat (length l) =? 0
  | Some _ => false
  end.

Definition optionValues (field : Field) : list string :=
  map opt_value (default [] (options field)).

Definition hasValue (values : list string) (v : string) : bool :=
  bool_decide (v ∈ values).

(** [field.validation?.m] *)
Definition validationOf (m : FieldValidation -> option JsNum) (field : Field) : option JsNum :=
  v ← validation field; m v.

(** [z.number().safeParse(value)]: the parsed data on success. *)
Definition zNumberSafeParse (value : option Answer) : option JsNum :=
  match value with
  | Some (ANum n) => if zNumberAccepts n then Some n else None
  | _ => None
  end.

(** [answerValueSchema.safeParse]: string, number, boolean, array of
    strings or null. *)
Definition answerValueSchemaOk (value : Answer) : bool :=
  match value with
  | ANum n => zNumberAccepts n
  | _ => true
  end.

(** [answerMapSchema.parse(value)] *)
Definition parseAnswerMapWithZod (value : Answers) : Result Answers :=
  if bool_decide (map_Forall (fun _ v => answerValueSchemaOk v = true) value)
  then inr value else inl ZodError.

(** One bound of [field.validation]: the issue when [bad value bound]. *)
Definition checkBound (m : FieldValidation -> option JsNum) (bad : JsNum -> JsNum -> bool)
    (issue : JsNum -> AnswerIssue) (field : Field) (value : JsNum) : option AnswerIssue :=
  match validationOf m field with
  | Some bound => if bad value bound then Some (issue bound) else None
  | None => None
  end.

Definition checkPattern (field : Field) (value : string) : Result (option AnswerIssue) :=
  match validation field ≫= pattern with
  | Some p =>
      if bool_decide (p = "") then inr None
      else match regexTest p value with
           | None => inl RegExpSyntaxError
           | Some true => inr None
           | Some false => inr (Some IssuePattern)
           end
  | None => inr None
  end.

(** The string branch: kinds short_text, long_text, single_select,
    email and date. *)
Definition validateText (field : Field) (value : string) : Result (option AnswerIssue) :=
  if bool_decide (kind field = email) && negb (emailRegexTest value)
  then inr (Some IssueEmailFormat)
  else if bool_decide (kind field = single_select)
          && negb (bool_decide (optionValues field = []))
          && negb (hasValue (optionValues field) value)
  then inr (Some IssueInvalidOption)
  else
    match checkBound minLength num_lt IssueMinLength field (ofZ (strlen value)) with
    | Some e => inr (Some e)
    | None =>
        match checkBound maxLength num_gt IssueMaxLength field (ofZ (strlen value)) with
        | Some e => inr (Some e)
        | None => checkPattern field value
        end
    end.

(** The numeric branch: kinds number and rating_1_5. *)
Definition validateNumber (field : Field) (value : option Answer) : Result (option AnswerIssue) :=
  match zNumberSafeParse value with
  | None => inr (Some IssueExpectedNumber)
  | Some data =>
      if bool_decide (kind field = rating_1_5)
         && (num_lt data (ofZ 1) || num_gt data (ofZ 5))
      then inr (Some IssueRating)
      else
        match checkBound vmin num_lt IssueMinValue field data with
        | Some e => inr (Some e)
        | None => inr (checkBound vmax num_gt IssueMaxValue field data)
        end
  end.

(** [validateAnswerWithZod(field, value)]: [inr None] is the [null]
    of an accepted value. *)
Definition validateAnswerWithZod (field : Field) (value : option Answer)
  : Result (option AnswerIssue) :=
  if absent value then
    inr (if required field then Some IssueRequired else None)
  else
    match kind field with
    | short_text | long_text | single_select | email | date =>
        match value with
        | Some (AStr s) => validateText field s
        | _ => inr (Some IssueExpectedString)
        end
    | multi_select =>
        match value with
        | Some (AArr l) =>
            if negb (bool_decide (optionValues field = []))
               && existsb (fun entry => negb (hasValue (optionValues field) entry)) l
            then inr (Some IssueInvalidOptions)
            else inr None
        | _ => inr (Some IssueExpectedStrings)
        end
    | number | rating_1_5 => validateNumber field value
    end.

End WithLibraries.

End Zod.

(** ** The Convex database ([convex/schema.ts])

    Of every table the embedding keeps the fields that some embedded
    function reads or writes. *)

Abbreviation Id := nat.

(** A table: slot [i] holds the document with [_id = i], [None] once
    the document is deleted. *)
Abbreviation Table A := (list (option A)).

(** A document together with its [_id]. *)
Definition Doc (A : Type) : Type := (Id * A)%type.

Inductive Role : Type := admin | member.
Inductive InviteStatus : Type := inv_active | inv_revoked | inv_exhausted | inv_expired.
Inductive SessionStatus : Type := in_progress | idle | abandoned | completed.
Inductive OutboxStatus : Type := pending | sent | failed.
Inductive Metric : Type := m_started | m_completed | m_idle | m_abandoned | m_reactivated.
Inductive ActorType : Type := actor_admin | actor_system | actor_respondent.

Global Instance Role_eq_dec : EqDecision Role.
Proof. solve_decision. Defined.
Global Instance InviteStatus_eq_dec : EqDecision InviteStatus.
Proof. solve_decision. Defined.
Global Instance SessionStatus_eq_dec : EqDecision SessionStatus.
Proof. solve_decision. Defined.
Global Instance OutboxStatus_eq_dec : EqDecision OutboxStatus.
Proof. solve_decision. Defined.

(** A value of an event payload or of audit metadata ([v.any()]). *)
Inductive PropValue : Type :=
| PStr (s : string)
| PNum (z : Z)
| PNumber (n : JsNum)
| PScore (q : Q)
| PBool (b : bool)
| PRef (i : Id)
| PStatus (s : SessionStatus).

Record AppUser : Type := mkAppUser {
  workosUserId : string;
  role : Role;
}.

Record Survey : Type := mkSurvey {
  slug : string;
  title : string;
  createdByUserId : Id;
  updatedAt_survey : Z;
}.

Record SurveyVersion : Type := mkVersion {
  ver_surveyId : Id;
  version : Z;
  fields : list Field;
}.

(** [maxCompletions] is the number the creator of the invite passed,
    any JavaScript number from [1] up, and [expiresAt] the number they
    passed, any JavaScript number, or the default of [createInvite];
    [completionCount] is written by the code only, [0] at creation and
    one more for every submission. *)
Record SurveyInvite : Type := mkInvite {
  inv_surveyId : Id;
  inv_surveyVersionId : Id;
  tokenHash : string;
  inv_status : InviteStatus;
  maxCompletions : JsNum;
  completionCount : Z;
  expiresAt : option JsNum;
  inv_createdByUserId : Id;
  inv_createdAt : Z;
  revokedAt : option Z;
}.

Record SurveySession : Type := mkSession {
  sessionPublicId : string;
  ses_surveyId : Id;
  ses_surveyVersionId : Id;
  ses_inviteId : Id;
  respondentKey : string;
  ses_status : SessionStatus;
  startedAt : Z;
  lastActivityAt : Z;
  completedAt : option Z;
  answersDraft : Answers;
}.

Record SurveyResponse : Type := mkResponse {
  res_sessionId : Id;
  res_sessionPublicId : string;
  res_surveyId : Id;
  res_surveyVersionId : Id;
  res_inviteId : Id;
  submittedAt : Z;
  answers : Answers;
  durationMs : Z;
  grading : option Scoring.SubmissionGrading;
}.

Record SessionTransition : Type := mkTransition {
  tr_sessionId : Id;
  tr_surveyId : Id;
  fromStatus : option SessionStatus;
  toStatus : SessionStatus;
  reason : string;
  tr_at : Z;
}.

Record MetricsDaily : Type := mkMetrics {
  md_surveyId : Id;
  md_dateKey : string;
  md_started : Z;
  md_completed : Z;
  md_idle : Z;
  md_abandoned : Z;
  md_reactivated : Z;
  md_updatedAt : Z;
}.

Record AnalyticsDaily : Type := mkAnalytics {
  ad_surveyId : Id;
  ad_dateKey : string;
  ad_started : Z;
  ad_completed : Z;
  ad_idle : Z;
  ad_abandoned : Z;
  ad_reactivated : Z;
  avgScorePercent : Q;
  totalGraded : Z;
  ad_updatedAt : Z;
}.

Record FieldAnalyticsDaily : Type := mkFieldRow {
  fa_surveyId : Id;
  fa_fieldId : string;
  fa_dateKey : string;
  reachedCount : Z;
  answeredCount : Z;
  dropoffCount : Z;
  fa_updatedAt : Z;
}.

Record AnswerBucketsDaily : Type := mkBucketRow {
  ab_surveyId : Id;
  ab_fieldId : string;
  ab_dateKey : string;
  bucketKey : string;
  bucketLabel : string;
  count : Z;
  ab_updatedAt : Z;
}.

Record TextInsightsDaily : Type := mkTextRow {
  ti_surveyId : Id;
  ti_fieldId : string;
  ti_dateKey : string;
  topPhrases : list (string * Z);
  sampledSnippets : list (string * Z);
  ti_updatedAt : Z;
}.

Record OutboxEvent : Type := mkOutbox {
  eventName : string;
  distinctId : string;
  properties : list (string * PropValue);
  ob_status : OutboxStatus;
  attemptCount : Z;
  nextAttemptAt : Z;
  ob_createdAt : Z;
  sentAt : option Z;
  lastError : option string;
}.

Record AuditLog : Type := mkAudit {
  entityType : string;
  entityId : Id;
  action : string;
  actorType : ActorType;
  actorId : string;
  metadata : list (string * PropValue);
  al_createdAt : Z;
}.

Record Db : Type := mkDb {
  appUsers : Table AppUser;
  surveys : Table Survey;
  surveyVersions : Table SurveyVersion;
  surveyInvites : Table SurveyInvite;
  surveySessions : Table SurveySession;
  surveyResponses : Table SurveyResponse;
  sessionTransitions : Table SessionTransition;
  surveyMetricsDaily : Table MetricsDaily;
  surveyAnalyticsDaily : Table AnalyticsDaily;
  surveyFieldAnalyticsDaily : Table FieldAnalyticsDaily;
  surveyAnswerBucketsDaily : Table AnswerBucketsDaily;
  surveyTextInsightsDaily : Table TextInsightsDaily;
  analyticsOutbox : Table OutboxEvent;
  auditLogs : Table AuditLog;
}.

Definition emptyDb : Db := mkDb [] [] [] [] [] [] [] [] [] [] [] [] [] [].

Module Convex.

(** A table of the database: how to read it and how to replace it. *)
Record TableRef (A : Type) : Type := mkTableRef {
  tget : Db -> Table A;
  tset : Table A -> Db -> Db;
}.
Arguments tget {A}.
Arguments tset {A}.

Definition t_appUsers : TableRef AppUser :=
  mkTableRef _ appUsers (fun t d =>
    mkDb t (surveys d) (surveyVersions d) (surveyInvites d) (surveySessions d)
      (surveyResponses d) (sessionTransitions d) (surveyMetricsDaily d)
      (surveyAnalyticsDaily d) (surveyFieldAnalyticsDaily d) (surveyAnswerBucketsDaily d)
      (surveyTextInsightsDaily d) (analyticsOutbox d) (auditLogs d)).

Definition t_surveys : TableRef Survey :=
  mkTableRef _ surveys (fun t d =>
    mkDb (appUsers d) t (surveyVersions d) (surveyInvites d) (surveySessions d)
      (surveyResponses d) (sessionTransitions d) (surveyMetricsDaily d)
      (surveyAnalyticsDaily d) (surveyFieldAnalyticsDaily d) (surveyAnswerBucketsDaily d)
      (surveyTextInsightsDaily d) (analyticsOutbox d) (auditLogs d)).

Definition t_surveyVersions : TableRef SurveyVersion :=
  mkTableRef _ surveyVersions (fun t d =>
    mkDb (appUsers d) (surveys d) t (surveyInvites d) (surveySessions d)
      (surveyResponses d) (sessionTransitions d) (surveyMetricsDaily d)
      (surveyAnalyticsDaily d) (surveyFieldAnalyticsDaily d) (surveyAnswerBucketsDaily d)
      (surveyTextInsightsDaily d) (analyticsOutbox d) (auditLogs d)).

Definition t_surveyInvites : TableRef SurveyInvite :=
  mkTableRef _ surveyInvites (fun t d =>
    mkDb (appUsers d) (surveys d) (surveyVersions d) t (surveySessions d)
      (surveyResponses d) (sessionTransitions d) (surveyMetricsDaily d)
      (surveyAnalyticsDaily d) (surveyFieldAnalyticsDaily d) (surveyAnswerBucketsDaily d)
      (surveyTextInsightsDaily d) (analyticsOutbox d) (auditLogs d)).

Definition t_surveySessions : TableRef SurveySession :=
  mkTableRef _ surveySessions (fun t d =>
    mkDb (appUsers d) (surveys d) (surveyVersions d) (surveyInvites d) t
      (surveyResponses d) (sessionTransitions d) (surveyMetricsDaily d)
      (surveyAnalyticsDaily d) (surveyFieldAnalyticsDaily d) (surveyAnswerBucketsDaily d)
      (surveyTextInsightsDaily d) (analyticsOutbox d) (auditLogs d)).

Definition t_surveyResponses : TableRef SurveyResponse :=
  mkTableRef _ surveyResponses (fun t d =>
    mkDb (appUsers d) (surveys d) (surveyVersions d) (surveyInvites d) (surveySessions d)
      t (sessionTransitions d) (surveyMetricsDaily d)
      (surveyAnalyticsDaily d) (surveyFieldAnalyticsDaily d) (surveyAnswerBucketsDaily d)
      (surveyTextInsightsDaily d) (analyticsOutbox d) (auditLogs d)).

Definition t_sessionTransitions : TableRef SessionTransition :=
  mkTableRef _ sessionTransitions (fun t d =>
    mkDb (appUsers d) (surveys d) (surveyVersions d) (surveyInvites d) (surveySessions d)
      (surveyResponses d) t (surveyMetricsDaily d)
      (surveyAnalyticsDaily d) (surveyFieldAnalyticsDaily d) (surveyAnswerBucketsDaily d)
      (surveyTextInsightsDaily d) (analyticsOutbox d) (auditLogs d)).

Definition t_surveyMetricsDaily : TableRef MetricsDaily :=
  mkTableRef _ surveyMetricsDaily (fun t d =>
    mkDb (appUsers d) (surveys d) (surveyVersions d) (surveyInvites d) (surveySessions d)
      (surveyResponses d) (sessionTransitions d) t
      (surveyAnalyticsDaily d) (surveyFieldAnalyticsDaily d) (surveyAnswerBucketsDaily d)
      (surveyTextInsightsDaily d) (analyticsOutbox d) (auditLogs d)).

Definition t_surveyAnalyticsDaily : TableRef AnalyticsDaily :=
  mkTableRef _ surveyAnalyticsDaily (fun t d =>
    mkDb (appUsers d) (surveys d) (surveyVersions d) (surveyInvites d) (surveySessions d)
      (surveyResponses d) (sessionTransitions d) (surveyMetricsDaily d)
      t (surveyFieldAnalyticsDaily d) (surveyAnswerBucketsDaily d)
      (surveyTextInsightsDaily d) (analyticsOutbox d) (auditLogs d)).

Definition t_surveyFieldAnalyticsDaily : TableRef FieldAnalyticsDaily :=
  mkTableRef _ surveyFieldAnalyticsDaily (fun t d =>
    mkDb (appUsers d) (surveys d) (surveyVersions d) (surveyInvites d) (surveySessions d)
      (surveyResponses d) (sessionTransitions d) (surveyMetricsDaily d)
      (surveyAnalyticsDaily d) t (surveyAnswerBucketsDaily d)
      (surveyTextInsightsDaily d) (analyticsOutbox d) (auditLogs d)).

Definition t_surveyAnswerBucketsDaily : TableRef AnswerBucketsDaily :=
  mkTableRef _ surveyAnswerBucketsDaily (fun t d =>
    mkDb (appUsers d) (surveys d) (surveyVersions d) (surveyInvites d) (surveySessions d)
      (surveyResponses d) (sessionTransitions d) (surveyMetricsDaily d)
      (surveyAnalyticsDaily d) (surveyFieldAnalyticsDaily d) t
      (surveyTextInsightsDaily d) (analyticsOutbox d) (auditLogs d)).

Definition t_surveyTextInsightsDaily : TableRef TextInsightsDaily :=
  mkTableRef _ surveyTextInsightsDaily (fun t d =>
    mkDb (appUsers d) (surveys d) (surveyVersions d) (surveyInvites d) (surveySessions d)
      (surveyResponses d) (sessionTransitions d) (surveyMetricsDaily d)
      (surveyAnalyticsDaily d) (surveyFieldAnalyticsDaily d) (surveyAnswerBucketsDaily d)
      t (analyticsOutbox d) (auditLogs d)).

Definition t_analyticsOutbox : TableRef OutboxEvent :=
  mkTableRef _ analyticsOutbox (fun t d =>
    mkDb (appUsers d) (surveys d) (surveyVersions d) (surveyInvites d) (surveySessions d)
      (surveyResponses d) (sessionTransitions d) (surveyMetricsDaily d)
      (surveyAnalyticsDaily d) (surveyFieldAnalyticsDaily d) (surveyAnswerBucketsDaily d)
      (surveyTextInsightsDaily d) t (auditLogs d)).

Definition t_auditLogs : TableRef AuditLog :=
  mkTableRef _ auditLogs (fun t d =>
    mkDb (appUsers d) (surveys d) (surveyVersions d) (surveyInvites d) (surveySessions d)
      (surveyResponses d) (sessionTransitions d) (surveyMetricsDaily d)
      (surveyAnalyticsDaily d) (surveyFieldAnalyticsDaily d) (surveyAnswerBucketsDaily d)
      (surveyTextInsightsDaily d) (analyticsOutbox d) t).

(** *** Tables *)

Section Tables.
Context {A : Type}.

(** The live documents from slot [i] on, in creation order. *)
Fixpoint docsFrom (i : nat) (t : Table A) : list (Doc A) :=
  match t with
  | [] => []
  | Some a :: r => (i, a) :: docsFrom (S i) r
  | None :: r => docsFrom (S i) r
  end.

Definition docs (t : Table A) : list (Doc A) := docsFrom 0 t.

(** [db.get(id)] *)
Definition lookupDoc (t : Table A) (i : Id) : option A := mjoin (t !! i).

End Tables.

(** *** Handlers *)

(** A computation against the database: the database it leaves and
    what it returned or threw. *)
Definition M (A : Type) : Type := Db -> Db * Result A.

Definition ret {A} (a : A) : M A := fun db => (db, inr a).

Definition throw {A} (e : Error) : M A := fun db => (db, inl e).

Definition bind {A B} (c : M A) (k : A -> M B) : M B :=
  fun db =>
    match c db with
    | (db', inr a) => k a db'
    | (db', inl e) => (db', inl e)
    end.

(** A pure step that may throw. *)
Definition lift {A} (r : Result A) : M A := fun db => (db, r).

(** The Convex runtime around a mutation handler: a handler that
    returns commits, a handler that throws leaves the database as it
    was. *)
Definition mutation {A} (handler : M A) : M A :=
  fun db =>
    match handler db with
    | (db', inr a) => (db', inr a)
    | (_, inl e) => (db, inl e)
    end.

(** [for (const x of l) { s = await step(s, x) }] *)
Fixpoint forEach {A S} (step : S -> A -> M S) (l : list A) (s : S) : M S :=
  match l with
  | [] => ret s
  | x :: r => bind (step s x) (forEach step r)
  end.

End Convex.

Export Convex.

Declare Scope handler_scope.
Delimit Scope handler_scope with handler.
Notation "'do' x <- c ; k" := (bind c (fun x => k))
  (at level 10, x pattern, c at level 100, k at level 200) : handler_scope.
Notation "'run' c ; k" := (bind c (fun _ => k))
  (at level 10, c at level 100, k at level 200) : handler_scope.

Module Store.

Section Ops.
Context {A : Type} (t : TableRef A).

(** [ctx.db.get(id)] *)
Definition get (i : Id) : M (option A) :=
  fun db => (db, inr (lookupDoc (tget t db) i)).

(** [ctx.db.insert(table, row)] *)
Definition insert (row : A) : M Id :=
  fun db => (tset t (tget t db ++ [Some row]) db, inr (length (tget t db))).

(** [ctx.db.patch(id, fields)]; [f] overwrites the patched fields. *)
Definition patch (i : Id) (f : A -> A) : M unit :=
  fun db =>
    match lookupDoc (tget t db) i with
    | Some a => (tset t (<[i := Some (f a)]> (tget t db)) db, inr tt)
    | None => (db, inl MissingDocument)
    end.

(** [ctx.db.delete(id)] *)
Definition delete (i : Id) : M unit :=
  fun db =>
    match lookupDoc (tget t db) i with
    | Some _ => (tset t (<[i := None]> (tget t db)) db, inr tt)
    | None => (db, inl MissingDocument)
    end.

(** [ctx.db.query(table).withIndex(...).collect()] for an index whose
    fields are all fixed by equality: the matching documents in
    creation order. *)
Definition collect (p : A -> bool) : M (list (Doc A)) :=
  fun db => (db, inr (List.filter (fun d => p (snd d)) (docs (tget t db)))).

(** [ctx.db.query(table).withIndex(..., q => q.eq(...).gte('dateKey',
    from).lte('dateKey', to)).collect()]: the documents that match the
    equalities [p] with a date key in the range, ordered by date key and
    then by creation. *)
Definition collectRange (p : A -> bool) (dateKeyOf : A -> string) (from to : string)
  : M (list (Doc A)) :=
  fun db =>
    (db, inr (sortBy (fun a b => compareStrings (dateKeyOf (snd a)) (dateKeyOf (snd b)))
                (List.filter (fun d => p (snd d)
                                       && String.leb from (dateKeyOf (snd d))
                                       && String.leb (dateKeyOf (snd d)) to)
                   (docs (tget t db))))).

End Ops.

(** [.unique()] *)
Definition unique {A} (l : list (Doc A)) : M (option (Doc A)) :=
  match l with
  | [] => ret None
  | [d] => ret (Some d)
  | _ => throw NotUnique
  end.

End Store.

(** ** Dates (luxon) and deployment constants ([convex/lib/constants.ts]) *)

(** luxon, in the UTC zone.  [fromISO s] is the instant
    [DateTime.fromISO(s, { zone: 'utc' })] in epoch milliseconds, [None]
    for an invalid date; [toISODate ms] is
    [DateTime.fromMillis(ms, { zone: 'utc' }).toISODate()]. *)
Class Luxon : Type := {
  fromISO : string -> option Z;
  toISODate : Z -> string;
}.

Definition DAY_MS : Z := 86400000.

(** [.startOf('day')] and [.endOf('day')] of an instant, in UTC. *)
Definition startOfDay (ms : Z) : Z := ms / DAY_MS * DAY_MS.
Definition endOfDay (ms : Z) : Z := startOfDay ms + DAY_MS - 1.

(** Modelled from the spec: [convex/lib/constants.ts] is not part of
    the sources; its constants are parameters.  The specification only
    says that the analytics window and the CSV export have a maximum
    size and that the abandon threshold is longer than the idle one. *)
Class Constants : Type := {
  IDLE_THRESHOLD_MS : Z;
  ABANDONED_THRESHOLD_MS : Z;
  DEFAULT_INVITE_TTL_MS : Z;
  ANALYTICS_MAX_WINDOW_DAYS : Z;
  ANALYTICS_MAX_CSV_ROWS : Z;
  ANALYTICS_MAX_BUCKETS : Z;
  ANALYTICS_MAX_TOP_PHRASES : Z;
}.

(** ** Shared write helpers ([convex/lib/domain.ts]) *)

Module Domain.

Local Open Scope handler_scope.

Definition dateKeyFromTimestamp `{lux : Luxon} (timestamp : Z) : string := toISODate timestamp.

Definition metricOfMetrics (m : Metric) (r : MetricsDaily) : Z :=
  match m with
  | m_started => md_started r
  | m_completed => md_completed r
  | m_idle => md_idle r
  | m_abandoned => md_abandoned r
  | m_reactivated => md_reactivated r
  end.

(** [{ ...base, [metric]: value, updatedAt }] *)
Definition withMetric (m : Metric) (value updatedAt : Z) (r : MetricsDaily) : MetricsDaily :=
  {| md_surveyId := md_surveyId r; md_dateKey := md_dateKey r;
     md_started := if m is m_started then value else md_started r;
     md_completed := if m is m_completed then value else md_completed r;
     md_idle := if m is m_idle then value else md_idle r;
     md_abandoned := if m is m_abandoned then value else md_abandoned r;
     md_reactivated := if m is m_reactivated then value else md_reactivated r;
     md_updatedAt := updatedAt |}.

Definition metricOfAnalytics (m : Metric) (r : AnalyticsDaily) : Z :=
  match m with
  | m_started => ad_started r
  | m_completed => ad_completed r
  | m_idle => ad_idle r
  | m_abandoned => ad_abandoned r
  | m_reactivated => ad_reactivated r
  end.

Definition withAnalyticsMetric (m : Metric) (value updatedAt : Z) (r : AnalyticsDaily)
  : AnalyticsDaily :=
  {| ad_surveyId := ad_surveyId r; ad_dateKey := ad_dateKey r;
     ad_started := if m is m_started then value else ad_started r;
     ad_completed := if m is m_completed then value else ad_completed r;
     ad_idle := if m is m_idle then value else ad_idle r;
     ad_abandoned := if m is m_abandoned then value else ad_abandoned r;
     ad_reactivated := if m is m_reactivated then value else ad_reactivated r;
     avgScorePercent := avgScorePercent r; totalGraded := totalGraded r;
     ad_updatedAt := updatedAt |}.

Definition sameDay (surveyId : Id) (dateKey : string) (sid : Id) (dk : string) : bool :=
  bool_decide (sid = surveyId) && bool_decide (dk = dateKey).

(** [bumpDailyMetric(ctx, { surveyId, metric, delta, timestamp })];
    callers that pass no [delta] pass [1] here. *)
Definition bumpDailyMetric `{lux : Luxon} (surveyId : Id) (metric : Metric) (delta timestamp : Z)
  : M unit :=
  let dateKey := dateKeyFromTimestamp timestamp in
  do rows <- Store.collect t_surveyMetricsDaily
               (fun r => sameDay surveyId dateKey (md_surveyId r) (md_dateKey r));
  do existing <- Store.unique rows;
  let base := match existing with
              | Some (_, r) => r
              | None => mkMetrics surveyId dateKey 0 0 0 0 0 timestamp
              end in
  let nextValue := metricOfMetrics metric base + delta in
  let patch := withMetric metric (Z.max nextValue 0) timestamp base in
  run match existing with
      | None => do _ <- Store.insert t_surveyMetricsDaily patch; ret tt
      | Some (i, _) => Store.patch t_surveyMetricsDaily i (fun _ => patch)
      end;
  do arows <- Store.collect t_surveyAnalyticsDaily
                (fun r => sameDay surveyId dateKey (ad_surveyId r) (ad_dateKey r));
  do analyticsExisting <- Store.unique arows;
  let analyticsBase := match analyticsExisting with
                       | Some (_, r) => r
                       | None => mkAnalytics surveyId dateKey 0 0 0 0 0 0%Q 0 timestamp
                       end in
  let analyticsNextValue := metricOfAnalytics metric analyticsBase + delta in
  let analyticsPatch :=
    withAnalyticsMetric metric (Z.max analyticsNextValue 0) timestamp analyticsBase in
  match analyticsExisting with
  | None => do _ <- Store.insert t_surveyAnalyticsDaily analyticsPatch; ret tt
  | Some (i, _) => Store.patch t_surveyAnalyticsDaily i (fun _ => analyticsPatch)
  end.

(** [writeTransition(ctx, { sessionId, surveyId, fromStatus, toStatus, reason, at })] *)
Definition writeTransition (sessionId surveyId : Id) (from : option SessionStatus)
    (to : SessionStatus) (why : string) (at_ : Z) : M unit :=
  do _ <- Store.insert t_sessionTransitions
            (mkTransition sessionId surveyId from to why at_);
  ret tt.

(** [enqueueAnalyticsEvent(ctx, { eventName, distinctId, properties })] *)
Definition enqueueAnalyticsEvent (now : Z) (name distinct : string)
    (props : list (string * PropValue)) : M unit :=
  do _ <- Store.insert t_analyticsOutbox
            (mkOutbox name distinct props pending 0 now now None None);
  ret tt.

(** [writeAuditLog(ctx, { entityType, entityId, action, actorType, actorId, metadata })] *)
Definition writeAuditLog (now : Z) (etype : string) (eid : Id) (act : string)
    (atype : ActorType) (aid : string) (meta : list (string * PropValue)) : M unit :=
  do _ <- Store.insert t_auditLogs (mkAudit etype eid act atype aid meta now);
  ret tt.

End Domain.

(** ** The outbox dispatcher ([convex/analytics.ts]) *)

Module Outbox.

Local Open Scope handler_scope.

(** The retry delay of a failed delivery, in milliseconds:
    [Math.min(2 ** Math.min(attemptCount, 10) * 1000, 30 * 60 * 1000)].
    [attemptCount] is a non-negative integer in every row the code
    writes. *)
Definition retryDelayMs (attemptCount : Z) : Z :=
  Z.min (2 ^ Z.min attemptCount 10 * 1000) (30 * 60 * 1000).

(** [recordOutboxDispatch({ outboxId, success, errorMessage })] *)
Definition recordOutboxDispatch (now : Z) (outboxId : Id) (success : bool)
    (errorMessage : option string) : M unit :=
  do row <- Store.get t_analyticsOutbox outboxId;
  match row with
  | None => ret tt
  | Some row =>
      if success then
        Store.patch t_analyticsOutbox outboxId (fun r =>
          mkOutbox (eventName r) (distinctId r) (properties r)
                   sent (attemptCount row + 1) (nextAttemptAt r) (ob_createdAt r)
                   (Some now) None)
      else
        let attemptCount' := attemptCount row + 1 in
        let retryDelay := retryDelayMs attemptCount' in
        let shouldFailPermanently := attemptCount' >=? 8 in
        Store.patch t_analyticsOutbox outboxId (fun r =>
          mkOutbox (eventName r) (distinctId r) (properties r)
                   (if shouldFailPermanently then failed else pending)
                   attemptCount' (now + retryDelay) (ob_createdAt r)
                   (sentAt r) errorMessage)
  end.

(** The writers of the outbox table. *)
Inductive OutboxOp : Type :=
| OpEnqueue (now : Z) (name distinct : string) (props : list (string * PropValue))
| OpRecord (now : Z) (outboxId : Id) (success : bool) (errorMessage : option string).

Definition runOutboxOp (op : OutboxOp) : M unit :=
  match op with
  | OpEnqueue now name distinct props =>
      mutation (Domain.enqueueAnalyticsEvent now name distinct props)
  | OpRecord now outboxId success errorMessage =>
      mutation (recordOutboxDispatch now outboxId success errorMessage)
  end.

(** The database after a sequence of outbox operations. *)
Definition runOutboxOps (ops : list OutboxOp) (db : Db) : Db :=
  fold_left (fun d op => fst (runOutboxOp op d)) ops db.

End Outbox.

(** ** Helpers ([convex/lib/utils.ts]) *)

Module Utils.

(** [isAnswerPresent(value)] *)
Definition isAnswerPresent (value : option Answer) : bool :=
  match value with
  | None | Some ANull => false
  | Some (AStr s) => 0 <? strlen (trim s)
  | Some (AArr l) => 0 <? Z.of_nat (length l)
  | Some _ => true
  end.

(** [getFieldMap(version)] *)
Definition getFieldMap (version : SurveyVersion) : list (string * Field) :=
  OMap.ofEntries (map (fun field => (id field, field)) (fields version)).

(** [isInviteUsable(invite, now)] *)
Definition isInviteUsable (invite : SurveyInvite) (now : Z) : bool :=
  if negb (bool_decide (inv_status invite = inv_active)) then false
  else if match expiresAt invite with Some e => num_lt e (ofZ now) | None => false end then false
  else if num_le (maxCompletions invite) (ofZ (completionCount invite)) then false
  else true.

(** [hashToken(token)], the SHA-256 digest of the token in hexadecimal. *)
Class Crypto : Type := {
  hashToken : string -> string;
}.

(** [getInviteByToken(ctx, inviteToken)] *)
Definition getInviteByToken `{crypto : Crypto} (inviteToken : string)
  : M (option (Doc SurveyInvite)) :=
  bind (Store.collect t_surveyInvites
          (fun invite => String.eqb (tokenHash invite) (hashToken inviteToken)))
       Store.unique.

Record Progress : Type := mkProgress {
  answeredCount_p : Z;
  requiredAnsweredCount : Z;
  requiredCount : Z;
  progressPercent : Z;
}.

(** [calculateProgress(fields, answers)] *)
Definition calculateProgress (fs : list Field) (ans : Answers) : Progress :=
  let requiredFields := List.filter required fs in
  let requiredCount := Z.of_nat (length requiredFields) in
  let '(answeredCount, requiredAnsweredCount) :=
    fold_left (fun '(a, r) field =>
                 if isAnswerPresent (ans !! id field)
                 then (a + 1, if required field then r + 1 else r)
                 else (a, r)) fs (0, 0) in
  let denominator :=
    if 0 <? requiredCount then requiredCount
    else if Z.of_nat (length fs) =? 0 then 1 else Z.of_nat (length fs) in
  let numerator := if 0 <? requiredCount then requiredAnsweredCount else answeredCount in
  mkProgress answeredCount requiredAnsweredCount requiredCount
             (round (inject_Z numerator / inject_Z denominator * 100)).

(** [validateAnswerForField(field, value)] *)
Definition validateAnswerForField `{zod : ZodNumber} `{re : RegExpEngine}
    (field : Field) (value : option Answer) : Result unit :=
  match Zod.validateAnswerWithZod field value with
  | inl e => inl e
  | inr (Some _) => inl (ConvexError "INVALID_ANSWER")
  | inr None => inr tt
  end.

(** The loop of [assertUniqueFieldIds] with the ids seen so far. *)
Fixpoint uniqueFieldIdsFrom (ids : gset string) (fs : list Field) : Result unit :=
  match fs with
  | [] => inr tt
  | field :: rest =>
      if bool_decide (id field ∈ ids) then inl (ConvexError "INVALID_FIELD_ID")
      else uniqueFieldIdsFrom ({[id field]} ∪ ids) rest
  end.

(** [assertUniqueFieldIds(fields)] *)
Definition assertUniqueFieldIds (fs : list Field) : Result unit := uniqueFieldIdsFrom ∅ fs.

End Utils.

(** ** The materialisation engine ([convex/lib/analytics_materialization.ts]) *)

(** [String(value)] and [value.toFixed(2)] of a number. *)
Class NumberFormat : Type := {
  numberToString : JsNum -> string;
  toFixed2 : JsNum -> string;
}.

(** The text insight extractors [topPhraseRows] and [snippetRows]
    (tokenisation, stop words, redaction by regular expressions and
    locale-aware ranking); a row is a phrase or snippet with its count. *)
Class TextInsights : Type := {
  topPhraseRows : list string -> list (string * Z);
  snippetRows : list string -> list (string * Z);
}.

Module Materialization.

Import Utils.
Local Open Scope handler_scope.

Record AnalyticsDateRange : Type := mkRange {
  fromDate : string;
  toDate : string;
  fromMillis : Z;
  toMillis : Z;
  dayKeys : list string;
}.

Record FieldAggregate : Type := mkAggregate {
  agg_fieldId : string;
  agg_label : string;
  agg_kind : FieldKind;
  agg_order : Z;
  agg_reachedCount : Z;
  agg_answeredCount : Z;
  bucketMap : list (string * (string * Z));
  textAnswers : list string;
  optionOrder : list string;
  optionLabels : list (string * string);
}.

(** The rows handed to the three [syncDaily...Rows] functions. *)
Record FieldRowIn : Type := mkFieldRowIn {
  fr_fieldId : string;
  fr_reachedCount : Z;
  fr_answeredCount : Z;
  fr_dropoffCount : Z;
  fr_updatedAt : Z;
}.

Record BucketRowIn : Type := mkBucketRowIn {
  br_fieldId : string;
  br_bucketKey : string;
  br_bucketLabel : string;
  br_count : Z;
  br_updatedAt : Z;
}.

Record TextRowIn : Type := mkTextRowIn {
  tr_fieldId : string;
  tr_topPhrases : list (string * Z);
  tr_sampledSnippets : list (string * Z);
  tr_updatedAt : Z;
}.

(** [TEXT_KINDS.has(kind)] *)
Definition isTextKind (k : FieldKind) : bool :=
  match k with short_text | long_text => true | _ => false end.

Section WithLibraries.
Context `{lux : Luxon} `{fmt : NumberFormat} `{txt : TextInsights}.

(** [normalizeDateKey(dateKey)] *)
Definition normalizeDateKey (dateKey : string) : Result string :=
  match fromISO dateKey with
  | None => inl (ConvexError "INVALID_DATE")
  | Some ms => inr (toISODate ms)
  end.

(** The [while (cursor <= end)] loop of [buildDateKeys]; every round
    moves the cursor one day forward, so [(end - start) / DAY_MS + 1]
    rounds reach the exit ([dateKeysLoop_exit]). *)
Fixpoint dateKeysLoop (fuel : nat) (cursor end_ : Z) : list string :=
  match fuel with
  | O => []
  | S fuel' =>
      if cursor <=? end_
      then toISODate cursor :: dateKeysLoop fuel' (cursor + DAY_MS) end_
      else []
  end.

(** [buildDateKeys(fromDate, toDate)].  An invalid [DateTime] compares
    false with everything, so both tests fail and the list is empty. *)
Definition buildDateKeys (from to : string) : Result (list string) :=
  match normalizeDateKey from with
  | inl e => inl e
  | inr normalizedFrom =>
      match normalizeDateKey to with
      | inl e => inl e
      | inr normalizedTo =>
          match fromISO normalizedFrom, fromISO normalizedTo with
          | Some s, Some e =>
              let start := startOfDay s in
              let end_ := startOfDay e in
              if end_ <? start then inr []
              else inr (dateKeysLoop (Z.to_nat ((end_ - start) / DAY_MS + 1)) start end_)
          | _, _ => inr []
          end
      end
  end.

(** [parseAnalyticsDateRange({ fromDate, toDate, maxDays })].  When
    [buildDateKeys] has returned, [fromISO] succeeded on both
    normalised strings, so the defaults below are never used. *)
Definition parseAnalyticsDateRange (from to : string) (maxDays : Z)
  : Result AnalyticsDateRange :=
  match normalizeDateKey from with
  | inl e => inl e
  | inr fromDate =>
      match normalizeDateKey to with
      | inl e => inl e
      | inr toDate =>
          match buildDateKeys fromDate toDate with
          | inl e => inl e
          | inr dayKeys =>
              if Z.of_nat (length dayKeys) =? 0
              then inl (ConvexError "INVALID_DATE_RANGE")
              else if maxDays <? Z.of_nat (length dayKeys)
              then inl (ConvexError "ANALYTICS_WINDOW_TOO_LARGE")
              else inr (mkRange fromDate toDate
                          (startOfDay (default 0 (fromISO fromDate)))
                          (endOfDay (default 0 (fromISO toDate)))
                          dayKeys)
          end
      end
  end.

(** [getResponsesForSurveyDate(ctx, surveyId, dateKey)] *)
Definition getResponsesForSurveyDate (surveyId : Id) (dateKey : string)
  : M (list (Doc SurveyResponse)) :=
  do normalizedDate <- lift (normalizeDateKey dateKey);
  do responses <- Store.collect t_surveyResponses
                    (fun r => bool_decide (res_surveyId r = surveyId));
  ret match fromISO normalizedDate with
      | Some ms =>
          List.filter (fun d => (startOfDay ms <=? submittedAt (snd d))
                                && (submittedAt (snd d) <=? endOfDay ms)) responses
      | None => []
      end.

(** [Number.isInteger] *)
Definition isInteger (n : JsNum) : bool :=
  match n with
  | Fin q => Qeq_bool q (inject_Z (Qfloor q))
  | _ => false
  end.

(** [formatNumberBucket(value)] *)
Definition formatNumberBucket (value : JsNum) : string :=
  if isInteger value then numberToString value else toFixed2 value.

(** [bucketEntriesForAnswer(field, answer)]: pairs of key and label. *)
Definition bucketEntriesForAnswer (field : Field) (answer : option Answer)
  : list (string * string) :=
  let optionLabelByValue :=
    OMap.ofEntries (map (fun o => (opt_value o, opt_label o)) (default [] (options field))) in
  match kind field with
  | single_select =>
      match answer with
      | Some (AStr s) =>
          let value := trim s in
          if bool_decide (value = "") then []
          else [(value, default value (OMap.get value optionLabelByValue))]
      | _ => []
      end
  | multi_select =>
      match answer with
      | Some (AArr l) =>
          map (fun entry => (entry, default entry (OMap.get entry optionLabelByValue)))
              (List.filter (fun entry => 0 <? strlen (trim entry)) l)
      | _ => []
      end
  | number | rating_1_5 =>
      match answer with
      | Some (ANum n) =>
          if isNaN n then []
          else let key := formatNumberBucket n in [(key, key)]
      | _ => []
      end
  | short_text | long_text | email | date => [("__provided__", "Provided")]
  end.

(** [getOrCreateFieldAggregate(aggregates, field)] *)
Definition getOrCreateFieldAggregate (aggregates : list (string * FieldAggregate))
    (field : Field) : list (string * FieldAggregate) * FieldAggregate :=
  match OMap.get (id field) aggregates with
  | Some existing => (aggregates, existing)
  | None =>
      let next :=
        mkAggregate (id field) (label field) (kind field) (order field) 0 0 [] []
          (map opt_value (default [] (options field)))
          (OMap.ofEntries (map (fun o => (opt_value o, opt_label o))
                               (default [] (options field)))) in
      (OMap.set (id field) next aggregates, next)
  end.

(** [maxReachedOrder] after the first loop over the sorted fields. *)
Definition maxReachedOrderOf (fs : list Field) (ans : Answers) : Z :=
  fold_left (fun maxReachedOrder field =>
               if isAnswerPresent (ans !! id field)
               then Z.max maxReachedOrder (order field)
               else maxReachedOrder) fs 0.

(** [field.order <= maxReachedOrder]: the field counts as reached. *)
Definition fieldReached (fs : list Field) (ans : Answers) (field : Field) : bool :=
  order field <=? maxReachedOrderOf fs ans.

Definition addBucketEntry (m : list (string * (string * Z))) (entry : string * string)
  : list (string * (string * Z)) :=
  let bucket := default (snd entry, 0) (OMap.get (fst entry) m) in
  OMap.set (fst entry) (fst bucket, snd bucket + 1) m.

(** One round of the second loop: the aggregate of [field] after the
    response with answers [ans]. *)
Definition aggregateField (ans : Answers) (reached : bool)
    (aggregates : list (string * FieldAggregate)) (field : Field)
  : list (string * FieldAggregate) :=
  let '(aggregates, a) := getOrCreateFieldAggregate aggregates field in
  let reachedCount' := if reached then agg_reachedCount a + 1 else agg_reachedCount a in
  let answer := ans !! id field in
  if negb (isAnswerPresent answer) then
    OMap.set (id field)
      (mkAggregate (agg_fieldId a) (agg_label a) (agg_kind a) (agg_order a)
         reachedCount' (agg_answeredCount a) (bucketMap a) (textAnswers a)
         (optionOrder a) (optionLabels a)) aggregates
  else
    let bucketMap' := fold_left addBucketEntry (bucketEntriesForAnswer field answer) (bucketMap a) in
    let textAnswers' :=
      match answer with
      | Some (AStr s) =>
          if isTextKind (kind field) && (0 <? strlen (trim s))
          then textAnswers a ++ [s] else textAnswers a
      | _ => textAnswers a
      end in
    OMap.set (id field)
      (mkAggregate (agg_fieldId a) (agg_label a) (agg_kind a) (agg_order a)
         reachedCount' (agg_answeredCount a + 1) bucketMap' textAnswers'
         (optionOrder a) (optionLabels a)) aggregates.

(** The accumulators of the loop over the day's responses. *)
Record RebuildAcc : Type := mkRebuildAcc {
  acc_totalGraded : Z;
  acc_sumScorePercent : Q;
  fieldAggregates : list (string * FieldAggregate);
}.

(** One response.  [getVersion] reads the version document (through
    [versionCache]); the versions table does not change during the
    rebuild. *)
Definition ingestResponse (versions : Table SurveyVersion) (acc : RebuildAcc)
    (response : Doc SurveyResponse) : RebuildAcc :=
  let r := snd response in
  let '(totalGraded, sumScorePercent) :=
    match grading r with
    | Some g =>
        if 0 <? Scoring.gradableCount g
        then (acc_totalGraded acc + 1, (acc_sumScorePercent acc + Scoring.scorePercent g)%Q)
        else (acc_totalGraded acc, acc_sumScorePercent acc)
    | None => (acc_totalGraded acc, acc_sumScorePercent acc)
    end in
  match lookupDoc versions (res_surveyVersionId r) with
  | None => mkRebuildAcc totalGraded sumScorePercent (fieldAggregates acc)
  | Some version =>
      let fs := sortBy (fun a b => order a - order b) (fields version) in
      if Z.of_nat (length fs) =? 0
      then mkRebuildAcc totalGraded sumScorePercent (fieldAggregates acc)
      else
        mkRebuildAcc totalGraded sumScorePercent
          (fold_left (fun aggs field =>
                        aggregateField (answers r) (fieldReached fs (answers r) field) aggs field)
                     fs (fieldAggregates acc))
  end.

(** [upsertSurveyAnalyticsDailyRow(ctx, row)] *)
Definition upsertSurveyAnalyticsDailyRow (row : AnalyticsDaily) : M unit :=
  do existing <- Store.collect t_surveyAnalyticsDaily
                   (fun r => Domain.sameDay (ad_surveyId row) (ad_dateKey row)
                                            (ad_surveyId r) (ad_dateKey r));
  match existing with
  | [] => do _ <- Store.insert t_surveyAnalyticsDaily row; ret tt
  | first :: duplicates =>
      run Store.patch t_surveyAnalyticsDaily (fst first) (fun _ => row);
      forEach (fun _ duplicate => Store.delete t_surveyAnalyticsDaily (fst duplicate))
              duplicates tt
  end.

(** The common shape of [syncDailyFieldRows], [syncDailyBucketRows] and
    [syncDailyTextRows]: index the existing rows of the day by key and
    delete repeated keys, then patch or insert every fresh row, then
    delete the rows whose key was not refreshed. *)
Section Sync.
Context {R F : Type} (t : TableRef R).
Context (ofDay : R -> bool) (keyOfDoc : R -> string) (keyOfRow : F -> string)
        (payload : F -> R).

Definition indexExisting (byKey : list (string * Doc R)) (row : Doc R)
  : M (list (string * Doc R)) :=
  let key := keyOfDoc (snd row) in
  if OMap.has key byKey
  then run Store.delete t (fst row); ret byKey
  else ret (OMap.set key row byKey).

Definition writeRow (byKey : list (string * Doc R)) (row : F)
  : M (list (string * Doc R)) :=
  let key := keyOfRow row in
  match OMap.get key byKey with
  | Some existingRow =>
      run Store.patch t (fst existingRow) (fun _ => payload row);
      ret (OMap.delete key byKey)
  | None => do _ <- Store.insert t (payload row); ret byKey
  end.

Definition syncRows (rows : list F) : M unit :=
  do existing <- Store.collect t ofDay;
  do byKey <- forEach indexExisting existing [];
  do byKey <- forEach writeRow rows byKey;
  forEach (fun _ staleRow => Store.delete t (fst staleRow)) (OMap.values byKey) tt.

End Sync.

(** [syncDailyFieldRows(ctx, surveyId, dateKey, rows)] *)
Definition syncDailyFieldRows (surveyId : Id) (dateKey : string) (rows : list FieldRowIn)
  : M unit :=
  syncRows t_surveyFieldAnalyticsDaily
    (fun r => Domain.sameDay surveyId dateKey (fa_surveyId r) (fa_dateKey r))
    fa_fieldId fr_fieldId
    (fun row => mkFieldRow surveyId (fr_fieldId row) dateKey (fr_reachedCount row)
                  (fr_answeredCount row) (fr_dropoffCount row) (fr_updatedAt row))
    rows.

(** [`${row.fieldId}::${row.bucketKey}`] *)
Definition bucketRowKey (fieldId bucketKey : string) : string :=
  fieldId +:+ "::" +:+ bucketKey.

(** [syncDailyBucketRows(ctx, surveyId, dateKey, rows)] *)
Definition syncDailyBucketRows (surveyId : Id) (dateKey : string) (rows : list BucketRowIn)
  : M unit :=
  syncRows t_surveyAnswerBucketsDaily
    (fun r => Domain.sameDay surveyId dateKey (ab_surveyId r) (ab_dateKey r))
    (fun r => bucketRowKey (ab_fieldId r) (bucketKey r))
    (fun row => bucketRowKey (br_fieldId row) (br_bucketKey row))
    (fun row => mkBucketRow surveyId (br_fieldId row) dateKey (br_bucketKey row)
                  (br_bucketLabel row) (br_count row) (br_updatedAt row))
    rows.

(** [syncDailyTextRows(ctx, surveyId, dateKey, rows)] *)
Definition syncDailyTextRows (surveyId : Id) (dateKey : string) (rows : list TextRowIn)
  : M unit :=
  syncRows t_surveyTextInsightsDaily
    (fun r => Domain.sameDay surveyId dateKey (ti_surveyId r) (ti_dateKey r))
    ti_fieldId tr_fieldId
    (fun row => mkTextRow surveyId (tr_fieldId row) dateKey (tr_topPhrases row)
                  (tr_sampledSnippets row) (tr_updatedAt row))
    rows.

(** The rows of [surveyFieldAnalyticsDaily] computed from the aggregates. *)
Definition fieldRowsOf (now : Z) (aggregates : list (string * FieldAggregate))
  : list FieldRowIn :=
  map (fun a => mkFieldRowIn (agg_fieldId a) (agg_reachedCount a) (agg_answeredCount a)
                  (Z.max (agg_reachedCount a - agg_answeredCount a) 0) now)
      (sortBy (fun a b => agg_order a - agg_order b) (OMap.values aggregates)).

(** Pad [rows] with a zero-count row for every value of [keys] that has
    no row yet. *)
Definition padBuckets (now : Z) (fieldId : string) (labelOf : string -> string)
    (keys : list string) (rows : list BucketRowIn) : list BucketRowIn :=
  fold_left (fun rows value =>
               let key := bucketRowKey fieldId value in
               if existsb (fun row => String.eqb (bucketRowKey (br_fieldId row) (br_bucketKey row)) key)
                          rows
               then rows
               else rows ++ [mkBucketRowIn fieldId value (labelOf value) 0 now])
            keys rows.

(** The rows of [surveyAnswerBucketsDaily] of one aggregate. *)
Definition bucketRowsOfAggregate (now : Z) (a : FieldAggregate) : list BucketRowIn :=
  let rows := map (fun '(key, (lbl, n)) => mkBucketRowIn (agg_fieldId a) key lbl n now)
                  (bucketMap a) in
  let rows :=
    if bool_decide (agg_kind a = single_select) || bool_decide (agg_kind a = multi_select)
    then padBuckets now (agg_fieldId a)
           (fun value => default value (OMap.get value (optionLabels a)))
           (optionOrder a) rows
    else rows in
  if bool_decide (agg_kind a = rating_1_5)
  then padBuckets now (agg_fieldId a) (fun rating => rating) ["1"; "2"; "3"; "4"; "5"] rows
  else rows.

Definition bucketRowsOf (now : Z) (aggregates : list (string * FieldAggregate))
  : list BucketRowIn :=
  flat_map (bucketRowsOfAggregate now) (OMap.values aggregates).

Definition textRowsOf (now : Z) (aggregates : list (string * FieldAggregate))
  : list TextRowIn :=
  map (fun a => mkTextRowIn (agg_fieldId a) (topPhraseRows (textAnswers a))
                  (snippetRows (textAnswers a)) now)
      (List.filter (fun a => isTextKind (agg_kind a)) (OMap.values aggregates)).

(** The row of [surveyAnalyticsDaily] computed from the live counters
    and the day's responses. *)
Definition analyticsRowOf (now : Z) (surveyId : Id) (normalizedDate : string)
    (metrics : option MetricsDaily) (responseCount : Z) (acc : RebuildAcc) : AnalyticsDaily :=
  let completedCount := Z.max (from_option md_completed 0 metrics) responseCount in
  let startedCount := Z.max (from_option md_started 0 metrics) completedCount in
  let avg :=
    if 0 <? acc_totalGraded acc
    then (inject_Z (round (acc_sumScorePercent acc / inject_Z (acc_totalGraded acc) * 100)) / 100)%Q
    else 0%Q in
  mkAnalytics surveyId normalizedDate startedCount completedCount
    (from_option md_idle 0 metrics) (from_option md_abandoned 0 metrics)
    (from_option md_reactivated 0 metrics) avg (acc_totalGraded acc) now.

(** [rebuildDailyMaterializedAnalytics(ctx, { surveyId, dateKey,
    includeTextInsights, now })]; [now] is [args.now ?? Date.now()]. *)
Definition rebuildDailyMaterializedAnalytics (now : Z) (surveyId : Id) (dateKey : string)
    (includeTextInsights : bool) : M unit :=
  do normalizedDate <- lift (normalizeDateKey dateKey);
  do responses <- getResponsesForSurveyDate surveyId normalizedDate;
  do versions <- (fun db => (db, inr (surveyVersions db)));
  let acc := fold_left (ingestResponse versions) responses (mkRebuildAcc 0 0%Q []) in
  do metricRows <- Store.collect t_surveyMetricsDaily
                     (fun r => Domain.sameDay surveyId normalizedDate (md_surveyId r) (md_dateKey r));
  do metrics <- Store.unique metricRows;
  run upsertSurveyAnalyticsDailyRow
        (analyticsRowOf now surveyId normalizedDate (snd <$> metrics)
                        (Z.of_nat (length responses)) acc);
  run syncDailyFieldRows surveyId normalizedDate (fieldRowsOf now (fieldAggregates acc));
  run syncDailyBucketRows surveyId normalizedDate (bucketRowsOf now (fieldAggregates acc));
  if includeTextInsights
  then syncDailyTextRows surveyId normalizedDate (textRowsOf now (fieldAggregates acc))
  else ret tt.

End WithLibraries.

(** What the analytics queries keep of a field. *)
Record FieldMeta : Type := mkMeta {
  meta_label : string;
  meta_kind : FieldKind;
  meta_order : Z;
  meta_optionOrder : list string;
  meta_optionLabels : list (string * string);
}.

(** [getSurveyFieldMetaMap(ctx, surveyId)]: the fields of every version
    of the survey, the newest version of a field winning. *)
Definition getSurveyFieldMetaMap (surveyId : Id) : M (list (string * FieldMeta)) :=
  do versions <- Store.collect t_surveyVersions
                   (fun v => bool_decide (ver_surveyId v = surveyId));
  let byVersion := sortBy (fun a b => version (snd b) - version (snd a)) versions in
  ret (fold_left
         (fun m v =>
            fold_left
              (fun m field =>
                 if OMap.has (id field) m then m
                 else OMap.set (id field)
                        (mkMeta (label field) (kind field) (order field)
                           (map opt_value (default [] (options field)))
                           (OMap.ofEntries
                              (map (fun o => (opt_value o, opt_label o))
                                 (default [] (options field)))))
                        m)
              (fields (snd v)) m)
         byVersion []).

End Materialization.


(** ** Authentication ([convex/lib/auth.ts]) *)

Module Auth.

Local Open Scope handler_scope.

(** [requireAppUser(ctx)]; [identity] is the subject of
    [ctx.auth.getUserIdentity()], [None] for an anonymous caller. *)
Definition requireAppUser (identity : option string) : M (Doc AppUser) :=
  match identity with
  | None => throw (ConvexError "UNAUTHORIZED")
  | Some subject =>
      do rows <- Store.collect t_appUsers (fun u => String.eqb (workosUserId u) subject);
      do appUser <- Store.unique rows;
      match appUser with
      | None => throw (ConvexError "FORBIDDEN")
      | Some u => ret u
      end
  end.

End Auth.

(** ** Admin analytics queries ([convex/analytics.ts]) *)

(** The JavaScript runtime on strings: the sign of
    [a.localeCompare(b)], [Number(s)] and the string of a document id. *)
Class JsStrings : Type := {
  localeCompare : string -> string -> Z;
  stringToNumber : string -> JsNum;
  idToString : Id -> string;
}.

Module Analytics.

Import Materialization.
Local Open Scope handler_scope.

Record Bucket : Type := mkBucket {
  bk_key : string;
  bk_label : string;
  bk_count : Z;
}.

Record BucketShare : Type := mkShare {
  sh_key : string;
  sh_label : string;
  sh_count : Z;
  sh_percent : Q;
}.

Record MaterializedFieldBreakdown : Type := mkBreakdown {
  bd_fieldId : string;
  bd_label : string;
  bd_kind : FieldKind;
  bd_order : Z;
  bd_totalAnswered : Z;
  bd_buckets : list BucketShare;
}.

Record Funnel : Type := mkFunnel {
  fn_started : Z;
  fn_completed : Z;
  fn_idle : Z;
  fn_abandoned : Z;
  fn_reactivated : Z;
  fn_conversionRate : Q;
}.

Record ScoringSummary : Type := mkScoring {
  ss_gradedResponses : Z;
  ss_avgScorePercent : Q;
  ss_totalCorrect : Z;
  ss_totalIncorrect : Z;
}.

Record TrendPoint : Type := mkTrend {
  tp_dateKey : string;
  tp_started : Z;
  tp_completed : Z;
  tp_idle : Z;
  tp_abandoned : Z;
  tp_conversionRate : Q;
  tp_avgScorePercent : Q;
}.

Record AnswerBreakdown : Type := mkAnswerBreakdown {
  ab_field : string;
  ab_label : string;
  ab_kind : FieldKind;
  ab_totalAnswered : Z;
  ab_buckets : list BucketShare;
}.

Record FieldBreakdown : Type := mkFieldBreakdown {
  fb_fieldId : string;
  fb_label : string;
  fb_kind : FieldKind;
  fb_totalAnswered : Z;
  fb_buckets : list BucketShare;
  fb_dailyTrend : list (string * Z);
  fb_topPhrases : option (list (string * Z));
  fb_sampledText : option (list (string * Z));
}.

Record DropoffStep : Type := mkDropoff {
  dr_fieldId : string;
  dr_label : string;
  dr_reachedCount : Z;
  dr_answeredCount : Z;
  dr_dropoffCount : Z;
  dr_dropoffRate : Q;
}.

Inductive CsvReport : Type := report_funnel | report_scoring | report_answer_breakdown.

Record CsvExport : Type := mkCsv {
  csv_filename : string;
  csv_headers : list string;
  csv_rows : list (list string);
}.

(** [assertSurveyOwnerOrAdmin(actor, survey)] *)
Definition assertSurveyOwnerOrAdmin (actor : Doc AppUser) (survey : Survey) : Result unit :=
  if bool_decide (role (snd actor) = admin) || bool_decide (createdByUserId survey = fst actor)
  then inr tt
  else inl (ConvexError "FORBIDDEN").

(** [roundToTwo(value)] *)
Definition roundToTwo (value : Q) : Q := (inject_Z (round (value * 100)) / 100)%Q.

(** [toPercent(value, total)] *)
Definition toPercent (value total : Z) : Q :=
  if total <=? 0 then 0%Q
  else roundToTwo (inject_Z value / inject_Z total * 100)%Q.

(** [String(kind)] *)
Definition kindToString (k : FieldKind) : string :=
  match k with
  | short_text => "short_text" | long_text => "long_text"
  | single_select => "single_select" | multi_select => "multi_select"
  | number => "number" | email => "email" | date => "date"
  | rating_1_5 => "rating_1_5"
  end.

(** [array.indexOf(x)] *)
Fixpoint indexOf (x : string) (l : list string) : Z :=
  match l with
  | [] => -1
  | y :: r => if String.eqb x y then 0
              else let i := indexOf x r in if i <? 0 then -1 else i + 1
  end.

(** [new Set(l)] in iteration order: the first occurrence of every
    element. *)
Definition distinct (l : list string) : list string :=
  fold_left (fun seen k => if existsb (String.eqb k) seen then seen else seen ++ [k]) l [].

Section WithRuntime.
Context `{lux : Luxon} `{fmt : NumberFormat} `{js : JsStrings} `{consts : Constants}.

(** [enforceCsvRowLimit(rowCount)] *)
Definition enforceCsvRowLimit (rowCount : Z) : Result unit :=
  if ANALYTICS_MAX_CSV_ROWS <? rowCount
  then inl (ConvexError "ANALYTICS_EXPORT_TOO_LARGE")
  else inr tt.

(** [requireSurveyWithAccess(ctx, surveyId)] *)
Definition requireSurveyWithAccess (identity : option string) (surveyId : Id)
  : M (Doc AppUser * option Survey) :=
  do user <- Auth.requireAppUser identity;
  do survey <- Store.get t_surveys surveyId;
  match survey with
  | None => ret (user, None)
  | Some s =>
      run lift (assertSurveyOwnerOrAdmin user s);
      ret (user, Some s)
  end.

(** [loadDailyAnalyticsRows(ctx, surveyId, fromDate, toDate)] *)
Definition loadDailyAnalyticsRows (surveyId : Id) (from to : string)
  : M (list (Doc AnalyticsDaily)) :=
  Store.collectRange t_surveyAnalyticsDaily
    (fun r => bool_decide (ad_surveyId r = surveyId)) ad_dateKey from to.

(** The missing buckets appended by the two loops of
    [normalizeBucketRows]. *)
Definition padMissing (labelOf : string -> string) (keys : list string) (buckets : list Bucket)
  : list Bucket :=
  fold_left
    (fun normalized k =>
       if existsb (fun b => String.eqb (bk_key b) k) normalized then normalized
       else normalized ++ [mkBucket k (labelOf k) 0])
    keys buckets.

(** [normalizeBucketRows(kind, optionOrder, optionLabels, buckets)] *)
Definition normalizeBucketRows (kind : FieldKind) (optionOrder : list string)
    (optionLabels : list (string * string)) (buckets : list Bucket) : list Bucket :=
  match kind with
  | single_select | multi_select =>
      sortBy (fun a b => indexOf (bk_key a) optionOrder - indexOf (bk_key b) optionOrder)
        (padMissing (fun k => default k (OMap.get k optionLabels)) optionOrder buckets)
  | rating_1_5 =>
      sortBy (fun a b => num_sign (num_sub (stringToNumber (bk_key a))
                                           (stringToNumber (bk_key b))))
        (padMissing (fun k => k) ["1"; "2"; "3"; "4"; "5"] buckets)
  | _ =>
      let normalized :=
        sortBy (fun a b => if bk_count b - bk_count a =? 0
                           then localeCompare (bk_label a) (bk_label b)
                           else bk_count b - bk_count a)
          buckets in
      if (20 <? length normalized)%nat then
        let top := take 19 normalized in
        let otherCount := fold_left (fun sum row => sum + bk_count row) (drop 19 normalized) 0 in
        if 0 <? otherCount then top ++ [mkBucket "__other__" "Other" otherCount] else top
      else normalized
  end.

(** The bucket counters of one field summed over the rows of a range;
    the label of a bucket is the one of its last row. *)
Definition addBucketRow (perField : list (string * (string * Z))) (row : AnswerBucketsDaily)
  : list (string * (string * Z)) :=
  let existing := default (bucketLabel row, 0) (OMap.get (bucketKey row) perField) in
  OMap.set (bucketKey row) (bucketLabel row, snd existing + count row) perField.

Definition bucketsOfMap (m : list (string * (string * Z))) : list Bucket :=
  map (fun e => mkBucket (fst e) (fst (snd e)) (snd (snd e))) m.

Definition withShares (totalAnswered : Z) (buckets : list Bucket) : list BucketShare :=
  map (fun b => mkShare (bk_key b) (bk_label b) (bk_count b)
                  (toPercent (bk_count b) totalAnswered))
    buckets.

(** [buildAnswerBreakdownFromMaterialized(ctx, { surveyId, fromDate,
    toDate })] *)
Definition buildAnswerBreakdownFromMaterialized (surveyId : Id) (from to : string)
  : M (list MaterializedFieldBreakdown) :=
  do fieldMeta <- getSurveyFieldMetaMap surveyId;
  do fieldRows <- Store.collectRange t_surveyFieldAnalyticsDaily
                    (fun r => bool_decide (fa_surveyId r = surveyId)) fa_dateKey from to;
  do bucketRows <- Store.collectRange t_surveyAnswerBucketsDaily
                     (fun r => bool_decide (ab_surveyId r = surveyId)) ab_dateKey from to;
  let answeredByField :=
    fold_left
      (fun m row =>
         OMap.set (fa_fieldId (snd row))
           (default 0 (OMap.get (fa_fieldId (snd row)) m) + answeredCount (snd row)) m)
      fieldRows [] in
  let bucketMapByField :=
    fold_left
      (fun m row =>
         let perField := default [] (OMap.get (ab_fieldId (snd row)) m) in
         OMap.set (ab_fieldId (snd row)) (addBucketRow perField (snd row)) m)
      bucketRows [] in
  let fieldIds := distinct (OMap.keys answeredByField ++ OMap.keys bucketMapByField) in
  let rows :=
    omap
      (fun fieldId =>
         let totalAnswered := default 0 (OMap.get fieldId answeredByField) in
         match OMap.get fieldId fieldMeta with
         | None => None
         | Some meta =>
             if totalAnswered <=? 0 then None
             else
               let buckets := bucketsOfMap (default [] (OMap.get fieldId bucketMapByField)) in
               let normalized :=
                 normalizeBucketRows (meta_kind meta) (meta_optionOrder meta)
                   (meta_optionLabels meta) buckets in
               Some (mkBreakdown fieldId (meta_label meta) (meta_kind meta) (meta_order meta)
                       totalAnswered (withShares totalAnswered normalized))
         end)
      fieldIds in
  ret (sortBy (fun a b => bd_order a - bd_order b) rows).

(** The range of a query: [parseAnalyticsDateRange({ fromDate, toDate,
    maxDays: ANALYTICS_MAX_WINDOW_DAYS })]. *)
Definition queryRange (from to : string) : Result AnalyticsDateRange :=
  parseAnalyticsDateRange from to ANALYTICS_MAX_WINDOW_DAYS.

(** [getSurveyFunnel] *)
Definition getSurveyFunnel (identity : option string) (surveyId : Id) (from to : string)
  : M Funnel :=
  do access <- requireSurveyWithAccess identity surveyId;
  match snd access with
  | None => ret (mkFunnel 0 0 0 0 0 0)
  | Some _ =>
      do range <- lift (queryRange from to);
      do rows <- loadDailyAnalyticsRows surveyId (fromDate range) (toDate range);
      let sum f := fold_left (fun acc row => acc + f (snd row)) rows 0 in
      let started := sum ad_started in
      let completed := sum ad_completed in
      ret (mkFunnel started completed (sum ad_idle) (sum ad_abandoned) (sum ad_reactivated)
             (toPercent completed started))
  end.

(** [getSurveyScoringSummary] *)
Definition getSurveyScoringSummary (identity : option string) (surveyId : Id) (from to : string)
  : M ScoringSummary :=
  do access <- requireSurveyWithAccess identity surveyId;
  match snd access with
  | None => ret (mkScoring 0 0 0 0)
  | Some _ =>
      do range <- lift (queryRange from to);
      do rows <- loadDailyAnalyticsRows surveyId (fromDate range) (toDate range);
      let gradedResponses := fold_left (fun sum row => sum + totalGraded (snd row)) rows 0 in
      let scoreWeightedSum :=
        fold_left
          (fun sum row =>
             (sum + avgScorePercent (snd row) * inject_Z (totalGraded (snd row)))%Q)
          rows 0%Q in
      let avg :=
        if 0 <? gradedResponses
        then roundToTwo (scoreWeightedSum / inject_Z gradedResponses)%Q
        else 0%Q in
      do responses <- Store.collect t_surveyResponses
                        (fun r => bool_decide (res_surveyId r = surveyId));
      let filtered :=
        List.filter
          (fun d => (fromMillis range <=? submittedAt (snd d))
                    && (submittedAt (snd d) <=? toMillis range))
          responses in
      let total f :=
        fold_left (fun sum row => sum + from_option f 0 (grading (snd row))) filtered 0 in
      ret (mkScoring gradedResponses avg (total Scoring.correctCount)
             (total Scoring.incorrectCount))
  end.

(** [new Map(rows.map((row) => [row.dateKey, row]))] *)
Definition rowsByDate (rows : list (Doc AnalyticsDaily)) : list (string * AnalyticsDaily) :=
  OMap.ofEntries (map (fun row => (ad_dateKey (snd row), snd row)) rows).

(** [getSurveyTrendSeries] *)
Definition getSurveyTrendSeries (identity : option string) (surveyId : Id) (from to : string)
  : M (list TrendPoint) :=
  do access <- requireSurveyWithAccess identity surveyId;
  match snd access with
  | None => ret []
  | Some _ =>
      do range <- lift (queryRange from to);
      do rows <- loadDailyAnalyticsRows surveyId (fromDate range) (toDate range);
      let byDate := rowsByDate rows in
      ret (map
             (fun dateKey =>
                let row := OMap.get dateKey byDate in
                let started := from_option ad_started 0 row in
                let completed := from_option ad_completed 0 row in
                mkTrend dateKey started completed (from_option ad_idle 0 row)
                  (from_option ad_abandoned 0 row) (toPercent completed started)
                  (from_option avgScorePercent 0%Q row))
             (dayKeys range))
  end.

(** [getSurveyAnswerBreakdown] *)
Definition getSurveyAnswerBreakdown (identity : option string) (surveyId : Id) (from to : string)
  : M (list AnswerBreakdown) :=
  do access <- requireSurveyWithAccess identity surveyId;
  match snd access with
  | None => ret []
  | Some _ =>
      do range <- lift (queryRange from to);
      do rows <- buildAnswerBreakdownFromMaterialized surveyId (fromDate range) (toDate range);
      ret (map
             (fun row => mkAnswerBreakdown (bd_fieldId row) (bd_label row) (bd_kind row)
                           (bd_totalAnswered row) (bd_buckets row))
             rows)
  end.

(** The counts of phrases or snippets summed over the text rows, by
    falling count and then by [localeCompare]. *)
Definition rankCounts (rowsOf : TextInsightsDaily -> list (string * Z))
    (textRows : list (Doc TextInsightsDaily)) : list (string * Z) :=
  let counts :=
    fold_left
      (fun m row =>
         fold_left
           (fun m e => OMap.set (fst e) (default 0 (OMap.get (fst e) m) + snd e) m)
           (rowsOf (snd row)) m)
      textRows [] in
  sortBy (fun a b => if snd b - snd a =? 0 then localeCompare (fst a) (fst b)
                     else snd b - snd a)
    counts.

(** [getSurveyFieldBreakdown] *)
Definition getSurveyFieldBreakdown (identity : option string) (surveyId : Id) (from to : string)
    (fieldId : string) (limit : option JsNum) : M FieldBreakdown :=
  do access <- requireSurveyWithAccess identity surveyId;
  match snd access with
  | None => throw (ConvexError "NOT_FOUND")
  | Some _ =>
      do range <- lift (queryRange from to);
      do fieldMeta <- getSurveyFieldMetaMap surveyId;
      match OMap.get fieldId fieldMeta with
      | None => throw (ConvexError "FIELD_NOT_FOUND")
      | Some meta =>
          let bucketLimit :=
            num_max (ofZ 1) (num_min (default (ofZ 20) limit) (ofZ ANALYTICS_MAX_BUCKETS)) in
          do fieldRows <- Store.collectRange t_surveyFieldAnalyticsDaily
                            (fun r => bool_decide (fa_surveyId r = surveyId)
                                      && String.eqb (fa_fieldId r) fieldId)
                            fa_dateKey (fromDate range) (toDate range);
          let totalAnswered :=
            fold_left (fun sum row => sum + answeredCount (snd row)) fieldRows 0 in
          let answeredByDate :=
            fold_left
              (fun m row =>
                 OMap.set (fa_dateKey (snd row))
                   (default 0 (OMap.get (fa_dateKey (snd row)) m) + answeredCount (snd row)) m)
              fieldRows [] in
          do bucketRows <- Store.collectRange t_surveyAnswerBucketsDaily
                             (fun r => bool_decide (ab_surveyId r = surveyId)
                                       && String.eqb (ab_fieldId r) fieldId)
                             ab_dateKey (fromDate range) (toDate range);
          let bucketCounts := fold_left (fun m row => addBucketRow m (snd row)) bucketRows [] in
          let normalizedBuckets :=
            sliceToNum bucketLimit
              (normalizeBucketRows (meta_kind meta) (meta_optionOrder meta)
                 (meta_optionLabels meta) (bucketsOfMap bucketCounts)) in
          let dailyTrend :=
            map (fun dateKey => (dateKey, default 0 (OMap.get dateKey answeredByDate)))
              (dayKeys range) in
          if negb (isTextKind (meta_kind meta)) then
            ret (mkFieldBreakdown fieldId (meta_label meta) (meta_kind meta) totalAnswered
                   (withShares totalAnswered normalizedBuckets) dailyTrend None None)
          else
            do textRows <- Store.collectRange t_surveyTextInsightsDaily
                             (fun r => bool_decide (ti_surveyId r = surveyId)
                                       && String.eqb (ti_fieldId r) fieldId)
                             ti_dateKey (fromDate range) (toDate range);
            ret (mkFieldBreakdown fieldId (meta_label meta) (meta_kind meta) totalAnswered
                   (withShares totalAnswered normalizedBuckets) dailyTrend
                   (Some (sliceTo ANALYTICS_MAX_TOP_PHRASES (rankCounts topPhrases textRows)))
                   (Some (sliceTo 10 (rankCounts sampledSnippets textRows))))
      end
  end.

(** [getSurveyDropoffByStep] *)
Definition getSurveyDropoffByStep (identity : option string) (surveyId : Id) (from to : string)
  : M (list DropoffStep) :=
  do access <- requireSurveyWithAccess identity surveyId;
  match snd access with
  | None => ret []
  | Some _ =>
      do range <- lift (queryRange from to);
      do fieldMeta <- getSurveyFieldMetaMap surveyId;
      do rows <- Store.collectRange t_surveyFieldAnalyticsDaily
                   (fun r => bool_decide (fa_surveyId r = surveyId))
                   fa_dateKey (fromDate range) (toDate range);
      let aggregate :=
        fold_left
          (fun m row =>
             let '(reached, answered, dropoff) :=
               default (0, 0, 0) (OMap.get (fa_fieldId (snd row)) m) in
             OMap.set (fa_fieldId (snd row))
               (reached + reachedCount (snd row), answered + answeredCount (snd row),
                dropoff + dropoffCount (snd row)) m)
          rows [] in
      let mapped :=
        omap
          (fun e =>
             let '(fieldId, (reached, answered, dropoff)) := e in
             match OMap.get fieldId fieldMeta with
             | None => None
             | Some meta =>
                 Some (meta_order meta,
                       mkDropoff fieldId (meta_label meta) reached answered dropoff
                         (toPercent dropoff reached))
             end)
          aggregate in
      ret (map snd (sortBy (fun a b => fst a - fst b) mapped))
  end.

(** A day of the funnel and scoring reports of the CSV export. *)
Definition funnelCsvRow (byDate : list (string * AnalyticsDaily)) (dateKey : string)
  : list string :=
  let row := OMap.get dateKey byDate in
  let started := from_option ad_started 0 row in
  let completed := from_option ad_completed 0 row in
  [dateKey;
   numberToString (ofZ started);
   numberToString (ofZ completed);
   numberToString (ofZ (from_option ad_idle 0 row));
   numberToString (ofZ (from_option ad_abandoned 0 row));
   numberToString (ofZ (from_option ad_reactivated 0 row));
   toFixed2 (Fin (toPercent completed started));
   toFixed2 (Fin (from_option avgScorePercent 0%Q row))].

Definition scoringCsvRow (byDate : list (string * AnalyticsDaily)) (dateKey : string)
  : list string :=
  let row := OMap.get dateKey byDate in
  [dateKey;
   numberToString (ofZ (from_option totalGraded 0 row));
   toFixed2 (Fin (from_option avgScorePercent 0%Q row))].

Definition csvFilename (surveyId : Id) (report : string) (range : AnalyticsDateRange)
  : string :=
  "survey_" +:+ idToString surveyId +:+ "_" +:+ report +:+ "_" +:+ fromDate range
    +:+ "_to_" +:+ toDate range +:+ ".csv".

(** [getSurveyCsvExport] *)
Definition getSurveyCsvExport (identity : option string) (surveyId : Id) (from to : string)
    (report : CsvReport) : M CsvExport :=
  do access <- requireSurveyWithAccess identity surveyId;
  match snd access with
  | None => throw (ConvexError "NOT_FOUND")
  | Some _ =>
      do range <- lift (queryRange from to);
      match report with
      | report_funnel =>
          do trendRows <- loadDailyAnalyticsRows surveyId (fromDate range) (toDate range);
          let rows := map (funnelCsvRow (rowsByDate trendRows)) (dayKeys range) in
          run lift (enforceCsvRowLimit (Z.of_nat (length rows)));
          ret (mkCsv (csvFilename surveyId "funnel" range)
                 ["dateKey"; "started"; "completed"; "idle"; "abandoned"; "reactivated";
                  "conversionRate"; "avgScorePercent"]
                 rows)
      | report_scoring =>
          do trendRows <- loadDailyAnalyticsRows surveyId (fromDate range) (toDate range);
          let rows := map (scoringCsvRow (rowsByDate trendRows)) (dayKeys range) in
          run lift (enforceCsvRowLimit (Z.of_nat (length rows)));
          ret (mkCsv (csvFilename surveyId "scoring" range)
                 ["dateKey"; "totalGraded"; "avgScorePercent"]
                 rows)
      | report_answer_breakdown =>
          do breakdownRows <- buildAnswerBreakdownFromMaterialized surveyId
                                (fromDate range) (toDate range);
          let rows :=
            flat_map
              (fun field =>
                 map (fun bucket =>
                        [bd_fieldId field; bd_label field; kindToString (bd_kind field);
                         numberToString (ofZ (bd_totalAnswered field));
                         sh_key bucket; sh_label bucket;
                         numberToString (ofZ (sh_count bucket));
                         toFixed2 (Fin (sh_percent bucket))])
                   (bd_buckets field))
              breakdownRows in
          run lift (enforceCsvRowLimit (Z.of_nat (length rows)));
          ret (mkCsv (csvFilename surveyId "answer_breakdown" range)
                 ["fieldId"; "label"; "kind"; "totalAnswered"; "bucketKey"; "bucketLabel";
                  "bucketCount"; "bucketPercent"]
                 rows)
      end
  end.

End WithRuntime.

End Analytics.

(** ** Invites ([convex/invites.ts]) *)

Module Invites.

Import Utils.
Local Open Scope handler_scope.

(** [assertSurveyOwnerOrAdmin(actor, survey)] *)
Definition assertSurveyOwnerOrAdmin (actor : Doc AppUser) (survey : Survey) : Result unit :=
  if bool_decide (role (snd actor) = admin) || bool_decide (createdByUserId survey = fst actor)
  then inr tt
  else inl (ConvexError "FORBIDDEN").

Section WithRuntime.
Context `{js : JsStrings} `{crypto : Crypto} `{consts : Constants}.

(** [createInvite]; [inviteToken] is the token drawn by
    [randomInviteToken()]. *)
Definition createInvite (identity : option string) (now : Z) (inviteToken : string)
    (surveyId surveyVersionId : Id) (expires : option JsNum)
    (maxCompletionsArg : option JsNum)
  : M (Id * string) :=
  do user <- Auth.requireAppUser identity;
  do survey <- Store.get t_surveys surveyId;
  match survey with
  | None => throw (ConvexError "NOT_FOUND")
  | Some survey =>
      run lift (assertSurveyOwnerOrAdmin user survey);
      do version <- Store.get t_surveyVersions surveyVersionId;
      if negb (from_option (fun v => bool_decide (ver_surveyId v = surveyId)) false version)
      then throw (ConvexError "NOT_FOUND")
      else
        let maxCompletions := num_max (ofZ 1) (default (ofZ 1) maxCompletionsArg) in
        let expiresAt := default (ofZ (now + DEFAULT_INVITE_TTL_MS)) expires in
        do inviteId <- Store.insert t_surveyInvites
                         (mkInvite surveyId surveyVersionId (hashToken inviteToken) inv_active
                            maxCompletions 0 (Some expiresAt) (fst user) now None);
        run Domain.writeAuditLog now "surveyInvite" inviteId "survey_invite_created"
              actor_admin (idToString (fst user))
              [("surveyId", PRef surveyId); ("surveyVersionId", PRef surveyVersionId);
               ("maxCompletions", PNumber maxCompletions);
               ("expiresAt", PNumber expiresAt)];
        run Domain.enqueueAnalyticsEvent now "survey_invite_created" (workosUserId (snd user))
              [("surveyId", PRef surveyId); ("surveyVersionId", PRef surveyVersionId);
               ("inviteId", PRef inviteId)];
        ret (inviteId, inviteToken)
  end.

(** [revokeInvite] *)
Definition revokeInvite (identity : option string) (now : Z) (inviteId : Id) : M unit :=
  do user <- Auth.requireAppUser identity;
  do invite <- Store.get t_surveyInvites inviteId;
  match invite with
  | None => throw (ConvexError "NOT_FOUND")
  | Some invite =>
      do survey <- Store.get t_surveys (inv_surveyId invite);
      match survey with
      | None => throw (ConvexError "NOT_FOUND")
      | Some survey =>
          run lift (assertSurveyOwnerOrAdmin user survey);
          run Store.patch t_surveyInvites inviteId
                (fun i => mkInvite (inv_surveyId i) (inv_surveyVersionId i) (tokenHash i)
                            inv_revoked (maxCompletions i) (completionCount i) (expiresAt i)
                            (inv_createdByUserId i) (inv_createdAt i) (Some now));
          run Domain.writeAuditLog now "surveyInvite" inviteId "survey_invite_revoked"
                actor_admin (idToString (fst user))
                [("surveyId", PRef (inv_surveyId invite))];
          Domain.enqueueAnalyticsEvent now "survey_invite_revoked" (workosUserId (snd user))
            [("surveyId", PRef (inv_surveyId invite)); ("inviteId", PRef inviteId)]
      end
  end.

End WithRuntime.

End Invites.

(** ** Respondent operations ([convex/respondent.ts]) *)

Module Respondent.

Import Utils.
Local Open Scope handler_scope.

(** The patches of a session and of an invite. *)
Definition touchSession (status : SessionStatus) (now : Z) (s : SurveySession) : SurveySession :=
  mkSession (sessionPublicId s) (ses_surveyId s) (ses_surveyVersionId s) (ses_inviteId s)
    (respondentKey s) status (startedAt s) now (completedAt s) (answersDraft s).

Definition saveDraft (draft : Answers) (status : SessionStatus) (now : Z) (s : SurveySession)
  : SurveySession :=
  mkSession (sessionPublicId s) (ses_surveyId s) (ses_surveyVersionId s) (ses_inviteId s)
    (respondentKey s) status (startedAt s) now (completedAt s) draft.

Definition completeSession (now : Z) (s : SurveySession) : SurveySession :=
  mkSession (sessionPublicId s) (ses_surveyId s) (ses_surveyVersionId s) (ses_inviteId s)
    (respondentKey s) completed (startedAt s) now (Some now) (answersDraft s).

Definition withInviteStatus (status : InviteStatus) (i : SurveyInvite) : SurveyInvite :=
  mkInvite (inv_surveyId i) (inv_surveyVersionId i) (tokenHash i) status (maxCompletions i)
    (completionCount i) (expiresAt i) (inv_createdByUserId i) (inv_createdAt i) (revokedAt i).

Definition withCompletion (count : Z) (status : InviteStatus) (i : SurveyInvite)
  : SurveyInvite :=
  mkInvite (inv_surveyId i) (inv_surveyVersionId i) (tokenHash i) status (maxCompletions i)
    count (expiresAt i) (inv_createdByUserId i) (inv_createdAt i) (revokedAt i).

(** [invite.status === 'active' && invite.expiresAt !== undefined &&
    invite.expiresAt < now] *)
Definition activeButExpired (invite : SurveyInvite) (now : Z) : bool :=
  bool_decide (inv_status invite = inv_active)
  && match expiresAt invite with Some e => num_lt e (ofZ now) | None => false end.

(** [invite.completionCount >= invite.maxCompletions] *)
Definition capReached (count : Z) (invite : SurveyInvite) : bool :=
  num_le (maxCompletions invite) (ofZ count).

(** [status === 'idle' || status === 'abandoned'] *)
Definition isDormant (status : SessionStatus) : bool :=
  match status with idle | abandoned => true | _ => false end.

Inductive InviteState : Type :=
| state_active | state_invalid | state_revoked | state_expired | state_exhausted.

(** [inviteStateFromInvite(invite)], [now] being [Date.now()]. *)
Definition inviteStateFromInvite (invite : option SurveyInvite) (now : Z) : InviteState :=
  match invite with
  | None => state_invalid
  | Some invite =>
      if bool_decide (inv_status invite = inv_revoked) then state_revoked
      else if bool_decide (inv_status invite = inv_expired) then state_expired
      else if match expiresAt invite with Some e => num_lt e (ofZ now) | None => false end
      then state_expired
      else if bool_decide (inv_status invite = inv_exhausted)
              || capReached (completionCount invite) invite
      then state_exhausted
      else state_active
  end.

(** What [getSessionSnapshot] returns of a session. *)
Record SessionSnapshot : Type := mkSnapshot {
  snap_sessionPublicId : string;
  snap_status : SessionStatus;
  snap_surveyId : Id;
  snap_surveyVersionId : Id;
  snap_answersDraft : Answers;
  snap_startedAt : Z;
  snap_lastActivityAt : Z;
  snap_completedAt : option Z;
}.

(** [getSessionSnapshot] *)
Definition getSessionSnapshot (publicId : string) : M (option SessionSnapshot) :=
  do rows <- Store.collect t_surveySessions (fun s => String.eqb (sessionPublicId s) publicId);
  do found <- Store.unique rows;
  ret (match found with
       | None => None
       | Some (_, session) =>
           Some (mkSnapshot (sessionPublicId session) (ses_status session)
                   (ses_surveyId session) (ses_surveyVersionId session)
                   (answersDraft session) (startedAt session) (lastActivityAt session)
                   (completedAt session))
       end).

Section WithRuntime.
Context `{lux : Luxon} `{zod : ZodNumber} `{re : RegExpEngine} `{crypto : Crypto}
        `{js : JsStrings}.

(** The session a respondent resumes: the prior session when it is
    theirs and open, else their first open session on the invite. *)
Definition findCandidate (inviteId : Id) (key : string) (priorSessionId : option string)
  : M (option (Doc SurveySession)) :=
  let mine (d : Doc SurveySession) :=
    String.eqb (respondentKey (snd d)) key
    && negb (bool_decide (ses_status (snd d) = completed)) in
  do prior <-
    match priorSessionId with
    | Some p =>
        if String.eqb p EmptyString then ret None
        else
          do rows <- Store.collect t_surveySessions (fun s => String.eqb (sessionPublicId s) p);
          do found <- Store.unique rows;
          ret (match found with
               | Some d =>
                   if bool_decide (ses_inviteId (snd d) = inviteId) && mine d
                   then Some d else None
               | None => None
               end)
    | None => ret None
    end;
  match prior with
  | Some d => ret (Some d)
  | None =>
      do byInvite <- Store.collect t_surveySessions
                       (fun s => bool_decide (ses_inviteId s = inviteId));
      ret (List.find mine byInvite)
  end.

(** [startOrResumeSession]; [uuid] is the identifier drawn by
    [crypto.randomUUID()] for a new session. *)
Definition startOrResumeSession (now : Z) (uuid inviteToken key : string)
    (priorSessionId : option string) : M (string * SessionStatus * Progress) :=
  if (strlen key <? 12) || (256 <? strlen key)
  then throw (ConvexError "INVALID_RESPONDENT_KEY")
  else
    do found <- getInviteByToken inviteToken;
    match found with
    | None => throw (ConvexError "INVALID_INVITE")
    | Some (inviteId, invite) =>
        if activeButExpired invite now then
          run Store.patch t_surveyInvites inviteId (withInviteStatus inv_expired);
          throw (ConvexError "INVITE_EXPIRED")
        else
          run (if bool_decide (inv_status invite = inv_active)
                  && capReached (completionCount invite) invite
               then
                 run Store.patch t_surveyInvites inviteId (withInviteStatus inv_exhausted);
                 Domain.enqueueAnalyticsEvent now "survey_invite_exhausted"
                   ("invite:" +:+ idToString inviteId)
                   [("inviteId", PRef inviteId); ("surveyId", PRef (inv_surveyId invite))]
               else ret tt);
          if negb (isInviteUsable invite now)
          then throw (ConvexError "INVITE_UNAVAILABLE")
          else
            do version <- Store.get t_surveyVersions (inv_surveyVersionId invite);
            match version with
            | None => throw (ConvexError "INVALID_INVITE")
            | Some version =>
                do candidate <- findCandidate inviteId key priorSessionId;
                match candidate with
                | Some (sessionId, c) =>
                    let fromStatus := ses_status c in
                    let toStatus := if isDormant fromStatus then in_progress else fromStatus in
                    run Store.patch t_surveySessions sessionId (touchSession toStatus now);
                    run (if negb (bool_decide (fromStatus = toStatus)) then
                           run Domain.writeTransition sessionId (ses_surveyId c)
                                 (Some fromStatus) toStatus "resumed" now;
                           Domain.bumpDailyMetric (ses_surveyId c) m_reactivated 1 now
                         else ret tt);
                    run Domain.enqueueAnalyticsEvent now
                          (if bool_decide (fromStatus = in_progress)
                           then "survey_session_resumed" else "survey_session_reactivated")
                          (sessionPublicId c)
                          [("surveyId", PRef (ses_surveyId c));
                           ("sessionPublicId", PStr (sessionPublicId c));
                           ("inviteId", PRef inviteId);
                           ("statusFrom", PStatus fromStatus); ("statusTo", PStatus toStatus)];
                    ret (sessionPublicId c, toStatus,
                         calculateProgress (fields version) (answersDraft c))
                | None =>
                    do sessionId <- Store.insert t_surveySessions
                                      (mkSession uuid (inv_surveyId invite)
                                         (inv_surveyVersionId invite) inviteId key in_progress
                                         now now None ∅);
                    run Domain.writeTransition sessionId (inv_surveyId invite) None in_progress
                          "started" now;
                    run Domain.bumpDailyMetric (inv_surveyId invite) m_started 1 now;
                    run Domain.enqueueAnalyticsEvent now "survey_session_started" uuid
                          [("surveyId", PRef (inv_surveyId invite));
                           ("surveyVersionId", PRef (inv_surveyVersionId invite));
                           ("inviteId", PRef inviteId); ("sessionPublicId", PStr uuid)];
                    run Domain.writeAuditLog now "surveySession" sessionId
                          "survey_session_started" actor_respondent key
                          [("surveyId", PRef (inv_surveyId invite));
                           ("inviteId", PRef inviteId)];
                    ret (uuid, in_progress,
                         mkProgress 0 0
                           (Z.of_nat (length (List.filter required (fields version)))) 0)
                end
            end
    end.

(** [saveAnswer] *)
Definition saveAnswer (now : Z) (publicId fieldId : string) (value : Answer)
  : M (Z * SessionStatus) :=
  do rows <- Store.collect t_surveySessions (fun s => String.eqb (sessionPublicId s) publicId);
  do found <- Store.unique rows;
  match found with
  | None => throw (ConvexError "NOT_FOUND")
  | Some (sessionId, session) =>
      if bool_decide (ses_status session = completed)
      then throw (ConvexError "SESSION_COMPLETED")
      else
        do version <- Store.get t_surveyVersions (ses_surveyVersionId session);
        match version with
        | None => throw (ConvexError "NOT_FOUND")
        | Some version =>
            match OMap.get fieldId (getFieldMap version) with
            | None => throw (ConvexError "INVALID_FIELD")
            | Some field =>
                run lift (validateAnswerForField field (Some value));
                let nextAnswers := <[fieldId := value]> (answersDraft session) in
                run lift (Zod.parseAnswerMapWithZod nextAnswers);
                let nextStatus :=
                  if isDormant (ses_status session) then in_progress else ses_status session in
                run (if isDormant (ses_status session) then
                       run Domain.writeTransition sessionId (ses_surveyId session)
                             (Some (ses_status session)) in_progress
                             "answer_saved_reactivated" now;
                       Domain.bumpDailyMetric (ses_surveyId session) m_reactivated 1 now
                     else ret tt);
                run Store.patch t_surveySessions sessionId (saveDraft nextAnswers nextStatus now);
                let progress := calculateProgress (fields version) nextAnswers in
                run Domain.enqueueAnalyticsEvent now "survey_answer_saved"
                      (sessionPublicId session)
                      [("surveyId", PRef (ses_surveyId session));
                       ("inviteId", PRef (ses_inviteId session));
                       ("sessionPublicId", PStr (sessionPublicId session));
                       ("fieldId", PStr fieldId); ("status", PStatus nextStatus);
                       ("progressPercent", PNum (progressPercent progress));
                       ("answeredCount", PNum (answeredCount_p progress));
                       ("questionCount", PNum (Z.of_nat (length (fields version))))];
                ret (progressPercent progress, nextStatus)
            end
        end
  end.

(** The loop of [submitSession] over the fields of the version. *)
Fixpoint checkDraft (fs : list Field) (draft : Answers) : Result unit :=
  match fs with
  | [] => inr tt
  | field :: rest =>
      match validateAnswerForField field (draft !! id field) with
      | inl e => inl e
      | inr _ =>
          if required field && negb (isAnswerPresent (draft !! id field))
          then inl (ConvexError "MISSING_REQUIRED_FIELD")
          else checkDraft rest draft
      end
  end.

(** [submitSession] *)
Definition submitSession (now : Z) (publicId : string) : M (Id * Z) :=
  do rows <- Store.collect t_surveySessions (fun s => String.eqb (sessionPublicId s) publicId);
  do found <- Store.unique rows;
  match found with
  | None => throw (ConvexError "NOT_FOUND")
  | Some (sessionId, session) =>
      if bool_decide (ses_status session = completed)
      then throw (ConvexError "SESSION_COMPLETED")
      else
        do invite <- Store.get t_surveyInvites (ses_inviteId session);
        match invite with
        | None => throw (ConvexError "NOT_FOUND")
        | Some invite =>
            let inviteId := ses_inviteId session in
            if activeButExpired invite now then
              run Store.patch t_surveyInvites inviteId (withInviteStatus inv_expired);
              throw (ConvexError "INVITE_EXPIRED")
            else if capReached (completionCount invite) invite then
              run Store.patch t_surveyInvites inviteId (withInviteStatus inv_exhausted);
              throw (ConvexError "INVITE_EXHAUSTED")
            else if negb (bool_decide (inv_status invite = inv_active)) then
              throw (ConvexError "INVITE_UNAVAILABLE")
            else
              do version <- Store.get t_surveyVersions (ses_surveyVersionId session);
              match version with
              | None => throw (ConvexError "NOT_FOUND")
              | Some version =>
                  let draft := answersDraft session in
                  run lift (Zod.parseAnswerMapWithZod draft);
                  run lift (checkDraft (fields version) draft);
                  let grading := Scoring.gradeSubmission (fields version) draft in
                  do responseId <- Store.insert t_surveyResponses
                                     (mkResponse sessionId (sessionPublicId session)
                                        (ses_surveyId session) (ses_surveyVersionId session)
                                        inviteId now draft (now - startedAt session)
                                        (Some grading));
                  run Store.patch t_surveySessions sessionId (completeSession now);
                  run Domain.writeTransition sessionId (ses_surveyId session)
                        (Some (ses_status session)) completed "submitted" now;
                  run Domain.bumpDailyMetric (ses_surveyId session) m_completed 1 now;
                  let nextCompletionCount := completionCount invite + 1 in
                  let inviteNowExhausted := capReached nextCompletionCount invite in
                  run Store.patch t_surveyInvites inviteId
                        (withCompletion nextCompletionCount
                           (if inviteNowExhausted then inv_exhausted else inv_status invite));
                  run (if inviteNowExhausted then
                         Domain.enqueueAnalyticsEvent now "survey_invite_exhausted"
                           (sessionPublicId session)
                           [("surveyId", PRef (ses_surveyId session));
                            ("inviteId", PRef inviteId)]
                       else ret tt);
                  run Domain.enqueueAnalyticsEvent now "survey_submitted"
                        (sessionPublicId session)
                        [("surveyId", PRef (ses_surveyId session));
                         ("surveyVersionId", PRef (ses_surveyVersionId session));
                         ("inviteId", PRef inviteId);
                         ("sessionPublicId", PStr (sessionPublicId session));
                         ("durationMs", PNum (now - startedAt session));
                         ("isLateCompletion", PBool (isDormant (ses_status session)))];
                  run Domain.enqueueAnalyticsEvent now "survey_submission_graded"
                        (sessionPublicId session)
                        [("surveyId", PRef (ses_surveyId session));
                         ("surveyVersionId", PRef (ses_surveyVersionId session));
                         ("sessionPublicId", PStr (sessionPublicId session));
                         ("gradableCount", PNum (Scoring.gradableCount grading));
                         ("correctCount", PNum (Scoring.correctCount grading));
                         ("scorePercent", PScore (Scoring.scorePercent grading))];
                  run Domain.writeAuditLog now "surveyResponse" responseId "survey_submitted"
                        actor_respondent (respondentKey session)
                        [("surveyId", PRef (ses_surveyId session));
                         ("inviteId", PRef inviteId)];
                  ret (responseId, now)
              end
        end
  end.

End WithRuntime.

End Respondent.

(** ** The session life cycle ([convex/sessions.ts]) *)

(** The Convex runtime on [.take(n)]: how many documents it reads, or
    the error it throws for a limit it rejects. *)
Class QueryRuntime : Type := {
  takeCount : JsNum -> Result nat;
}.

Module Sessions.

Local Open Scope handler_scope.

Definition moveSession (toStatus : SessionStatus) (at_ : Z) (s : SurveySession)
  : SurveySession :=
  mkSession (sessionPublicId s) (ses_surveyId s) (ses_surveyVersionId s) (ses_inviteId s)
    (respondentKey s) toStatus (startedAt s) at_
    (if bool_decide (toStatus = completed) then Some at_ else completedAt s)
    (answersDraft s).

Section WithRuntime.
Context `{lux : Luxon} `{consts : Constants} `{rt : QueryRuntime}.

(** [transitionSession(ctx, { sessionId, toStatus, reason, at })] *)
Definition transitionSession (sessionId : Id) (toStatus : SessionStatus) (why : string)
    (at_ : Z) : M bool :=
  do found <- Store.get t_surveySessions sessionId;
  match found with
  | None => ret false
  | Some session =>
      if bool_decide (ses_status session = toStatus) then ret false
      else
        let fromStatus := ses_status session in
        run Store.patch t_surveySessions sessionId (moveSession toStatus at_);
        run Domain.writeTransition sessionId (ses_surveyId session) (Some fromStatus) toStatus
              why at_;
        run (if bool_decide (toStatus = idle)
             then Domain.bumpDailyMetric (ses_surveyId session) m_idle 1 at_ else ret tt);
        run (if bool_decide (toStatus = abandoned)
             then Domain.bumpDailyMetric (ses_surveyId session) m_abandoned 1 at_ else ret tt);
        run (if bool_decide (toStatus = in_progress) && Respondent.isDormant fromStatus
             then Domain.bumpDailyMetric (ses_surveyId session) m_reactivated 1 at_
             else ret tt);
        run (if bool_decide (toStatus = completed)
             then Domain.bumpDailyMetric (ses_surveyId session) m_completed 1 at_ else ret tt);
        let eventName :=
          match toStatus with
          | idle => "survey_session_idle"
          | abandoned => "survey_session_abandoned"
          | in_progress => "survey_session_reactivated"
          | completed => "survey_submitted"
          end in
        run Domain.enqueueAnalyticsEvent at_ eventName (sessionPublicId session)
              [("surveyId", PRef (ses_surveyId session));
               ("inviteId", PRef (ses_inviteId session));
               ("sessionPublicId", PStr (sessionPublicId session));
               ("statusFrom", PStatus fromStatus); ("statusTo", PStatus toStatus);
               ("reason", PStr why);
               ("idleMinutes", PNum ((at_ - lastActivityAt session) / 60000))];
        ret true
  end.

(** [transitionState] *)
Definition transitionState (now : Z) (sessionId : Id) (toStatus : SessionStatus)
    (why : string) : M bool :=
  transitionSession sessionId toStatus why now.

(** [ctx.db.query('surveySessions').withIndex('by_status_and_last_activity',
    (q) => q.eq('status', status).lt('lastActivityAt', cutoff)).take(n)]:
    the sessions in the status that have been quiet since before the
    cutoff, the quietest first. *)
Definition quietSessions (status : SessionStatus) (cutoff : Z) (n : JsNum)
  : M (list (Doc SurveySession)) :=
  do count <- lift (takeCount n);
  do rows <- Store.collect t_surveySessions
               (fun s => bool_decide (ses_status s = status) && (lastActivityAt s <? cutoff));
  ret (take count
         (sortBy (fun a b => lastActivityAt (snd a) - lastActivityAt (snd b)) rows)).

(** The loop of the two sweeps: the number of sessions moved. *)
Definition sweep (toStatus : SessionStatus) (why : string) (now : Z)
    (sessions : list (Doc SurveySession)) : M Z :=
  forEach
    (fun processed session =>
       do transitioned <- transitionSession (fst session) toStatus why now;
       ret (if transitioned : bool then processed + 1 else processed))
    sessions 0.

(** [Math.max(1, Math.min(args.limit ?? 200, 1000))] *)
Definition batchLimit (limit : option JsNum) : JsNum :=
  num_max (ofZ 1) (num_min (default (ofZ 200) limit) (ofZ 1000)).

(** [markIdleBatch] *)
Definition markIdleBatch (now : Z) (limit : option JsNum) : M Z :=
  let cutoff := now - IDLE_THRESHOLD_MS in
  do sessions <- quietSessions in_progress cutoff (batchLimit limit);
  sweep idle "idle_timeout" now sessions.

(** [markAbandonedBatch] *)
Definition markAbandonedBatch (now : Z) (limit : option JsNum) : M Z :=
  let cutoff := now - ABANDONED_THRESHOLD_MS in
  do idleSessions <- quietSessions idle cutoff (batchLimit limit);
  let remaining :=
    num_max (num_sub (batchLimit limit) (ofZ (Z.of_nat (length idleSessions)))) (ofZ 0) in
  do inProgressSessions <-
    (if num_gt remaining (ofZ 0) then quietSessions in_progress cutoff remaining else ret []);
  sweep abandoned "abandoned_timeout" now (idleSessions ++ inProgressSessions).

End WithRuntime.

End Sessions.

(** ** Internal analytics functions ([convex/analytics.ts]) *)

(** Modelled from the spec: [POSTHOG_BATCH_LIMIT] of
    [convex/lib/constants.ts], which is not part of the sources; the
    specification names no value, so it is a parameter. *)
Class OutboxLimits : Type := {
  POSTHOG_BATCH_LIMIT : Z;
}.

Module AnalyticsJobs.

Import Materialization.
Local Open Scope handler_scope.

Record DueEvent : Type := mkDue {
  due_outboxId : Id;
  due_eventName : string;
  due_distinctId : string;
  due_properties : list (string * PropValue);
  due_attemptCount : Z;
  due_nextAttemptAt : Z;
}.

Section WithRuntime.
Context `{lux : Luxon} `{fmt : NumberFormat} `{txt : TextInsights} `{js : JsStrings}
        `{consts : Constants} `{limits : OutboxLimits} `{rt : QueryRuntime}.

(** [incrementalIngestResponse] *)
Definition incrementalIngestResponse (now : Z) (responseId : Id) : M (bool * option string) :=
  do response <- Store.get t_surveyResponses responseId;
  match response with
  | None => ret (false, None)
  | Some response =>
      let dateKey := toISODate (submittedAt response) in
      run rebuildDailyMaterializedAnalytics now (res_surveyId response) dateKey false;
      ret (true, Some dateKey)
  end.

(** [rebuildMaterializedWindow] *)
Definition rebuildMaterializedWindow (now : Z) (surveyId : Id) (from to : string)
    (why : option string) : M Z :=
  do range <- lift (parseAnalyticsDateRange from to ANALYTICS_MAX_WINDOW_DAYS);
  run forEach (fun _ dateKey => rebuildDailyMaterializedAnalytics now surveyId dateKey true)
        (dayKeys range) tt;
  run Domain.enqueueAnalyticsEvent now "analytics_rebuild_triggered"
        ("survey:" +:+ idToString surveyId)
        [("surveyId", PRef surveyId); ("fromDate", PStr (fromDate range));
         ("toDate", PStr (toDate range));
         ("reason", PStr (default "manual_or_internal" why))];
  ret (Z.of_nat (length (dayKeys range))).

(** [listDueOutboxEvents]: the pending rows whose next attempt is due,
    the earliest first. *)
Definition listDueOutboxEvents (now : Z) (limit : option JsNum) : M (list DueEvent) :=
  let batch :=
    num_max (ofZ 1)
      (num_min (default (ofZ POSTHOG_BATCH_LIMIT) limit) (ofZ POSTHOG_BATCH_LIMIT)) in
  do count <- lift (takeCount batch);
  do events <- Store.collect t_analyticsOutbox
                 (fun r => bool_decide (ob_status r = pending) && (nextAttemptAt r <=? now));
  ret (map (fun e => mkDue (fst e) (eventName (snd e)) (distinctId (snd e))
                       (properties (snd e)) (attemptCount (snd e)) (nextAttemptAt (snd e)))
         (take count
            (sortBy (fun a b => nextAttemptAt (snd a) - nextAttemptAt (snd b)) events))).

End WithRuntime.

End AnalyticsJobs.
(** ** Predicates used in the statements *)

(** What every row of the outbox satisfies: the attempt count is not
    negative and a pending row has failed fewer than eight times. *)
Definition outboxInv (t : Table OutboxEvent) : Prop :=
  forall i r, lookupDoc t i = Some r ->
    0 <= attemptCount r /\ (ob_status r = pending -> attemptCount r < 8).

(** The reached counter of field [fieldId] in the aggregates, [0] when
    the field has no aggregate yet. *)
Definition reachedCountOf (aggregates : list (string * Materialization.FieldAggregate))
    (fieldId : string) : Z :=
  from_option Materialization.agg_reachedCount 0 (OMap.get fieldId aggregates).

(** The live rows of a table, in creation order. *)
Definition liveRows {A} (t : Table A) : list A := omap (fun o => o) t.

(** The live rows that satisfy [p]. *)
Definition rowsWhere {A} (p : A -> bool) (t : Table A) : list A :=
  filter (fun r => p r = true) (liveRows t).

(** The table with the documents [ids] deleted. *)
Definition erase {A} (ids : list Id) (t : Table A) : Table A :=
  imap (fun j o => if bool_decide (j ∈ ids) then None else o) t.

(** A table reference reads what was written and writes nothing else. *)
Class LensLaws {A} (t : TableRef A) : Prop := {
  tget_tset : forall T db, tget t (tset t T db) = T;
  tset_tset : forall T1 T2 db, tset t T1 (tset t T2 db) = tset t T1 db;
  tset_tget : forall db, tset t (tget t db) db = db;
}.

(** The document ids held by an index of existing rows. *)
Definition idsOf {R} (byKey : list (string * Doc R)) : list Id :=
  map (fun e => fst (snd e)) byKey.

(** The documents of an index are live rows selected by [ofDay]. *)
Definition indexLive {R} (ofDay : R -> bool) (byKey : list (string * Doc R))
    (T : Table R) : Prop :=
  forall e, e ∈ byKey ->
    exists r, lookupDoc T (fst (snd e)) = Some r /\ ofDay r = true.

(** The rows of one survey and one day in the three rollup tables the
    rebuild writes, and in the table of text insights. *)
Definition analyticsOfDay (surveyId : Id) (dateKey : string) (r : AnalyticsDaily) : bool :=
  Domain.sameDay surveyId dateKey (ad_surveyId r) (ad_dateKey r).
Definition fieldRowOfDay (surveyId : Id) (dateKey : string) (r : FieldAnalyticsDaily) : bool :=
  Domain.sameDay surveyId dateKey (fa_surveyId r) (fa_dateKey r).
Definition bucketRowOfDay (surveyId : Id) (dateKey : string) (r : AnswerBucketsDaily) : bool :=
  Domain.sameDay surveyId dateKey (ab_surveyId r) (ab_dateKey r).
Definition textRowOfDay (surveyId : Id) (dateKey : string) (r : TextInsightsDaily) : bool :=
  Domain.sameDay surveyId dateKey (ti_surveyId r) (ti_dateKey r).

(** The stored form of a fresh row. *)
Definition fieldPayload (surveyId : Id) (dateKey : string) (row : Materialization.FieldRowIn)
  : FieldAnalyticsDaily :=
  mkFieldRow surveyId (Materialization.fr_fieldId row) dateKey
    (Materialization.fr_reachedCount row) (Materialization.fr_answeredCount row)
    (Materialization.fr_dropoffCount row) (Materialization.fr_updatedAt row).

Definition bucketPayload (surveyId : Id) (dateKey : string) (row : Materialization.BucketRowIn)
  : AnswerBucketsDaily :=
  mkBucketRow surveyId (Materialization.br_fieldId row) dateKey
    (Materialization.br_bucketKey row) (Materialization.br_bucketLabel row)
    (Materialization.br_count row) (Materialization.br_updatedAt row).

Definition textPayload (surveyId : Id) (dateKey : string) (row : Materialization.TextRowIn)
  : TextInsightsDaily :=
  mkTextRow surveyId (Materialization.tr_fieldId row) dateKey
    (Materialization.tr_topPhrases row) (Materialization.tr_sampledSnippets row)
    (Materialization.tr_updatedAt row).

(** The live counters of one survey and one day. *)
Definition metricsOfDay (db : Db) (surveyId : Id) (dateKey : string) : list (Doc MetricsDaily) :=
  List.filter (fun d => Domain.sameDay surveyId dateKey (md_surveyId (snd d)) (md_dateKey (snd d)))
              (docs (surveyMetricsDaily db)).

(** The aggregates the rebuild accumulates over [responses]. *)
Definition rebuildAcc `{fmt : NumberFormat} (db : Db) (responses : list (Doc SurveyResponse))
  : Materialization.RebuildAcc :=
  fold_left (Materialization.ingestResponse (surveyVersions db)) responses
            (Materialization.mkRebuildAcc 0 0%Q []).

(** The aggregates are indexed by their own field id, and the bucket
    keys of an aggregate are distinct. *)
Definition aggregatesWf (aggregates : list (string * Materialization.FieldAggregate)) : Prop :=
  NoDup (OMap.keys aggregates) /\
  forall e, e ∈ aggregates ->
    Materialization.agg_fieldId (snd e) = fst e /\
    NoDup (OMap.keys (Materialization.bucketMap (snd e))).


(** The seven admin read queries with the arguments they take besides
    the survey and the date range, what they return, and their
    dispatch. *)
Inductive Query : Type :=
| QFunnel
| QScoringSummary
| QTrendSeries
| QAnswerBreakdown
| QFieldBreakdown (fieldId : string) (limit : option JsNum)
| QDropoffByStep
| QCsvExport (report : Analytics.CsvReport).

Inductive QueryResult : Type :=
| RFunnel (r : Analytics.Funnel)
| RScoringSummary (r : Analytics.ScoringSummary)
| RTrendSeries (r : list Analytics.TrendPoint)
| RAnswerBreakdown (r : list Analytics.AnswerBreakdown)
| RFieldBreakdown (r : Analytics.FieldBreakdown)
| RDropoffByStep (r : list Analytics.DropoffStep)
| RCsvExport (r : Analytics.CsvExport).

Definition mapM {A B} (f : A -> B) (c : M A) : M B := bind c (fun a => ret (f a)).

Definition runQuery `{lux : Luxon} `{fmt : NumberFormat} `{js : JsStrings} `{consts : Constants}
    (q : Query) (identity : option string) (surveyId : Id) (from to : string)
  : M QueryResult :=
  match q with
  | QFunnel => mapM RFunnel (Analytics.getSurveyFunnel identity surveyId from to)
  | QScoringSummary =>
      mapM RScoringSummary (Analytics.getSurveyScoringSummary identity surveyId from to)
  | QTrendSeries => mapM RTrendSeries (Analytics.getSurveyTrendSeries identity surveyId from to)
  | QAnswerBreakdown =>
      mapM RAnswerBreakdown (Analytics.getSurveyAnswerBreakdown identity surveyId from to)
  | QFieldBreakdown fieldId limit =>
      mapM RFieldBreakdown
        (Analytics.getSurveyFieldBreakdown identity surveyId from to fieldId limit)
  | QDropoffByStep =>
      mapM RDropoffByStep (Analytics.getSurveyDropoffByStep identity surveyId from to)
  | QCsvExport report =>
      mapM RCsvExport (Analytics.getSurveyCsvExport identity surveyId from to report)
  end.

(** Two databases with the same rollup tables and the same metadata
    (users, surveys and survey versions); every other table, the raw
    responses among them, is free. *)
Definition agreeOnRollups (db1 db2 : Db) : Prop :=
  appUsers db1 = appUsers db2 /\
  surveys db1 = surveys db2 /\
  surveyVersions db1 = surveyVersions db2 /\
  surveyAnalyticsDaily db1 = surveyAnalyticsDaily db2 /\
  surveyFieldAnalyticsDaily db1 = surveyFieldAnalyticsDaily db2 /\
  surveyAnswerBucketsDaily db1 = surveyAnswerBucketsDaily db2 /\
  surveyTextInsightsDaily db1 = surveyTextInsightsDaily db2.

(** A result without the two totals that [getSurveyScoringSummary]
    sums over the raw responses. *)
Definition rollupPart (r : QueryResult) : QueryResult :=
  match r with
  | RScoringSummary s =>
      RScoringSummary
        (Analytics.mkScoring (Analytics.ss_gradedResponses s) (Analytics.ss_avgScorePercent s)
           0 0)
  | _ => r
  end.

(** Two outcomes that throw the same error or return related values. *)
Definition sameOutcome {A} (R : A -> A -> Prop) (r1 r2 : Result A) : Prop :=
  match r1, r2 with
  | inr a, inr b => R a b
  | inl e1, inl e2 => e1 = e2
  | _, _ => False
  end.

(** A computation that writes nothing and whose outcome is the same, up
    to [R], on databases that agree on the rollups and the metadata. *)
Definition rollupOnly {A} (R : A -> A -> Prop) (c : M A) : Prop :=
  (forall db, fst (c db) = db) /\
  forall db1 db2, agreeOnRollups db1 db2 -> sameOutcome R (snd (c db1)) (snd (c db2)).

(** A table on which agreeing databases agree. *)
Class Agreed {A} (t : TableRef A) : Prop :=
  agreed : forall db1 db2, agreeOnRollups db1 db2 -> tget t db1 = tget t db2.

Definition windowTooLarge : Error := ConvexError "ANALYTICS_WINDOW_TOO_LARGE".


(** luxon reads the date it printed for the instant [ms] as the
    midnight of that day. *)
Definition roundTrips `{lux : Luxon} (ms : Z) : Prop :=
  fromISO (toISODate ms) = Some (startOfDay ms).

(** The UTC calendar days from the day of [s] to the day of [e]. *)
Definition spannedDays (s e : Z) : Z := (startOfDay e - startOfDay s) / DAY_MS + 1.

(** The database a mutation leaves: its writes when the handler
    returns, nothing when it throws. *)
Definition commit {A} (handler : M A) (db : Db) : Db := fst (mutation handler db).

(** The mutations that write the table of sessions. *)
Inductive SessionOp : Type :=
| OpStartOrResume (now : Z) (uuid inviteToken key : string) (priorSessionId : option string)
| OpSaveAnswer (now : Z) (publicId fieldId : string) (value : Answer)
| OpSubmit (now : Z) (publicId : string)
| OpTransitionState (now : Z) (sessionId : Id) (toStatus : SessionStatus) (why : string)
| OpMarkIdle (now : Z) (limit : option JsNum)
| OpMarkAbandoned (now : Z) (limit : option JsNum).

Section SessionOps.
Context `{lux : Luxon} `{zod : ZodNumber} `{re : RegExpEngine} `{crypto : Utils.Crypto}
        `{js : JsStrings} `{consts : Constants} `{rt : QueryRuntime}.

Definition runSessionOp (op : SessionOp) (db : Db) : Db :=
  match op with
  | OpStartOrResume now uuid inviteToken key prior =>
      commit (Respondent.startOrResumeSession now uuid inviteToken key prior) db
  | OpSaveAnswer now publicId fieldId value =>
      commit (Respondent.saveAnswer now publicId fieldId value) db
  | OpSubmit now publicId => commit (Respondent.submitSession now publicId) db
  | OpTransitionState now sessionId toStatus why =>
      commit (Sessions.transitionState now sessionId toStatus why) db
  | OpMarkIdle now limit => commit (Sessions.markIdleBatch now limit) db
  | OpMarkAbandoned now limit => commit (Sessions.markAbandonedBatch now limit) db
  end.

(** The operations one after the other, the first of the list first. *)
Definition runSessionOps (ops : list SessionOp) (db : Db) : Db :=
  fold_left (fun d op => runSessionOp op d) ops db.

End SessionOps.

(** The operations on sessions other than a [transitionState] towards
    another status than completed. *)
Definition leavesCompleted (op : SessionOp) : bool :=
  match op with
  | OpTransitionState _ _ toStatus _ => bool_decide (toStatus = completed)
  | _ => true
  end.

(** The mutations that write the table of invites: those of
    [convex/invites.ts] and, through [startOrResumeSession] and
    [submitSession], those of the sessions. *)
Inductive InviteOp : Type :=
| OpCreateInvite (identity : option string) (now : Z) (inviteToken : string)
    (surveyId surveyVersionId : Id) (expires maxCompletionsArg : option JsNum)
| OpRevokeInvite (identity : option string) (now : Z) (inviteId : Id)
| OpOnSession (op : SessionOp).

Section InviteOps.
Context `{lux : Luxon} `{zod : ZodNumber} `{re : RegExpEngine} `{crypto : Utils.Crypto}
        `{js : JsStrings} `{consts : Constants} `{rt : QueryRuntime}.

Definition runInviteOp (op : InviteOp) (db : Db) : Db :=
  match op with
  | OpCreateInvite identity now inviteToken surveyId surveyVersionId expires cap =>
      commit (Invites.createInvite identity now inviteToken surveyId surveyVersionId
                expires cap) db
  | OpRevokeInvite identity now inviteId =>
      commit (Invites.revokeInvite identity now inviteId) db
  | OpOnSession op => runSessionOp op db
  end.

Definition runInviteOps (ops : list InviteOp) (db : Db) : Db :=
  fold_left (fun d op => runInviteOp op d) ops db.

End InviteOps.

(** The operations that may take a session from idle or abandoned back
    to in progress. *)
Definition reactivates (op : SessionOp) : bool :=
  match op with
  | OpStartOrResume _ _ _ _ _ | OpSaveAnswer _ _ _ _ => true
  | OpTransitionState _ _ toStatus _ => bool_decide (toStatus = in_progress)
  | _ => false
  end.

(** Every session of [T] is a session of [T'], changed within [P]. *)
Definition sessionsRel (P : SurveySession -> SurveySession -> Prop)
    (T T' : Table SurveySession) : Prop :=
  forall i s, lookupDoc T i = Some s -> exists s', lookupDoc T' i = Some s' /\ P s s'.

(** What a sweep towards [target] may do to a session: nothing, or
    move it to [target] from one of the statuses [sources]. *)
Definition sweptTo (target : SessionStatus) (sources : list SessionStatus)
    (s s' : SurveySession) : Prop :=
  ses_status s' = ses_status s \/ (ses_status s' = target /\ ses_status s ∈ sources).

(** A computation that leaves the table [t] as it is. *)
Definition keepsTable {B A} (t : TableRef B) (c : M A) : Prop :=
  forall db, tget t (fst (c db)) = tget t db.

(** [t'] is another table than [t]: writing it leaves [t] as it is. *)
Class OtherTable {B A} (t : TableRef B) (t' : TableRef A) : Prop :=
  other_table : forall T db, tget t (tset t' T db) = tget t db.

(** A handler that writes at most one session, within [Q]. *)
Definition writesSession {A} (Q : Id -> SurveySession -> Prop) (c : M A) : Prop :=
  forall db,
    surveySessions (fst (c db)) = surveySessions db \/
    exists i s s',
      lookupDoc (surveySessions db) i = Some s /\ Q i s' /\
      surveySessions (fst (c db)) = <[i := Some s']> (surveySessions db).

(** The live counters of one survey and one day. *)
Definition metricsRowOfDay (surveyId : Id) (dateKey : string) (r : MetricsDaily) : bool :=
  Domain.sameDay surveyId dateKey (md_surveyId r) (md_dateKey r).

(** The counter [metric] of the only row of a day, [0] when the day
    has no row. *)
Definition counterOf {R} (read : R -> Z) (rows : list R) : Z :=
  from_option read 0 (head rows).

(** The caller may read the analytics of the survey: a signed-in app
    user who, when the survey exists, is an admin or its creator. *)
Definition mayRead (db : Db) (identity : option string) (surveyId : Id) : Prop :=
  exists subject userId user,
    identity = Some subject /\
    lookupDoc (appUsers db) userId = Some user /\
    workosUserId user = subject /\
    forall survey, lookupDoc (surveys db) surveyId = Some survey ->
      role user = admin \/ createdByUserId survey = userId.

(** The caller is a signed-in app user who is an admin or the creator
    of [survey]. *)
Definition actsOn (db : Db) (identity : option string) (survey : Survey) : Prop :=
  exists userId user,
    identity = Some (workosUserId user) /\
    lookupDoc (appUsers db) userId = Some user /\
    (role user = admin \/ createdByUserId survey = userId).

(** What a sweep at [now] towards [target] with the cutoff [cutoff] may
    do to a session: nothing, or move it when it is in one of the
    statuses [sources] and has been quiet since before the cutoff. *)
Definition quietMove (target : SessionStatus) (sources : list SessionStatus)
    (cutoff now : Z) (s s' : SurveySession) : Prop :=
  s' = s \/
  (ses_status s ∈ sources /\ lastActivityAt s < cutoff /\
   s' = Sessions.moveSession target now s).

(** The sum of the counts of a list of buckets. *)
Definition bucketTotal (buckets : list Analytics.Bucket) : Z :=
  foldr (fun b acc => Analytics.bk_count b + acc) 0 buckets.
(** ** Instances of the libraries, for running the code on examples *)

Module Samples.


(** zod 4: [z.number()] accepts the finite numbers only. *)
Definition zod4 : ZodNumber :=
  {| zNumberAccepts := isFinite; zNumber_rejects_NaN := eq_refl |}.

(** An engine that knows no pattern: every test succeeds.  None of the
    examples below reaches a regular expression. *)
Definition permissiveRegExp : RegExpEngine :=
  {| emailRegexTest := fun _ => true; regexTest := fun _ _ => Some true |}.

(** Decimal digits of a natural number, at least [width] of them. *)
Fixpoint digitsOf (fuel : nat) (n : Z) (width : nat) : string :=
  match fuel with
  | O => ""
  | S fuel' =>
      let d := String (ascii_of_nat (48 + Z.to_nat (n mod 10))) "" in
      if (n <? 10) && (width <=? 1)%nat then d
      else digitsOf fuel' (n / 10) (pred width) +:+ d
  end.

Definition decimal (n : Z) (width : nat) : string :=
  if n <? 0 then "-" +:+ digitsOf 64 (- n) width else digitsOf 64 n width.

Definition digitValue (c : ascii) : option Z :=
  let n := nat_of_ascii c in
  if (48 <=? n)%nat && (n <=? 57)%nat then Some (Z.of_nat n - 48) else None.

Fixpoint numberOf (acc : Z) (s : string) : option Z :=
  match s with
  | EmptyString => Some acc
  | String c r => d ← digitValue c; numberOf (acc * 10 + d) r
  end.

(** Days since 1970-01-01 of a date of the proleptic Gregorian calendar. *)
Definition daysFromCivil (y m d : Z) : Z :=
  let y' := if m <=? 2 then y - 1 else y in
  let era := y' / 400 in
  let yoe := y' - era * 400 in
  let doy := (153 * (if 2 <? m then m - 3 else m + 9) + 2) / 5 + d - 1 in
  let doe := yoe * 365 + yoe / 4 - yoe / 100 + doy in
  era * 146097 + doe - 719468.

Definition civilFromDays (z : Z) : Z * Z * Z :=
  let z := z + 719468 in
  let era := z / 146097 in
  let doe := z - era * 146097 in
  let yoe := (doe - doe / 1460 + doe / 36524 - doe / 146096) / 365 in
  let doy := doe - (365 * yoe + yoe / 4 - yoe / 100) in
  let mp := (5 * doy + 2) / 153 in
  let d := doy - (153 * mp + 2) / 5 + 1 in
  let m := if mp <? 10 then mp + 3 else mp - 9 in
  (if m <=? 2 then yoe + era * 400 + 1 else yoe + era * 400, m, d).

(** luxon on calendar dates [YYYY-MM-DD]; every other string is
    invalid here. *)
Definition calendarLuxon : Luxon :=
  {| fromISO := fun s =>
       if negb (String.length s =? 10)%nat then None
       else if negb (String.eqb (substring 4 1 s) "-" && String.eqb (substring 7 1 s) "-")
       then None
       else
         y ← numberOf 0 (substring 0 4 s);
         m ← numberOf 0 (substring 5 2 s);
         d ← numberOf 0 (substring 8 2 s);
         let days := daysFromCivil y m d in
         if bool_decide (civilFromDays days = (y, m, d)) then Some (days * DAY_MS) else None;
     toISODate := fun ms =>
       let '(y, m, d) := civilFromDays (ms / DAY_MS) in
       decimal y 4 +:+ "-" +:+ decimal m 2 +:+ "-" +:+ decimal d 2 |}.

(** Numbers printed exactly when they are integers; [toFixed(2)]
    rounds the hundredths half away from zero. *)
Definition decimalFormat : NumberFormat :=
  {| numberToString := fun n =>
       match n with
       | Fin q => decimal (Qfloor q) 1
       | PInf => "Infinity" | NInf => "-Infinity" | NaN => "NaN"
       end;
     toFixed2 := fun n =>
       match n with
       | Fin q =>
           let h := Qfloor (Qabs q * 100 + (1 # 2)) in
           (if Qle_bool 0 q then "" else "-")
             +:+ decimal (h / 100) 1 +:+ "." +:+ decimal (h mod 100) 2
       | PInf => "Infinity" | NInf => "-Infinity" | NaN => "NaN"
       end |}.

(** Text insights that rank nothing: one row per answer. *)
Definition verbatimInsights : TextInsights :=
  {| topPhraseRows := fun l => map (fun s => (s, 1)) l;
     snippetRows := fun l => map (fun s => (s, 1)) l |}.

Definition sampleConstants : Constants :=
  {| IDLE_THRESHOLD_MS := 15 * 60 * 1000;
     ABANDONED_THRESHOLD_MS := 24 * 60 * 60 * 1000;
     DEFAULT_INVITE_TTL_MS := 7 * 24 * 60 * 60 * 1000;
     ANALYTICS_MAX_WINDOW_DAYS := 90;
     ANALYTICS_MAX_CSV_ROWS := 10000;
     ANALYTICS_MAX_BUCKETS := 50;
     ANALYTICS_MAX_TOP_PHRASES := 20 |}.

Definition numberField : Field :=
  mkField "age" number "Age" false 0 None
          (Some (mkValidation None None (Some (ofZ 0)) (Some (ofZ 150)) None)) None.



Definition q0 : Field := mkField "q0" short_text "First" false 0 None None None.
Definition q1 : Field := mkField "q1" short_text "Second" false 1 None None None.
Definition q2 : Field := mkField "q2" short_text "Third" false 2 None None None.

(** A day of survey [0]: two responses to a three-question version,
    live counters that lag behind the responses, and rollup rows left
    by an earlier rebuild for a question that is gone. *)
Definition sampleDay : string := "2024-03-01".

Definition sampleNow : Z := 1709300000000.

Definition sampleResponse (session : Id) (at_ : Z) (a : Answers) : SurveyResponse :=
  mkResponse session "s" 0 0 0 at_ a 1000 None.

Definition sampleDb : Db :=
  mkDb [Some (mkAppUser "user_1" admin)]
       [Some (mkSurvey "intro" "Intro" 0 0)]
       [Some (mkVersion 0 1 [q0; q1; q2])]
       [] []
       [Some (sampleResponse 0 1709290000000 {[ "q0" := AStr "yes" ]});
        Some (sampleResponse 1 1709290500000 {[ "q0" := AStr "no"; "q1" := AStr "maybe" ]})]
       []
       [Some (mkMetrics 0 sampleDay 1 0 0 0 0 0)]
       []
       [Some (mkFieldRow 0 "gone" sampleDay 4 3 1 0)]
       [Some (mkBucketRow 0 "gone" sampleDay "x" "x" 3 0)]
       [] [] [].

(** The sample database after one rebuild of the sample day. *)
Definition sampleRebuilt : Db :=
  Eval vm_compute in
    fst (Materialization.rebuildDailyMaterializedAnalytics
           (lux := calendarLuxon) (fmt := decimalFormat) (txt := verbatimInsights)
           sampleNow 0 sampleDay false sampleDb).

(** Strings compared by code units, numbers read as decimal digits and
    document ids printed in decimal. *)
Definition plainStrings : JsStrings :=
  {| localeCompare := compareStrings;
     stringToNumber := fun s => match numberOf 0 s with Some n => ofZ n | None => NaN end;
     idToString := fun i => decimal (Z.of_nat i) 1 |}.

(** The sample database with one graded response instead of the two
    ungraded ones. *)
Definition sampleGradedDb : Db :=
  tset t_surveyResponses
    [Some (mkResponse 0 "s" 0 0 0 1709290000000 {[ "q0" := AStr "yes" ]} 1000
             (Some (Scoring.mkGrading 2 1 1 50 ∅)))]
    sampleDb.


(** A stand-in for SHA-256 and a runtime whose [take] wants a natural
    number. *)
Definition tagCrypto : Utils.Crypto := {| Utils.hashToken := fun token => "h:" +:+ token |}.

Definition strictTake : QueryRuntime :=
  {| takeCount := fun n =>
       match n with
       | Fin q => if Qle_bool 0 q && Qeq_bool q (inject_Z (Qfloor q))
                  then inr (Z.to_nat (Qfloor q)) else inl (ConvexError "INVALID_LIMIT")
       | _ => inl (ConvexError "INVALID_LIMIT")
       end |}.

(** The sample database with an invite of survey [0] and three of its
    sessions: one idle, one in progress and quiet for two days, one
    completed. *)
Definition sampleSession (publicId key : string) (status : SessionStatus) (last : Z)
  : SurveySession :=
  mkSession publicId 0 0 0 key status 1709000000000 last None ∅.

Definition sampleSessionsDb : Db :=
  tset t_surveySessions
    [Some (sampleSession "s-idle" "respondent-aaaa" idle 1709100000000);
     Some (sampleSession "s-open" "respondent-bbbb" in_progress 1709100000000);
     Some (mkSession "s-done" 0 0 0 "respondent-cccc" completed 1709000000000 1709100000000
             (Some 1709100000000) ∅)]
    (tset t_surveyInvites
       [Some (mkInvite 0 0 "h:inv_1" inv_active (ofZ 5) 1 None 0 1709000000000 None)]
       sampleDb).

(** An invite created with a cap of one and a half completions, then
    two respondents who start a session and submit it, one after the
    other; every step is the mutation of the code. *)
Section FractionalCap.
Let t0 : Z := 1709300000000.

Definition capInvited : Db :=
  commit (Invites.createInvite (js := plainStrings) (crypto := tagCrypto)
            (consts := sampleConstants) (Some "user_1") t0 "inv_cap" 0 0 None
            (Some (Fin (3 # 2))))
    sampleDb.

Definition capStart (uuid key : string) (db : Db) : Db :=
  commit (Respondent.startOrResumeSession (lux := calendarLuxon) (crypto := tagCrypto)
            (js := plainStrings) t0 uuid "inv_cap" key None)
    db.

Definition capSubmit (uuid : string) (db : Db) : Db :=
  commit (Respondent.submitSession (lux := calendarLuxon) (zod := zod4)
            (re := permissiveRegExp) t0 uuid)
    db.

Definition capFirst : Db := capSubmit "uuid-1" (capStart "uuid-1" "respondent-aaaa" capInvited).

Definition capSecond : Db := capSubmit "uuid-2" (capStart "uuid-2" "respondent-bbbb" capFirst).

End FractionalCap.

(** A question graded by exact text. *)
Definition gradedField : Field :=
  mkField "capital" short_text "Capital" true 0 None None (Some (text_exact "Paris")).

(** A batch of at most fifty events, and an outbox with one pending
    event that is due. *)
Definition sampleLimits : OutboxLimits := {| POSTHOG_BATCH_LIMIT := 50 |}.

Definition sampleOutboxDb : Db :=
  tset t_analyticsOutbox
    [Some (mkOutbox "survey_submitted" "s-done" [] pending 2 1709300000000 1709200000000
             None (Some "HTTP 500"))]
    sampleDb.

(** One started session counted on the sample day, then the same
    counter pushed below zero. *)
Definition sampleBumped : Db :=
  Eval vm_compute in
    fst (Domain.bumpDailyMetric (lux := calendarLuxon) 0%nat m_started 1 sampleNow emptyDb).

Definition sampleBumpedBack : Db :=
  Eval vm_compute in
    fst (Domain.bumpDailyMetric (lux := calendarLuxon) 0%nat m_started (-3) sampleNow
           sampleBumped).

(** A respondent who has started a session on the invite [inv_cap],
    and the database after they have submitted it. *)
Definition sampleStarted : Db :=
  Eval vm_compute in capStart "uuid-1" "respondent-aaaa" capInvited.

Definition sampleSubmitted : Db :=
  Eval vm_compute in capSubmit "uuid-1" sampleStarted.

(** The invite [inv_cap] revoked by its creator a minute after it was
    created. *)
Definition sampleRevoked : Db :=
  Eval vm_compute in
    commit (Invites.revokeInvite (js := plainStrings) (Some "user_1") 1709300060000 0%nat)
      capInvited.

(** The started session with a first answer saved. *)
Definition sampleSaved : Db :=
  Eval vm_compute in
    fst (Respondent.saveAnswer (lux := calendarLuxon) (zod := zod4) (re := permissiveRegExp)
           1709300030000 "uuid-1" "q0" (AStr "yes") sampleStarted).

End Samples.

(** * Properties *)

Import Scoring.

Lemma gradeStep_fold answers fields : forall acc,
  let acc' := fold_left (gradeStep answers) fields acc in
  acc_gradable acc' = acc_gradable acc + Z.of_nat (length (gradable fields)) /\
  acc_correct acc <= acc_correct acc' /\
  acc_correct acc' - acc_correct acc <= Z.of_nat (length (gradable fields)).
Proof.
  induction fields as [|f fields IH]; intros acc.
  - cbn. lia.
  - cbn zeta in *. cbn [fold_left].
    specialize (IH (gradeStep answers acc f)).
    destruct IH as (Hg & Hlo & Hhi).
    unfold gradable in *. cbn [List.filter].
    unfold gradeStep in *.
    destruct (correctness f) as [c|].
    + cbn [length]. rewrite Nat2Z.inj_succ.
      destruct (match evaluateFieldCorrectness f (answers !! id f) with
                | Some true => true | _ => false end);
        cbn [acc_gradable acc_correct] in *; lia.
    + lia.
Qed.

(** C3. For every field list and answer map, [gradeSubmission] returns
    counts with [correctCount + incorrectCount = gradableCount], where
    [gradableCount] is the number of fields that carry a correctness
    rule; [scorePercent] is [round (correctCount / gradableCount * 10000) / 100]
    when there is a gradable field and [0] when there is none. *)
Theorem gradeSubmission_counts (fields : list Field) (answers : Answers) :
  let g := gradeSubmission fields answers in
  correctCount g + incorrectCount g = gradableCount g /\
  gradableCount g = Z.of_nat (length (gradable fields)) /\
  (0 < gradableCount g ->
   scorePercent g =
   (inject_Z (round (inject_Z (correctCount g) / inject_Z (gradableCount g) * 10000)) / 100)%Q) /\
  (gradableCount g = 0 -> scorePercent g = 0%Q).
Proof.
  pose proof (gradeStep_fold answers fields (mkAcc 0 0 ∅)) as H.
  cbn zeta in H. cbn [acc_gradable acc_correct] in H.
  destruct H as (Hg & Hlo & Hhi).
  unfold gradeSubmission. cbn zeta.
  cbn [gradableCount correctCount incorrectCount scorePercent].
  set (acc := fold_left (gradeStep answers) fields (mkAcc 0 0 ∅)) in *.
  repeat split.
  - lia.
  - lia.
  - intros Hpos. destruct (Z.eqb_spec (acc_gradable acc) 0); [lia | reflexivity].
  - intros Hz. rewrite Hz. reflexivity.
Qed.

Lemma gradeSubmission_counts_witness :
  let g := gradeSubmission [Samples.gradedField; Samples.q1] {[ "capital" := AStr " paris " ]} in
  0 < gradableCount g /\ (scorePercent g == 100)%Q.
Proof.
  cbv zeta. split; [reflexivity|].
  destruct (gradeSubmission_counts [Samples.gradedField; Samples.q1]
              {[ "capital" := AStr " paris " ]}) as (_ & _ & Hscore & _).
  rewrite Hscore by reflexivity. vm_compute. reflexivity.
Defined.


(** ** Answer validation *)

Import Zod.





Section Validation.
Context `{zod : ZodNumber} `{re : RegExpEngine}.




End Validation.


(** ** The document store *)

Section StoreFacts.
Context {A : Type}.
Implicit Types (t : Table A) (a b : A) (i j : Id).

Lemma lookupDoc_Some t i a : lookupDoc t i = Some a <-> t !! i = Some (Some a).
Proof.
  unfold lookupDoc. destruct (t !! i) as [[x|]|]; cbn; split; intros [=]; by subst.
Qed.

Lemma lookupDoc_lt t i a : lookupDoc t i = Some a -> (i < length t)%nat.
Proof. intros Hl%lookupDoc_Some. by eapply lookup_lt_Some. Qed.

Lemma lookupDoc_set_eq t i (o : option A) :
  (i < length t)%nat -> lookupDoc (<[i := o]> t) i = o.
Proof. intros Hlt. unfold lookupDoc. by rewrite list_lookup_insert_eq. Qed.

Lemma lookupDoc_set_ne t i j (o : option A) :
  i <> j -> lookupDoc (<[i := o]> t) j = lookupDoc t j.
Proof. intros Hne. unfold lookupDoc. by rewrite list_lookup_insert_ne. Qed.

Lemma lookupDoc_app_old t j a :
  (j < length t)%nat -> lookupDoc (t ++ [Some a]) j = lookupDoc t j.
Proof. intros Hlt. unfold lookupDoc. by rewrite lookup_app_l. Qed.

Lemma lookupDoc_app_new t a : lookupDoc (t ++ [Some a]) (length t) = Some a.
Proof.
  unfold lookupDoc. rewrite lookup_app_r by lia. by rewrite Nat.sub_diag.
Qed.

Lemma lookupDoc_app_Some t j a b :
  lookupDoc (t ++ [Some a]) j = Some b ->
  lookupDoc t j = Some b \/ (j = length t /\ b = a).
Proof.
  intros Hl. destruct (decide (j < length t)%nat) as [Hlt|Hge].
  - left. by rewrite lookupDoc_app_old in Hl.
  - right. apply lookupDoc_Some in Hl.
    assert (j = length t) as ->.
    { apply lookup_lt_Some in Hl. rewrite length_app in Hl. cbn in Hl. lia. }
    rewrite lookup_app_r in Hl by lia. rewrite Nat.sub_diag in Hl.
    cbn in Hl. by injection Hl as ->.
Qed.

End StoreFacts.

(** ** The outbox dispatcher *)

Import Outbox.

Lemma retryDelayMs_small (a : Z) :
  0 <= a <= 10 -> retryDelayMs a = Z.min (2 ^ a * 1000) (30 * 60 * 1000).
Proof. intros Ha. unfold retryDelayMs. by rewrite (Z.min_l a 10) by lia. Qed.

(** The outbox table after one operation. *)
Lemma runOutboxOp_table (op : OutboxOp) (db : Db) :
  let t := analyticsOutbox db in
  let t' := analyticsOutbox (fst (runOutboxOp op db)) in
  match op with
  | OpEnqueue now name distinct props =>
      t' = t ++ [Some (mkOutbox name distinct props pending 0 now now None None)]
  | OpRecord now i success err =>
      match lookupDoc t i with
      | None => t' = t
      | Some r =>
          t' = <[i := Some
                  (if success
                   then mkOutbox (eventName r) (distinctId r) (properties r) sent
                          (attemptCount r + 1) (nextAttemptAt r) (ob_createdAt r)
                          (Some now) None
                   else mkOutbox (eventName r) (distinctId r) (properties r)
                          (if attemptCount r + 1 >=? 8 then failed else pending)
                          (attemptCount r + 1) (now + retryDelayMs (attemptCount r + 1))
                          (ob_createdAt r) (sentAt r) err)]> t
      end
  end.
Proof.
  destruct op as [now name distinct props | now i success err]; cbn.
  - reflexivity.
  - unfold mutation, recordOutboxDispatch, bind, Store.get, Store.patch. cbn.
    destruct (lookupDoc (analyticsOutbox db) i) as [r|] eqn:Hr; cbn; [|reflexivity].
    destruct success; cbn; rewrite Hr; reflexivity.
Qed.

Lemma runOutboxOp_inv (op : OutboxOp) (db : Db) :
  outboxInv (analyticsOutbox db) ->
  outboxInv (analyticsOutbox (fst (runOutboxOp op db))).
Proof.
  intros Hinv. pose proof (runOutboxOp_table op db) as Ht. cbn zeta in Ht.
  destruct op as [now name distinct props | now i success err].
  - rewrite Ht. intros j r [Hold | [-> ->]]%lookupDoc_app_Some; [by eapply Hinv|].
    cbn. split; [lia|]. intros _. lia.
  - destruct (lookupDoc (analyticsOutbox db) i) as [r0|] eqn:Hr0; rewrite Ht; [|done].
    destruct (Hinv i r0 Hr0) as [Hnn Hpend].
    intros j r Hj. destruct (decide (i = j)) as [<-|Hne].
    + rewrite lookupDoc_set_eq in Hj by (by eapply lookupDoc_lt).
      injection Hj as <-. destruct success; cbn; [split; [lia|done]|].
      split; [lia|]. destruct (Z.geb_spec (attemptCount r0 + 1) 8); [done|lia].
    + rewrite lookupDoc_set_ne in Hj by done. by eapply Hinv.
Qed.

Lemma runOutboxOps_inv (ops : list OutboxOp) (db : Db) :
  outboxInv (analyticsOutbox db) ->
  outboxInv (analyticsOutbox (runOutboxOps ops db)).
Proof.
  revert db. induction ops as [|op ops IH]; intros db Hinv; [done|].
  cbn. apply IH. by apply runOutboxOp_inv.
Qed.

(** A row that has failed eight times is never pending again. *)
Lemma runOutboxOps_dead (ops : list OutboxOp) (db : Db) (i : Id) (r : OutboxEvent) :
  lookupDoc (analyticsOutbox db) i = Some r ->
  8 <= attemptCount r ->
  exists r', lookupDoc (analyticsOutbox (runOutboxOps ops db)) i = Some r' /\
             8 <= attemptCount r' /\ ob_status r' <> pending \/
             lookupDoc (analyticsOutbox (runOutboxOps ops db)) i = Some r' /\ r' = r.
Proof.
  revert db r. induction ops as [|op ops IH]; intros db r Hr Hdead.
  { exists r. right. done. }
  cbn [runOutboxOps fold_left].
  pose proof (runOutboxOp_table op db) as Ht. cbn zeta in Ht.
  set (db1 := fst (runOutboxOp op db)) in *.
  assert (Hstep : exists r1, lookupDoc (analyticsOutbox db1) i = Some r1 /\
                    8 <= attemptCount r1 /\ (r1 = r \/ ob_status r1 <> pending)).
  { destruct op as [now name distinct props | now j success err].
    - exists r. rewrite Ht. split; [|split; [done|by left]].
      rewrite lookupDoc_app_old; [done|by eapply lookupDoc_lt].
    - destruct (lookupDoc (analyticsOutbox db) j) as [r0|] eqn:Hr0; rewrite Ht.
      2:{ exists r. split; [done|split; [done|by left]]. }
      destruct (decide (j = i)) as [->|Hne].
      + rewrite Hr in Hr0. injection Hr0 as <-.
        eexists. rewrite lookupDoc_set_eq by (by eapply lookupDoc_lt).
        split; [reflexivity|]. destruct success; cbn.
        * split; [lia|by right].
        * split; [lia|]. right.
          destruct (Z.geb_spec (attemptCount r + 1) 8); [done|lia].
      + exists r. rewrite lookupDoc_set_ne by done. split; [done|split; [done|by left]]. }
  destruct Hstep as (r1 & Hr1 & Hdead1 & Hcase).
  destruct (IH db1 r1 Hr1 Hdead1) as (r' & [(Hl & Hd & Hs) | (Hl & ->)]).
  - exists r'. left. done.
  - destruct Hcase as [-> | Hs].
    + exists r. right. done.
    + exists r1. left. done.
Qed.

(** C8.  For every pending row of an outbox that the code produced
    (by enqueueing events and recording dispatches, from an empty
    table), recording a delivery failure increments [attemptCount] by
    one, sets [nextAttemptAt] to [now] plus the smaller of
    [2 ^ attemptCount] seconds and thirty minutes ([attemptCount] being
    the incremented count), keeps the row pending exactly while the new
    count is below 8 and marks it failed exactly when the new count
    reaches 8; a failed row is never pending again. *)
Theorem recordOutboxDispatch_failure (db0 : Db) (ops : list OutboxOp)
    (now : Z) (i : Id) (err : option string) (row : OutboxEvent) :
  analyticsOutbox db0 = [] ->
  lookupDoc (analyticsOutbox (runOutboxOps ops db0)) i = Some row ->
  ob_status row = pending ->
  exists db' row',
    mutation (recordOutboxDispatch now i false err) (runOutboxOps ops db0) = (db', inr tt) /\
    lookupDoc (analyticsOutbox db') i = Some row' /\
    attemptCount row' = attemptCount row + 1 /\
    nextAttemptAt row' = now + Z.min (2 ^ attemptCount row' * 1000) (30 * 60 * 1000) /\
    (ob_status row' = pending <-> attemptCount row' < 8) /\
    (ob_status row' = failed <-> 8 <= attemptCount row') /\
    (ob_status row' = failed ->
     forall later r,
       lookupDoc (analyticsOutbox (runOutboxOps later db')) i = Some r ->
       ob_status r <> pending).
Proof.
  intros Hempty Hrow Hpending.
  set (db := runOutboxOps ops db0) in *.
  assert (Hinv : outboxInv (analyticsOutbox db)).
  { apply runOutboxOps_inv. rewrite Hempty. intros j r Hj.
    unfold lookupDoc in Hj. by rewrite lookup_nil in Hj. }
  destruct (Hinv i row Hrow) as [Hnn Hlt]. specialize (Hlt Hpending).
  pose proof (runOutboxOp_table (OpRecord now i false err) db) as Ht.
  cbv beta iota zeta in Ht. rewrite Hrow in Ht.
  destruct (mutation (recordOutboxDispatch now i false err) db) as [db' res] eqn:Hrun.
  change (runOutboxOp (OpRecord now i false err) db) with
    (mutation (recordOutboxDispatch now i false err) db) in Ht.
  rewrite Hrun in Ht. cbn [fst] in Ht.
  assert (res = inr tt) as ->.
  { revert Hrun. unfold mutation, recordOutboxDispatch, bind, Store.get, Store.patch.
    cbn. rewrite Hrow. cbn. rewrite Hrow. by intros [= _ <-]. }
  eexists db', _. split; [reflexivity|].
  rewrite Ht. rewrite lookupDoc_set_eq by (by eapply lookupDoc_lt).
  split; [reflexivity|]. cbn [attemptCount nextAttemptAt ob_status].
  split; [reflexivity|].
  split; [by rewrite retryDelayMs_small by lia|].
  destruct (Z.geb_spec (attemptCount row + 1) 8) as [Hge|Hlt'].
  - split; [split; [done|lia]|]. split; [done|].
    intros _ later r Hr.
    edestruct (runOutboxOps_dead later db' i) as (r' & [(Hl & _ & Hs) | (Hl & ->)]).
    + rewrite Ht. by apply lookupDoc_set_eq, (lookupDoc_lt _ _ row).
    + cbn. lia.
    + rewrite Hl in Hr. by injection Hr as <-.
    + rewrite Hl in Hr. injection Hr as <-. cbn.
      destruct (Z.geb_spec (attemptCount row + 1) 8); [done|lia].
  - split; [done|]. split; [split; [done|lia]|done].
Qed.

Lemma recordOutboxDispatch_failure_witness :
  exists db' row',
    mutation (recordOutboxDispatch 5000 0%nat false (Some "HTTP 500"))
      (runOutboxOps [OpEnqueue 1000 "survey_submitted" "s-1" []] emptyDb) = (db', inr tt) /\
    lookupDoc (analyticsOutbox db') 0%nat = Some row' /\
    attemptCount row' = 1 /\
    nextAttemptAt row' = 5000 + 2000 /\
    ob_status row' = pending.
Proof.
  destruct (recordOutboxDispatch_failure emptyDb
              [OpEnqueue 1000 "survey_submitted" "s-1" []] 5000 0%nat (Some "HTTP 500")
              (mkOutbox "survey_submitted" "s-1" [] pending 0 1000 1000 None None)
              eq_refl eq_refl eq_refl)
    as (db' & row' & Hrun & Hrow & Hcount & Hnext & Hpend & _).
  exists db', row'. rewrite Hnext, Hcount. cbn in *.
  repeat split; try done. apply Hpend. lia.
Defined.

(** ** Ordered maps and sorting *)

Section OMapFacts.
Context {V : Type}.
Implicit Types (m : list (string * V)) (k : string) (v : V).

Lemma omap_get_set_eq m k v : OMap.get k (OMap.set k v m) = Some v.
Proof.
  induction m as [|[k' v'] m IH]; cbn.
  - by rewrite String.eqb_refl.
  - destruct (String.eqb_spec k k') as [->|Hne]; cbn.
    + by rewrite String.eqb_refl.
    + by destruct (String.eqb_spec k k').
Qed.

Lemma omap_get_set_ne m k k' v : k <> k' -> OMap.get k' (OMap.set k v m) = OMap.get k' m.
Proof.
  intros Hne. induction m as [|[k0 v0] m IH]; cbn.
  - destruct (String.eqb_spec k' k); [congruence|done].
  - destruct (String.eqb_spec k k0) as [->|Hne0]; cbn.
    + destruct (String.eqb_spec k' k0); [congruence|done].
    + destruct (String.eqb_spec k' k0); [done|apply IH].
Qed.

Lemma omap_get_In m k v : OMap.get k m = Some v -> In (k, v) m.
Proof.
  induction m as [|[k' v'] m IH]; cbn; [done|].
  destruct (String.eqb_spec k k') as [->|Hne].
  - intros [= ->]. by left.
  - intros Hg. right. by apply IH.
Qed.

Lemma omap_get_None m k : OMap.get k m = None <-> ~ In k (OMap.keys m).
Proof.
  induction m as [|[k' v'] m IH]; cbn; [tauto|].
  destruct (String.eqb_spec k k') as [->|Hne].
  - split; [done|]. intros Hn. destruct Hn. by left.
  - rewrite IH. split; [intros Hn [Heq|Hin]; [congruence|done] | tauto].
Qed.

Lemma omap_keys_set m k v :
  OMap.keys (OMap.set k v m) = if OMap.has k m then OMap.keys m else OMap.keys m ++ [k].
Proof.
  unfold OMap.has, OMap.keys. induction m as [|[k' v'] m IH]; cbn; [done|].
  destruct (String.eqb_spec k k') as [->|Hne]; cbn; [done|].
  rewrite IH. by destruct (OMap.get k m).
Qed.

Lemma omap_NoDup_set m k v : NoDup (OMap.keys m) -> NoDup (OMap.keys (OMap.set k v m)).
Proof.
  intros Hnd. rewrite omap_keys_set. unfold OMap.has.
  destruct (OMap.get k m) eqn:Hg; [done|].
  apply list.NoDup_app. split; [done|]. split.
  - intros x Hx ->%list_elem_of_singleton. apply omap_get_None in Hg.
    apply Hg. by apply list_elem_of_In.
  - apply NoDup_singleton.
Qed.

End OMapFacts.

Lemma insertBy_Permutation {A} (cmp : A -> A -> Z) (x : A) (l : list A) :
  insertBy cmp x l ≡ₚ x :: l.
Proof.
  induction l as [|y l IH]; cbn; [done|].
  destruct (0 <? cmp x y); [|done]. rewrite IH. apply Permutation_swap.
Qed.

Lemma sortBy_Permutation {A} (cmp : A -> A -> Z) (l : list A) : sortBy cmp l ≡ₚ l.
Proof.
  induction l as [|x l IH]; cbn; [done|].
  unfold sortBy in *. cbn. rewrite insertBy_Permutation. by rewrite IH.
Qed.

(** ** The reach computation of the daily rebuild *)

Import Utils Materialization.

Lemma maxReachedOrder_fold (fs : list Field) (ans : Answers) (x : Z) : forall init,
  x <= fold_left (fun maxReachedOrder field =>
                    if isAnswerPresent (ans !! id field)
                    then Z.max maxReachedOrder (order field)
                    else maxReachedOrder) fs init <->
  x <= init \/ exists g, g ∈ fs /\ isAnswerPresent (ans !! id g) = true /\ x <= order g.
Proof.
  induction fs as [|f fs IH]; intros init; cbn [fold_left].
  - split; [by left|]. intros [Hx | (g & Hg & _)]; [done|]. by apply elem_of_nil in Hg.
  - rewrite IH. split.
    + intros [Hx | (g & Hg & Hp & Hx)].
      * destruct (isAnswerPresent (ans !! id f)) eqn:Hp; [|by left].
        destruct (Z.max_spec init (order f)) as [[_ Hm] | [_ Hm]]; rewrite Hm in Hx.
        -- right. exists f. split; [apply list_elem_of_here | done].
        -- by left.
      * right. exists g. split; [by apply list_elem_of_further | done].
    + intros [Hx | (g & Hg & Hp & Hx)].
      * left. destruct (isAnswerPresent (ans !! id f)); lia.
      * apply elem_of_cons in Hg as [-> | Hg].
        -- left. rewrite Hp. lia.
        -- right. by exists g.
Qed.

(** A response that answers only the first field leaves the second
    field unreached, although a field at or before the second one has
    a present answer. *)
Lemma fieldReached_counterexample :
  let version := mkVersion 0%nat 1 [Samples.q0; Samples.q1] in
  let ans : Answers := {[ "q0" := AStr "yes" ]} in
  let fs := sortBy (fun a b => order a - order b) (fields version) in
  (exists g, g ∈ fields version /\ order g <= order Samples.q1 /\
             isAnswerPresent (ans !! id g) = true) /\
  fieldReached fs ans Samples.q1 = false /\
  reachedCountOf
    (fold_left (fun aggs field =>
                  aggregateField (fmt := Samples.decimalFormat) ans
                    (fieldReached fs ans field) aggs field)
               fs []) "q1" = 0.
Proof.
  cbn zeta. split; [|split; reflexivity].
  exists Samples.q0. split; [apply list_elem_of_here|]. split; [done|reflexivity].
Qed.

Section Reach.
Context `{fmt : NumberFormat}.

(** C2 (amended).  In the daily rebuild, for every response and every
    field, the field is counted as reached exactly when its order is at
    most the largest order among the fields of the response's version
    that have a present answer, the largest order being [0] when no
    field is answered: a field is reached when its order is not
    positive or when some field at or after its order position has a
    present answer.  The aggregate's reached counter grows by one
    exactly in that case. *)
Theorem fieldReached_spec (version : SurveyVersion) (ans : Answers) (f : Field)
    (aggregates : list (string * FieldAggregate)) :
  let fs := sortBy (fun a b => order a - order b) (fields version) in
  (fieldReached fs ans f = true <->
   order f <= 0 \/
   exists g, g ∈ fields version /\ isAnswerPresent (ans !! id g) = true /\
             order f <= order g) /\
  reachedCountOf (aggregateField ans (fieldReached fs ans f) aggregates f) (id f) =
  reachedCountOf aggregates (id f) + (if fieldReached fs ans f then 1 else 0).
Proof.
  cbn zeta. split.
  - unfold fieldReached, maxReachedOrderOf. rewrite Z.leb_le, maxReachedOrder_fold.
    split; (intros [Hx | (g & Hg & Hp)]; [by left | right; exists g; split; [|done]]).
    + by rewrite <- (sortBy_Permutation (fun a b => order a - order b)).
    + by rewrite (sortBy_Permutation (fun a b => order a - order b)).
  - set (reached := fieldReached _ ans f). clearbody reached.
    unfold aggregateField, getOrCreateFieldAggregate, reachedCountOf.
    destruct (OMap.get (id f) aggregates) as [a|] eqn:Hget; cbn.
    + destruct (isAnswerPresent (ans !! id f)); cbn; rewrite omap_get_set_eq; cbn;
        destruct reached; lia.
    + destruct (isAnswerPresent (ans !! id f)); cbn; rewrite omap_get_set_eq; cbn;
        destruct reached; lia.
Qed.

End Reach.

(** ** Tables as lists of slots *)

Section TableFacts.
Context {A : Type}.
Implicit Types (t : Table A) (a b : A) (i j n : nat).

Lemma docsFrom_spec t n i a :
  (i, a) ∈ docsFrom n t <-> (n <= i)%nat /\ t !! (i - n)%nat = Some (Some a).
Proof.
  revert n. induction t as [|[x|] t IH]; intros n; cbn [docsFrom].
  - rewrite elem_of_nil. split; [done|]. intros [_ Hl]. by rewrite lookup_nil in Hl.
  - rewrite elem_of_cons, IH. split.
    + intros [[= -> ->] | [Hle Hl]].
      * split; [lia|]. by rewrite Nat.sub_diag.
      * split; [lia|]. by replace (i - n)%nat with (S (i - S n)) by lia.
    + intros [Hle Hl]. destruct (decide (i = n)) as [->|Hne].
      * left. rewrite Nat.sub_diag in Hl. cbn in Hl. congruence.
      * right. split; [lia|]. by replace (i - n)%nat with (S (i - S n)) in Hl by lia.
  - rewrite IH. split.
    + intros [Hle Hl]. split; [lia|]. by replace (i - n)%nat with (S (i - S n)) by lia.
    + intros [Hle Hl]. destruct (decide (i = n)) as [->|Hne].
      * rewrite Nat.sub_diag in Hl. cbn in Hl. congruence.
      * split; [lia|]. by replace (i - n)%nat with (S (i - S n)) in Hl by lia.
Qed.

Lemma docs_spec t i a : (i, a) ∈ docs t <-> lookupDoc t i = Some a.
Proof.
  unfold docs. rewrite docsFrom_spec, Nat.sub_0_r, lookupDoc_Some.
  split; [by intros [_ ?] | intros ?; split; [lia|done]].
Qed.

Lemma docsFrom_fst_lt t n d : d ∈ docsFrom n t -> (n <= fst d)%nat.
Proof. destruct d as [i a]. rewrite docsFrom_spec. by intros [? _]. Qed.

Lemma docsFrom_NoDup t n : NoDup (map fst (docsFrom n t)).
Proof.
  revert n. induction t as [|[x|] t IH]; intros n; cbn [docsFrom map].
  - constructor.
  - constructor; [|apply IH].
    intros (d & Heq & Hd)%list_elem_of_fmap. apply docsFrom_fst_lt in Hd. cbn in *. lia.
  - apply IH.
Qed.

Lemma docs_NoDup t : NoDup (map fst (docs t)).
Proof. apply docsFrom_NoDup. Qed.

Lemma docsFrom_snd t n : map snd (docsFrom n t) = liveRows t.
Proof.
  revert n. induction t as [|[x|] t IH]; intros n; cbn; [done| |]; by rewrite IH.
Qed.

Lemma liveRows_app t1 t2 : liveRows (t1 ++ t2) = liveRows t1 ++ liveRows t2.
Proof. apply omap_app. Qed.

Lemma liveRows_set t i (o : option A) :
  (i < length t)%nat ->
  liveRows (<[i := o]> t) =
  liveRows (take i t) ++ from_option (fun a => [a]) [] o ++ liveRows (drop (S i) t).
Proof.
  intros Hlt. rewrite insert_take_drop by done. rewrite liveRows_app. f_equal.
  by destruct o.
Qed.

Lemma rowsWhere_app (p : A -> bool) t1 t2 :
  rowsWhere p (t1 ++ t2) = rowsWhere p t1 ++ rowsWhere p t2.
Proof. unfold rowsWhere. by rewrite liveRows_app, list.filter_app. Qed.

Lemma rowsWhere_one (p : A -> bool) a :
  rowsWhere p [Some a] = if p a then [a] else [].
Proof.
  unfold rowsWhere, liveRows. cbn [omap]. unfold filter. cbn.
  destruct (p a); cbn; [by rewrite decide_True|by rewrite decide_False].
Qed.

Lemma rowsWhere_set_Some (p : A -> bool) t i a :
  (i < length t)%nat -> p a = true ->
  rowsWhere p (<[i := Some a]> t) ≡ₚ a :: rowsWhere p (<[i := None]> t).
Proof.
  intros Hlt Hp. unfold rowsWhere. rewrite !liveRows_set by done. cbn.
  rewrite !list.filter_app, filter_cons_True by done.
  by rewrite Permutation_middle.
Qed.

Lemma liveRows_middle t i (o : option A) :
  t !! i = Some o ->
  liveRows t =
  liveRows (take i t) ++ from_option (fun a => [a]) [] o ++ liveRows (drop (S i) t).
Proof.
  intros Hl. rewrite <- (take_drop_middle t i o) at 1 by done.
  rewrite liveRows_app. f_equal. by destruct o.
Qed.

Lemma rowsWhere_set_other (p : A -> bool) t i a (o : option A) :
  lookupDoc t i = Some a -> p a = false ->
  from_option p false o = false ->
  rowsWhere p (<[i := o]> t) = rowsWhere p t.
Proof.
  intros Hl Hp Ho. apply lookupDoc_Some in Hl.
  assert (Hlt : (i < length t)%nat) by (by eapply lookup_lt_Some).
  unfold rowsWhere. rewrite liveRows_set by done.
  rewrite (liveRows_middle t i (Some a)) by done. cbn [from_option].
  rewrite !list.filter_app. f_equal. f_equal.
  destruct o as [b|]; cbn [from_option] in *.
  - rewrite (filter_cons_False _ b) by (by rewrite Ho).
    by rewrite (filter_cons_False _ a) by (by rewrite Hp).
  - by rewrite (filter_cons_False _ a) by (by rewrite Hp).
Qed.

Lemma rowsWhere_set_same (p q : A -> bool) t i a (o : option A) :
  lookupDoc t i = Some a -> q a = false ->
  from_option q false o = false ->
  rowsWhere q (<[i := o]> t) = rowsWhere q t.
Proof. apply rowsWhere_set_other. Qed.

Lemma liveRows_partition (p : A -> bool) t :
  liveRows t ≡ₚ rowsWhere p t ++ rowsWhere (fun r => negb (p r)) t.
Proof.
  unfold rowsWhere. rewrite <- (filter_app_complement (fun r => p r = true) (liveRows t)) at 1.
  rewrite (list_filter_iff (fun x => p x <> true) (fun r => negb (p r) = true)); [done|].
  intros r. destruct (p r); cbn; split; congruence.
Qed.

Lemma erase_lookup (ids : list Id) t j :
  erase ids t !! j = (fun o => if bool_decide (j ∈ ids) then None else o) <$> t !! j.
Proof. unfold erase. by rewrite list_lookup_imap. Qed.

Lemma erase_length (ids : list Id) t : length (erase ids t) = length t.
Proof. unfold erase. by rewrite length_imap. Qed.

Lemma erase_nil t : erase [] t = t.
Proof.
  apply list_eq. intros j. rewrite erase_lookup.
  destruct (t !! j); cbn; [|done]. by rewrite bool_decide_eq_false_2 by apply not_elem_of_nil.
Qed.

Lemma erase_cons (ids : list Id) t i :
  erase (i :: ids) t = <[i := None]> (erase ids t).
Proof.
  apply list_eq. intros j. rewrite erase_lookup.
  destruct (decide (i = j)) as [<-|Hne].
  - destruct (decide (i < length t)%nat) as [Hlt|Hge].
    + rewrite list_lookup_insert_eq by (by rewrite erase_length).
      destruct (lookup_lt_is_Some_2 t i Hlt) as [o ->]. cbn.
      by rewrite bool_decide_eq_true_2 by apply list_elem_of_here.
    + rewrite list_insert_ge by (rewrite erase_length; lia).
      rewrite erase_lookup. by rewrite (lookup_ge_None_2 t i) by lia.
  - rewrite list_lookup_insert_ne by done. rewrite erase_lookup.
    destruct (t !! j); cbn; [|done].
    destruct (decide (j ∈ ids)) as [Hin|Hnin].
    + rewrite (bool_decide_eq_true_2 (j ∈ i :: ids)) by (by apply list_elem_of_further).
      by rewrite bool_decide_eq_true_2.
    + rewrite (bool_decide_eq_false_2 (j ∈ i :: ids))
        by (rewrite elem_of_cons; intros [?|?]; congruence).
      by rewrite bool_decide_eq_false_2.
Qed.

Lemma erase_ext (ids1 ids2 : list Id) t :
  (forall j, j ∈ ids1 <-> j ∈ ids2) -> erase ids1 t = erase ids2 t.
Proof.
  intros Hext. apply list_eq. intros j. rewrite !erase_lookup.
  destruct (t !! j); cbn; [|done]. f_equal.
  destruct (decide (j ∈ ids1)) as [Hin|Hnin].
  - rewrite (bool_decide_eq_true_2 (j ∈ ids1)) by done.
    by rewrite bool_decide_eq_true_2 by (by apply Hext).
  - rewrite (bool_decide_eq_false_2 (j ∈ ids1)) by done.
    by rewrite bool_decide_eq_false_2 by (by rewrite <- Hext).
Qed.

Lemma erase_set_in (ids : list Id) t i (o : option A) :
  i ∈ ids -> erase ids (<[i := o]> t) = erase ids t.
Proof.
  intros Hin. apply list_eq. intros j. rewrite !erase_lookup.
  destruct (decide (i = j)) as [<-|Hne].
  - destruct (decide (i < length t)%nat) as [Hlt|Hge].
    + rewrite list_lookup_insert_eq by done.
      destruct (lookup_lt_is_Some_2 t i Hlt) as [o' ->]. cbn.
      by rewrite bool_decide_eq_true_2.
    + by rewrite list_insert_ge by lia.
  - by rewrite list_lookup_insert_ne.
Qed.

Lemma erase_set_notin (ids : list Id) t i (o : option A) :
  i ∉ ids -> erase ids (<[i := o]> t) = <[i := o]> (erase ids t).
Proof.
  intros Hnin. apply list_eq. intros j. rewrite erase_lookup.
  destruct (decide (i = j)) as [<-|Hne].
  - destruct (decide (i < length t)%nat) as [Hlt|Hge].
    + rewrite !list_lookup_insert_eq by (by rewrite ?erase_length). cbn.
      by rewrite bool_decide_eq_false_2.
    + rewrite !list_insert_ge by (rewrite ?erase_length; lia). by rewrite erase_lookup.
  - rewrite !list_lookup_insert_ne by done. by rewrite erase_lookup.
Qed.

Lemma erase_app (ids : list Id) t1 t2 :
  (forall j, j ∈ ids -> (j < length t1)%nat) ->
  erase ids (t1 ++ t2) = erase ids t1 ++ t2.
Proof.
  intros Hlt. apply list_eq. intros j. rewrite erase_lookup.
  destruct (decide (j < length t1)%nat) as [Hj|Hj].
  - rewrite !lookup_app_l by (by rewrite ?erase_length). by rewrite erase_lookup.
  - rewrite !lookup_app_r by (rewrite ?erase_length; lia). rewrite erase_length.
    destruct (t2 !! (j - length t1)%nat); cbn; [|done].
    rewrite bool_decide_eq_false_2; [done|]. intros Hin. apply Hlt in Hin. lia.
Qed.

(** Erasing every document that satisfies [p] leaves no row of [p]. *)
Lemma rowsWhere_erase_all (p : A -> bool) (ids : list Id) t :
  (forall j a, lookupDoc t j = Some a -> p a = true -> j ∈ ids) ->
  rowsWhere p (erase ids t) = [].
Proof.
  intros Hall. unfold rowsWhere.
  destruct (filter _ (liveRows (erase ids t))) as [|a rest] eqn:Hf; [done|]. exfalso.
  assert (Hin : a ∈ filter (fun r => p r = true) (liveRows (erase ids t)))
    by (rewrite Hf; apply list_elem_of_here).
  apply list_elem_of_filter in Hin as [Hp Ha]. clear Hf rest.
  unfold liveRows in Ha. apply list_elem_of_omap in Ha as (o & Ho & Hid).
  cbn in Hid. subst o. apply list_elem_of_lookup in Ho as [j Hj].
  rewrite erase_lookup in Hj. destruct (t !! j) as [o|] eqn:Htj; [|done].
  cbn in Hj. destruct (decide (j ∈ ids)) as [Hin|Hnin].
  - by rewrite bool_decide_eq_true_2 in Hj.
  - rewrite bool_decide_eq_false_2 in Hj by done. injection Hj as ->.
    apply Hnin, (Hall j a); [|done]. by apply lookupDoc_Some.
Qed.

Lemma rowsWhere_erase_none (p : A -> bool) (ids : list Id) t :
  (forall j a, j ∈ ids -> lookupDoc t j = Some a -> p a = false) ->
  rowsWhere p (erase ids t) = rowsWhere p t.
Proof.
  intros Hnone. induction ids as [|i ids IH]; [by rewrite erase_nil|].
  rewrite erase_cons.
  assert (IH' : rowsWhere p (erase ids t) = rowsWhere p t).
  { apply IH. intros j a Hj. apply Hnone. by apply list_elem_of_further. }
  rewrite <- IH'.
  destruct (erase ids t !! i) as [[a|]|] eqn:Hi.
  - apply (rowsWhere_set_other p _ i a None); [by apply lookupDoc_Some| |done].
    rewrite erase_lookup in Hi. destruct (t !! i) as [o|] eqn:Hti; [|done]. cbn in Hi.
    destruct (bool_decide (i ∈ ids)); [done|]. injection Hi as ->.
    apply (Hnone i a); [apply list_elem_of_here|by apply lookupDoc_Some].
  - by rewrite list_insert_id.
  - by rewrite list_insert_ge by (by apply lookup_ge_None).
Qed.

End TableFacts.

(** ** Handlers against one table *)

Lemma bind_inr {A B} (c : M A) (k : A -> M B) (db db2 : Db) (b : B) :
  bind c k db = (db2, inr b) ->
  exists db1 a, c db = (db1, inr a) /\ k a db1 = (db2, inr b).
Proof.
  unfold bind. destruct (c db) as [db1 [e|a]]; [intros [=]|]. intros Hk. by exists db1, a.
Qed.

Lemma bind_run {A B} (c : M A) (k : A -> M B) (db db1 : Db) (a : A) :
  c db = (db1, inr a) -> bind c k db = k a db1.
Proof. unfold bind. by intros ->. Qed.

Section OMapDelete.
Context {V : Type}.
Implicit Types (m : list (string * V)) (k : string) (v : V).

Lemma omap_set_fresh m k v : OMap.get k m = None -> OMap.set k v m = m ++ [(k, v)].
Proof.
  induction m as [|[k' v'] m IH]; cbn; [done|].
  destruct (String.eqb_spec k k'); [done|]. intros Hg. by rewrite IH.
Qed.

Lemma omap_delete_Permutation m k v :
  OMap.get k m = Some v -> m ≡ₚ (k, v) :: OMap.delete k m.
Proof.
  induction m as [|[k' v'] m IH]; cbn; [done|].
  destruct (String.eqb_spec k k') as [->|Hne].
  - by intros [= ->].
  - intros Hg. rewrite (IH Hg) at 1. apply Permutation_swap.
Qed.

Lemma omap_delete_other m k (e : string * V) :
  e ∈ m -> fst e <> k -> e ∈ OMap.delete k m.
Proof.
  induction m as [|[k' v'] m IH]; cbn; [done|].
  intros [->|He]%elem_of_cons Hne.
  - cbn in Hne. destruct (String.eqb_spec k k'); [congruence|apply list_elem_of_here].
  - destruct (String.eqb_spec k k'); [done|]. by apply list_elem_of_further, IH.
Qed.

End OMapDelete.

Lemma filter_docs_NoDup {A} (p : Doc A -> bool) (l : list (Doc A)) :
  NoDup (map fst l) -> NoDup (map fst (List.filter p l)).
Proof.
  induction l as [|d l IH]; cbn; [done|].
  rewrite list.NoDup_cons. intros [Hd Hl]. destruct (p d); cbn; [|by apply IH].
  apply list.NoDup_cons. split; [|by apply IH].
  intros (d' & Heq & Hin)%list_elem_of_fmap. apply Hd. apply list_elem_of_fmap.
  exists d'. split; [done|]. apply list_elem_of_In. apply list_elem_of_In in Hin.
  by apply List.filter_In in Hin as [? _].
Qed.

Section OneTable.
Context {R : Type} (t : TableRef R) `{!LensLaws t}.
Implicit Types (T : Table R) (db : Db).

Lemma delete_run T db i a :
  lookupDoc T i = Some a ->
  Store.delete t i (tset t T db) = (tset t (<[i := None]> T) db, inr tt).
Proof.
  intros Hl. unfold Store.delete. rewrite tget_tset, Hl. by rewrite tset_tset.
Qed.

Lemma patch_run T db i a (f : R -> R) :
  lookupDoc T i = Some a ->
  Store.patch t i f (tset t T db) = (tset t (<[i := Some (f a)]> T) db, inr tt).
Proof.
  intros Hl. unfold Store.patch. rewrite tget_tset, Hl. by rewrite tset_tset.
Qed.

Lemma insert_run T db a :
  Store.insert t a (tset t T db) = (tset t (T ++ [Some a]) db, inr (length T)).
Proof. unfold Store.insert. by rewrite tget_tset, tset_tset. Qed.

Lemma collect_run T db (p : R -> bool) :
  Store.collect t p (tset t T db) =
  (tset t T db, inr (List.filter (fun d => p (snd d)) (docs T))).
Proof. unfold Store.collect. by rewrite tget_tset. Qed.

Lemma collect_spec T (p : R -> bool) (d : Doc R) :
  d ∈ List.filter (fun d => p (snd d)) (docs T) <->
  lookupDoc T (fst d) = Some (snd d) /\ p (snd d) = true.
Proof.
  rewrite list_elem_of_In, List.filter_In, <- list_elem_of_In.
  destruct d as [i a]. by rewrite docs_spec.
Qed.

(** Deleting a list of distinct live documents. *)
Lemma deleteAll_run (ds : list (Doc R)) : forall T db,
  NoDup (map fst ds) ->
  (forall d, d ∈ ds -> is_Some (lookupDoc T (fst d))) ->
  forEach (fun _ d => Store.delete t (fst d)) ds tt (tset t T db) =
  (tset t (erase (map fst ds) T) db, inr tt).
Proof.
  induction ds as [|d ds IH]; intros T db Hnd Hlive; cbn [forEach map].
  - by rewrite erase_nil.
  - apply list.NoDup_cons in Hnd as [Hd Hnd].
    destruct (Hlive d) as [a Ha]; [apply list_elem_of_here|].
    rewrite (bind_run _ _ _ _ _ (delete_run T db (fst d) a Ha)).
    rewrite IH; [|done|].
    + by rewrite erase_set_notin, erase_cons.
    + intros d' Hd'. rewrite lookupDoc_set_ne; [apply Hlive; by apply list_elem_of_further|].
      intros Heq. apply Hd. apply list_elem_of_fmap. by exists d'.
Qed.

Section SyncRows.
Context {F : Type} (ofDay : R -> bool) (keyOfDoc : R -> string)
        (keyOfRow : F -> string) (payload : F -> R).
Context (payload_ofDay : forall row, ofDay (payload row) = true).

(** The first loop of [syncRows]: repeated keys are deleted, the other
    rows are indexed. *)
Lemma indexExisting_run (rest : list (Doc R)) : forall byKey T db,
  NoDup (map fst rest) ->
  (forall d, d ∈ rest -> lookupDoc T (fst d) = Some (snd d)) ->
  exists byKey' D,
    forEach (indexExisting t keyOfDoc) rest byKey (tset t T db) =
      (tset t (erase D T) db, inr byKey') /\
    (forall j, j ∈ D -> j ∈ map fst rest) /\
    (forall e, e ∈ byKey' ->
       e ∈ byKey \/
       (snd e ∈ rest /\ (fst (snd e) ∉ D) /\ fst e = keyOfDoc (snd (snd e)))) /\
    (forall e, e ∈ byKey -> e ∈ byKey') /\
    (forall d, d ∈ rest -> fst d ∈ D \/ fst d ∈ idsOf byKey') /\
    (NoDup (OMap.keys byKey) -> NoDup (OMap.keys byKey')) /\
    (NoDup (idsOf byKey) -> (forall j, j ∈ idsOf byKey -> j ∉ map fst rest) ->
     NoDup (idsOf byKey')).
Proof.
  induction rest as [|d rest IH]; intros byKey T db Hnd Hlive.
  { exists byKey, []. cbn. rewrite erase_nil. split; [done|].
    split; [intros j Hj; by apply elem_of_nil in Hj|].
    split; [intros e He; by left|]. split; [done|].
    split; [intros d Hd; by apply elem_of_nil in Hd|]. done. }
  apply list.NoDup_cons in Hnd as [Hd Hnd]. cbn [forEach map].
  assert (Hlive' : forall o d', d' ∈ rest ->
            lookupDoc (<[fst d := o]> T) (fst d') = Some (snd d')).
  { intros o d' Hd'. rewrite lookupDoc_set_ne; [apply Hlive; by apply list_elem_of_further|].
    intros Heq. apply Hd. apply list_elem_of_fmap. by exists d'. }
  unfold indexExisting at 1. unfold OMap.has.
  destruct (OMap.get (keyOfDoc (snd d)) byKey) as [old|] eqn:Hget.
  - (* a repeated key: the document is deleted *)
    rewrite (bind_run _ _ _ (tset t (<[fst d := None]> T) db) byKey).
    2:{ unfold bind. rewrite (delete_run T db (fst d) (snd d)); [done|].
        apply Hlive, list_elem_of_here. }
    destruct (IH byKey (<[fst d := None]> T) db Hnd (Hlive' None))
      as (byKey' & D & Hrun & HD & Hnew & Hold & Hcov & Hkeys & Hids).
    exists byKey', (fst d :: D). rewrite Hrun.
    split.
    { rewrite erase_set_notin, erase_cons; [done|]. intros Hin. by apply Hd, HD. }
    split.
    { intros j [->|Hj]%elem_of_cons; [apply list_elem_of_here|].
      by apply list_elem_of_further, HD. }
    split.
    { intros e He. destruct (Hnew e He) as [?|(Hin & Hnot & Hkey)]; [by left|right].
      split; [by apply list_elem_of_further|]. split; [|done].
      intros [Heq|?]%elem_of_cons; [|done]. apply Hd. apply list_elem_of_fmap.
      by exists (snd e). }
    split; [done|]. split.
    { intros d' [->|Hd']%elem_of_cons; [left; apply list_elem_of_here|].
      destruct (Hcov d' Hd') as [?|?]; [left; by apply list_elem_of_further|by right]. }
    split; [done|].
    intros Hnd0 Hdisj. apply Hids; [done|]. intros j Hj Hin.
    apply (Hdisj j Hj). by apply list_elem_of_further.
  - (* a new key: the document is indexed *)
    rewrite (bind_run _ _ _ (tset t T db) (OMap.set (keyOfDoc (snd d)) d byKey)) by done.
    destruct (IH (OMap.set (keyOfDoc (snd d)) d byKey) T db Hnd)
      as (byKey' & D & Hrun & HD & Hnew & Hold & Hcov & Hkeys & Hids).
    { intros d' Hd'. apply Hlive. by apply list_elem_of_further. }
    rewrite omap_set_fresh in * by done.
    exists byKey', D. rewrite Hrun. split; [done|]. split.
    { intros j Hj. by apply list_elem_of_further, HD. }
    split.
    { intros e He.
      destruct (Hnew e He) as [[?| ->%list_elem_of_singleton]%elem_of_app|(Hin & Hnot & Hkey)].
      - by left.
      - right. cbn. split; [apply list_elem_of_here|]. split; [|done].
        intros Hin. by apply Hd, HD.
      - right. split; [by apply list_elem_of_further|done]. }
    split.
    { intros e He. apply Hold, elem_of_app. by left. }
    split.
    { intros d' [Heq|Hd']%elem_of_cons; [subst d'|by apply Hcov].
      right. apply list_elem_of_fmap. exists (keyOfDoc (snd d), d). split; [done|].
      apply Hold, elem_of_app. right. apply list_elem_of_here. }
    split.
    { intros Hnd0. apply Hkeys. unfold OMap.keys. rewrite map_app. cbn.
      apply list.NoDup_app. split; [done|]. split; [|apply NoDup_singleton].
      intros k Hk ->%list_elem_of_singleton. apply omap_get_None in Hget.
      apply Hget. by apply list_elem_of_In. }
    intros Hnd0 Hdisj. apply Hids.
    + unfold idsOf. rewrite map_app. cbn. apply list.NoDup_app.
      split; [done|]. split; [|apply NoDup_singleton].
      intros j Hj ->%list_elem_of_singleton. apply (Hdisj _ Hj), list_elem_of_here.
    + unfold idsOf. rewrite map_app. cbn.
      intros j [Hj| ->%list_elem_of_singleton]%elem_of_app Hin; [|done].
      apply (Hdisj j Hj). by apply list_elem_of_further.
Qed.

(** The second loop of [syncRows]: every fresh row is written once. *)
Lemma writeRow_run (rows : list F) : forall byKey T db,
  NoDup (idsOf byKey) -> indexLive ofDay byKey T ->
  exists byKey' T',
    forEach (writeRow t keyOfRow payload) rows byKey (tset t T db) =
      (tset t T' db, inr byKey') /\
    NoDup (idsOf byKey') /\ indexLive ofDay byKey' T' /\
    rowsWhere ofDay (erase (idsOf byKey') T') ≡ₚ
      (rowsWhere ofDay (erase (idsOf byKey) T) ++ map payload rows) /\
    rowsWhere (fun r => negb (ofDay r)) T' = rowsWhere (fun r => negb (ofDay r)) T /\
    (forall e, e ∈ byKey -> fst e ∉ map keyOfRow rows -> e ∈ byKey') /\
    (forall j, (j < length T)%nat -> j ∉ idsOf byKey -> T' !! j = T !! j).
Proof.
  induction rows as [|row rows IH]; intros byKey T db Hnd Hlive.
  { exists byKey, T. cbn. by rewrite app_nil_r. }
  cbn [forEach map]. unfold writeRow at 1.
  destruct (OMap.get (keyOfRow row) byKey) as [d|] eqn:Hget.
  - (* the key exists: patch *)
    pose proof (omap_delete_Permutation _ _ _ Hget) as Hperm.
    set (byKey1 := OMap.delete (keyOfRow row) byKey) in *.
    assert (Hperm_ids : idsOf byKey ≡ₚ fst d :: idsOf byKey1).
    { unfold idsOf. by rewrite Hperm. }
    destruct (Hlive (keyOfRow row, d)) as (r & Hr & Hday).
    { rewrite Hperm. apply list_elem_of_here. }
    cbn [fst snd] in Hr.
    assert (Hnd1 : (fst d ∉ idsOf byKey1) /\ NoDup (idsOf byKey1)).
    { rewrite Hperm_ids in Hnd. by apply list.NoDup_cons in Hnd. }
    destruct Hnd1 as [Hfresh Hnd1].
    rewrite (bind_run _ _ _ (tset t (<[fst d := Some (payload row)]> T) db) byKey1).
    2:{ unfold bind. by rewrite (patch_run T db (fst d) r). }
    destruct (IH byKey1 (<[fst d := Some (payload row)]> T) db Hnd1)
      as (byKey' & T' & Hrun & Hnd' & Hlive' & Hrows & Hother & Hkeep & Hframe).
    { intros e He. destruct (Hlive e) as (r' & Hr' & Hday').
      { rewrite Hperm. by apply list_elem_of_further. }
      exists r'. split; [|done]. rewrite lookupDoc_set_ne; [done|].
      intros Heq. apply Hfresh. apply list_elem_of_fmap. by exists e. }
    exists byKey', T'. rewrite Hrun. split; [done|]. split; [done|]. split; [done|].
    split; [|split; [|split]].
    + rewrite Hrows. rewrite erase_set_notin by done.
      rewrite rowsWhere_set_Some; [|rewrite erase_length; by eapply lookupDoc_lt|done].
      rewrite <- erase_cons.
      rewrite (erase_ext (fst d :: idsOf byKey1) (idsOf byKey)).
      2:{ intros j. by rewrite Hperm_ids. }
      by rewrite <- Permutation_middle.
    + rewrite Hother. apply (rowsWhere_set_other _ T (fst d) r); [done| |].
      * by rewrite Hday.
      * cbn. by rewrite payload_ofDay.
    + intros e He Hstale. apply Hkeep.
      * apply omap_delete_other; [done|]. intros Heq. apply Hstale.
        rewrite Heq. apply list_elem_of_here.
      * intros Hin. apply Hstale. by apply list_elem_of_further.
    + intros j Hj Hnot. rewrite Hframe.
      * apply list_lookup_insert_ne. intros <-. apply Hnot. rewrite Hperm_ids.
        apply list_elem_of_here.
      * by rewrite length_insert.
      * intros Hin. apply Hnot. rewrite Hperm_ids. by apply list_elem_of_further.
  - (* a new key: insert *)
    rewrite (bind_run _ _ _ (tset t (T ++ [Some (payload row)]) db) byKey).
    2:{ unfold bind. by rewrite insert_run. }
    assert (Hlt : forall j, j ∈ idsOf byKey -> (j < length T)%nat).
    { intros j (e & -> & He)%list_elem_of_fmap. destruct (Hlive e He) as (r & Hr & _).
      by eapply lookupDoc_lt. }
    destruct (IH byKey (T ++ [Some (payload row)]) db Hnd)
      as (byKey' & T' & Hrun & Hnd' & Hlive' & Hrows & Hother & Hkeep & Hframe).
    { intros e He. destruct (Hlive e He) as (r & Hr & Hday). exists r. split; [|done].
      rewrite lookupDoc_app_old; [done|by eapply lookupDoc_lt]. }
    exists byKey', T'. rewrite Hrun. split; [done|]. split; [done|]. split; [done|].
    split; [|split; [|split]].
    + rewrite Hrows. rewrite erase_app by done. rewrite rowsWhere_app.
      rewrite <- app_assoc. f_equiv. by rewrite rowsWhere_one, payload_ofDay.
    + rewrite Hother. rewrite rowsWhere_app, rowsWhere_one, payload_ofDay. cbn.
      by rewrite app_nil_r.
    + intros e He Hstale. apply Hkeep; [done|]. intros Hin. apply Hstale.
      by apply list_elem_of_further.
    + intros j Hj Hnot. rewrite Hframe; [by apply lookup_app_l| |done].
      rewrite length_app. lia.
Qed.

(** [syncRows] always returns; afterwards the rows of the day are the
    payloads of the fresh rows and the rows of other days are as
    before. *)
Lemma syncRows_run_at (rows : list F) (T : Table R) (db : Db) :
  exists T',
    syncRows t ofDay keyOfDoc keyOfRow payload rows (tset t T db) = (tset t T' db, inr tt) /\
    rowsWhere ofDay T' ≡ₚ map payload rows /\
    rowsWhere (fun r => negb (ofDay r)) T' = rowsWhere (fun r => negb (ofDay r)) T /\
    (forall i r, lookupDoc T i = Some r -> ofDay r = true ->
       keyOfDoc r ∉ map keyOfRow rows -> lookupDoc T' i = None).
Proof.
  unfold syncRows.
  rewrite (bind_run _ _ _ _ _ (collect_run T db ofDay)).
  set (existing := List.filter (fun d => ofDay (snd d)) (docs T)).
  assert (Hex : forall d, d ∈ existing ->
            lookupDoc T (fst d) = Some (snd d) /\ ofDay (snd d) = true).
  { intros d Hd. by apply collect_spec. }
  destruct (indexExisting_run existing [] T db)
    as (byKey1 & D & Hrun1 & HD & Hnew & _ & Hcov & _ & Hids).
  { apply filter_docs_NoDup, docs_NoDup. }
  { intros d Hd. by apply Hex. }
  rewrite (bind_run _ _ _ _ _ Hrun1).
  assert (Hnd1 : NoDup (idsOf byKey1)).
  { apply Hids; [constructor|]. intros j Hj. by apply elem_of_nil in Hj. }
  assert (Hlive1 : indexLive ofDay byKey1 (erase D T)).
  { intros e He.
    destruct (Hnew e He) as [Hnil|(Hin & Hnot & _)]; [by apply elem_of_nil in Hnil|].
    destruct (Hex _ Hin) as [Hl Hday]. exists (snd (snd e)). split; [|done].
    apply lookupDoc_Some. rewrite erase_lookup. apply lookupDoc_Some in Hl. rewrite Hl.
    cbn. by rewrite bool_decide_eq_false_2. }
  destruct (writeRow_run rows byKey1 (erase D T) db Hnd1 Hlive1)
    as (byKey2 & T2 & Hrun2 & Hnd2 & Hlive2 & Hrows & Hother & Hkeep & Hframe).
  rewrite (bind_run _ _ _ _ _ Hrun2).
  exists (erase (idsOf byKey2) T2). split.
  { unfold OMap.values. rewrite deleteAll_run.
    - by rewrite map_map.
    - by rewrite map_map.
    - intros d (e & -> & He)%list_elem_of_fmap. destruct (Hlive2 e He) as (r & Hr & _).
      by exists r. }
  split; [|split].
  - rewrite Hrows. rewrite rowsWhere_erase_all; [done|].
    intros j a Hj Hday. apply lookupDoc_Some in Hj. rewrite erase_lookup in Hj.
    destruct (T !! j) as [o|] eqn:HTj; [|done]. cbn in Hj.
    destruct (decide (j ∈ D)) as [HjD|HjD].
    { by rewrite bool_decide_eq_true_2 in Hj. }
    rewrite bool_decide_eq_false_2 in Hj by done. injection Hj as ->.
    destruct (Hcov (j, a)) as [?|?]; [|done|done].
    apply collect_spec. split; [by apply lookupDoc_Some|done].
  - rewrite rowsWhere_erase_none.
    + rewrite Hother. apply rowsWhere_erase_none.
      intros j a Hj Ha. apply HD in Hj. apply list_elem_of_fmap in Hj as (d & -> & Hd).
      destruct (Hex d Hd) as [Hl Hday]. rewrite Hl in Ha. injection Ha as <-.
      by rewrite Hday.
    + intros j a (e & -> & He)%list_elem_of_fmap Ha.
      destruct (Hlive2 e He) as (r & Hr & Hday). rewrite Hr in Ha. injection Ha as <-.
      by rewrite Hday.
  - intros i r Hi Hday Hstale.
    assert (Hlt : (i < length T)%nat) by (by eapply lookupDoc_lt).
    assert (Hgone : i ∈ idsOf byKey2 \/ T2 !! i = Some None).
    { destruct (Hcov (i, r)) as [HiD|Hidx].
      { apply collect_spec. by split. }
      - right. rewrite Hframe.
        + rewrite erase_lookup. destruct (lookup_lt_is_Some_2 T i Hlt) as [o ->]. cbn.
          by rewrite bool_decide_eq_true_2.
        + by rewrite erase_length.
        + intros (e & Heq & He)%list_elem_of_fmap.
          destruct (Hnew e He) as [Hnil|(_ & Hnot & _)]; [by apply elem_of_nil in Hnil|].
          apply Hnot. by rewrite <- Heq.
      - left. cbn in Hidx. apply list_elem_of_fmap in Hidx as (e & Heq & He).
        apply list_elem_of_fmap. exists e. split; [done|]. apply Hkeep; [done|].
        destruct (Hnew e He) as [Hnil|(Hin & _ & Hkey)]; [by apply elem_of_nil in Hnil|].
        destruct (Hex _ Hin) as [Hl _]. rewrite <- Heq, Hi in Hl. injection Hl as Hr.
        intros Hbad. apply Hstale. by rewrite Hr, <- Hkey. }
    unfold lookupDoc. rewrite erase_lookup. destruct Hgone as [Hin|Hnone].
    + destruct (T2 !! i); cbn; [|done]. by rewrite bool_decide_eq_true_2.
    + rewrite Hnone. cbn. by destruct (bool_decide (i ∈ idsOf byKey2)).
Qed.

Lemma syncRows_run (rows : list F) (db : Db) :
  exists T',
    syncRows t ofDay keyOfDoc keyOfRow payload rows db = (tset t T' db, inr tt) /\
    rowsWhere ofDay T' ≡ₚ map payload rows /\
    rowsWhere (fun r => negb (ofDay r)) T' = rowsWhere (fun r => negb (ofDay r)) (tget t db) /\
    (forall i r, lookupDoc (tget t db) i = Some r -> ofDay r = true ->
       keyOfDoc r ∉ map keyOfRow rows -> lookupDoc T' i = None).
Proof.
  pose proof (syncRows_run_at rows (tget t db) db) as Hrun.
  by rewrite tset_tget in Hrun.
Qed.

End SyncRows.

End OneTable.

(** ** The rollup tables *)

Global Instance lens_analytics : LensLaws t_surveyAnalyticsDaily.
Proof. split; intros; try reflexivity. by destruct db. Qed.
Global Instance lens_fields : LensLaws t_surveyFieldAnalyticsDaily.
Proof. split; intros; try reflexivity. by destruct db. Qed.
Global Instance lens_buckets : LensLaws t_surveyAnswerBucketsDaily.
Proof. split; intros; try reflexivity. by destruct db. Qed.
Global Instance lens_text : LensLaws t_surveyTextInsightsDaily.
Proof. split; intros; try reflexivity. by destruct db. Qed.

Lemma sameDay_refl (surveyId : Id) (dateKey : string) :
  Domain.sameDay surveyId dateKey surveyId dateKey = true.
Proof. unfold Domain.sameDay. by rewrite !bool_decide_eq_true_2. Qed.

Lemma sameDay_true (surveyId : Id) (dateKey : string) (sid : Id) (dk : string) :
  Domain.sameDay surveyId dateKey sid dk = true <-> sid = surveyId /\ dk = dateKey.
Proof.
  unfold Domain.sameDay. rewrite andb_true_iff, !bool_decide_eq_true. tauto.
Qed.

(** [upsertSurveyAnalyticsDailyRow] always returns; afterwards the day
    has exactly the given row. *)
Lemma upsert_run (row : AnalyticsDaily) (T : Table AnalyticsDaily) (db : Db) :
  let ofDay := analyticsOfDay (ad_surveyId row) (ad_dateKey row) in
  exists T',
    upsertSurveyAnalyticsDailyRow row (tset t_surveyAnalyticsDaily T db) =
      (tset t_surveyAnalyticsDaily T' db, inr tt) /\
    rowsWhere ofDay T' = [row] /\
    rowsWhere (fun r => negb (ofDay r)) T' = rowsWhere (fun r => negb (ofDay r)) T.
Proof.
  intros ofDay. unfold upsertSurveyAnalyticsDailyRow.
  rewrite (bind_run _ _ _ _ _ (collect_run t_surveyAnalyticsDaily T db ofDay)).
  set (existing := List.filter (fun d => ofDay (snd d)) (docs T)).
  assert (Hex : forall d, d ∈ existing <->
            lookupDoc T (fst d) = Some (snd d) /\ ofDay (snd d) = true).
  { intros d. apply collect_spec. }
  assert (Hnd : NoDup (map fst existing)) by apply filter_docs_NoDup, docs_NoDup.
  assert (Hrow : ofDay row = true) by apply sameDay_refl.
  destruct existing as [|first duplicates] eqn:Hexisting.
  - rewrite (bind_run _ _ _ _ _ (insert_run t_surveyAnalyticsDaily T db row)).
    exists (T ++ [Some row]). split; [done|].
    rewrite !rowsWhere_app, !rowsWhere_one, Hrow. cbn. rewrite app_nil_r. split; [|done].
    rewrite <- (erase_nil T), rowsWhere_erase_all; [done|].
    intros j a Hj Hday.
    assert (Hin : (j, a) ∈ @nil (Doc AnalyticsDaily)) by (apply Hex; by split).
    by apply elem_of_nil in Hin.
  - simpl in Hnd. apply list.NoDup_cons in Hnd as [Hfirst Hnd].
    destruct (proj1 (Hex first)) as [Hlive _]; [apply list_elem_of_here|].
    rewrite (bind_run _ _ _ _ _
               (patch_run t_surveyAnalyticsDaily T db (fst first) _ (fun _ => row) Hlive)).
    rewrite (deleteAll_run t_surveyAnalyticsDaily); [|done|].
    2:{ intros d Hd. exists (snd d). rewrite lookupDoc_set_ne.
        - apply Hex. by apply list_elem_of_further.
        - intros Heq. apply Hfirst. apply list_elem_of_fmap. by exists d. }
    eexists. split; [reflexivity|].
    rewrite erase_set_notin by done.
    assert (Hlt : (fst first < length (erase (map fst duplicates) T))%nat).
    { rewrite erase_length. by eapply lookupDoc_lt. }
    split.
    + apply Permutation_singleton_r. rewrite rowsWhere_set_Some by done.
      rewrite <- erase_cons. rewrite rowsWhere_erase_all; [done|].
      intros j a Hj Hday. change (j ∈ map fst (first :: duplicates)).
      apply list_elem_of_fmap. exists (j, a). split; [done|]. apply Hex. by split.
    + destruct (erase (map fst duplicates) T !! fst first) as [o|] eqn:Ho.
      2:{ apply lookup_ge_None in Ho. lia. }
      assert (o = Some (snd first)) as ->.
      { rewrite erase_lookup in Ho. apply lookupDoc_Some in Hlive. rewrite Hlive in Ho.
        cbn in Ho. rewrite bool_decide_eq_false_2 in Ho by done. congruence. }
      rewrite (rowsWhere_set_other _ _ _ (snd first)).
      * apply rowsWhere_erase_none. intros j a Hj Ha.
        apply list_elem_of_fmap in Hj as (d & -> & Hd).
        destruct (proj1 (Hex d)) as [Hl Hday]; [by apply list_elem_of_further|].
        rewrite Hl in Ha. injection Ha as <-. by rewrite Hday.
      * by apply lookupDoc_Some.
      * destruct (proj1 (Hex first)) as [_ ->]; [apply list_elem_of_here|done].
      * cbn. by rewrite Hrow.
Qed.

Lemma upsert_run_db (row : AnalyticsDaily) (db : Db) :
  let ofDay := analyticsOfDay (ad_surveyId row) (ad_dateKey row) in
  exists T',
    upsertSurveyAnalyticsDailyRow row db = (tset t_surveyAnalyticsDaily T' db, inr tt) /\
    rowsWhere ofDay T' = [row] /\
    rowsWhere (fun r => negb (ofDay r)) T' =
    rowsWhere (fun r => negb (ofDay r)) (surveyAnalyticsDaily db).
Proof.
  pose proof (upsert_run row (surveyAnalyticsDaily db) db) as Hrun.
  change (surveyAnalyticsDaily db) with (tget t_surveyAnalyticsDaily db) in Hrun at 1.
  by rewrite tset_tget in Hrun.
Qed.

Section Rebuild.
Context `{lux : Luxon} `{fmt : NumberFormat} `{txt : TextInsights}.

Lemma getResponses_db (surveyId : Id) (dateKey : string) (db db' : Db)
    (r : Result (list (Doc SurveyResponse))) :
  getResponsesForSurveyDate surveyId dateKey db = (db', r) -> db' = db.
Proof.
  unfold getResponsesForSurveyDate, bind, lift, Store.collect, ret.
  destruct (normalizeDateKey dateKey); by intros [= <- _].
Qed.

Lemma getResponses_frame (surveyId : Id) (dateKey : string) (db db' : Db) :
  surveyResponses db' = surveyResponses db ->
  snd (getResponsesForSurveyDate surveyId dateKey db') =
  snd (getResponsesForSurveyDate surveyId dateKey db).
Proof.
  intros Heq. unfold getResponsesForSurveyDate, bind, lift, Store.collect, ret.
  destruct (normalizeDateKey dateKey); cbn; [done|]. by rewrite Heq.
Qed.

Lemma unique_db {A} (l : list (Doc A)) (db db' : Db) (r : Result (option (Doc A))) :
  Store.unique l db = (db', r) -> db' = db.
Proof. destruct l as [|d [|d' l]]; cbn; by intros [= <- _]. Qed.

Lemma unique_frame {A} (l : list (Doc A)) (db db' : Db) :
  snd (Store.unique l db') = snd (Store.unique l db).
Proof. by destruct l as [|d [|d' l]]. Qed.

(** What a rebuild of one day does, when the date parses and the day
    has at most one row of live counters. *)
Lemma rebuild_run (now : Z) (surveyId : Id) (dateKey : string) (includeTextInsights : bool)
    (db : Db) (nd : string) (responses : list (Doc SurveyResponse))
    (metrics : option (Doc MetricsDaily)) :
  normalizeDateKey dateKey = inr nd ->
  getResponsesForSurveyDate surveyId nd db = (db, inr responses) ->
  Store.unique (metricsOfDay db surveyId nd) db = (db, inr metrics) ->
  let acc := rebuildAcc db responses in
  let row := analyticsRowOf now surveyId nd (snd <$> metrics)
                            (Z.of_nat (length responses)) acc in
  let fieldRows := fieldRowsOf now (fieldAggregates acc) in
  let bucketRows := bucketRowsOf now (fieldAggregates acc) in
  let textRows := textRowsOf now (fieldAggregates acc) in
  exists Ta Tf Tb Tt,
    rebuildDailyMaterializedAnalytics now surveyId dateKey includeTextInsights db =
      (tset t_surveyTextInsightsDaily Tt
         (tset t_surveyAnswerBucketsDaily Tb
            (tset t_surveyFieldAnalyticsDaily Tf
               (tset t_surveyAnalyticsDaily Ta db))), inr tt) /\
    (rowsWhere (analyticsOfDay surveyId nd) Ta = [row] /\
     rowsWhere (fun r => negb (analyticsOfDay surveyId nd r)) Ta =
     rowsWhere (fun r => negb (analyticsOfDay surveyId nd r)) (surveyAnalyticsDaily db)) /\
    (rowsWhere (fieldRowOfDay surveyId nd) Tf ≡ₚ map (fieldPayload surveyId nd) fieldRows /\
     rowsWhere (fun r => negb (fieldRowOfDay surveyId nd r)) Tf =
     rowsWhere (fun r => negb (fieldRowOfDay surveyId nd r)) (surveyFieldAnalyticsDaily db) /\
     (forall i r, lookupDoc (surveyFieldAnalyticsDaily db) i = Some r ->
        fieldRowOfDay surveyId nd r = true ->
        fa_fieldId r ∉ map fr_fieldId fieldRows -> lookupDoc Tf i = None)) /\
    (rowsWhere (bucketRowOfDay surveyId nd) Tb ≡ₚ map (bucketPayload surveyId nd) bucketRows /\
     rowsWhere (fun r => negb (bucketRowOfDay surveyId nd r)) Tb =
     rowsWhere (fun r => negb (bucketRowOfDay surveyId nd r)) (surveyAnswerBucketsDaily db) /\
     (forall i r, lookupDoc (surveyAnswerBucketsDaily db) i = Some r ->
        bucketRowOfDay surveyId nd r = true ->
        bucketRowKey (ab_fieldId r) (bucketKey r) ∉
          map (fun row => bucketRowKey (br_fieldId row) (br_bucketKey row)) bucketRows ->
        lookupDoc Tb i = None)) /\
    (if includeTextInsights
     then rowsWhere (textRowOfDay surveyId nd) Tt ≡ₚ map (textPayload surveyId nd) textRows /\
          rowsWhere (fun r => negb (textRowOfDay surveyId nd r)) Tt =
          rowsWhere (fun r => negb (textRowOfDay surveyId nd r)) (surveyTextInsightsDaily db)
     else Tt = surveyTextInsightsDaily db).
Proof.
  intros Hnd Hresp Huniq acc row fieldRows bucketRows textRows.
  unfold rebuildDailyMaterializedAnalytics.
  rewrite (bind_run _ _ db db nd) by (unfold lift; by rewrite Hnd).
  rewrite (bind_run _ _ _ _ _ Hresp).
  rewrite (bind_run _ _ db db (surveyVersions db)) by done.
  rewrite (bind_run _ _ db db (metricsOfDay db surveyId nd)) by done.
  rewrite (bind_run _ _ _ _ _ Huniq).
  fold (rebuildAcc db responses). fold acc. fold row.
  destruct (upsert_run_db row db) as (Ta & Hup & Ha1 & Ha2).
  rewrite (bind_run _ _ _ _ _ Hup).
  set (db1 := tset t_surveyAnalyticsDaily Ta db).
  destruct (syncRows_run t_surveyFieldAnalyticsDaily (fieldRowOfDay surveyId nd)
              fa_fieldId fr_fieldId (fieldPayload surveyId nd)
              (fun _ => sameDay_refl _ _) fieldRows db1) as (Tf & Hf & Hf1 & Hf2 & Hf3).
  unfold syncDailyFieldRows.
  rewrite (bind_run _ _ _ _ _ Hf).
  set (db2 := tset t_surveyFieldAnalyticsDaily Tf db1).
  destruct (syncRows_run t_surveyAnswerBucketsDaily (bucketRowOfDay surveyId nd)
              (fun r => bucketRowKey (ab_fieldId r) (bucketKey r))
              (fun row => bucketRowKey (br_fieldId row) (br_bucketKey row))
              (bucketPayload surveyId nd)
              (fun _ => sameDay_refl _ _) bucketRows db2) as (Tb & Hb & Hb1 & Hb2 & Hb3).
  unfold syncDailyBucketRows.
  rewrite (bind_run _ _ _ _ _ Hb).
  set (db3 := tset t_surveyAnswerBucketsDaily Tb db2).
  destruct includeTextInsights.
  - destruct (syncRows_run t_surveyTextInsightsDaily (textRowOfDay surveyId nd)
                ti_fieldId tr_fieldId (textPayload surveyId nd)
                (fun _ => sameDay_refl _ _) textRows db3) as (Tt & Ht & Ht1 & Ht2 & _).
    exists Ta, Tf, Tb, Tt. split; [exact Ht|]. repeat split; done.
  - exists Ta, Tf, Tb, (surveyTextInsightsDaily db).
    split; [reflexivity|repeat split; done].
Qed.

(** A rebuild that returns has parsed the date and found at most one
    row of live counters. *)
Lemma rebuild_returns (now : Z) (surveyId : Id) (dateKey : string)
    (includeTextInsights : bool) (db db1 : Db) :
  rebuildDailyMaterializedAnalytics now surveyId dateKey includeTextInsights db = (db1, inr tt) ->
  exists nd responses metrics,
    normalizeDateKey dateKey = inr nd /\
    getResponsesForSurveyDate surveyId nd db = (db, inr responses) /\
    Store.unique (metricsOfDay db surveyId nd) db = (db, inr metrics).
Proof.
  unfold rebuildDailyMaterializedAnalytics. intros Hrun.
  apply bind_inr in Hrun as (db' & nd & Hnd & Hrun).
  unfold lift in Hnd. injection Hnd as <- Hnd.
  apply bind_inr in Hrun as (db' & responses & Hresp & Hrun).
  pose proof (getResponses_db _ _ _ _ _ Hresp) as ->.
  apply bind_inr in Hrun as (db' & versions & [= <- <-] & Hrun).
  apply bind_inr in Hrun as (db' & metricRows & [= <- <-] & Hrun).
  apply bind_inr in Hrun as (db' & metrics & Huniq & Hrun).
  pose proof (unique_db _ _ _ _ Huniq) as ->.
  by exists nd, responses, metrics.
Qed.

End Rebuild.

(** ** The fresh rows have distinct keys *)

Lemma omap_set_elem {V} (m : list (string * V)) (k : string) (v : V) (e : string * V) :
  e ∈ OMap.set k v m -> e = (k, v) \/ e ∈ m.
Proof.
  induction m as [|[k' v'] m IH]; cbn.
  - intros ->%list_elem_of_singleton. by left.
  - destruct (String.eqb_spec k k') as [->|Hne].
    + intros [->|He]%elem_of_cons; [by left|]. right. by apply list_elem_of_further.
    + intros [->|He]%elem_of_cons; [right; apply list_elem_of_here|].
      destruct (IH He) as [?|?]; [by left|]. right. by apply list_elem_of_further.
Qed.

Section Wf.
Context `{fmt : NumberFormat}.

Lemma addBucketEntry_NoDup (entries : list (string * string)) :
  forall m, NoDup (OMap.keys m) -> NoDup (OMap.keys (fold_left addBucketEntry entries m)).
Proof.
  induction entries as [|e entries IH]; intros m Hm; cbn; [done|].
  apply IH. unfold addBucketEntry. by apply omap_NoDup_set.
Qed.

Lemma aggregatesWf_set (aggregates : list (string * FieldAggregate)) (k : string)
    (a : FieldAggregate) :
  aggregatesWf aggregates -> agg_fieldId a = k -> NoDup (OMap.keys (bucketMap a)) ->
  aggregatesWf (OMap.set k a aggregates).
Proof.
  intros [Hkeys Hall] Hid Hb. split; [by apply omap_NoDup_set|].
  intros e [->|He]%omap_set_elem; [done|by apply Hall].
Qed.

Lemma aggregateField_wf (ans : Answers) (reached : bool)
    (aggregates : list (string * FieldAggregate)) (field : Field) :
  aggregatesWf aggregates -> aggregatesWf (aggregateField ans reached aggregates field).
Proof.
  intros Hwf. unfold aggregateField, getOrCreateFieldAggregate.
  destruct (OMap.get (id field) aggregates) as [a|] eqn:Hget.
  - assert (Ha : agg_fieldId a = id field /\ NoDup (OMap.keys (bucketMap a))).
    { apply (proj2 Hwf (id field, a)). by apply list_elem_of_In, omap_get_In. }
    destruct Ha as [Hid Hb].
    destruct (negb (isAnswerPresent (ans !! id field)));
      apply aggregatesWf_set; try done.
    by apply addBucketEntry_NoDup.
  - destruct (negb (isAnswerPresent (ans !! id field)));
      (apply aggregatesWf_set;
       [apply aggregatesWf_set; [done|reflexivity|constructor] | reflexivity | ]).
    + constructor.
    + apply addBucketEntry_NoDup. constructor.
Qed.

Lemma ingestResponse_wf (versions : Table SurveyVersion) (acc : RebuildAcc)
    (response : Doc SurveyResponse) :
  aggregatesWf (fieldAggregates acc) ->
  aggregatesWf (fieldAggregates (ingestResponse versions acc response)).
Proof.
  intros Hwf. unfold ingestResponse.
  destruct (match grading (snd response) with Some _ => _ | None => _ end) as [tg sum].
  destruct (lookupDoc versions (res_surveyVersionId (snd response))) as [version|]; [|done].
  destruct (Z.of_nat (length _) =? 0); [done|]. cbn [fieldAggregates].
  set (fs := sortBy _ (fields version)). generalize fs at 2. intros l.
  revert Hwf. generalize (fieldAggregates acc).
  induction l as [|f l IH]; intros aggs Hwf; cbn; [done|].
  apply IH. by apply aggregateField_wf.
Qed.

Lemma rebuildAcc_wf (db : Db) (responses : list (Doc SurveyResponse)) :
  aggregatesWf (fieldAggregates (rebuildAcc db responses)).
Proof.
  unfold rebuildAcc.
  assert (Hinit : aggregatesWf (fieldAggregates (mkRebuildAcc 0 0%Q []))).
  { split; [constructor|]. intros e He. by apply elem_of_nil in He. }
  revert Hinit. generalize (mkRebuildAcc 0 0%Q []).
  induction responses as [|r responses IH]; intros acc Hwf; cbn; [done|].
  apply IH. by apply ingestResponse_wf.
Qed.

Lemma values_fieldIds (aggregates : list (string * FieldAggregate)) :
  aggregatesWf aggregates ->
  map agg_fieldId (OMap.values aggregates) = OMap.keys aggregates.
Proof.
  intros [_ Hall]. unfold OMap.values, OMap.keys. rewrite map_map.
  apply map_ext_in. intros e He. apply Hall. by apply list_elem_of_In.
Qed.

Lemma fieldRowsOf_NoDup (now : Z) (aggregates : list (string * FieldAggregate)) :
  aggregatesWf aggregates -> NoDup (map fr_fieldId (fieldRowsOf now aggregates)).
Proof.
  intros Hwf. unfold fieldRowsOf. rewrite map_map. cbn.
  rewrite (Permutation_map agg_fieldId
             (sortBy_Permutation (fun a b => agg_order a - agg_order b) (OMap.values aggregates))).
  rewrite values_fieldIds by done. apply Hwf.
Qed.

Lemma padBuckets_keys (now : Z) (fieldId : string) (labelOf : string -> string)
    (keys : list string) : forall rows,
  (forall r, r ∈ rows -> br_fieldId r = fieldId) ->
  NoDup (map br_bucketKey rows) ->
  (forall r, r ∈ padBuckets now fieldId labelOf keys rows -> br_fieldId r = fieldId) /\
  NoDup (map br_bucketKey (padBuckets now fieldId labelOf keys rows)).
Proof.
  induction keys as [|value keys IH]; intros rows Hid Hnd; cbn; [done|].
  destruct (existsb _ rows) eqn:Hex; [by apply IH|].
  apply IH.
  - intros r [Hr| ->%list_elem_of_singleton]%elem_of_app; [by apply Hid|done].
  - rewrite map_app. cbn. apply list.NoDup_app. split; [done|].
    split; [|apply NoDup_singleton].
    intros k (r & -> & Hr)%list_elem_of_fmap Heq%list_elem_of_singleton.
    apply not_true_iff_false in Hex. apply Hex. apply existsb_exists.
    exists r. split; [by apply list_elem_of_In|].
    rewrite (Hid r Hr), Heq. apply String.eqb_refl.
Qed.

Lemma bucketRowsOfAggregate_keys (now : Z) (a : FieldAggregate) :
  NoDup (OMap.keys (bucketMap a)) ->
  (forall r, r ∈ bucketRowsOfAggregate now a -> br_fieldId r = agg_fieldId a) /\
  NoDup (map br_bucketKey (bucketRowsOfAggregate now a)).
Proof.
  intros Hnd. unfold bucketRowsOfAggregate.
  set (rows := map _ (bucketMap a)).
  assert (H0 : (forall r, r ∈ rows -> br_fieldId r = agg_fieldId a) /\
               NoDup (map br_bucketKey rows)).
  { split.
    - intros r (e & -> & He)%list_elem_of_fmap. by destruct e as [key [lbl n]].
    - unfold rows. rewrite map_map.
      replace (map _ (bucketMap a)) with (OMap.keys (bucketMap a)); [done|].
      apply map_ext. by intros [key [lbl n]]. }
  assert (H1 : let rows1 := if bool_decide (agg_kind a = single_select)
                               || bool_decide (agg_kind a = multi_select)
                            then padBuckets now (agg_fieldId a)
                                   (fun value => default value (OMap.get value (optionLabels a)))
                                   (optionOrder a) rows
                            else rows in
               (forall r, r ∈ rows1 -> br_fieldId r = agg_fieldId a) /\
               NoDup (map br_bucketKey rows1)).
  { cbn zeta. destruct (_ || _); [|done]. apply padBuckets_keys; apply H0. }
  cbn zeta in H1. destruct (bool_decide (agg_kind a = rating_1_5)); [|done].
  apply padBuckets_keys; apply H1.
Qed.

Lemma bucketRowsOf_NoDup (now : Z) (aggregates : list (string * FieldAggregate)) :
  aggregatesWf aggregates ->
  NoDup (map (fun r => (br_fieldId r, br_bucketKey r)) (bucketRowsOf now aggregates)).
Proof.
  intros Hwf. unfold bucketRowsOf.
  assert (Hids : NoDup (map agg_fieldId (OMap.values aggregates))).
  { rewrite values_fieldIds by done. apply Hwf. }
  assert (Hb : forall a, a ∈ OMap.values aggregates -> NoDup (OMap.keys (bucketMap a))).
  { intros a (e & -> & He)%list_elem_of_fmap. by apply Hwf. }
  revert Hids Hb. generalize (OMap.values aggregates). clear Hwf aggregates.
  induction l as [|a l IH]; intros Hids Hb; cbn; [constructor|].
  apply list.NoDup_cons in Hids as [Ha Hids].
  destruct (bucketRowsOfAggregate_keys now a) as [Hid Hkeys].
  { apply Hb, list_elem_of_here. }
  rewrite map_app. apply list.NoDup_app. split; [|split].
  - apply (NoDup_fmap_1 snd). rewrite <- list_fmap_compose.
    replace (snd ∘ _ <$> bucketRowsOfAggregate now a)
      with (map br_bucketKey (bucketRowsOfAggregate now a)); [done|].
    by apply map_ext.
  - intros x (r & -> & Hr)%list_elem_of_fmap (r' & Heq & Hr')%list_elem_of_fmap.
    injection Heq as Hf _. rewrite (Hid r Hr) in Hf.
    apply list_elem_of_In, in_flat_map in Hr' as (a' & Ha' & Hr').
    destruct (bucketRowsOfAggregate_keys now a') as [Hid' _].
    { apply Hb, list_elem_of_further. by apply list_elem_of_In. }
    rewrite (Hid' r') in Hf by (by apply list_elem_of_In).
    apply Ha. rewrite Hf. apply list_elem_of_fmap. exists a'. split; [done|].
    by apply list_elem_of_In.
  - apply IH; [done|]. intros a' Ha'. by apply Hb, list_elem_of_further.
Qed.

End Wf.

(** ** Idempotence of the daily rebuild *)

Lemma liveRows_same_parts {A} (p : A -> bool) (t1 t2 : Table A) :
  rowsWhere p t2 ≡ₚ rowsWhere p t1 ->
  rowsWhere (fun r => negb (p r)) t2 = rowsWhere (fun r => negb (p r)) t1 ->
  liveRows t2 ≡ₚ liveRows t1.
Proof.
  intros Hday Hother. rewrite (liveRows_partition p t2), (liveRows_partition p t1).
  by rewrite Hday, Hother.
Qed.

Section RebuildTwice.
Context `{lux : Luxon} `{fmt : NumberFormat} `{txt : TextInsights}.

(** C1.  When a rebuild of a day returns, a second rebuild with the
    same arguments returns as well and leaves the same rows in
    [surveyAnalyticsDaily], [surveyFieldAnalyticsDaily] and
    [surveyAnswerBucketsDaily]; after a rebuild the rows of the day are
    the freshly computed rows, one per key, and every earlier row of the
    day whose key is not freshly computed is deleted. *)
Theorem rebuild_idempotent (now : Z) (surveyId : Id) (dateKey : string)
    (includeTextInsights : bool) (db db1 : Db) :
  rebuildDailyMaterializedAnalytics now surveyId dateKey includeTextInsights db = (db1, inr tt) ->
  exists nd responses db2,
    normalizeDateKey dateKey = inr nd /\
    getResponsesForSurveyDate surveyId nd db = (db, inr responses) /\
    rebuildDailyMaterializedAnalytics now surveyId dateKey includeTextInsights db1 = (db2, inr tt) /\
    let aggregates := fieldAggregates (rebuildAcc db responses) in
    let fieldRows := fieldRowsOf now aggregates in
    let bucketRows := bucketRowsOf now aggregates in
    (liveRows (surveyAnalyticsDaily db2) ≡ₚ liveRows (surveyAnalyticsDaily db1) /\
     liveRows (surveyFieldAnalyticsDaily db2) ≡ₚ liveRows (surveyFieldAnalyticsDaily db1) /\
     liveRows (surveyAnswerBucketsDaily db2) ≡ₚ liveRows (surveyAnswerBucketsDaily db1)) /\
    (exists row,
       rowsWhere (analyticsOfDay surveyId nd) (surveyAnalyticsDaily db1) = [row] /\
       rowsWhere (analyticsOfDay surveyId nd) (surveyAnalyticsDaily db2) = [row]) /\
    (rowsWhere (fieldRowOfDay surveyId nd) (surveyFieldAnalyticsDaily db1)
       ≡ₚ map (fieldPayload surveyId nd) fieldRows /\
     rowsWhere (fieldRowOfDay surveyId nd) (surveyFieldAnalyticsDaily db2)
       ≡ₚ map (fieldPayload surveyId nd) fieldRows /\
     NoDup (map fa_fieldId
              (rowsWhere (fieldRowOfDay surveyId nd) (surveyFieldAnalyticsDaily db1)))) /\
    (rowsWhere (bucketRowOfDay surveyId nd) (surveyAnswerBucketsDaily db1)
       ≡ₚ map (bucketPayload surveyId nd) bucketRows /\
     rowsWhere (bucketRowOfDay surveyId nd) (surveyAnswerBucketsDaily db2)
       ≡ₚ map (bucketPayload surveyId nd) bucketRows /\
     NoDup (map (fun r => (ab_fieldId r, bucketKey r))
              (rowsWhere (bucketRowOfDay surveyId nd) (surveyAnswerBucketsDaily db1)))) /\
    (forall i r,
       lookupDoc (surveyFieldAnalyticsDaily db) i = Some r ->
       fieldRowOfDay surveyId nd r = true ->
       fa_fieldId r ∉ map fr_fieldId fieldRows ->
       lookupDoc (surveyFieldAnalyticsDaily db1) i = None) /\
    (forall i r,
       lookupDoc (surveyAnswerBucketsDaily db) i = Some r ->
       bucketRowOfDay surveyId nd r = true ->
       bucketRowKey (ab_fieldId r) (bucketKey r) ∉
         map (fun row => bucketRowKey (br_fieldId row) (br_bucketKey row)) bucketRows ->
       lookupDoc (surveyAnswerBucketsDaily db1) i = None).
Proof.
  intros Hrun.
  destruct (rebuild_returns _ _ _ _ _ _ Hrun) as (nd & responses & metrics & Hnd & Hresp & Huniq).
  destruct (rebuild_run now surveyId dateKey includeTextInsights db nd responses metrics
              Hnd Hresp Huniq)
    as (Ta & Tf & Tb & Tt & Hrun1 & [Ha1 Ha2] & (Hf1 & Hf2 & Hf3) & (Hb1 & Hb2 & Hb3) & _).
  rewrite Hrun in Hrun1. clear Hrun.
  set (dbx := tset t_surveyTextInsightsDaily Tt _) in *.
  assert (Heq : db1 = dbx) by congruence. clear Hrun1. subst db1. rename dbx into db1.
  assert (Hresp1 : getResponsesForSurveyDate surveyId nd db1 = (db1, inr responses)).
  { destruct (getResponsesForSurveyDate surveyId nd db1) as [db' r] eqn:E.
    pose proof (getResponses_db _ _ _ _ _ E) as ->. f_equal.
    change r with (snd (db1, r)). rewrite <- E.
    rewrite (getResponses_frame surveyId nd db db1 eq_refl). by rewrite Hresp. }
  assert (Huniq1 : Store.unique (metricsOfDay db1 surveyId nd) db1 = (db1, inr metrics)).
  { change (metricsOfDay db1 surveyId nd) with (metricsOfDay db surveyId nd).
    destruct (Store.unique (metricsOfDay db surveyId nd) db1) as [db' r] eqn:E.
    pose proof (unique_db _ _ _ _ E) as ->. f_equal.
    change r with (snd (db1, r)). rewrite <- E.
    rewrite (unique_frame _ db db1). by rewrite Huniq. }
  destruct (rebuild_run now surveyId dateKey includeTextInsights db1 nd responses metrics
              Hnd Hresp1 Huniq1)
    as (Ta2 & Tf2 & Tb2 & Tt2 & Hrun2 & [Ha1' Ha2'] & (Hf1' & Hf2' & _) & (Hb1' & Hb2' & _) & _).
  change (rebuildAcc db1 responses) with (rebuildAcc db responses) in *.
  change (surveyAnalyticsDaily db1) with Ta in *.
  change (surveyFieldAnalyticsDaily db1) with Tf in *.
  change (surveyAnswerBucketsDaily db1) with Tb in *.
  exists nd, responses. eexists. split; [done|]. split; [done|]. split; [exact Hrun2|].
  cbn zeta. cbn [tset tget t_surveyTextInsightsDaily t_surveyAnswerBucketsDaily
                 t_surveyFieldAnalyticsDaily t_surveyAnalyticsDaily
                 surveyAnalyticsDaily surveyFieldAnalyticsDaily surveyAnswerBucketsDaily].
  split; [split; [|split]|].
  - apply (liveRows_same_parts (analyticsOfDay surveyId nd)); [by rewrite Ha1', Ha1|done].
  - apply (liveRows_same_parts (fieldRowOfDay surveyId nd)); [by rewrite Hf1', Hf1|done].
  - apply (liveRows_same_parts (bucketRowOfDay surveyId nd)); [by rewrite Hb1', Hb1|done].
  - split; [eexists; split; [exact Ha1|exact Ha1']|].
    split.
    { split; [done|]. split; [done|]. rewrite Hf1, map_map. cbn.
      apply fieldRowsOf_NoDup, rebuildAcc_wf. }
    split.
    { split; [done|]. split; [done|]. rewrite Hb1, map_map. cbn.
      apply bucketRowsOf_NoDup, rebuildAcc_wf. }
    split; [exact Hf3|exact Hb3].
Qed.

End RebuildTwice.


Lemma rebuild_idempotent_witness :
  let rebuild :=
    rebuildDailyMaterializedAnalytics
      (lux := Samples.calendarLuxon) (fmt := Samples.decimalFormat)
      (txt := Samples.verbatimInsights) Samples.sampleNow 0 Samples.sampleDay false in
  rebuild Samples.sampleDb = (Samples.sampleRebuilt, inr tt) /\
  exists db2,
    rebuild Samples.sampleRebuilt = (db2, inr tt) /\
    liveRows (surveyFieldAnalyticsDaily db2)
      ≡ₚ liveRows (surveyFieldAnalyticsDaily Samples.sampleRebuilt) /\
    liveRows (surveyAnswerBucketsDaily db2)
      ≡ₚ liveRows (surveyAnswerBucketsDaily Samples.sampleRebuilt).
Proof.
  cbv zeta.
  assert (Hrun : rebuildDailyMaterializedAnalytics
                   (lux := Samples.calendarLuxon) (fmt := Samples.decimalFormat)
                   (txt := Samples.verbatimInsights) Samples.sampleNow 0 Samples.sampleDay false
                   Samples.sampleDb = (Samples.sampleRebuilt, inr tt))
    by (vm_compute; reflexivity).
  split; [exact Hrun|].
  destruct (@rebuild_idempotent Samples.calendarLuxon Samples.decimalFormat
              Samples.verbatimInsights Samples.sampleNow 0%nat Samples.sampleDay false
              Samples.sampleDb Samples.sampleRebuilt Hrun)
    as (nd & responses & db2 & _ & _ & Hrun2 & (_ & Hf & Hb) & _).
  exists db2. split; [exact Hrun2|]. split; [exact Hf|exact Hb].
Defined.

(** ** The counters of a rebuilt day *)

Import Analytics.

Lemma roundToTwo_le (x : Q) (n : Z) :
  (x <= inject_Z n)%Q -> (roundToTwo x <= inject_Z n)%Q.
Proof.
  intros Hx. unfold roundToTwo, round.
  assert (Hfloor : Qfloor (x * 100 + (1 # 2)) <= n * 100).
  { assert (Hle : (x * 100 + (1 # 2) <= inject_Z (n * 100) + (1 # 2))%Q).
    { apply Qplus_le_l. rewrite inject_Z_mult. apply Qmult_le_compat_r; [done|by compute]. }
    apply Qfloor_resp_le in Hle.
    assert (Hfl : Qfloor (inject_Z (n * 100) + (1 # 2)) = n * 100).
    { unfold Qfloor, inject_Z, Qplus. cbn [Qnum Qden].
      change (Z.pos (1 * 2)) with 2. symmetry. apply Z.div_unique with (r := 1); lia. }
    lia. }
  apply Qle_shift_div_r; [by compute|].
  change 100%Q with (inject_Z 100).
  rewrite <- inject_Z_mult, <- Zle_Qle. exact Hfloor.
Qed.

Lemma toPercent_le_100 (value total : Z) :
  value <= total -> (toPercent value total <= 100)%Q.
Proof.
  intros Hle. unfold toPercent. destruct (total <=? 0) eqn:Htot; [by compute|].
  apply Z.leb_gt in Htot.
  apply (roundToTwo_le _ 100).
  assert (Hdiv : (inject_Z value / inject_Z total <= 1)%Q).
  { apply Qle_shift_div_r; [by rewrite (Zlt_Qlt 0) in Htot|].
    rewrite Qmult_1_l. by rewrite <- Zle_Qle. }
  change (inject_Z 100) with (1 * 100)%Q.
  apply Qmult_le_compat_r; [done|by compute].
Qed.

Section RebuildFloors.
Context `{lux : Luxon} `{fmt : NumberFormat} `{txt : TextInsights}.

(** C10.  When a rebuild of a day returns, the table
    [surveyAnalyticsDaily] holds exactly one row for the survey and the
    day; its [completed] counter is at least the number of responses of
    the survey submitted in the day, its [started] counter is at least
    [completed], and the conversion rate derived from the two is at
    most 100. *)
Theorem rebuild_floors (now : Z) (surveyId : Id) (dateKey : string)
    (includeTextInsights : bool) (db db1 : Db) :
  rebuildDailyMaterializedAnalytics now surveyId dateKey includeTextInsights db = (db1, inr tt) ->
  exists nd responses row,
    normalizeDateKey dateKey = inr nd /\
    getResponsesForSurveyDate surveyId nd db = (db, inr responses) /\
    rowsWhere (analyticsOfDay surveyId nd) (surveyAnalyticsDaily db1) = [row] /\
    Z.of_nat (length responses) <= ad_completed row /\
    ad_completed row <= ad_started row /\
    (toPercent (ad_completed row) (ad_started row) <= 100)%Q.
Proof.
  intros Hrun.
  destruct (rebuild_returns _ _ _ _ _ _ Hrun) as (nd & responses & metrics & Hnd & Hresp & Huniq).
  destruct (rebuild_run now surveyId dateKey includeTextInsights db nd responses metrics
              Hnd Hresp Huniq)
    as (Ta & Tf & Tb & Tt & Hrun1 & [Ha _] & _).
  rewrite Hrun in Hrun1. injection Hrun1 as ->.
  exists nd, responses. eexists. split; [done|]. split; [done|].
  split; [exact Ha|].
  cbn [analyticsRowOf ad_completed ad_started].
  split; [lia|]. split; [lia|]. apply toPercent_le_100. lia.
Qed.

End RebuildFloors.

Lemma rebuild_floors_witness :
  rebuildDailyMaterializedAnalytics
    (lux := Samples.calendarLuxon) (fmt := Samples.decimalFormat)
    (txt := Samples.verbatimInsights) Samples.sampleNow 0 Samples.sampleDay false
    Samples.sampleDb = (Samples.sampleRebuilt, inr tt) /\
  exists row,
    liveRows (surveyAnalyticsDaily Samples.sampleRebuilt) = [row] /\
    2 <= ad_completed row <= ad_started row.
Proof.
  assert (Hrun : rebuildDailyMaterializedAnalytics
                   (lux := Samples.calendarLuxon) (fmt := Samples.decimalFormat)
                   (txt := Samples.verbatimInsights) Samples.sampleNow 0 Samples.sampleDay false
                   Samples.sampleDb = (Samples.sampleRebuilt, inr tt))
    by (vm_compute; reflexivity).
  split; [exact Hrun|].
  destruct (@rebuild_floors Samples.calendarLuxon Samples.decimalFormat
              Samples.verbatimInsights Samples.sampleNow 0%nat Samples.sampleDay false
              Samples.sampleDb Samples.sampleRebuilt Hrun)
    as (nd & responses & row & Hnd & Hresp & Hrow & Hc & Hs & _).
  vm_compute in Hnd. injection Hnd as <-.
  vm_compute in Hresp. injection Hresp as <-.
  vm_compute in Hrow. exists row. split; [by rewrite <- Hrow|].
  cbn [length Z.of_nat] in Hc. lia.
Defined.

(** ** The analytics queries read the rollups *)

Lemma agreeOnRollups_sym (db1 db2 : Db) : agreeOnRollups db1 db2 -> agreeOnRollups db2 db1.
Proof. unfold agreeOnRollups. intuition congruence. Qed.

Global Instance agreed_appUsers : Agreed t_appUsers.
Proof. intros db1 db2 H. apply H. Qed.
Global Instance agreed_surveys : Agreed t_surveys.
Proof. intros db1 db2 H. apply H. Qed.
Global Instance agreed_surveyVersions : Agreed t_surveyVersions.
Proof. intros db1 db2 H. apply H. Qed.
Global Instance agreed_analytics : Agreed t_surveyAnalyticsDaily.
Proof. intros db1 db2 H. apply H. Qed.
Global Instance agreed_fields : Agreed t_surveyFieldAnalyticsDaily.
Proof. intros db1 db2 H. apply H. Qed.
Global Instance agreed_buckets : Agreed t_surveyAnswerBucketsDaily.
Proof. intros db1 db2 H. apply H. Qed.
Global Instance agreed_text : Agreed t_surveyTextInsightsDaily.
Proof. intros db1 db2 H. apply H. Qed.

Lemma sameOutcome_eq {A} (r1 r2 : Result A) : sameOutcome eq r1 r2 <-> r1 = r2.
Proof.
  destruct r1, r2; cbn; split; try congruence; try tauto; intros H; by inversion H.
Qed.

Section RollupOnly.
Context {A : Type}.

Lemma rollupOnly_ret (R : A -> A -> Prop) (a : A) : R a a -> rollupOnly R (ret a).
Proof. by split. Qed.

Lemma rollupOnly_throw (R : A -> A -> Prop) (e : Error) : rollupOnly R (throw e).
Proof. by split. Qed.

Lemma rollupOnly_lift (r : Result A) : rollupOnly eq (lift r).
Proof. split; [done|]. intros db1 db2 _. by apply sameOutcome_eq. Qed.

Lemma rollupOnly_bind {B} (R : B -> B -> Prop) (c : M A) (k : A -> M B) :
  rollupOnly eq c -> (forall a, rollupOnly R (k a)) -> rollupOnly R (bind c k).
Proof.
  intros [Hc1 Hc2] Hk. split.
  - intros db. unfold bind. pose proof (Hc1 db) as Hdb.
    destruct (c db) as [db' [e|a]]; cbn in Hdb; subst db'; [done|]. apply Hk.
  - intros db1 db2 Hagree. unfold bind.
    pose proof (Hc1 db1) as H1. pose proof (Hc1 db2) as H2.
    pose proof (proj1 (sameOutcome_eq _ _) (Hc2 db1 db2 Hagree)) as Hsame.
    destruct (c db1) as [db1' r1], (c db2) as [db2' r2]. cbn in H1, H2, Hsame. subst.
    destruct r2 as [e|a]; [done|]. by apply Hk.
Qed.

Lemma rollupOnly_mapM {B} (R1 : A -> A -> Prop) (R2 : B -> B -> Prop) (f : A -> B) (c : M A) :
  rollupOnly R1 c -> (forall a b, R1 a b -> R2 (f a) (f b)) -> rollupOnly R2 (mapM f c).
Proof.
  intros [Hc1 Hc2] Hf. split.
  - intros db. unfold mapM, bind. pose proof (Hc1 db) as Hdb.
    by destruct (c db) as [db' [e|a]].
  - intros db1 db2 Hagree. unfold mapM, bind.
    pose proof (Hc2 db1 db2 Hagree) as Hsame.
    destruct (c db1) as [db1' [e1|a1]], (c db2) as [db2' [e2|a2]]; cbn in *; auto.
Qed.

Lemma rollupOnly_get (t : TableRef A) `{!Agreed t} (i : Id) : rollupOnly eq (Store.get t i).
Proof.
  split; [done|]. intros db1 db2 Hagree. apply sameOutcome_eq. cbn.
  by rewrite (agreed db1 db2 Hagree).
Qed.

Lemma rollupOnly_collect (t : TableRef A) `{!Agreed t} (p : A -> bool) :
  rollupOnly eq (Store.collect t p).
Proof.
  split; [done|]. intros db1 db2 Hagree. apply sameOutcome_eq. cbn.
  by rewrite (agreed db1 db2 Hagree).
Qed.

Lemma rollupOnly_collectRange (t : TableRef A) `{!Agreed t} (p : A -> bool)
    (dateKeyOf : A -> string) (from to : string) :
  rollupOnly eq (Store.collectRange t p dateKeyOf from to).
Proof.
  split; [done|]. intros db1 db2 Hagree. apply sameOutcome_eq. cbn.
  by rewrite (agreed db1 db2 Hagree).
Qed.

Lemma rollupOnly_unique (l : list (Doc A)) : rollupOnly eq (Store.unique l).
Proof.
  split.
  - intros db. by destruct l as [|? [|? ?]].
  - intros db1 db2 _. apply sameOutcome_eq. by destruct l as [|? [|? ?]].
Qed.

End RollupOnly.

(** One step of a proof that a handler reads only agreed tables. *)
Ltac rollup_step :=
  lazymatch goal with
  | |- rollupOnly _ (bind _ _) => apply rollupOnly_bind; [|intros ?]
  | |- rollupOnly _ (ret _) => apply rollupOnly_ret; reflexivity
  | |- rollupOnly _ (throw _) => apply rollupOnly_throw
  | |- rollupOnly _ (lift _) => apply rollupOnly_lift
  | |- rollupOnly _ (Store.get _ _) => apply rollupOnly_get; apply _
  | |- rollupOnly _ (Store.collect _ _) => apply rollupOnly_collect; apply _
  | |- rollupOnly _ (Store.collectRange _ _ _ _ _) => apply rollupOnly_collectRange; apply _
  | |- rollupOnly _ (Store.unique _) => apply rollupOnly_unique
  | |- rollupOnly _ (match ?x with _ => _ end) => destruct x
  | |- rollupOnly _ (let _ := _ in _) => cbv zeta
  end.

Ltac rollup := repeat rollup_step.

(** Two databases with the same rollups and metadata, one with a
    graded response and one with two ungraded ones: the totals of
    [getSurveyScoringSummary] follow the raw responses. *)
Lemma scoringSummary_counterexample :
  let summary :=
    runQuery (lux := Samples.calendarLuxon) (fmt := Samples.decimalFormat)
      (js := Samples.plainStrings) (consts := Samples.sampleConstants)
      QScoringSummary (Some "user_1") 0 Samples.sampleDay Samples.sampleDay in
  agreeOnRollups Samples.sampleDb Samples.sampleGradedDb /\
  snd (summary Samples.sampleDb) = inr (RScoringSummary (Analytics.mkScoring 0 0 0 0)) /\
  snd (summary Samples.sampleGradedDb) = inr (RScoringSummary (Analytics.mkScoring 0 0 1 1)) /\
  snd (summary Samples.sampleDb) <> snd (summary Samples.sampleGradedDb).
Proof.
  cbv zeta. split; [by repeat split|].
  assert (H1 : snd (runQuery (lux := Samples.calendarLuxon) (fmt := Samples.decimalFormat)
                      (js := Samples.plainStrings) (consts := Samples.sampleConstants)
                      QScoringSummary (Some "user_1") 0 Samples.sampleDay Samples.sampleDay
                      Samples.sampleDb)
               = inr (RScoringSummary (Analytics.mkScoring 0 0 0 0)))
    by (vm_compute; reflexivity).
  assert (H2 : snd (runQuery (lux := Samples.calendarLuxon) (fmt := Samples.decimalFormat)
                      (js := Samples.plainStrings) (consts := Samples.sampleConstants)
                      QScoringSummary (Some "user_1") 0 Samples.sampleDay Samples.sampleDay
                      Samples.sampleGradedDb)
               = inr (RScoringSummary (Analytics.mkScoring 0 0 1 1)))
    by (vm_compute; reflexivity).
  split; [exact H1|]. split; [exact H2|]. rewrite H1, H2. discriminate.
Qed.

Section Queries.
Context `{lux : Luxon} `{fmt : NumberFormat} `{js : JsStrings} `{consts : Constants}.

Import Analytics.

Lemma rollupOnly_requireAppUser (identity : option string) :
  rollupOnly eq (Auth.requireAppUser identity).
Proof. unfold Auth.requireAppUser. rollup. Qed.

Lemma rollupOnly_access (identity : option string) (surveyId : Id) :
  rollupOnly eq (requireSurveyWithAccess identity surveyId).
Proof.
  unfold requireSurveyWithAccess.
  apply rollupOnly_bind; [apply rollupOnly_requireAppUser|intros user]. rollup.
Qed.

Lemma rollupOnly_fieldMeta (surveyId : Id) : rollupOnly eq (getSurveyFieldMetaMap surveyId).
Proof. unfold getSurveyFieldMetaMap. rollup. Qed.

Lemma rollupOnly_load (surveyId : Id) (from to : string) :
  rollupOnly eq (loadDailyAnalyticsRows surveyId from to).
Proof. unfold loadDailyAnalyticsRows. rollup. Qed.

Lemma rollupOnly_breakdown (surveyId : Id) (from to : string) :
  rollupOnly eq (buildAnswerBreakdownFromMaterialized surveyId from to).
Proof.
  unfold buildAnswerBreakdownFromMaterialized.
  apply rollupOnly_bind; [apply rollupOnly_fieldMeta|intros fieldMeta]. rollup.
Qed.

(** After the access check, the rest of a query. *)
Ltac after_access :=
  let access := fresh "access" in
  apply rollupOnly_bind; [apply rollupOnly_access|intros access];
  destruct (snd access); [|rollup].

Lemma rollupOnly_funnel (identity : option string) (surveyId : Id) (from to : string) :
  rollupOnly eq (getSurveyFunnel identity surveyId from to).
Proof.
  unfold getSurveyFunnel. after_access.
  apply rollupOnly_bind; [apply rollupOnly_lift|intros range].
  apply rollupOnly_bind; [apply rollupOnly_load|intros rows]. rollup.
Qed.

Lemma rollupOnly_scoring (identity : option string) (surveyId : Id) (from to : string) :
  rollupOnly (fun a b => ss_gradedResponses a = ss_gradedResponses b /\
                         ss_avgScorePercent a = ss_avgScorePercent b)
    (getSurveyScoringSummary identity surveyId from to).
Proof.
  unfold getSurveyScoringSummary.
  apply rollupOnly_bind; [apply rollupOnly_access|intros access].
  destruct (snd access); [|by apply rollupOnly_ret].
  apply rollupOnly_bind; [apply rollupOnly_lift|intros range].
  apply rollupOnly_bind; [apply rollupOnly_load|intros rows].
  split; [done|]. intros db1 db2 _. by cbn.
Qed.

Lemma rollupOnly_trend (identity : option string) (surveyId : Id) (from to : string) :
  rollupOnly eq (getSurveyTrendSeries identity surveyId from to).
Proof.
  unfold getSurveyTrendSeries. after_access.
  apply rollupOnly_bind; [apply rollupOnly_lift|intros range].
  apply rollupOnly_bind; [apply rollupOnly_load|intros rows]. rollup.
Qed.

Lemma rollupOnly_answers (identity : option string) (surveyId : Id) (from to : string) :
  rollupOnly eq (getSurveyAnswerBreakdown identity surveyId from to).
Proof.
  unfold getSurveyAnswerBreakdown. after_access.
  apply rollupOnly_bind; [apply rollupOnly_lift|intros range].
  apply rollupOnly_bind; [apply rollupOnly_breakdown|intros rows]. rollup.
Qed.

Lemma rollupOnly_field (identity : option string) (surveyId : Id) (from to : string)
    (fieldId : string) (limit : option JsNum) :
  rollupOnly eq (getSurveyFieldBreakdown identity surveyId from to fieldId limit).
Proof.
  unfold getSurveyFieldBreakdown. after_access.
  apply rollupOnly_bind; [apply rollupOnly_lift|intros range].
  apply rollupOnly_bind; [apply rollupOnly_fieldMeta|intros fieldMeta]. rollup.
Qed.

Lemma rollupOnly_dropoff (identity : option string) (surveyId : Id) (from to : string) :
  rollupOnly eq (getSurveyDropoffByStep identity surveyId from to).
Proof.
  unfold getSurveyDropoffByStep. after_access.
  apply rollupOnly_bind; [apply rollupOnly_lift|intros range].
  apply rollupOnly_bind; [apply rollupOnly_fieldMeta|intros fieldMeta]. rollup.
Qed.

Lemma rollupOnly_csv (identity : option string) (surveyId : Id) (from to : string)
    (report : CsvReport) :
  rollupOnly eq (getSurveyCsvExport identity surveyId from to report).
Proof.
  unfold getSurveyCsvExport. after_access.
  apply rollupOnly_bind; [apply rollupOnly_lift|intros range].
  destruct report.
  - apply rollupOnly_bind; [apply rollupOnly_load|intros rows]. rollup.
  - apply rollupOnly_bind; [apply rollupOnly_load|intros rows]. rollup.
  - apply rollupOnly_bind; [apply rollupOnly_breakdown|intros rows]. rollup.
Qed.

(** C5, amended.  On two databases with the same rollup tables and the
    same users, surveys and survey versions, each of the seven read
    queries throws the same error or returns the same result, except
    that the two totals [totalCorrect] and [totalIncorrect] of
    [getSurveyScoringSummary], which are summed over the raw responses,
    may differ; every other query returns exactly the same outcome. *)
Theorem queries_read_rollups (q : Query) (identity : option string) (surveyId : Id)
    (from to : string) (db1 db2 : Db) :
  agreeOnRollups db1 db2 ->
  sameOutcome (fun a b => rollupPart a = rollupPart b)
    (snd (runQuery q identity surveyId from to db1))
    (snd (runQuery q identity surveyId from to db2)) /\
  (q <> QScoringSummary ->
   snd (runQuery q identity surveyId from to db1) =
   snd (runQuery q identity surveyId from to db2)).
Proof.
  intros Hagree.
  assert (Hexact : q <> QScoringSummary ->
            rollupOnly eq (runQuery q identity surveyId from to)).
  { intros Hq. destruct q; [|done|..]; cbn [runQuery];
      (eapply rollupOnly_mapM; [|by intros a b ->]).
    - apply rollupOnly_funnel.
    - apply rollupOnly_trend.
    - apply rollupOnly_answers.
    - apply rollupOnly_field.
    - apply rollupOnly_dropoff.
    - apply rollupOnly_csv. }
  assert (Hpart : q <> QScoringSummary ->
            sameOutcome (fun a b => rollupPart a = rollupPart b)
              (snd (runQuery q identity surveyId from to db1))
              (snd (runQuery q identity surveyId from to db2))).
  { intros Hq. pose proof (proj2 (Hexact Hq) db1 db2 Hagree) as Hsame.
    apply sameOutcome_eq in Hsame. rewrite Hsame.
    by destruct (snd (runQuery q identity surveyId from to db2)). }
  split.
  - destruct q; try (by apply Hpart).
    refine (proj2 (rollupOnly_mapM _ _ RScoringSummary _
                     (rollupOnly_scoring identity surveyId from to) _) db1 db2 Hagree).
    intros a b [Hg Ha]. cbn. by rewrite Hg, Ha.
  - intros Hq. apply sameOutcome_eq. by apply (Hexact Hq).
Qed.

End Queries.

Lemma queries_read_rollups_witness :
  let funnel :=
    runQuery (lux := Samples.calendarLuxon) (fmt := Samples.decimalFormat)
      (js := Samples.plainStrings) (consts := Samples.sampleConstants)
      QFunnel (Some "user_1") 0 Samples.sampleDay Samples.sampleDay in
  agreeOnRollups Samples.sampleDb Samples.sampleGradedDb /\
  snd (funnel Samples.sampleDb) = snd (funnel Samples.sampleGradedDb).
Proof.
  cbv zeta.
  assert (Hagree : agreeOnRollups Samples.sampleDb Samples.sampleGradedDb) by (by repeat split).
  split; [exact Hagree|].
  apply (@queries_read_rollups Samples.calendarLuxon Samples.decimalFormat
           Samples.plainStrings Samples.sampleConstants QFunnel (Some "user_1") 0%nat
           Samples.sampleDay Samples.sampleDay _ _ Hagree).
  discriminate.
Defined.

(** ** The window guard of the analytics queries *)

Lemma startOfDay_idem (ms : Z) : startOfDay (startOfDay ms) = startOfDay ms.
Proof. unfold startOfDay, DAY_MS. by rewrite Z.div_mul. Qed.

Section Window.
Context `{lux : Luxon}.


(** The loop of [buildDateKeys] has left its [while] when the fuel of
    [buildDateKeys] is spent: more rounds add nothing. *)
Lemma dateKeysLoop_exit (fuel extra : nat) (cursor end_ : Z) :
  end_ < cursor + Z.of_nat fuel * DAY_MS ->
  dateKeysLoop (fuel + extra) cursor end_ = dateKeysLoop fuel cursor end_.
Proof.
  revert cursor. induction fuel as [|fuel IH]; intros cursor Hlt.
  - destruct extra as [|extra]; [done|]. cbn [Nat.add dateKeysLoop].
    destruct (cursor <=? end_) eqn:Hc; [apply Z.leb_le in Hc; lia|done].
  - cbn [Nat.add dateKeysLoop]. destruct (cursor <=? end_); [|done].
    f_equal. apply IH. unfold DAY_MS in *. lia.
Qed.

Lemma buildDateKeys_fuel (start end_ : Z) :
  start <= end_ ->
  end_ < start + Z.of_nat (Z.to_nat ((end_ - start) / DAY_MS + 1)) * DAY_MS.
Proof.
  intros Hle. unfold DAY_MS.
  pose proof (Z.div_pos (end_ - start) 86400000 ltac:(lia) ltac:(lia)).
  pose proof (Z.mod_pos_bound (end_ - start) 86400000 ltac:(lia)).
  pose proof (Z.div_mod (end_ - start) 86400000 ltac:(lia)).
  rewrite Z2Nat.id by lia. lia.
Qed.


End Window.

Section NoWindowError.
Context {A : Type}.









End NoWindowError.




Section Guard.
Context `{lux : Luxon} `{fmt : NumberFormat} `{js : JsStrings} `{consts : Constants}.

Import Analytics.








End Guard.



(** ** The session state machine *)

Global Instance sessions_other_invites : OtherTable t_surveySessions t_surveyInvites.
Proof. by intros T db. Qed.
Global Instance sessions_other_responses : OtherTable t_surveySessions t_surveyResponses.
Proof. by intros T db. Qed.
Global Instance sessions_other_transitions : OtherTable t_surveySessions t_sessionTransitions.
Proof. by intros T db. Qed.
Global Instance sessions_other_metrics : OtherTable t_surveySessions t_surveyMetricsDaily.
Proof. by intros T db. Qed.
Global Instance sessions_other_analytics : OtherTable t_surveySessions t_surveyAnalyticsDaily.
Proof. by intros T db. Qed.
Global Instance sessions_other_outbox : OtherTable t_surveySessions t_analyticsOutbox.
Proof. by intros T db. Qed.
Global Instance sessions_other_audit : OtherTable t_surveySessions t_auditLogs.
Proof. by intros T db. Qed.
Global Instance invites_other_sessions : OtherTable t_surveyInvites t_surveySessions.
Proof. by intros T db. Qed.
Global Instance invites_other_responses : OtherTable t_surveyInvites t_surveyResponses.
Proof. by intros T db. Qed.
Global Instance invites_other_transitions : OtherTable t_surveyInvites t_sessionTransitions.
Proof. by intros T db. Qed.
Global Instance invites_other_metrics : OtherTable t_surveyInvites t_surveyMetricsDaily.
Proof. by intros T db. Qed.
Global Instance invites_other_analytics : OtherTable t_surveyInvites t_surveyAnalyticsDaily.
Proof. by intros T db. Qed.
Global Instance invites_other_outbox : OtherTable t_surveyInvites t_analyticsOutbox.
Proof. by intros T db. Qed.
Global Instance invites_other_audit : OtherTable t_surveyInvites t_auditLogs.
Proof. by intros T db. Qed.

Section KeepsTable.
Context {B A : Type} (t : TableRef B).

Lemma keeps_ret (a : A) : keepsTable t (ret a).
Proof. by intros db. Qed.

Lemma keeps_throw (e : Error) : keepsTable t (@throw A e).
Proof. by intros db. Qed.

Lemma keeps_lift (r : Result A) : keepsTable t (lift r).
Proof. by intros db. Qed.

Lemma keeps_bind {C} (c : M C) (k : C -> M A) :
  keepsTable t c -> (forall a, keepsTable t (k a)) -> keepsTable t (bind c k).
Proof.
  intros Hc Hk db. unfold bind. specialize (Hc db).
  destruct (c db) as [db' [e|a]]; cbn in *; [done|]. by rewrite Hk.
Qed.

Lemma keeps_get (t' : TableRef A) (i : Id) : keepsTable t (Store.get t' i).
Proof. by intros db. Qed.

Lemma keeps_collect (t' : TableRef A) (p : A -> bool) : keepsTable t (Store.collect t' p).
Proof. by intros db. Qed.

Lemma keeps_unique (l : list (Doc A)) : keepsTable t (Store.unique l).
Proof. intros db. by destruct l as [|? [|? ?]]. Qed.

Lemma keeps_insert (t' : TableRef A) `{!OtherTable t t'} (row : A) :
  keepsTable t (Store.insert t' row).
Proof. intros db. cbn. apply other_table. Qed.

Lemma keeps_patch (t' : TableRef A) `{!OtherTable t t'} (i : Id) (f : A -> A) :
  keepsTable t (Store.patch t' i f).
Proof.
  intros db. unfold Store.patch. destruct (lookupDoc (tget t' db) i); [|done].
  cbn. apply other_table.
Qed.

End KeepsTable.

(** One step of a proof that a handler leaves a table alone. *)
Ltac keeps_step :=
  lazymatch goal with
  | |- keepsTable _ (bind _ _) => apply keeps_bind; [|intros ?]
  | |- keepsTable _ (ret _) => apply keeps_ret
  | |- keepsTable _ (throw _) => apply keeps_throw
  | |- keepsTable _ (lift _) => apply keeps_lift
  | |- keepsTable _ (Store.get _ _) => apply keeps_get
  | |- keepsTable _ (Store.collect _ _) => apply keeps_collect
  | |- keepsTable _ (Store.unique _) => apply keeps_unique
  | |- keepsTable _ (Store.insert _ _) => apply keeps_insert; apply _
  | |- keepsTable _ (Store.patch _ _ _) => apply keeps_patch; apply _
  | |- keepsTable _ (match ?x with _ => _ end) => destruct x
  | |- keepsTable _ (let _ := _ in _) => cbv zeta
  | |- keepsTable _ (Domain.writeTransition _ _ _ _ _ _) => unfold Domain.writeTransition
  | |- keepsTable _ (Domain.enqueueAnalyticsEvent _ _ _ _) =>
      unfold Domain.enqueueAnalyticsEvent
  | |- keepsTable _ (Domain.writeAuditLog _ _ _ _ _ _ _) => unfold Domain.writeAuditLog
  | |- keepsTable _ (Domain.bumpDailyMetric _ _ _ _) => unfold Domain.bumpDailyMetric
  | |- keepsTable _ (Utils.getInviteByToken _) => unfold Utils.getInviteByToken
  | |- keepsTable _ (if ?b then _ else _) => destruct b
  end.

Ltac keeps := repeat keeps_step.

Section WritesSession.
Context {A : Type} (Q : Id -> SurveySession -> Prop).

Lemma writes_keeps (c : M A) : keepsTable t_surveySessions c -> writesSession Q c.
Proof. intros Hc db. left. apply Hc. Qed.

Lemma writes_bind {B} (c : M B) (k : B -> M A) :
  keepsTable t_surveySessions c -> (forall b, writesSession Q (k b)) -> writesSession Q (bind c k).
Proof.
  intros Hc Hk db. unfold bind. specialize (Hc db).
  destruct (c db) as [db' [e|b]]; cbn in *; [by left|].
  rewrite <- Hc. apply Hk.
Qed.

Lemma writes_patch (i : Id) (f : SurveySession -> SurveySession) (k : unit -> M A) :
  (forall s, Q i (f s)) -> (forall u, keepsTable t_surveySessions (k u)) ->
  writesSession Q (bind (Store.patch t_surveySessions i f) k).
Proof.
  intros Hf Hk db. unfold bind, Store.patch. cbn [tget t_surveySessions].
  destruct (lookupDoc (surveySessions db) i) as [s|] eqn:Hs; [|by left].
  right. exists i, s, (f s). split; [done|]. split; [apply Hf|].
  by rewrite Hk.
Qed.

End WritesSession.

(** A write within [Q] changes the sessions within [P] when [P] holds
    of every session and itself, and of a session and what [Q] allows
    in its place. *)
Lemma writesSession_rel {A} (Q : Id -> SurveySession -> Prop)
    (P : SurveySession -> SurveySession -> Prop) (c : M A) (db : Db) :
  writesSession Q c ->
  (forall s, P s s) ->
  (forall i s s', lookupDoc (surveySessions db) i = Some s -> Q i s' -> P s s') ->
  sessionsRel P (surveySessions db) (surveySessions (fst (c db))).
Proof.
  intros Hc Hrefl HQ j s Hj.
  destruct (Hc db) as [->|(i & s0 & s' & Hi & Hq & ->)]; [by exists s|].
  destruct (decide (i = j)) as [->|Hne].
  - exists s'. rewrite lookupDoc_set_eq by (by eapply lookupDoc_lt).
    split; [done|]. by eapply HQ.
  - exists s. by rewrite lookupDoc_set_ne.
Qed.

Lemma sessionsRel_refl (P : SurveySession -> SurveySession -> Prop) (T : Table SurveySession) :
  (forall s, P s s) -> sessionsRel P T T.
Proof. intros Hrefl i s Hs. by exists s. Qed.

Lemma sessionsRel_commit {A} (P : SurveySession -> SurveySession -> Prop) (c : M A) (db : Db) :
  (forall s, P s s) ->
  sessionsRel P (surveySessions db) (surveySessions (fst (c db))) ->
  sessionsRel P (surveySessions db) (surveySessions (commit c db)).
Proof.
  intros Hrefl Hrel. unfold commit, mutation.
  destruct (c db) as [db' [e|a]]; cbn in *; [by apply sessionsRel_refl|done].
Qed.

Section LifeCycle.
Context `{lux : Luxon} `{zod : ZodNumber} `{re : RegExpEngine} `{crypto : Utils.Crypto}
        `{js : JsStrings} `{consts : Constants} `{rt : QueryRuntime}.

Import Respondent Sessions.

Lemma transitionSession_writes (sessionId : Id) (toStatus : SessionStatus) (why : string)
    (at_ : Z) :
  writesSession (fun i s' => i = sessionId /\ ses_status s' = toStatus)
    (transitionSession sessionId toStatus why at_).
Proof.
  unfold transitionSession.
  apply writes_bind; [keeps|intros found].
  destruct found as [session|]; [|apply writes_keeps; keeps].
  destruct (bool_decide (ses_status session = toStatus)); [apply writes_keeps; keeps|].
  cbv zeta. apply writes_patch; [done|]. intros _. keeps.
Qed.

Lemma submitSession_writes (now : Z) (publicId : string) :
  writesSession (fun _ s' => ses_status s' = completed) (submitSession now publicId).
Proof.
  unfold submitSession.
  apply writes_bind; [keeps|intros rows].
  apply writes_bind; [keeps|intros found].
  destruct found as [[sessionId session]|]; [|apply writes_keeps; keeps].
  destruct (bool_decide (ses_status session = completed)); [apply writes_keeps; keeps|].
  apply writes_bind; [keeps|intros invite].
  destruct invite as [invite|]; [|apply writes_keeps; keeps].
  cbv zeta.
  destruct (activeButExpired invite now); [apply writes_keeps; keeps|].
  destruct (capReached (completionCount invite) invite); [apply writes_keeps; keeps|].
  destruct (negb _); [apply writes_keeps; keeps|].
  apply writes_bind; [keeps|intros version].
  destruct version as [version|]; [|apply writes_keeps; keeps].
  apply writes_bind; [keeps|intros ?].
  apply writes_bind; [keeps|intros ?].
  apply writes_bind; [keeps|intros responseId].
  apply writes_patch; [done|]. intros _. keeps.
Qed.

(** A transition towards the status a session already has changes
    nothing and throws nothing. *)
Lemma transitionSession_same (sessionId : Id) (toStatus : SessionStatus) (why : string)
    (at_ : Z) (db : Db) (s : SurveySession) :
  lookupDoc (surveySessions db) sessionId = Some s ->
  ses_status s = toStatus ->
  transitionSession sessionId toStatus why at_ db = (db, inr false).
Proof.
  intros Hs Hst. unfold transitionSession, bind, Store.get. cbn [tget t_surveySessions].
  rewrite Hs. by rewrite bool_decide_eq_true_2.
Qed.

Lemma quietSessions_run (status : SessionStatus) (cutoff : Z) (n : JsNum) (db : Db) :
  fst (quietSessions status cutoff n db) = db /\
  forall l, snd (quietSessions status cutoff n db) = inr l ->
    forall d, d ∈ l ->
      lookupDoc (surveySessions db) (fst d) = Some (snd d) /\ ses_status (snd d) = status.
Proof.
  unfold quietSessions, bind, lift, Store.collect, ret.
  destruct (takeCount n) as [e|count]; cbn [fst snd]; [by split|].
  split; [done|]. intros l [= <-] d Hd.
  apply subseteq_take in Hd. rewrite sortBy_Permutation in Hd.
  rewrite list_elem_of_In, List.filter_In, <- list_elem_of_In in Hd. destruct Hd as [Hin Hp].
  destruct d as [i s]. apply docs_spec in Hin.
  split; [done|]. apply andb_prop in Hp as [Hst _]. by apply bool_decide_eq_true_1 in Hst.
Qed.

Lemma sweep_rel (target : SessionStatus) (sources : list SessionStatus) (why : string)
    (now : Z) (T0 : Table SurveySession) (sessions : list (Doc SurveySession)) :
  (forall d, d ∈ sessions ->
     exists s0, lookupDoc T0 (fst d) = Some s0 /\ ses_status s0 ∈ sources) ->
  forall (processed : Z) (db : Db),
    sessionsRel (sweptTo target sources) T0 (surveySessions db) ->
    sessionsRel (sweptTo target sources) T0
      (surveySessions
         (fst (forEach
                 (fun processed session =>
                    bind (transitionSession (fst session) target why now)
                         (fun transitioned =>
                            ret (if transitioned : bool then processed + 1 else processed)))
                 sessions processed db))).
Proof.
  induction sessions as [|x rest IH]; intros Hsrc processed db Hrel; [done|].
  cbn [forEach]. unfold bind at 1.
  assert (Hstep : sessionsRel (sweptTo target sources) T0
            (surveySessions (fst (transitionSession (fst x) target why now db)))).
  { destruct (Hsrc x) as (s0 & Hs0 & Hin); [by left|].
    destruct (transitionSession_writes (fst x) target why now db)
      as [->|(i & s1 & s' & Hi & [-> Hst] & ->)]; [done|].
    intros j s Hj. destruct (Hrel j s Hj) as (s2 & Hs2 & HP).
    destruct (decide (fst x = j)) as [<-|Hne].
    - exists s'. rewrite lookupDoc_set_eq by (by eapply lookupDoc_lt).
      split; [done|]. right. split; [done|]. congruence.
    - exists s2. by rewrite lookupDoc_set_ne. }
  unfold bind at 1.
  destruct (transitionSession (fst x) target why now db) as [db1 [e|transitioned]];
    cbn [fst] in *; [done|].
  unfold ret at 1. apply IH; [|done].
  intros d Hd. apply Hsrc. by right.
Qed.

Lemma markIdleBatch_rel (now : Z) (limit : option JsNum) (db : Db) :
  sessionsRel (sweptTo idle [in_progress]) (surveySessions db)
    (surveySessions (fst (markIdleBatch now limit db))).
Proof.
  unfold markIdleBatch. cbv zeta. unfold bind at 1.
  destruct (quietSessions_run in_progress (now - IDLE_THRESHOLD_MS) (batchLimit limit) db)
    as [Hdb Hrows].
  destruct (quietSessions _ _ _ db) as [db1 [e|sessions]]; cbn [fst snd] in *; subst db1.
  { apply sessionsRel_refl. by left. }
  unfold sweep. apply sweep_rel.
  - intros d Hd. destruct (Hrows sessions eq_refl d Hd) as [Hl Hst].
    exists (snd d). split; [done|]. rewrite Hst. by left.
  - apply sessionsRel_refl. by left.
Qed.

Lemma markAbandonedBatch_rel (now : Z) (limit : option JsNum) (db : Db) :
  sessionsRel (sweptTo abandoned [idle; in_progress]) (surveySessions db)
    (surveySessions (fst (markAbandonedBatch now limit db))).
Proof.
  unfold markAbandonedBatch. cbv zeta. unfold bind at 1.
  destruct (quietSessions_run idle (now - ABANDONED_THRESHOLD_MS) (batchLimit limit) db)
    as [Hdb Hrows].
  destruct (quietSessions idle _ _ db) as [db1 [e|idleSessions]]; cbn [fst snd] in *; subst db1.
  { apply sessionsRel_refl. by left. }
  unfold bind at 1.
  set (remaining := num_max _ _).
  assert (Hmore : exists r,
            (if num_gt remaining (ofZ 0)
             then quietSessions in_progress (now - ABANDONED_THRESHOLD_MS) remaining
             else ret []) db = (db, r) /\
            forall l, r = inr l -> forall d, d ∈ l ->
              lookupDoc (surveySessions db) (fst d) = Some (snd d) /\
              ses_status (snd d) = in_progress).
  { destruct (num_gt remaining (ofZ 0)).
    - destruct (quietSessions_run in_progress (now - ABANDONED_THRESHOLD_MS) remaining db)
        as [Hdb' Hrows'].
      destruct (quietSessions in_progress _ _ db) as [db1 r]; cbn [fst snd] in *; subst db1.
      by exists r.
    - exists (inr []). split; [done|]. intros l [= <-] d Hd. by apply elem_of_nil in Hd. }
  destruct Hmore as (r & -> & Hrows').
  destruct r as [e|inProgressSessions]; cbn [fst].
  { apply sessionsRel_refl. by left. }
  unfold sweep. apply sweep_rel.
  - intros d [Hd|Hd]%elem_of_app.
    + destruct (Hrows idleSessions eq_refl d Hd) as [Hl Hst].
      exists (snd d). split; [done|]. rewrite Hst. by left.
    + destruct (Hrows' inProgressSessions eq_refl d Hd) as [Hl Hst].
      exists (snd d). split; [done|]. rewrite Hst. right. by left.
  - apply sessionsRel_refl. by left.
Qed.

(** C6, amended.  The idle sweep leaves every session as it is or
    moves it from in progress to idle, the abandon sweep leaves it as it
    is or moves it from idle or in progress to abandoned, and neither
    creates or deletes a session or throws away one; among the
    mutations that write sessions, only [startOrResumeSession],
    [saveAnswer] and the internal mutation [transitionState] called with
    the target in progress can take a session that is not in progress to
    in progress; and a transition towards the status a session already
    has returns [false], changes nothing and throws nothing. *)
Theorem sweeps_never_reactivate :
  (forall now limit db,
     sessionsRel (sweptTo idle [in_progress]) (surveySessions db)
       (surveySessions (runSessionOp (OpMarkIdle now limit) db))) /\
  (forall now limit db,
     sessionsRel (sweptTo abandoned [idle; in_progress]) (surveySessions db)
       (surveySessions (runSessionOp (OpMarkAbandoned now limit) db))) /\
  (forall op db i s s',
     reactivates op = false ->
     lookupDoc (surveySessions db) i = Some s ->
     lookupDoc (surveySessions (runSessionOp op db)) i = Some s' ->
     ses_status s' = in_progress -> ses_status s = in_progress) /\
  (forall sessionId toStatus why at_ db s,
     lookupDoc (surveySessions db) sessionId = Some s ->
     ses_status s = toStatus ->
     transitionSession sessionId toStatus why at_ db = (db, inr false)).
Proof.
  assert (Hidle : forall now limit db,
            sessionsRel (sweptTo idle [in_progress]) (surveySessions db)
              (surveySessions (runSessionOp (OpMarkIdle now limit) db))).
  { intros now limit db. cbn [runSessionOp].
    apply sessionsRel_commit; [by left|apply markIdleBatch_rel]. }
  assert (Habandoned : forall now limit db,
            sessionsRel (sweptTo abandoned [idle; in_progress]) (surveySessions db)
              (surveySessions (runSessionOp (OpMarkAbandoned now limit) db))).
  { intros now limit db. cbn [runSessionOp].
    apply sessionsRel_commit; [by left|apply markAbandonedBatch_rel]. }
  split; [exact Hidle|]. split; [exact Habandoned|].
  split; [|intros; by eapply transitionSession_same].
  intros op db i s s' Hop Hs Hs' Hst.
  set (P := fun a b : SurveySession =>
              ses_status b = in_progress -> ses_status a = in_progress).
  assert (Hrel : sessionsRel P (surveySessions db) (surveySessions (runSessionOp op db))).
  { destruct op as [| |now publicId|now sessionId toStatus why|now limit|now limit];
      try discriminate Hop; cbn [runSessionOp].
    - apply sessionsRel_commit; [by unfold P|].
      eapply writesSession_rel; [apply submitSession_writes|by unfold P|].
      intros j a b _ Hb Hin. cbn in Hb. congruence.
    - apply sessionsRel_commit; [by unfold P|].
      eapply writesSession_rel; [apply transitionSession_writes|by unfold P|].
      intros j a b _ [_ Hb] Hin. cbn in Hop. apply bool_decide_eq_false_1 in Hop. congruence.
    - intros j a Ha. destruct (Hidle now limit db j a Ha) as (b & Hb & [Heq|[Hto _]]);
        exists b; (split; [done|]); intros Hin; congruence.
    - intros j a Ha. destruct (Habandoned now limit db j a Ha) as (b & Hb & [Heq|[Hto _]]);
        exists b; (split; [done|]); intros Hin; congruence. }
  destruct (Hrel i s Hs) as (s'' & Hs'' & HP). rewrite Hs' in Hs''. injection Hs'' as <-.
  by apply HP.
Qed.

End LifeCycle.

(** The internal mutation [transitionState] takes an idle session back
    to in progress: a third way besides the two respondent operations. *)
Lemma transitionState_counterexample :
  let op := OpTransitionState 1709300000000 0 in_progress "manual" in
  let after :=
    runSessionOp (lux := Samples.calendarLuxon) (zod := Samples.zod4)
      (re := Samples.permissiveRegExp) (crypto := Samples.tagCrypto)
      (js := Samples.plainStrings) (consts := Samples.sampleConstants)
      (rt := Samples.strictTake) op Samples.sampleSessionsDb in
  ses_status <$> lookupDoc (surveySessions Samples.sampleSessionsDb) 0 = Some idle /\
  ses_status <$> lookupDoc (surveySessions after) 0 = Some in_progress.
Proof. cbv zeta. split; vm_compute; reflexivity. Qed.

Lemma sweeps_never_reactivate_witness :
  Sessions.transitionSession (lux := Samples.calendarLuxon) 0 idle "idle_timeout"
    1709300000000 Samples.sampleSessionsDb = (Samples.sampleSessionsDb, inr false).
Proof.
  refine (proj2 (proj2 (proj2
            (@sweeps_never_reactivate Samples.calendarLuxon Samples.zod4
               Samples.permissiveRegExp Samples.tagCrypto Samples.plainStrings
               Samples.sampleConstants Samples.strictTake)))
            0%nat idle "idle_timeout" 1709300000000 Samples.sampleSessionsDb
            (Samples.sampleSession "s-idle" "respondent-aaaa" idle 1709100000000) _ _);
    reflexivity.
Defined.

(** ** The completion cap of an invite *)

Lemma num_le_ofZ (a b : Z) : num_le (ofZ a) (ofZ b) = (a <=? b).
Proof. unfold num_le, ofZ, Qle_bool, inject_Z. cbn. by rewrite !Z.mul_1_r. Qed.

(** The frame of a step that ran: what it left of the invites. *)
Ltac invites_frame H :=
  lazymatch type of H with
  | ?c ?d = (?d', _) =>
      let Hk := fresh "Hframe" in
      assert (Hk : keepsTable t_surveyInvites c) by keeps;
      specialize (Hk d); rewrite H in Hk; cbn [fst] in Hk
  end.

Section Cap.
Context `{lux : Luxon} `{zod : ZodNumber} `{re : RegExpEngine} `{crypto : Utils.Crypto}
        `{js : JsStrings}.

Import Respondent.

(** A submission that returns found the invite of the session active
    and under its cap, and has written one invite: this one, with one
    completion more and the status exhausted when the cap is reached. *)
Lemma submitSession_returns (now : Z) (publicId : string) (db db' : Db) (r : Id * Z) :
  submitSession now publicId db = (db', inr r) ->
  exists sessionId session invite,
    lookupDoc (surveySessions db) sessionId = Some session /\
    lookupDoc (surveyInvites db) (ses_inviteId session) = Some invite /\
    inv_status invite = inv_active /\
    capReached (completionCount invite) invite = false /\
    surveyInvites db' =
      <[ses_inviteId session :=
          Some (withCompletion (completionCount invite + 1)
                  (if capReached (completionCount invite + 1) invite
                   then inv_exhausted else inv_status invite) invite)]>
        (surveyInvites db).
Proof.
  intros H. unfold submitSession in H.
  apply bind_inr in H as (db1 & rows & H1 & H).
  unfold Store.collect in H1. injection H1 as <- Hrows.
  apply bind_inr in H as (db1 & found & H1 & H).
  pose proof (unique_db _ _ _ _ H1) as ->.
  destruct found as [[sessionId session]|]; [|discriminate H].
  assert (Hsession : lookupDoc (surveySessions db) sessionId = Some session).
  { destruct rows as [|d [|d' rest]]; try discriminate H1. injection H1 as ->.
    assert (Hin : In (sessionId, session)
                    (List.filter (fun d => String.eqb (sessionPublicId (snd d)) publicId)
                       (docs (surveySessions db)))) by (rewrite Hrows; by left).
    apply List.filter_In in Hin as [Hin _]. apply list_elem_of_In in Hin.
    by apply docs_spec in Hin. }
  clear H1.
  destruct (bool_decide (ses_status session = completed)); [discriminate H|].
  apply bind_inr in H as (db1 & invite & H1 & H).
  unfold Store.get in H1. injection H1 as <- Hinvite. cbn [tget t_surveyInvites] in Hinvite.
  destruct invite as [invite|]; [|discriminate H]. cbv zeta in H.
  destruct (activeButExpired invite now).
  { apply bind_inr in H as (db1 & u & _ & H). discriminate H. }
  destruct (capReached (completionCount invite) invite) eqn:Hcap.
  { apply bind_inr in H as (db1 & u & _ & H). discriminate H. }
  destruct (bool_decide (inv_status invite = inv_active)) eqn:Hactive; [|discriminate H].
  apply bool_decide_eq_true_1 in Hactive. cbn [negb] in H.
  apply bind_inr in H as (db1 & version & H1 & H).
  unfold Store.get in H1. injection H1 as <- _.
  destruct version as [version|]; [|discriminate H].
  apply bind_inr in H as (db1 & u1 & H1 & H). unfold lift in H1. injection H1 as <- _.
  apply bind_inr in H as (db1 & u2 & H1 & H). unfold lift in H1. injection H1 as <- _.
  apply bind_inr in H as (db1 & responseId & H1 & H). invites_frame H1.
  apply bind_inr in H as (db2 & u3 & H2 & H). invites_frame H2.
  apply bind_inr in H as (db3 & u4 & H3 & H). invites_frame H3.
  apply bind_inr in H as (db4 & u5 & H4 & H). invites_frame H4.
  assert (Hsame : surveyInvites db4 = surveyInvites db).
  { cbn [tget t_surveyInvites] in *. congruence. }
  apply bind_inr in H as (db5 & u6 & H5 & H).
  unfold Store.patch in H5. cbn [tget t_surveyInvites] in H5.
  rewrite Hsame, Hinvite in H5. injection H5 as <- _.
  assert (Hrest : surveyInvites db' =
            surveyInvites
              (tset t_surveyInvites
                 (<[ses_inviteId session :=
                      Some (withCompletion (completionCount invite + 1)
                              (if capReached (completionCount invite + 1) invite
                               then inv_exhausted else inv_status invite) invite)]>
                    (surveyInvites db)) db4)).
  { invites_frame H. exact Hframe3. }
  exists sessionId, session, invite. by rewrite Hrest.
Qed.

(** For an invite with a whole cap, a submission keeps the count at or
    under the cap, and an invite it completes is exhausted exactly when
    the count has reached the cap. *)
Lemma submitSession_whole_cap (now : Z) (publicId : string) (db : Db) (i : Id)
    (invite invite' : SurveyInvite) (cap : Z) :
  lookupDoc (surveyInvites db) i = Some invite ->
  maxCompletions invite = ofZ cap ->
  completionCount invite <= cap ->
  lookupDoc (surveyInvites (commit (submitSession now publicId) db)) i = Some invite' ->
  maxCompletions invite' = ofZ cap /\
  completionCount invite' <= cap /\
  (invite' = invite \/
   (inv_status invite = inv_active /\
    completionCount invite' = completionCount invite + 1 /\
    (inv_status invite' = inv_exhausted <-> completionCount invite' = cap))).
Proof.
  intros Hi Hcap Hle Hi'. unfold commit, mutation in Hi'.
  destruct (submitSession now publicId db) as [db' [e|r]] eqn:Hrun; cbn [fst] in Hi'.
  { rewrite Hi in Hi'. injection Hi' as <-. split; [done|]. split; [done|]. by left. }
  destruct (submitSession_returns _ _ _ _ _ Hrun)
    as (sessionId & session & inv & _ & Hinv & Hactive & Hunder & Hwrite).
  rewrite Hwrite in Hi'.
  destruct (decide (ses_inviteId session = i)) as [Heq|Hne].
  - rewrite Heq in *. rewrite Hi in Hinv. injection Hinv as <-.
    rewrite lookupDoc_set_eq in Hi' by (by eapply lookupDoc_lt). injection Hi' as <-.
    unfold capReached in *. rewrite Hcap, num_le_ofZ in *.
    apply Z.leb_gt in Hunder. cbn [withCompletion maxCompletions completionCount inv_status].
    split; [done|]. split; [lia|]. right. split; [done|]. split; [done|].
    destruct (cap <=? completionCount invite + 1) eqn:Hnow.
    + apply Z.leb_le in Hnow. split; [lia|done].
    + apply Z.leb_gt in Hnow. rewrite Hactive. split; [done|lia].
  - rewrite lookupDoc_set_ne in Hi' by done. rewrite Hi in Hi'. injection Hi' as <-.
    split; [done|]. split; [done|]. by left.
Qed.

End Cap.

(** C4 at an invite whose cap is not a whole number.  [createInvite]
    stores the cap [1.5] as it is; the first submission leaves the
    invite active with one completion, since [1 >= 1.5] fails; the
    second one is accepted for the same reason and takes the count to
    [2], past the cap. *)
Theorem submitSession_past_fractional_cap :
  maxCompletions <$> lookupDoc (surveyInvites Samples.capInvited) 0 = Some (Fin (3 # 2)) /\
  (completionCount <$> lookupDoc (surveyInvites Samples.capFirst) 0 = Some 1 /\
   inv_status <$> lookupDoc (surveyInvites Samples.capFirst) 0 = Some inv_active) /\
  (completionCount <$> lookupDoc (surveyInvites Samples.capSecond) 0 = Some 2 /\
   maxCompletions <$> lookupDoc (surveyInvites Samples.capSecond) 0 = Some (Fin (3 # 2)) /\
   inv_status <$> lookupDoc (surveyInvites Samples.capSecond) 0 = Some inv_exhausted) /\
  num_le (ofZ 2) (Fin (3 # 2)) = false.
Proof. repeat split; vm_compute; reflexivity. Qed.

(** * Further properties of the code *)

(** ** Grading *)

Lemma round_le_Z (x : Q) (n : Z) : (x <= inject_Z n)%Q -> round x <= n.
Proof.
  intros Hx. unfold round.
  assert (Hle : (x + (1 # 2) <= inject_Z n + (1 # 2))%Q) by (by apply Qplus_le_l).
  apply Qfloor_resp_le in Hle.
  assert (Hfl : Qfloor (inject_Z n + (1 # 2)) = n).
  { unfold Qfloor, inject_Z, Qplus. cbn [Qnum Qden].
    change (Z.pos (1 * 2)) with 2. symmetry. apply Z.div_unique with (r := 1); lia. }
  lia.
Qed.

Lemma round_nonneg (x : Q) : (0 <= x)%Q -> 0 <= round x.
Proof.
  intros Hx. unfold round.
  assert (Hle : (0 <= x + (1 # 2))%Q).
  { apply Qle_trans with x; [done|]. rewrite <- (Qplus_0_r x) at 1.
    apply Qplus_le_r. by compute. }
  apply Qfloor_resp_le in Hle. by compute in Hle |- *.
Qed.

Section Grading.
Import Scoring.

(** [gradeSubmission]: the counts and the score stay in their ranges. *)
Theorem gradeSubmission_bounds (fields : list Field) (answers : Answers) :
  let g := gradeSubmission fields answers in
  0 <= correctCount g <= gradableCount g /\
  0 <= incorrectCount g <= gradableCount g /\
  (0 <= scorePercent g <= 100)%Q.
Proof.
  cbn zeta. unfold gradeSubmission. cbn [correctCount gradableCount incorrectCount scorePercent].
  destruct (gradeStep_fold answers fields (mkAcc 0 0 ∅)) as (Hg & Hlo & Hhi).
  cbn zeta in *. cbn [acc_gradable acc_correct] in *.
  set (acc := fold_left (gradeStep answers) fields (mkAcc 0 0 ∅)) in *.
  split; [lia|]. split; [lia|].
  destruct (acc_gradable acc =? 0) eqn:Hz; [by compute|].
  apply Z.eqb_neq in Hz.
  assert (Hpos : (0 < inject_Z (acc_gradable acc))%Q) by (rewrite <- (Zlt_Qlt 0); lia).
  assert (Hfrac : (0 <= inject_Z (acc_correct acc) / inject_Z (acc_gradable acc) <= 1)%Q).
  { split.
    - apply Qle_shift_div_l; [done|]. rewrite Qmult_0_l, <- (Zle_Qle 0). lia.
    - apply Qle_shift_div_r; [done|]. rewrite Qmult_1_l, <- Zle_Qle. lia. }
  split.
  - apply Qle_shift_div_l; [by compute|]. rewrite Qmult_0_l.
    rewrite <- (Zle_Qle 0). apply round_nonneg.
    apply Qmult_le_0_compat; [apply Hfrac|by compute].
  - apply Qle_shift_div_r; [by compute|].
    change (100 * 100)%Q with (inject_Z 10000). rewrite <- Zle_Qle.
    apply round_le_Z. change (inject_Z 10000) with (1 * 10000)%Q.
    apply Qmult_le_compat_r; [apply Hfrac|by compute].
Qed.

End Grading.

Section GradingResults.
Import Scoring.

Lemma evaluateFieldCorrectness_None (field : Field) (answer : option Answer) :
  evaluateFieldCorrectness field answer = None <-> correctness field = None.
Proof.
  unfold evaluateFieldCorrectness.
  destruct (correctness field) as [[e|e|e|e tol]|]; [..|done];
    (split; [|done]); destruct answer as [[s|n|b|l|]|]; try done.
  by destruct (isNaN n).
Qed.

Lemma gradeStep_results (answers : Answers) (fields : list Field) : forall acc,
  NoDup (map id fields) ->
  let acc' := fold_left (gradeStep answers) fields acc in
  (forall f, f ∈ fields ->
     acc_results acc' !! id f =
     match evaluateFieldCorrectness f (answers !! id f) with
     | Some b => Some b
     | None => acc_results acc !! id f
     end) /\
  (forall k, k ∉ map id fields -> acc_results acc' !! k = acc_results acc !! k).
Proof.
  induction fields as [|f fields IH]; intros acc Hnd; cbn zeta.
  { split; [by intros f Hf%elem_of_nil|done]. }
  apply list.NoDup_cons in Hnd as [Hf Hnd]. cbn [fold_left map] in *.
  destruct (IH (gradeStep answers acc f) Hnd) as [Hin Hout].
  assert (Hstep : acc_results (gradeStep answers acc f) !! id f =
                  match evaluateFieldCorrectness f (answers !! id f) with
                  | Some b => Some b
                  | None => acc_results acc !! id f
                  end).
  { unfold gradeStep.
    destruct (evaluateFieldCorrectness f (answers !! id f)) as [b|] eqn:He.
    - destruct (correctness f) eqn:Hc.
      + cbn. rewrite lookup_insert_eq. by destruct b.
      + pose proof (proj2 (evaluateFieldCorrectness_None f (answers !! id f)) Hc). congruence.
    - apply (proj1 (evaluateFieldCorrectness_None f (answers !! id f))) in He.
      by rewrite He. }
  split.
  - intros g [->|Hg]%elem_of_cons.
    + by rewrite Hout.
    + rewrite (Hin g Hg).
      destruct (evaluateFieldCorrectness g (answers !! id g)); [done|].
      unfold gradeStep. destruct (correctness f); [|done]. cbn.
      rewrite lookup_insert_ne; [done|]. intros Heq. apply Hf. rewrite Heq.
      by apply list_elem_of_fmap_2.
  - intros k Hk. apply not_elem_of_cons in Hk as [Hne Hk]. rewrite (Hout k Hk).
    unfold gradeStep. destruct (correctness f); [|done]. cbn.
    by rewrite lookup_insert_ne.
Qed.

Lemma gradeStep_correct (answers : Answers) (fields : list Field) : forall acc,
  acc_correct (fold_left (gradeStep answers) fields acc) =
  acc_correct acc +
  Z.of_nat (length (List.filter
                      (fun f => bool_decide
                                  (evaluateFieldCorrectness f (answers !! id f) = Some true))
                      fields)).
Proof.
  induction fields as [|f fields IH]; intros acc; cbn [fold_left List.filter]; [cbn; lia|].
  rewrite IH. unfold gradeStep.
  destruct (evaluateFieldCorrectness f (answers !! id f)) as [[|]|] eqn:He.
  - destruct (correctness f) eqn:Hc.
    + rewrite bool_decide_eq_true_2 by done. cbn [acc_correct length]. lia.
    + pose proof (proj2 (evaluateFieldCorrectness_None f (answers !! id f)) Hc). congruence.
  - rewrite bool_decide_eq_false_2 by done. destruct (correctness f); cbn; lia.
  - rewrite bool_decide_eq_false_2 by done. destruct (correctness f); cbn; lia.
Qed.

(** [gradeSubmission] on fields with distinct ids: [fieldResults] holds
    for every field what [evaluateFieldCorrectness] returns for it, no
    entry for a field without a correctness rule and none for any other
    key; [correctCount] is the number of fields evaluated correct. *)
Theorem gradeSubmission_fieldResults (fields : list Field) (answers : Answers) :
  NoDup (map id fields) ->
  let g := gradeSubmission fields answers in
  (forall f, f ∈ fields ->
     fieldResults g !! id f = evaluateFieldCorrectness f (answers !! id f)) /\
  (forall k, k ∉ map id fields -> fieldResults g !! k = None) /\
  correctCount g =
    Z.of_nat (length (List.filter
                        (fun f => bool_decide
                                    (evaluateFieldCorrectness f (answers !! id f) = Some true))
                        fields)).
Proof.
  intros Hnd. cbn zeta. unfold gradeSubmission. cbn [fieldResults correctCount].
  destruct (gradeStep_results answers fields (mkAcc 0 0 ∅) Hnd) as [Hin Hout].
  cbn zeta in *. cbn [acc_results] in *. split; [|split].
  - intros f Hf. rewrite (Hin f Hf).
    by destruct (evaluateFieldCorrectness f (answers !! id f)).
  - intros k Hk. by rewrite (Hout k Hk).
  - by rewrite gradeStep_correct.
Qed.

Lemma gradeSubmission_fieldResults_witness :
  let g := gradeSubmission [Samples.gradedField; Samples.q1] {[ "capital" := AStr " paris " ]} in
  NoDup (map id [Samples.gradedField; Samples.q1]) /\
  fieldResults g !! "capital" = Some true /\ fieldResults g !! "q1" = None.
Proof.
  cbv zeta.
  assert (Hnd : NoDup (map id [Samples.gradedField; Samples.q1])).
  { apply NoDup_ListNoDup. repeat constructor; cbn; intros H;
      repeat (destruct H as [H|H]; try discriminate H); done. }
  split; [exact Hnd|].
  destruct (gradeSubmission_fieldResults [Samples.gradedField; Samples.q1]
              {[ "capital" := AStr " paris " ]} Hnd) as (Hin & _ & _).
  split.
  - etrans; [apply (Hin Samples.gradedField); by left|reflexivity].
  - etrans; [apply (Hin Samples.q1); right; by left|reflexivity].
Defined.

(** [compareExactMultiSelect]: the answer is correct exactly when it
    names the same values as the expected list, whatever the order and
    the repetitions. *)
Theorem compareExactMultiSelect_spec (expected actual : list string) :
  compareExactMultiSelect expected actual = true <->
  forall value, value ∈ expected <-> value ∈ actual.
Proof.
  unfold compareExactMultiSelect.
  set (E := list_to_set expected : gset string).
  set (A := list_to_set actual : gset string).
  assert (Hiff : (forall value, value ∈ expected <-> value ∈ actual) <-> E = A).
  { split.
    - intros H. apply set_eq. intros x. unfold E, A. rewrite !elem_of_list_to_set. apply H.
    - intros H x. rewrite <- (elem_of_list_to_set (C := gset string) x expected).
      rewrite <- (elem_of_list_to_set (C := gset string) x actual). fold E A. by rewrite H. }
  rewrite Hiff. clear Hiff.
  destruct (size E =? size A)%nat eqn:Hsize; cbn [negb].
  - apply Nat.eqb_eq in Hsize. rewrite forallb_forall. split.
    + intros Hall. apply set_subseteq_size_eq; [|lia].
      intros x Hx. specialize (Hall x). rewrite <- list_elem_of_In, elem_of_elements in Hall.
      specialize (Hall Hx). by apply bool_decide_eq_true_1 in Hall.
    + intros <- x Hx. apply bool_decide_eq_true_2.
      by rewrite <- list_elem_of_In, elem_of_elements in Hx.
  - apply Nat.eqb_neq in Hsize. split; [done|]. intros H. by rewrite H in Hsize.
Qed.

End GradingResults.

(** ** Answer validation *)

Section AnswerValidation.
Context `{zod : ZodNumber} `{re : RegExpEngine}.

Import Zod Utils Respondent.

Lemma absent_isAnswerPresent (value : option Answer) :
  absent value = negb (isAnswerPresent value).
Proof.
  destruct value as [[s|n|b|l|]|]; cbn [absent isAnswerPresent negb]; try done.
  - assert (0 <= strlen (trim s)) by (unfold strlen; lia).
    destruct (Z.eqb_spec (strlen (trim s)) 0), (Z.ltb_spec 0 (strlen (trim s)));
      cbn; try done; lia.
  - destruct (Z.eqb_spec (Z.of_nat (length l)) 0), (Z.ltb_spec 0 (Z.of_nat (length l)));
      cbn; try done; lia.
Qed.

(** The only error [validateAnswerWithZod] throws is the one of the
    [RegExp] constructor. *)
Lemma validateAnswerWithZod_error (field : Field) (value : option Answer) (e : Error) :
  validateAnswerWithZod field value = inl e -> e = RegExpSyntaxError.
Proof.
  unfold validateAnswerWithZod. destruct (absent value); [done|].
  assert (Htext : forall s, validateText field s = inl e -> e = RegExpSyntaxError).
  { intros s. unfold validateText, checkPattern.
    destruct (_ && _); [done|]. destruct (_ && _); [done|].
    destruct (checkBound minLength _ _ _ _); [done|].
    destruct (checkBound maxLength _ _ _ _); [done|].
    destruct (validation field ≫= pattern) as [p|]; [|done].
    destruct (bool_decide (p = "")); [done|].
    destruct (regexTest p s) as [[|]|]; try done. by intros [= <-]. }
  assert (Hnum : validateNumber field value = inl e -> e = RegExpSyntaxError).
  { unfold validateNumber. destruct (zNumberSafeParse value); [|done].
    destruct (_ && _); [done|]. by destruct (checkBound vmin _ _ _ _). }
  destruct (kind field); try done;
    destruct value as [[s|n|b|l|]|]; try done; try apply Htext.
  by destruct (_ && _).
Qed.

Lemma accepted_present (field : Field) (value : option Answer) :
  validateAnswerWithZod field value = inr None -> required field = true ->
  isAnswerPresent value = true.
Proof.
  unfold validateAnswerWithZod. rewrite absent_isAnswerPresent.
  destruct (isAnswerPresent value); cbn [negb]; [done|].
  intros H Hreq. rewrite Hreq in H. discriminate H.
Qed.

Lemma checkDraft_inr (fs : list Field) (draft : Answers) :
  checkDraft fs draft = inr tt <->
  forall f, f ∈ fs -> validateAnswerWithZod f (draft !! id f) = inr None.
Proof.
  induction fs as [|f fs IH]; cbn [checkDraft].
  { split; [by intros _ f Hf%elem_of_nil|done]. }
  unfold validateAnswerForField.
  destruct (validateAnswerWithZod f (draft !! id f)) as [e|[issue|]] eqn:Hv.
  - split; [done|]. intros H. specialize (H f ltac:(by left)). congruence.
  - split; [done|]. intros H. specialize (H f ltac:(by left)). congruence.
  - destruct (required f && negb (isAnswerPresent (draft !! id f))) eqn:Hreq.
    + apply andb_prop in Hreq as [Hr Hp]. apply negb_true_iff in Hp.
      pose proof (accepted_present f (draft !! id f) Hv Hr). congruence.
    + rewrite IH. split.
      * intros H g [->|Hg]%elem_of_cons; [done|by apply H].
      * intros H g Hg. apply H. by right.
Qed.

(** [validateAnswerWithZod] and [isAnswerPresent] agree on what an
    empty answer is: a required field is accepted only with an answer
    that [isAnswerPresent] counts, and a field that is not required
    accepts every answer that it does not count. *)
Theorem validateAnswer_presence (field : Field) (value : option Answer) :
  (validateAnswerWithZod field value = inr None -> required field = true ->
   isAnswerPresent value = true) /\
  (isAnswerPresent value = false ->
   validateAnswerWithZod field value =
   inr (if required field then Some IssueRequired else None)).
Proof.
  unfold validateAnswerWithZod. rewrite absent_isAnswerPresent.
  destruct (isAnswerPresent value); cbn [negb]; split; try done.
  intros H Hreq. rewrite Hreq in H. discriminate H.
Qed.

(** The loop of [submitSession] over the fields returns exactly when
    [validateAnswerWithZod] accepts the draft answer of every field, and
    then every required field has a present answer; its own test for a
    missing required answer never fires, the validation before it has
    thrown already. *)
Theorem checkDraft_spec (fs : list Field) (draft : Answers) :
  (checkDraft fs draft = inr tt <->
   forall f, f ∈ fs -> validateAnswerWithZod f (draft !! id f) = inr None) /\
  (checkDraft fs draft = inr tt ->
   forall f, f ∈ fs -> required f = true -> isAnswerPresent (draft !! id f) = true) /\
  checkDraft fs draft <> inl (ConvexError "MISSING_REQUIRED_FIELD").
Proof.
  pose proof (checkDraft_inr fs draft) as Hiff.
  split; [exact Hiff|]. split.
  - intros Hok f Hf Hreq.
    by apply (accepted_present f (draft !! id f)); [apply Hiff|].
  - clear Hiff. induction fs as [|f fs IH]; cbn [checkDraft]; [done|].
    unfold validateAnswerForField.
    destruct (validateAnswerWithZod f (draft !! id f)) as [e|[issue|]] eqn:Hv.
    + intros [= ->]. by apply validateAnswerWithZod_error in Hv.
    + discriminate.
    + destruct (required f && negb (isAnswerPresent (draft !! id f))) eqn:Hreq; [|apply IH].
      apply andb_prop in Hreq as [Hr Hp]. apply negb_true_iff in Hp.
      pose proof (accepted_present f (draft !! id f) Hv Hr). congruence.
Qed.

End AnswerValidation.

Section SelectAnswers.
Context `{zod : ZodNumber} `{re : RegExpEngine}.

Import Zod Utils.

(** A select field with configured options accepts an answer only
    when every value it names is one of the options. *)
Theorem validateAnswer_select (field : Field) (value : option Answer) :
  validateAnswerWithZod field value = inr None ->
  isAnswerPresent value = true ->
  optionValues field <> [] ->
  (kind field = single_select ->
   exists s, value = Some (AStr s) /\ s ∈ optionValues field) /\
  (kind field = multi_select ->
   exists l, value = Some (AArr l) /\ forall entry, entry ∈ l -> entry ∈ optionValues field).
Proof.
  intros Hok Hpresent Hopts. unfold validateAnswerWithZod in Hok.
  rewrite absent_isAnswerPresent, Hpresent in Hok. cbn [negb] in Hok.
  split; intros Hkind; rewrite Hkind in Hok.
  - destruct value as [[s|n|b|l|]|]; try discriminate Hok.
    exists s. split; [done|]. unfold validateText in Hok. rewrite Hkind in Hok.
    rewrite (bool_decide_eq_false_2 (single_select = email)) in Hok by done.
    rewrite (bool_decide_eq_true_2 (single_select = single_select)) in Hok by done.
    rewrite (bool_decide_eq_false_2 (optionValues field = [])) in Hok by done.
    cbn [andb negb] in Hok. unfold hasValue in Hok.
    destruct (bool_decide (s ∈ optionValues field)) eqn:Hin; [|discriminate Hok].
    by apply bool_decide_eq_true_1 in Hin.
  - destruct value as [[s|n|b|l|]|]; try discriminate Hok.
    exists l. split; [done|].
    rewrite (bool_decide_eq_false_2 (optionValues field = [])) in Hok by done.
    cbn [andb negb] in Hok.
    destruct (existsb _ l) eqn:Hex; [discriminate Hok|].
    intros entry Hentry. apply list_elem_of_In in Hentry.
    destruct (hasValue (optionValues field) entry) eqn:Hhas.
    + by apply bool_decide_eq_true_1 in Hhas.
    + assert (Htrue : existsb (fun e => negb (hasValue (optionValues field) e)) l = true).
      { apply existsb_exists. exists entry. by rewrite Hhas. }
      congruence.
Qed.

End SelectAnswers.

Lemma validateAnswer_select_witness :
  let field := mkField "colour" single_select "Colour" true 0
                 (Some [mkOption "Red" "red"; mkOption "Blue" "blue"]) None None in
  validateAnswerWithZod (zod := Samples.zod4) (re := Samples.permissiveRegExp)
    field (Some (AStr "blue")) = inr None /\
  exists s, Some (AStr "blue") = Some (AStr s) /\ s ∈ Zod.optionValues field.
Proof.
  cbv zeta. split; [reflexivity|].
  refine (proj1 (@validateAnswer_select Samples.zod4 Samples.permissiveRegExp
                   (mkField "colour" single_select "Colour" true 0
                      (Some [mkOption "Red" "red"; mkOption "Blue" "blue"]) None None)
                   (Some (AStr "blue")) _ _ _) _); try reflexivity.
  discriminate.
Defined.

(** ** Progress *)

Section Progress.
Import Utils.

Lemma progress_fold (ans : Answers) (fs : list Field) : forall a r,
  let '(a', r') :=
    fold_left (fun '(a, r) field =>
                 if isAnswerPresent (ans !! id field)
                 then (a + 1, if required field then r + 1 else r)
                 else (a, r)) fs (a, r) in
  a <= a' <= a + Z.of_nat (length fs) /\
  r <= r' <= r + Z.of_nat (length (List.filter required fs)) /\
  r' - r <= a' - a.
Proof.
  induction fs as [|f fs IH]; intros a r; cbn [fold_left List.filter length]; [lia|].
  destruct (isAnswerPresent (ans !! id f)).
  - destruct (required f).
    + specialize (IH (a + 1) (r + 1)). destruct (fold_left _ fs _) as [a' r'].
      cbn [length]. lia.
    + specialize (IH (a + 1) r). destruct (fold_left _ fs _) as [a' r']. lia.
  - specialize (IH a r). destruct (fold_left _ fs _) as [a' r'].
    destruct (required f); cbn [length]; lia.
Qed.

(** [calculateProgress]: the counts are within the numbers of fields
    and of required fields, no more required answers than answers, and
    the percentage is between 0 and 100. *)
Theorem calculateProgress_bounds (fs : list Field) (ans : Answers) :
  let p := calculateProgress fs ans in
  0 <= answeredCount_p p <= Z.of_nat (length fs) /\
  requiredCount p = Z.of_nat (length (List.filter required fs)) /\
  0 <= requiredAnsweredCount p <= requiredCount p /\
  requiredAnsweredCount p <= answeredCount_p p /\
  0 <= progressPercent p <= 100.
Proof.
  cbn zeta. unfold calculateProgress.
  pose proof (progress_fold ans fs 0 0) as Hfold.
  destruct (fold_left _ fs (0, 0)) as [a r].
  cbn [answeredCount_p requiredCount requiredAnsweredCount progressPercent].
  split; [lia|]. split; [done|]. split; [lia|]. split; [lia|].
  set (n := Z.of_nat (length (List.filter required fs))) in *.
  set (den := if 0 <? n then n else if Z.of_nat (length fs) =? 0 then 1
                                    else Z.of_nat (length fs)).
  set (num := if 0 <? n then r else a).
  assert (Hden : 0 < den /\ 0 <= num <= den).
  { unfold den, num. destruct (0 <? n) eqn:Hn.
    - apply Z.ltb_lt in Hn. lia.
    - destruct (Z.of_nat (length fs) =? 0) eqn:Hl.
      + apply Z.eqb_eq in Hl. lia.
      + apply Z.eqb_neq in Hl. lia. }
  destruct Hden as [Hpos [Hlo Hhi]].
  assert (Hq : (0 < inject_Z den)%Q) by (by rewrite <- (Zlt_Qlt 0)).
  split.
  - apply round_nonneg. apply Qmult_le_0_compat; [|by compute].
    apply Qle_shift_div_l; [done|]. by rewrite Qmult_0_l, <- (Zle_Qle 0).
  - apply round_le_Z. change (inject_Z 100) with (1 * 100)%Q.
    apply Qmult_le_compat_r; [|by compute].
    apply Qle_shift_div_r; [done|]. by rewrite Qmult_1_l, <- Zle_Qle.
Qed.

End Progress.

(** ** Field ids and invite states *)

Section FieldIds.
Import Utils.

Lemma uniqueFieldIdsFrom_spec (fs : list Field) : forall ids : gset string,
  (uniqueFieldIdsFrom ids fs = inr tt <->
   NoDup (map id fs) /\ forall f, f ∈ fs -> id f ∉ ids) /\
  (uniqueFieldIdsFrom ids fs = inr tt \/
   uniqueFieldIdsFrom ids fs = inl (ConvexError "INVALID_FIELD_ID")).
Proof.
  induction fs as [|f fs IH]; intros ids; cbn [uniqueFieldIdsFrom map].
  { split; [|by left]. split; [|done]. intros _. split; [constructor|].
    by intros f Hf%elem_of_nil. }
  destruct (bool_decide (id f ∈ ids)) eqn:Hin.
  - apply bool_decide_eq_true_1 in Hin. split; [|by right]. split; [done|].
    intros [_ Hout]. by destruct (Hout f ltac:(by left)).
  - apply bool_decide_eq_false_1 in Hin.
    destruct (IH ({[id f]} ∪ ids)) as [Hiff Hor]. split; [|exact Hor].
    rewrite Hiff, list.NoDup_cons. split.
    + intros [Hnd Hout]. split; [split; [|done]|].
      * intros (g & Heq & Hg)%list_elem_of_fmap. apply (Hout g Hg).
        apply elem_of_union_l, elem_of_singleton. by rewrite Heq.
      * intros g [->|Hg]%elem_of_cons; [done|]. intros Hc. apply (Hout g Hg).
        by apply elem_of_union_r.
    + intros [[Hf Hnd] Hout]. split; [done|]. intros g Hg.
      apply not_elem_of_union. split; [|apply Hout; by right].
      intros Heq%elem_of_singleton. apply Hf. rewrite <- Heq. by apply list_elem_of_fmap_2.
Qed.

(** [assertUniqueFieldIds] returns exactly when no two fields share an
    id, and throws [INVALID_FIELD_ID] otherwise. *)
Theorem assertUniqueFieldIds_spec (fs : list Field) :
  (assertUniqueFieldIds fs = inr tt <-> NoDup (map id fs)) /\
  (~ NoDup (map id fs) -> assertUniqueFieldIds fs = inl (ConvexError "INVALID_FIELD_ID")).
Proof.
  unfold assertUniqueFieldIds. destruct (uniqueFieldIdsFrom_spec fs ∅) as [Hiff Hor].
  assert (Heq : uniqueFieldIdsFrom ∅ fs = inr tt <-> NoDup (map id fs)).
  { rewrite Hiff. split; [by intros [? _]|]. intros Hnd. split; [done|].
    intros f _. apply not_elem_of_empty. }
  split; [exact Heq|]. intros Hdup. destruct Hor as [Hok|Herr]; [|done].
  by apply Heq in Hok.
Qed.

End FieldIds.

Section InviteStates.
Import Utils Respondent.

(** [inviteStateFromInvite] calls an invite active exactly when
    [isInviteUsable] accepts it: what [resolveInvite] shows a
    respondent is what [startOrResumeSession] will decide. *)
Theorem inviteState_active_iff_usable (invite : SurveyInvite) (now : Z) :
  inviteStateFromInvite (Some invite) now = state_active <->
  isInviteUsable invite now = true.
Proof.
  unfold inviteStateFromInvite, isInviteUsable, capReached.
  destruct (inv_status invite); cbn;
    destruct (match expiresAt invite with Some e => num_lt e (ofZ now) | None => false end);
    destruct (num_le (maxCompletions invite) (ofZ (completionCount invite))); by cbn.
Qed.

End InviteStates.

(** ** The outbox *)

Section OutboxDelay.
Import Outbox.

(** [retryDelayMs]: for a count of attempts that is not negative the
    delay is [2 ^ min(attempts, 10)] seconds; it grows with the
    attempts, starts at one second and stops at 1024 seconds, so the
    thirty minutes of the outer [Math.min] are never reached. *)
Theorem retryDelayMs_shape (a b : Z) :
  0 <= a <= b ->
  retryDelayMs a = 2 ^ Z.min a 10 * 1000 /\
  1000 <= retryDelayMs a <= 1024000 /\
  retryDelayMs a <= retryDelayMs b.
Proof.
  intros Hab.
  assert (Hpow : forall k, 0 <= k -> 1 <= 2 ^ Z.min k 10 <= 1024).
  { intros k Hk. split.
    - change 1 with (2 ^ 0). apply Z.pow_le_mono_r; lia.
    - change 1024 with (2 ^ 10). apply Z.pow_le_mono_r; lia. }
  assert (Heq : forall k, 0 <= k -> retryDelayMs k = 2 ^ Z.min k 10 * 1000).
  { intros k Hk. unfold retryDelayMs. specialize (Hpow k Hk). lia. }
  split; [by apply Heq; lia|]. split.
  - rewrite Heq by lia. specialize (Hpow a ltac:(lia)). lia.
  - rewrite !Heq by lia.
    assert (2 ^ Z.min a 10 <= 2 ^ Z.min b 10) by (apply Z.pow_le_mono_r; lia). lia.
Qed.

Lemma retryDelayMs_shape_witness :
  retryDelayMs 3 = 8000 /\ retryDelayMs 3 <= retryDelayMs 12 /\ retryDelayMs 12 = 1024000.
Proof.
  destruct (retryDelayMs_shape 3 12 ltac:(lia)) as (H3 & _ & Hle).
  split; [rewrite H3; reflexivity|]. split; [exact Hle|reflexivity].
Defined.

End OutboxDelay.

Section OutboxDispatch.
Context `{limits : OutboxLimits} `{rt : QueryRuntime}.

Import Outbox AnalyticsJobs.



(** [listDueOutboxEvents] writes nothing, and what it hands out are
    rows of the outbox that are pending and due at [now], each at most
    once, with the attempt count and the time of the next attempt of
    the row. *)
Theorem listDueOutboxEvents_due (now : Z) (limit : option JsNum) (db : Db)
    (events : list DueEvent) :
  snd (listDueOutboxEvents now limit db) = inr events ->
  fst (listDueOutboxEvents now limit db) = db /\
  NoDup (map due_outboxId events) /\
  forall e, e ∈ events ->
    exists row,
      lookupDoc (analyticsOutbox db) (due_outboxId e) = Some row /\
      ob_status row = pending /\ nextAttemptAt row <= now /\
      due_eventName e = eventName row /\ due_distinctId e = distinctId row /\
      due_properties e = properties row /\
      due_attemptCount e = attemptCount row /\ due_nextAttemptAt e = nextAttemptAt row.
Proof.
  unfold listDueOutboxEvents, bind, lift, Store.collect, ret. cbv zeta.
  destruct (takeCount _) as [err|count]; cbn [fst snd]; [done|].
  intros [= <-]. split; [done|]. split.
  - rewrite map_map. cbn [due_outboxId].
    set (rows := List.filter _ _).
    assert (Hrows : NoDup (map fst rows)) by apply filter_docs_NoDup, docs_NoDup.
    assert (Hsorted : NoDup (map fst (sortBy (fun a b : Doc OutboxEvent =>
                                        nextAttemptAt (snd a) - nextAttemptAt (snd b)) rows))).
    { by rewrite (sortBy_Permutation _ rows). }
    eapply sublist_NoDup; [exact Hsorted|]. apply fmap_sublist, sublist_take.
  - intros e (d & -> & Hd)%list_elem_of_fmap.
    apply subseteq_take in Hd. rewrite sortBy_Permutation in Hd.
    rewrite list_elem_of_In, List.filter_In, <- list_elem_of_In in Hd.
    destruct Hd as [Hin Hp]. destruct d as [i row]. apply docs_spec in Hin.
    apply andb_prop in Hp as [Hst Hdue]. apply bool_decide_eq_true_1 in Hst.
    apply Z.leb_le in Hdue. by exists row.
Qed.

End OutboxDispatch.


Lemma listDueOutboxEvents_due_witness :
  exists e,
    snd (AnalyticsJobs.listDueOutboxEvents (limits := Samples.sampleLimits)
           (rt := Samples.strictTake) 1709300000000 None Samples.sampleOutboxDb) = inr [e] /\
    NoDup (map AnalyticsJobs.due_outboxId [e]).
Proof.
  eexists.
  assert (Hrun : snd (AnalyticsJobs.listDueOutboxEvents (limits := Samples.sampleLimits)
                        (rt := Samples.strictTake) 1709300000000 None
                        Samples.sampleOutboxDb) = inr [_])
    by (vm_compute; reflexivity).
  split; [exact Hrun|].
  exact (proj1 (proj2 (@listDueOutboxEvents_due Samples.sampleLimits Samples.strictTake
                         1709300000000 None Samples.sampleOutboxDb _ Hrun))).
Defined.

(** ** The daily counters *)

Global Instance lens_metrics : LensLaws t_surveyMetricsDaily.
Proof. split; intros; try reflexivity. by destruct db. Qed.

Section BumpTable.
Context {R : Type} (t : TableRef R) `{!LensLaws t} (p : R -> bool).

(** The rows [collect] finds are the live rows that satisfy the test,
    in the same order. *)
Lemma collect_rows (T : Table R) :
  map snd (List.filter (fun d => p (snd d)) (docs T)) = rowsWhere p T.
Proof.
  unfold docs, rowsWhere, liveRows. generalize 0%nat.
  induction T as [|[a|] T IH]; intros n; cbn [docsFrom List.filter]; [done|..].
  - change (omap (fun o => o) (Some a :: T)) with (a :: omap (fun o : option R => o) T).
    cbn [snd]. rewrite filter_cons. destruct (p a) eqn:Hp.
    + rewrite decide_True by done. cbn [map snd]. f_equal. apply IH.
    + rewrite decide_False by congruence. apply IH.
  - apply IH.
Qed.

(** One table of [bumpDailyMetric]: the day's row is replaced by
    [next], or inserted when the day has none. *)
Lemma bumpTable_run (next : option (Doc R) -> R) (db db2 : Db)
    (existing : option (Doc R)) (u : unit) :
  p (next None) = true ->
  (forall d, p (snd d) = true -> p (next (Some d)) = true) ->
  Store.unique (List.filter (fun d => p (snd d)) (docs (tget t db))) db = (db, inr existing) ->
  match existing with
  | None => bind (Store.insert t (next existing)) (fun _ => ret tt)
  | Some (i, _) => Store.patch t i (fun _ => next existing)
  end db = (db2, inr u) ->
  exists T',
    db2 = tset t T' db /\
    rowsWhere p (tget t db) = from_option (fun d => [snd d]) [] existing /\
    rowsWhere p T' = [next existing] /\
    rowsWhere (fun r => negb (p r)) T' = rowsWhere (fun r => negb (p r)) (tget t db).
Proof.
  intros Hnone Hsome Huniq Hwrite. set (T := tget t db) in *.
  set (rows := List.filter (fun d => p (snd d)) (docs T)) in *.
  assert (Hrows : map snd rows = rowsWhere p T) by apply collect_rows.
  assert (Hex : forall d, d ∈ rows <-> lookupDoc T (fst d) = Some (snd d) /\ p (snd d) = true).
  { intros d. apply collect_spec. }
  destruct rows as [|d [|d' rest]]; cbn in Huniq; [| |discriminate Huniq];
    injection Huniq as <-.
  - unfold bind, Store.insert, ret in Hwrite. injection Hwrite as <- _. fold T.
    exists (T ++ [Some (next None)]). split; [done|]. split; [by rewrite <- Hrows|].
    rewrite !rowsWhere_app, !rowsWhere_one, Hnone, <- Hrows. cbn. by rewrite app_nil_r.
  - destruct d as [i r]. destruct (proj1 (Hex (i, r)) ltac:(by left)) as [Hl Hp].
    cbn [fst snd] in *. unfold Store.patch in Hwrite. fold T in Hwrite.
    rewrite Hl in Hwrite. injection Hwrite as <- _.
    exists (<[i := Some (next (Some (i, r)))]> T). split; [done|].
    split; [by rewrite <- Hrows|].
    assert (Hnext : p (next (Some (i, r))) = true) by (by apply Hsome).
    assert (Hlt : (i < length T)%nat) by (by eapply lookupDoc_lt).
    assert (Hgone : rowsWhere p (<[i := None]> T) = []).
    { rewrite <- (erase_nil T), <- erase_cons. apply rowsWhere_erase_all.
      intros j a Hj Ha. assert (Hin : (j, a) ∈ [(i, r)]) by (apply Hex; by split).
      apply list_elem_of_singleton in Hin. injection Hin as -> _. by left. }
    split.
    + apply Permutation_singleton_r. rewrite rowsWhere_set_Some by done. by rewrite Hgone.
    + apply (rowsWhere_set_other _ _ _ r); [done|by rewrite Hp|].
      cbn. by rewrite Hnext.
Qed.

End BumpTable.

Section Bump.
Context `{lux : Luxon}.

Import Domain.

Lemma withMetric_read (metric other : Metric) (value updatedAt : Z) (r : MetricsDaily) :
  metricOfMetrics metric (withMetric metric value updatedAt r) = value /\
  (other <> metric ->
   metricOfMetrics other (withMetric metric value updatedAt r) = metricOfMetrics other r).
Proof. by destruct metric, other. Qed.

Lemma withAnalyticsMetric_read (metric other : Metric) (value updatedAt : Z)
    (r : AnalyticsDaily) :
  metricOfAnalytics metric (withAnalyticsMetric metric value updatedAt r) = value /\
  (other <> metric ->
   metricOfAnalytics other (withAnalyticsMetric metric value updatedAt r) =
   metricOfAnalytics other r).
Proof. by destruct metric, other. Qed.

(** [bumpDailyMetric], when it returns: each of the two counter tables
    holds exactly one row for the survey and the day of the timestamp;
    in both the bumped counter is the earlier value plus [delta], never
    below zero, the earlier value being zero when the day had no row;
    the other counters of the day and the rows of all other days are as
    before. *)
Theorem bumpDailyMetric_counts (surveyId : Id) (metric : Metric) (delta timestamp : Z)
    (db db' : Db) :
  bumpDailyMetric surveyId metric delta timestamp db = (db', inr tt) ->
  let dateKey := toISODate timestamp in
  let ofDayM := metricsRowOfDay surveyId dateKey in
  let ofDayA := analyticsOfDay surveyId dateKey in
  let oldM := rowsWhere ofDayM (surveyMetricsDaily db) in
  let oldA := rowsWhere ofDayA (surveyAnalyticsDaily db) in
  exists m a,
    rowsWhere ofDayM (surveyMetricsDaily db') = [m] /\
    rowsWhere ofDayA (surveyAnalyticsDaily db') = [a] /\
    metricOfMetrics metric m = Z.max (counterOf (metricOfMetrics metric) oldM + delta) 0 /\
    metricOfAnalytics metric a = Z.max (counterOf (metricOfAnalytics metric) oldA + delta) 0 /\
    (forall other, other <> metric ->
       metricOfMetrics other m = counterOf (metricOfMetrics other) oldM /\
       metricOfAnalytics other a = counterOf (metricOfAnalytics other) oldA) /\
    rowsWhere (fun r => negb (ofDayM r)) (surveyMetricsDaily db') =
      rowsWhere (fun r => negb (ofDayM r)) (surveyMetricsDaily db) /\
    rowsWhere (fun r => negb (ofDayA r)) (surveyAnalyticsDaily db') =
      rowsWhere (fun r => negb (ofDayA r)) (surveyAnalyticsDaily db).
Proof.
  intros H. cbv zeta. unfold bumpDailyMetric, dateKeyFromTimestamp in H. cbv zeta in H.
  set (dateKey := toISODate timestamp) in *.
  apply bind_inr in H as (d1 & rows & H1 & H). unfold Store.collect in H1.
  injection H1 as <- <-.
  apply bind_inr in H as (d1 & existing & H1 & H). pose proof (unique_db _ _ _ _ H1) as ->.
  apply bind_inr in H as (d2 & u & H2 & H).
  set (baseM := fun e : option (Doc MetricsDaily) =>
                  match e with
                  | Some (_, r) => r
                  | None => mkMetrics surveyId dateKey 0 0 0 0 0 timestamp
                  end).
  destruct (bumpTable_run t_surveyMetricsDaily (metricsRowOfDay surveyId dateKey)
              (fun e => withMetric metric (Z.max (metricOfMetrics metric (baseM e) + delta) 0)
                          timestamp (baseM e))
              db d2 existing u)
    as (TM & -> & HoldM & HnewM & HotherM).
  { unfold metricsRowOfDay. cbn. apply sameDay_refl. }
  { intros [i r] Hr. exact Hr. }
  { exact H1. }
  { destruct existing as [[i r]|]; exact H2. }
  clear H1 H2.
  apply bind_inr in H as (d1 & arows & H1 & H). unfold Store.collect in H1.
  injection H1 as <- <-.
  apply bind_inr in H as (d1 & aexisting & H1 & H). pose proof (unique_db _ _ _ _ H1) as ->.
  set (db2 := tset t_surveyMetricsDaily TM db) in *.
  set (baseA := fun e : option (Doc AnalyticsDaily) =>
                  match e with
                  | Some (_, r) => r
                  | None => mkAnalytics surveyId dateKey 0 0 0 0 0 0%Q 0 timestamp
                  end).
  destruct (bumpTable_run t_surveyAnalyticsDaily (analyticsOfDay surveyId dateKey)
              (fun e => withAnalyticsMetric metric
                          (Z.max (metricOfAnalytics metric (baseA e) + delta) 0)
                          timestamp (baseA e))
              db2 db' aexisting tt)
    as (TA & -> & HoldA & HnewA & HotherA).
  { unfold analyticsOfDay. cbn. apply sameDay_refl. }
  { intros [i r] Hr. exact Hr. }
  { exact H1. }
  { destruct aexisting as [[i r]|]; exact H. }
  change (tget t_surveyAnalyticsDaily db2) with (surveyAnalyticsDaily db) in *.
  change (tget t_surveyMetricsDaily db) with (surveyMetricsDaily db) in *.
  eexists _, _. split; [exact HnewM|]. split; [exact HnewA|].
  rewrite HoldM, HoldA. unfold counterOf.
  split; [|split; [|split; [|split; [exact HotherM|exact HotherA]]]].
  - rewrite (proj1 (withMetric_read metric metric _ _ _)). subst baseM.
    destruct existing as [[i r]|]; [done|]. by destruct metric.
  - rewrite (proj1 (withAnalyticsMetric_read metric metric _ _ _)). subst baseA.
    destruct aexisting as [[i r]|]; [done|]. by destruct metric.
  - intros other Hne. subst baseM baseA. split.
    + rewrite (proj2 (withMetric_read metric other _ _ _) Hne).
      destruct existing as [[i r]|]; [done|]. by destruct other.
    + rewrite (proj2 (withAnalyticsMetric_read metric other _ _ _) Hne).
      destruct aexisting as [[i r]|]; [done|]. by destruct other.
Qed.

End Bump.

Lemma bumpDailyMetric_counts_witness :
  Domain.bumpDailyMetric (lux := Samples.calendarLuxon) 0%nat m_started (-3)
    Samples.sampleNow Samples.sampleBumped = (Samples.sampleBumpedBack, inr tt) /\
  counterOf (Domain.metricOfMetrics m_started)
    (rowsWhere (metricsRowOfDay 0%nat Samples.sampleDay)
       (surveyMetricsDaily Samples.sampleBumped)) = 1 /\
  exists m,
    rowsWhere (metricsRowOfDay 0%nat Samples.sampleDay)
      (surveyMetricsDaily Samples.sampleBumpedBack) = [m] /\
    Domain.metricOfMetrics m_started m = 0.
Proof.
  assert (Hrun : Domain.bumpDailyMetric (lux := Samples.calendarLuxon) 0%nat m_started (-3)
                   Samples.sampleNow Samples.sampleBumped
                 = (Samples.sampleBumpedBack, inr tt)) by (vm_compute; reflexivity).
  split; [exact Hrun|]. split; [vm_compute; reflexivity|].
  destruct (@bumpDailyMetric_counts Samples.calendarLuxon 0%nat m_started (-3)
              Samples.sampleNow Samples.sampleBumped Samples.sampleBumpedBack Hrun)
    as (m & a & Hm & _ & Hv & _).
  exists m. split; [exact Hm|]. rewrite Hv. vm_compute. reflexivity.
Defined.

(** ** Who the admin queries answer *)

Lemma unique_elem {A} (l : list (Doc A)) (db db' : Db) (d : Doc A) :
  Store.unique l db = (db', inr (Some d)) -> d ∈ l.
Proof.
  destruct l as [|d1 [|d2 l]]; cbn; intros [=]. subst. apply list_elem_of_here.
Qed.

Lemma guarded_inr {A B C} (g : M A) (k : A -> M B) (f : B -> C) (db : Db) (r : C) :
  snd (mapM f (bind g k) db) = inr r -> exists db1 a, g db = (db1, inr a).
Proof.
  unfold mapM, bind. destruct (g db) as [db1 [e|a]]; [intros [=]|]. intros _. by exists db1, a.
Qed.

Lemma guarded_inl {A B C} (g : M A) (k : A -> M B) (f : B -> C) (db db1 : Db) (e : Error) :
  g db = (db1, inl e) -> snd (mapM f (bind g k) db) = inl e.
Proof. unfold mapM, bind. by intros ->. Qed.

Section Access.
Context `{lux : Luxon} `{fmt : NumberFormat} `{js : JsStrings} `{consts : Constants}.

Import Analytics.

Lemma requireAppUser_inr (identity : option string) (db db' : Db) (u : Doc AppUser) :
  Auth.requireAppUser identity db = (db', inr u) ->
  db' = db /\ identity = Some (workosUserId (snd u)) /\
  lookupDoc (appUsers db) (fst u) = Some (snd u).
Proof.
  unfold Auth.requireAppUser. destruct identity as [subject|]; [|intros [=]]. intros H.
  apply bind_inr in H as (db1 & rows & H1 & H). unfold Store.collect in H1.
  injection H1 as <- <-.
  apply bind_inr in H as (db1 & found & H1 & H). pose proof (unique_db _ _ _ _ H1) as ->.
  destruct found as [d|]; [|discriminate H]. injection H as <- <-.
  apply unique_elem in H1. rewrite list_elem_of_In, List.filter_In, <- list_elem_of_In in H1.
  destruct H1 as [Hd Hsub]. apply String.eqb_eq in Hsub.
  destruct d as [i user]. apply docs_spec in Hd. by rewrite Hsub.
Qed.

Lemma requireSurveyWithAccess_inr (identity : option string) (surveyId : Id) (db db' : Db)
    (a : Doc AppUser * option Survey) :
  requireSurveyWithAccess identity surveyId db = (db', inr a) ->
  mayRead db identity surveyId.
Proof.
  unfold requireSurveyWithAccess. intros H.
  apply bind_inr in H as (db1 & user & H1 & H).
  apply requireAppUser_inr in H1 as (-> & Hid & Huser).
  apply bind_inr in H as (db1 & survey & H1 & H). unfold Store.get in H1.
  injection H1 as <- <-. cbn [tget t_surveys] in H.
  exists (workosUserId (snd user)), (fst user), (snd user).
  split; [done|]. split; [done|]. split; [done|]. intros s Hs. rewrite Hs in H.
  apply bind_inr in H as (db1 & u & H1 & _). unfold lift, assertSurveyOwnerOrAdmin in H1.
  destruct (bool_decide (role (snd user) = admin)) eqn:Hadmin.
  - left. by apply bool_decide_eq_true_1 in Hadmin.
  - destruct (bool_decide (createdByUserId s = fst user)) eqn:Hown; [|discriminate H1].
    right. by apply bool_decide_eq_true_1 in Hown.
Qed.

(** None of the seven read queries answers a caller who may not read
    the survey: a query that returns was called by a signed-in app
    user who is an admin or the creator of the survey, if the survey
    exists.  An anonymous caller gets [UNAUTHORIZED], whatever the
    arguments. *)
Theorem queries_need_access (q : Query) (identity : option string) (surveyId : Id)
    (from to : string) (db : Db) :
  (forall result, snd (runQuery q identity surveyId from to db) = inr result ->
     mayRead db identity surveyId) /\
  snd (runQuery q None surveyId from to db) = inl (ConvexError "UNAUTHORIZED").
Proof.
  split.
  - intros result H.
    assert (Hacc : exists db1 a, requireSurveyWithAccess identity surveyId db = (db1, inr a)).
    { destruct q; cbn [runQuery] in H; by apply guarded_inr in H. }
    destruct Hacc as (db1 & a & Hacc). by eapply requireSurveyWithAccess_inr.
  - destruct q; cbn [runQuery]; by apply (guarded_inl _ _ _ db db).
Qed.

End Access.

(** ** Date ranges and the trend series *)

Section DateRange.
Context `{lux : Luxon}.

Import Materialization.

Lemma dateKeysLoop_days (fuel : nat) (cursor end_ : Z) :
  cursor + (Z.of_nat fuel - 1) * DAY_MS <= end_ ->
  dateKeysLoop fuel cursor end_ =
  map (fun k => toISODate (cursor + Z.of_nat k * DAY_MS)) (seq 0 fuel).
Proof.
  revert cursor. induction fuel as [|fuel IH]; intros cursor Hle; [done|].
  cbn [dateKeysLoop]. unfold DAY_MS in *.
  destruct (cursor <=? end_) eqn:Hc; [|apply Z.leb_gt in Hc; lia].
  cbn [seq map]. f_equal; [f_equal; lia|].
  rewrite IH by lia. rewrite <- seq_shift, map_map. apply map_ext. intros k. f_equal. lia.
Qed.

(** A returned range has at least one day and at most [maxDays]. *)
Lemma parseAnalyticsDateRange_inr (from to : string) (maxDays : Z)
    (range : AnalyticsDateRange) :
  parseAnalyticsDateRange from to maxDays = inr range ->
  1 <= Z.of_nat (length (dayKeys range)) <= maxDays.
Proof.
  unfold parseAnalyticsDateRange.
  destruct (normalizeDateKey from) as [?|fromDate]; [done|].
  destruct (normalizeDateKey to) as [?|toDate]; [done|].
  destruct (buildDateKeys fromDate toDate) as [?|keys]; [done|].
  destruct (Z.of_nat (length keys) =? 0) eqn:Hz; [done|]. apply Z.eqb_neq in Hz.
  destruct (maxDays <? Z.of_nat (length keys)) eqn:Hmax; [done|].
  apply Z.ltb_ge in Hmax. intros [= <-]. cbn [dayKeys]. lia.
Qed.

(** [parseAnalyticsDateRange] returns a range or throws one of three
    errors.  A date that luxon cannot read gives [INVALID_DATE],
    whatever the other date and the window are.  A returned range has
    at least one day and at most [maxDays], and its two ends are the
    dates as luxon prints them. *)
Theorem parseAnalyticsDateRange_outcome (from to : string) (maxDays : Z) :
  match parseAnalyticsDateRange from to maxDays with
  | inr range =>
      1 <= Z.of_nat (length (dayKeys range)) <= maxDays /\
      exists s e, fromISO from = Some s /\ fromISO to = Some e /\
                  fromDate range = toISODate s /\ toDate range = toISODate e
  | inl err =>
      err = ConvexError "INVALID_DATE" \/ err = ConvexError "INVALID_DATE_RANGE" \/
      err = windowTooLarge
  end /\
  (fromISO from = None \/ fromISO to = None ->
   parseAnalyticsDateRange from to maxDays = inl (ConvexError "INVALID_DATE")).
Proof.
  unfold parseAnalyticsDateRange, normalizeDateKey.
  destruct (fromISO from) as [s|]; [|split; [by left|done]].
  destruct (fromISO to) as [e|]; [|split; [by left|done]].
  split; [|by intros [?|?]].
  destruct (buildDateKeys (toISODate s) (toISODate e)) as [err|keys] eqn:Hkeys.
  { unfold buildDateKeys, normalizeDateKey in Hkeys.
    destruct (fromISO (toISODate s)); [|injection Hkeys as <-; by left].
    destruct (fromISO (toISODate e)); [|injection Hkeys as <-; by left].
    repeat case_match; discriminate. }
  destruct (Z.of_nat (length keys) =? 0) eqn:Hz; [by right; left|]. apply Z.eqb_neq in Hz.
  destruct (maxDays <? Z.of_nat (length keys)) eqn:Hmax; [by right; right|].
  apply Z.ltb_ge in Hmax. cbn [dayKeys fromDate toDate]. split; [lia|]. by exists s, e.
Qed.

(** For two dates that luxon reads back as it printed them, in order:
    a returned range lists the consecutive UTC days from the day of
    the first date to the day of the last, each once. *)
Theorem parseAnalyticsDateRange_days (from to : string) (maxDays s e : Z)
    (range : AnalyticsDateRange) :
  fromISO from = Some s -> fromISO to = Some e ->
  roundTrips s -> roundTrips (startOfDay s) ->
  roundTrips e -> roundTrips (startOfDay e) ->
  parseAnalyticsDateRange from to maxDays = inr range ->
  startOfDay s <= startOfDay e /\
  dayKeys range =
    map (fun k => toISODate (startOfDay s + Z.of_nat k * DAY_MS))
        (seq 0 (Z.to_nat (spannedDays s e))) /\
  fromMillis range = startOfDay s /\ toMillis range = endOfDay e.
Proof.
  intros Hs He Hrs Hrs' Hre Hre'.
  unfold roundTrips in *. rewrite startOfDay_idem in Hrs', Hre'.
  unfold parseAnalyticsDateRange, buildDateKeys, normalizeDateKey.
  rewrite Hs, He, Hrs, Hre, Hrs', Hre'. rewrite !startOfDay_idem.
  destruct (startOfDay e <? startOfDay s) eqn:Hlt; [discriminate|].
  apply Z.ltb_ge in Hlt. fold (spannedDays s e).
  case_match; [discriminate|]. case_match; [discriminate|]. intros [= <-].
  cbn [dayKeys fromMillis toMillis default]. rewrite startOfDay_idem.
  split; [done|]. split; [|split; [done|]].
  - apply dateKeysLoop_days. unfold spannedDays.
    pose proof (Z.div_pos (startOfDay e - startOfDay s) DAY_MS ltac:(lia) ltac:(done)).
    rewrite Z2Nat.id by lia.
    pose proof (Z.mul_div_le (startOfDay e - startOfDay s) DAY_MS ltac:(done)). lia.
  - unfold endOfDay. by rewrite startOfDay_idem.
Qed.

End DateRange.

Lemma parseAnalyticsDateRange_days_witness :
  let range :=
    Materialization.parseAnalyticsDateRange (lux := Samples.calendarLuxon)
      "2024-02-28" "2024-03-01" 31 in
  dayKeys <$> (match range with inr r => Some r | inl _ => None end)
    = Some ["2024-02-28"; "2024-02-29"; "2024-03-01"] /\
  exists r, range = inr r /\
    Materialization.dayKeys r =
      map (fun k => toISODate (Luxon := Samples.calendarLuxon)
                      (startOfDay 1709078400000 + Z.of_nat k * DAY_MS))
          (seq 0 (Z.to_nat (spannedDays 1709078400000 1709251200000))).
Proof.
  cbv zeta. split; [vm_compute; reflexivity|].
  destruct (Materialization.parseAnalyticsDateRange (lux := Samples.calendarLuxon)
              "2024-02-28" "2024-03-01" 31) as [err|r] eqn:Hrange; [by vm_compute in Hrange|].
  exists r. split; [reflexivity|].
  refine (proj1 (proj2 (@parseAnalyticsDateRange_days Samples.calendarLuxon
            "2024-02-28" "2024-03-01" 31 1709078400000 1709251200000 r _ _ _ _ _ _ Hrange)));
    vm_compute; reflexivity.
Defined.

Lemma omap_get_ofEntries_None {V} (entries : list (string * V)) (k : string) :
  k ∉ map fst entries -> OMap.get k (OMap.ofEntries entries) = None.
Proof.
  assert (Hgen : forall m, OMap.get k m = None -> k ∉ map fst entries ->
            OMap.get k (fold_left (fun m e => OMap.set (fst e) (snd e) m) entries m) = None).
  { induction entries as [|e entries IH]; intros m Hm Hk; [done|].
    cbn [fold_left]. apply IH.
    - rewrite omap_get_set_ne; [done|]. intros Heq. apply Hk. cbn. rewrite Heq.
      apply list_elem_of_here.
    - intros Hin. apply Hk. cbn. by apply list_elem_of_further. }
  intros Hk. by apply Hgen.
Qed.

Section Trend.
Context `{lux : Luxon} `{fmt : NumberFormat} `{js : JsStrings} `{consts : Constants}.

Import Analytics Materialization.

(** The trend series of an existing survey has one point for each day
    of the parsed range, in the order of the days, and so between one
    and [ANALYTICS_MAX_WINDOW_DAYS] points; a day for which the survey
    has no rollup row is a point of zeros. *)
Theorem getSurveyTrendSeries_days (identity : option string) (surveyId : Id)
    (from to : string) (db : Db) (survey : Survey) (points : list TrendPoint) :
  lookupDoc (surveys db) surveyId = Some survey ->
  snd (getSurveyTrendSeries identity surveyId from to db) = inr points ->
  exists range,
    queryRange from to = inr range /\
    map tp_dateKey points = dayKeys range /\
    1 <= Z.of_nat (length points) <= ANALYTICS_MAX_WINDOW_DAYS /\
    forall p, p ∈ points ->
      (forall row, row ∈ liveRows (surveyAnalyticsDaily db) ->
         ad_surveyId row = surveyId -> ad_dateKey row <> tp_dateKey p) ->
      p = mkTrend (tp_dateKey p) 0 0 0 0 0%Q 0%Q.
Proof.
  intros Hsurvey H.
  destruct (getSurveyTrendSeries identity surveyId from to db) as [db' r] eqn:Hrun.
  unfold getSurveyTrendSeries in Hrun. cbn [snd] in H. subst r.
  apply bind_inr in Hrun as (db1 & access & Hacc & H).
  assert (Haccess : db1 = db /\ snd access = Some survey).
  { unfold requireSurveyWithAccess in Hacc.
    apply bind_inr in Hacc as (db2 & user & H1 & Hacc).
    apply requireAppUser_inr in H1 as (-> & _).
    apply bind_inr in Hacc as (db2 & s & H1 & Hacc). unfold Store.get in H1.
    injection H1 as <- <-. cbn [tget t_surveys] in Hacc. rewrite Hsurvey in Hacc.
    apply bind_inr in Hacc as (db2 & u & H1 & Hacc). unfold lift in H1.
    injection H1 as <- _. by injection Hacc as <- <-. }
  destruct Haccess as [-> Hs]. rewrite Hs in H.
  apply bind_inr in H as (db1 & range & H1 & H). unfold lift in H1.
  assert (Hrange : queryRange from to = inr range).
  { destruct (queryRange from to) as [err|range']; [discriminate H1|].
    by injection H1 as _ <-. }
  assert (db1 = db) as -> by (destruct (queryRange from to); by injection H1 as <-).
  clear H1.
  apply bind_inr in H as (db2 & rows & H1 & H).
  unfold loadDailyAnalyticsRows, Store.collectRange in H1. injection H1 as <- Hrows.
  injection H as _ <-. exists range. split; [done|].
  split; [rewrite map_map; cbn; by rewrite map_id|].
  rewrite length_map.
  split; [by apply (parseAnalyticsDateRange_inr from to)|].
  intros p (dateKey & -> & _)%list_elem_of_fmap Hnone. cbn [tp_dateKey] in Hnone.
  cbv zeta. unfold rowsByDate. cbn [tp_dateKey].
  rewrite omap_get_ofEntries_None; [done|].
  rewrite map_map. cbn [fst]. intros (d & -> & Hd)%list_elem_of_fmap.
  rewrite <- Hrows, sortBy_Permutation in Hd.
  rewrite list_elem_of_In, List.filter_In, <- list_elem_of_In in Hd. destruct Hd as [Hd Hp].
  destruct d as [i row]. apply docs_spec in Hd. cbn [snd] in *.
  apply andb_prop in Hp as [Hp _]. apply andb_prop in Hp as [Hp _].
  apply bool_decide_eq_true_1 in Hp.
  apply (Hnone row); [|done|done].
  unfold liveRows. apply list_elem_of_omap. exists (Some row). split; [|done].
  unfold lookupDoc in Hd. destruct (surveyAnalyticsDaily db !! i) as [o|] eqn:Hi; [|done].
  cbn in Hd. subst o. by eapply list_elem_of_lookup_2.
Qed.

End Trend.

Lemma getSurveyTrendSeries_days_witness :
  exists points range,
    snd (Analytics.getSurveyTrendSeries (lux := Samples.calendarLuxon)
           (consts := Samples.sampleConstants)
           (Some "user_1") 0%nat "2024-02-29" Samples.sampleDay Samples.sampleRebuilt)
      = inr points /\
    length points = 2%nat /\
    Analytics.queryRange (lux := Samples.calendarLuxon) (consts := Samples.sampleConstants)
      "2024-02-29" Samples.sampleDay = inr range /\
    map Analytics.tp_dateKey points = Materialization.dayKeys range.
Proof.
  eexists.
  assert (Hrun : snd (Analytics.getSurveyTrendSeries (lux := Samples.calendarLuxon)
           (consts := Samples.sampleConstants)
           (Some "user_1") 0%nat "2024-02-29" Samples.sampleDay Samples.sampleRebuilt)
      = inr _) by (vm_compute; reflexivity).
  destruct (@getSurveyTrendSeries_days Samples.calendarLuxon
              Samples.sampleConstants (Some "user_1") 0%nat
              "2024-02-29" Samples.sampleDay Samples.sampleRebuilt
              (mkSurvey "intro" "Intro" 0 0) _ eq_refl Hrun) as (range & Hrange & Hkeys & _).
  exists range. split; [exact Hrun|]. split; [reflexivity|]. split; [exact Hrange|exact Hkeys].
Defined.

(** ** Submitting a session *)

Global Instance responses_other_sessions : OtherTable t_surveyResponses t_surveySessions.
Proof. by intros T db. Qed.
Global Instance responses_other_invites : OtherTable t_surveyResponses t_surveyInvites.
Proof. by intros T db. Qed.
Global Instance responses_other_transitions : OtherTable t_surveyResponses t_sessionTransitions.
Proof. by intros T db. Qed.
Global Instance responses_other_metrics : OtherTable t_surveyResponses t_surveyMetricsDaily.
Proof. by intros T db. Qed.
Global Instance responses_other_analytics : OtherTable t_surveyResponses t_surveyAnalyticsDaily.
Proof. by intros T db. Qed.
Global Instance responses_other_outbox : OtherTable t_surveyResponses t_analyticsOutbox.
Proof. by intros T db. Qed.
Global Instance responses_other_audit : OtherTable t_surveyResponses t_auditLogs.
Proof. by intros T db. Qed.

(** The frame of a step that ran: what it left of the table [t]. *)
Ltac frame_of t H :=
  lazymatch type of H with
  | ?c ?d = (?d', _) =>
      let Hk := fresh "Hframe" in
      assert (Hk : keepsTable t c) by keeps;
      specialize (Hk d); rewrite H in Hk; cbn [fst] in Hk
  end.

Lemma unique_Some {A} (l : list (Doc A)) (db db' : Db) (d : Doc A) :
  Store.unique l db = (db', inr (Some d)) -> l = [d].
Proof. destruct l as [|d1 [|d2 l]]; cbn; intros [=]. by subst. Qed.

Lemma docsFrom_set {A} (T : Table A) (n i : nat) (a a' : A) :
  T !! i = Some (Some a) ->
  docsFrom n (<[i := Some a']> T) =
  map (fun d => if bool_decide (fst d = (n + i)%nat) then ((n + i)%nat, a') else d)
      (docsFrom n T).
Proof.
  revert n i. induction T as [|o T IH]; intros n i Hi; [done|].
  assert (Hrest : forall m l, (n < m)%nat ->
            (forall d : Doc A, d ∈ l -> (m <= fst d)%nat) ->
            map (fun d : Doc A => if bool_decide (fst d = (n + 0)%nat)
                                  then ((n + 0)%nat, a') else d) l = l).
  { intros m l Hm Hl. rewrite <- (map_id l) at 2. apply map_ext_in. intros d Hd.
    apply list_elem_of_In, Hl in Hd. rewrite bool_decide_eq_false_2; [done|lia]. }
  destruct i as [|i].
  - cbn in Hi. injection Hi as ->. cbn [insert list_insert docsFrom map fst].
    rewrite bool_decide_eq_true_2 by lia. rewrite Nat.add_0_r at 1. f_equal.
    symmetry. apply (Hrest (S n)); [lia|]. intros d. apply docsFrom_fst_lt.
  - cbn in Hi. cbn [insert list_insert]. change (list_insert i (Some a') T)
      with (<[i := Some a']> T).
    destruct o as [x|]; cbn [docsFrom map fst].
    + rewrite bool_decide_eq_false_2 by lia. f_equal.
      etrans; [apply (IH (S n) i Hi)|]. apply map_ext. intros d. by replace (S n + i)%nat with (n + S i)%nat by lia.
    + etrans; [apply (IH (S n) i Hi)|]. apply map_ext. intros d. by replace (S n + i)%nat with (n + S i)%nat by lia.
Qed.

Lemma docs_set {A} (T : Table A) (i : Id) (a a' : A) :
  lookupDoc T i = Some a ->
  docs (<[i := Some a']> T) =
  map (fun d => if bool_decide (fst d = i) then (i, a') else d) (docs T).
Proof. intros Hi%lookupDoc_Some. unfold docs. by rewrite (docsFrom_set T 0 i a a'). Qed.

(** Patching the only document that [p] selects, with a row that [p]
    selects too. *)
Lemma collect_set_only {A} (p : A -> bool) (T : Table A) (i : Id) (a a' : A) :
  List.filter (fun d => p (snd d)) (docs T) = [(i, a)] ->
  p a' = true ->
  List.filter (fun d => p (snd d)) (docs (<[i := Some a']> T)) = [(i, a')].
Proof.
  intros Honly Hp.
  assert (Hi : lookupDoc T i = Some a).
  { apply docs_spec. apply list_elem_of_In.
    apply (proj1 (List.filter_In (fun d => p (snd d)) (i, a) (docs T))).
    rewrite Honly. by left. }
  rewrite (docs_set T i a a' Hi).
  pose proof (docs_NoDup T) as Hnd. revert Honly Hnd.
  generalize (docs T) as l. induction l as [|d l IH]; [done|].
  cbn [List.filter map]. intros Honly Hnd. cbn [map] in Hnd; apply list.NoDup_cons in Hnd as [Hd Hnd].
  destruct (decide (fst d = i)) as [Heq|Hne].
  - rewrite bool_decide_eq_true_2 by done. cbn [snd]. rewrite Hp.
    assert (Hskip : forall l', fst d ∉ map fst l' ->
              List.filter (fun d => p (snd d))
                (map (fun d => if bool_decide (fst d = i) then (i, a') else d) l') =
              List.filter (fun d => p (snd d)) l').
    { intros l' Hl'. f_equal. rewrite <- (map_id l') at 2. apply map_ext_in.
      intros e He. rewrite bool_decide_eq_false_2; [done|]. intros Hei. apply Hl'.
      apply list_elem_of_fmap. exists e. split; [congruence|by apply list_elem_of_In]. }
    rewrite Hskip by done.
    destruct (p (snd d)).
    + injection Honly as _ ->. done.
    + exfalso. apply Hd. apply list_elem_of_fmap. exists (i, a). split; [done|].
      apply list_elem_of_In.
      apply (proj1 (List.filter_In (fun d => p (snd d)) (i, a) l)). rewrite Honly. by left.
  - rewrite bool_decide_eq_false_2 by done.
    destruct (p (snd d)) eqn:Hpd.
    + injection Honly as -> _. done.
    + by apply IH.
Qed.

Section Submit.
Context `{lux : Luxon} `{zod : ZodNumber} `{re : RegExpEngine} `{crypto : Utils.Crypto}
        `{js : JsStrings}.

Import Respondent.

(** What a submission that returns has found and written in the
    tables of sessions and responses. *)
Lemma submitSession_effect (now : Z) (publicId : string) (db db' : Db) (r : Id * Z) :
  submitSession now publicId db = (db', inr r) ->
  exists sessionId session version,
    List.filter (fun d => String.eqb (sessionPublicId (snd d)) publicId)
      (docs (surveySessions db)) = [(sessionId, session)] /\
    ses_status session <> completed /\
    (exists invite,
       lookupDoc (surveyInvites db) (ses_inviteId session) = Some invite /\
       Utils.isInviteUsable invite now = true) /\
    lookupDoc (surveyVersions db) (ses_surveyVersionId session) = Some version /\
    checkDraft (fields version) (answersDraft session) = inr tt /\
    r = (length (surveyResponses db), now) /\
    surveyResponses db' =
      surveyResponses db ++
      [Some (mkResponse sessionId (sessionPublicId session) (ses_surveyId session)
               (ses_surveyVersionId session) (ses_inviteId session) now
               (answersDraft session) (now - startedAt session)
               (Some (Scoring.gradeSubmission (fields version) (answersDraft session))))] /\
    surveySessions db' = <[sessionId := Some (completeSession now session)]> (surveySessions db).
Proof.
  intros H. unfold submitSession in H.
  apply bind_inr in H as (db1 & rows & H1 & H).
  unfold Store.collect in H1. injection H1 as <- Hrows.
  apply bind_inr in H as (db1 & found & H1 & H).
  pose proof (unique_db _ _ _ _ H1) as ->.
  destruct found as [[sessionId session]|]; [|discriminate H].
  apply unique_Some in H1. rewrite <- Hrows in H1. cbn [tget t_surveySessions] in H1.
  assert (Hsession : lookupDoc (surveySessions db) sessionId = Some session).
  { apply docs_spec, list_elem_of_In.
    apply (proj1 (List.filter_In (fun d => String.eqb (sessionPublicId (snd d)) publicId)
                    (sessionId, session) (docs (surveySessions db)))).
    rewrite H1. by left. }
  destruct (bool_decide (ses_status session = completed)) eqn:Hdone; [discriminate H|].
  apply bool_decide_eq_false_1 in Hdone.
  apply bind_inr in H as (db1 & invite & H2 & H).
  unfold Store.get in H2. injection H2 as <- Hinvite. cbn [tget t_surveyInvites] in Hinvite.
  destruct invite as [invite|]; [|discriminate H]. cbv zeta in H.
  destruct (activeButExpired invite now) eqn:Hexpired.
  { apply bind_inr in H as (db1 & u & _ & H). discriminate H. }
  destruct (capReached (completionCount invite) invite) eqn:Hcap.
  { apply bind_inr in H as (db1 & u & _ & H). discriminate H. }
  destruct (bool_decide (inv_status invite = inv_active)) eqn:Hactive; [|discriminate H].
  cbn [negb] in H.
  assert (Husable : Utils.isInviteUsable invite now = true).
  { unfold Utils.isInviteUsable. unfold activeButExpired in Hexpired.
    unfold capReached in Hcap. rewrite Hactive in *. cbn [negb andb] in *.
    by rewrite Hexpired, Hcap. }
  apply bind_inr in H as (db1 & version & H2 & H).
  unfold Store.get in H2. injection H2 as <- Hversion. cbn [tget t_surveyVersions] in Hversion.
  destruct version as [version|]; [|discriminate H].
  apply bind_inr in H as (db1 & u1 & H2 & H). unfold lift in H2.
  assert (db1 = db) as ->
    by (destruct (Zod.parseAnswerMapWithZod (answersDraft session)); by injection H2 as <-).
  clear H2.
  apply bind_inr in H as (db1 & u2 & H2 & H). unfold lift in H2.
  assert (Hdraft : checkDraft (fields version) (answersDraft session) = inr tt).
  { destruct (checkDraft (fields version) (answersDraft session)) as [e|[]]; [|done].
    discriminate H2. }
  assert (db1 = db) as -> by (rewrite Hdraft in H2; by injection H2 as <-).
  clear H2.
  apply bind_inr in H as (db1 & responseId & H2 & H).
  set (response := mkResponse _ _ _ _ _ _ _ _ _) in H2.
  assert (Hins : surveySessions db1 = surveySessions db /\
                 surveyResponses db1 = surveyResponses db ++ [Some response] /\
                 responseId = length (surveyResponses db))
    by (unfold Store.insert in H2; by injection H2 as <- <-).
  destruct Hins as (Hsessions1 & Hresponses1 & ->). clear H2.
  apply bind_inr in H as (db2 & u3 & H2 & H).
  assert (Hpatch : surveySessions db2 =
                     <[sessionId := Some (completeSession now session)]> (surveySessions db) /\
                   surveyResponses db2 = surveyResponses db1).
  { unfold Store.patch in H2. cbn [tget t_surveySessions] in H2.
    rewrite Hsessions1, Hsession in H2. by injection H2 as <- _. }
  destruct Hpatch as (Hsessions2 & Hresponses2). clear H2.
  assert (Hresult : r = (length (surveyResponses db), now)).
  { repeat (apply bind_inr in H as (? & ? & _ & H)). by injection H as _ <-. }
  frame_of t_surveySessions H. frame_of t_surveyResponses H.
  exists sessionId, session, version.
  split; [done|]. split; [done|]. split; [by exists invite|].
  split; [by rewrite Hversion|]. split; [done|].
  split; [done|]. split.
  - etrans; [exact Hframe0|]. cbn [tget t_surveyResponses].
    by rewrite Hresponses2, Hresponses1.
  - etrans; [exact Hframe|]. exact Hsessions2.
Qed.

(** A session that is completed takes no answer and no submission. *)
Lemma completed_frozen (publicId : string) (db : Db) (sessionId : Id)
    (session : SurveySession) :
  List.filter (fun d => String.eqb (sessionPublicId (snd d)) publicId)
    (docs (surveySessions db)) = [(sessionId, session)] ->
  ses_status session = completed ->
  forall now,
    submitSession now publicId db = (db, inl (ConvexError "SESSION_COMPLETED")) /\
    forall fieldId value,
      saveAnswer now publicId fieldId value db = (db, inl (ConvexError "SESSION_COMPLETED")).
Proof.
  intros Honly Hdone now. split; [|intros fieldId value].
  - unfold submitSession, bind at 1, Store.collect. cbn [tget t_surveySessions].
    rewrite Honly. unfold bind at 1. cbn [Store.unique ret].
    by rewrite bool_decide_eq_true_2.
  - unfold saveAnswer, bind at 1, Store.collect. cbn [tget t_surveySessions].
    rewrite Honly. unfold bind at 1. cbn [Store.unique ret].
    by rewrite bool_decide_eq_true_2.
Qed.

(** A submission that returns was made on an invite that is usable
    at that time, and has stored one new response: it holds
    the draft of the session as it was, every answer of it accepted by
    the validation of its field, graded by [gradeSubmission] over the
    fields of the version of the session; and the session is completed
    at the time of the submission. *)
Theorem submitSession_records (now : Z) (publicId : string) (db db' : Db)
    (responseId : Id) (at_ : Z) :
  submitSession now publicId db = (db', inr (responseId, at_)) ->
  exists sessionId session version response,
    lookupDoc (surveySessions db) sessionId = Some session /\
    sessionPublicId session = publicId /\
    lookupDoc (surveyVersions db) (ses_surveyVersionId session) = Some version /\
    (exists invite,
       lookupDoc (surveyInvites db) (ses_inviteId session) = Some invite /\
       Utils.isInviteUsable invite now = true) /\
    lookupDoc (surveyResponses db) responseId = None /\
    lookupDoc (surveyResponses db') responseId = Some response /\
    res_sessionId response = sessionId /\
    answers response = answersDraft session /\
    grading response =
      Some (Scoring.gradeSubmission (fields version) (answersDraft session)) /\
    (forall f, f ∈ fields version ->
       Zod.validateAnswerWithZod f (answers response !! id f) = inr None) /\
    submittedAt response = now /\ at_ = now /\
    lookupDoc (surveySessions db') sessionId = Some (completeSession now session).
Proof.
  intros H.
  apply submitSession_effect in H
    as (sessionId & session & version & Honly & _ & Hinvite & Hversion & Hdraft & Hr & Hres
        & Hses).
  injection Hr as -> ->.
  assert (Hin : (sessionId, session) ∈
                List.filter (fun d => String.eqb (sessionPublicId (snd d)) publicId)
                  (docs (surveySessions db))) by (rewrite Honly; apply list_elem_of_here).
  rewrite list_elem_of_In, List.filter_In, <- list_elem_of_In in Hin.
  destruct Hin as [Hsession Hid]. apply docs_spec in Hsession.
  apply String.eqb_eq in Hid. cbn [snd] in Hid.
  eexists sessionId, session, version, _.
  split; [done|]. split; [done|]. split; [done|]. split; [done|]. split.
  { unfold lookupDoc. by rewrite lookup_ge_None_2. }
  split; [rewrite Hres; apply lookupDoc_app_new|].
  cbn [res_sessionId answers grading submittedAt].
  split; [done|]. split; [done|]. split; [done|].
  split; [by apply checkDraft_inr|]. split; [done|]. split; [done|].
  rewrite Hses. apply lookupDoc_set_eq. by eapply lookupDoc_lt.
Qed.

End Submit.

Lemma submitSession_records_witness :
  Respondent.submitSession (lux := Samples.calendarLuxon) (zod := Samples.zod4)
    (re := Samples.permissiveRegExp) 1709300000000 "uuid-1" Samples.sampleStarted
    = (Samples.sampleSubmitted, inr (2%nat, 1709300000000)) /\
  exists response,
    lookupDoc (surveyResponses Samples.sampleSubmitted) 2%nat = Some response /\
    res_sessionId response = 0%nat /\ submittedAt response = 1709300000000.
Proof.
  assert (Hrun : Respondent.submitSession (lux := Samples.calendarLuxon) (zod := Samples.zod4)
                   (re := Samples.permissiveRegExp) 1709300000000 "uuid-1"
                   Samples.sampleStarted
                 = (Samples.sampleSubmitted, inr (2%nat, 1709300000000)))
    by (vm_compute; reflexivity).
  split; [exact Hrun|].
  destruct (@submitSession_records Samples.calendarLuxon Samples.zod4
              Samples.permissiveRegExp 1709300000000 "uuid-1" Samples.sampleStarted
              Samples.sampleSubmitted 2%nat 1709300000000 Hrun)
    as (sessionId & session & version & response & Hs & _ & _ & _ & _ & Hr & Hid & _ & _ & _
        & Hat & _).
  exists response. split; [exact Hr|]. split; [|exact Hat].
  rewrite Hid. destruct sessionId as [|[|n]]; [reflexivity| |]; by vm_compute in Hs.
Defined.

(** ** Invites *)

Global Instance lens_invites : LensLaws t_surveyInvites.
Proof. split; by intros; destruct db. Qed.

Section InviteFacts.
Context `{js : JsStrings} `{crypto : Utils.Crypto} `{consts : Constants}.

Import Utils Invites Respondent.

Lemma assertSurveyOwnerOrAdmin_inr (db : Db) (identity : option string) (user : Doc AppUser)
    (survey : Survey) (u : unit) :
  identity = Some (workosUserId (snd user)) ->
  lookupDoc (appUsers db) (fst user) = Some (snd user) ->
  assertSurveyOwnerOrAdmin user survey = inr u ->
  actsOn db identity survey.
Proof.
  intros Hid Huser H. exists (fst user), (snd user). split; [done|]. split; [done|].
  unfold assertSurveyOwnerOrAdmin in H.
  destruct (bool_decide (role (snd user) = admin)) eqn:Hadmin.
  - left. by apply bool_decide_eq_true_1 in Hadmin.
  - destruct (bool_decide (createdByUserId survey = fst user)) eqn:Hown; [|discriminate H].
    right. by apply bool_decide_eq_true_1 in Hown.
Qed.

Lemma capReached_fresh (arg : option JsNum) :
  num_le (num_max (ofZ 1) (default (ofZ 1) arg)) (ofZ 0) = false.
Proof.
  destruct arg as [[q| | |]|]; cbn; try done.
  destruct (Qle_bool (inject_Z 1) q) eqn:Hq; cbn; [|done].
  apply Qle_bool_iff in Hq. apply not_true_is_false. intros Hq0%Qle_bool_iff.
  assert (Hle : (inject_Z 1 <= inject_Z 0)%Q) by (by apply (Qle_trans _ q)).
  rewrite <- Zle_Qle in Hle. lia.
Qed.

(** An invite that is created is added after the invites there are. *)
Lemma createInvite_appends (identity : option string) (now : Z) (inviteToken : string)
    (surveyId surveyVersionId : Id) (expires : option JsNum)
    (maxCompletionsArg : option JsNum) (db db' : Db) (r : Id * string) :
  createInvite identity now inviteToken surveyId surveyVersionId expires maxCompletionsArg db
    = (db', inr r) ->
  exists invite, surveyInvites db' = surveyInvites db ++ [Some invite].
Proof.
  intros H. unfold createInvite in H.
  apply bind_inr in H as (db1 & user & H1 & H).
  apply requireAppUser_inr in H1 as (-> & Hid & Huser).
  apply bind_inr in H as (db1 & survey & H1 & H). unfold Store.get in H1.
  injection H1 as <- <-. cbn [tget t_surveys] in H.
  destruct (lookupDoc (surveys db) surveyId) as [survey|] eqn:Hsurvey; [|discriminate H].
  apply bind_inr in H as (db1 & u & H1 & H). unfold lift in H1.
  assert (db1 = db) as ->
    by (destruct (assertSurveyOwnerOrAdmin user survey); by injection H1 as <-).
  clear H1.
  apply bind_inr in H as (db1 & version & H1 & H). unfold Store.get in H1.
  injection H1 as <- <-. cbn [tget t_surveyVersions] in H.
  destruct (lookupDoc (surveyVersions db) surveyVersionId) as [version|] eqn:Hversion;
    [|discriminate H].
  cbn [from_option] in H.
  destruct (bool_decide (ver_surveyId version = surveyId)) eqn:Hof; [|discriminate H].
  cbn [negb] in H. cbv zeta in H.
  apply bind_inr in H as (db1 & newId & H1 & H).
  set (invite := mkInvite _ _ _ _ _ _ _ _ _ _) in H1.
  assert (Hins : surveyInvites db1 = surveyInvites db ++ [Some invite])
    by (unfold Store.insert in H1; by injection H1 as <- _).
  clear H1.
  frame_of t_surveyInvites H. cbn [tget t_surveyInvites] in Hframe.
  exists invite. by rewrite Hframe.
Qed.

(** [createInvite], when it returns: the caller is an admin or the
    creator of the survey and the version belongs to the survey; the
    token handed back is the one drawn; one invite is added, active,
    without completions and with a cap that is not reached.  Its
    expiry is the number passed, whatever it is, or by default
    [now + DEFAULT_INVITE_TTL_MS], and the invite is usable at a time
    exactly when the expiry is not less than that time: with the
    default, until [now + DEFAULT_INVITE_TTL_MS]; with a finite expiry,
    until then; with [NaN] or [Infinity], at every time; with
    [-Infinity], never.  When no earlier invite has the hash of the
    token, [getInviteByToken] finds the new invite by it. *)
Theorem createInvite_returns (identity : option string) (now : Z) (inviteToken : string)
    (surveyId surveyVersionId : Id) (expires : option JsNum)
    (maxCompletionsArg : option JsNum) (db db' : Db) (inviteId : Id) (token : string) :
  createInvite identity now inviteToken surveyId surveyVersionId expires maxCompletionsArg db
    = (db', inr (inviteId, token)) ->
  token = inviteToken /\
  (exists survey version,
     lookupDoc (surveys db) surveyId = Some survey /\ actsOn db identity survey /\
     lookupDoc (surveyVersions db) surveyVersionId = Some version /\
     ver_surveyId version = surveyId) /\
  exists invite,
    surveyInvites db' = surveyInvites db ++ [Some invite] /\
    inviteId = length (surveyInvites db) /\
    tokenHash invite = hashToken inviteToken /\
    inv_surveyId invite = surveyId /\ inv_surveyVersionId invite = surveyVersionId /\
    inv_status invite = inv_active /\ completionCount invite = 0 /\
    expiresAt invite = Some (default (ofZ (now + DEFAULT_INVITE_TTL_MS)) expires) /\
    (forall at_,
       isInviteUsable invite at_ =
       negb (num_lt (default (ofZ (now + DEFAULT_INVITE_TTL_MS)) expires) (ofZ at_))) /\
    (forall at_,
       isInviteUsable invite at_ = true <->
       match default (ofZ (now + DEFAULT_INVITE_TTL_MS)) expires with
       | Fin e => (inject_Z at_ <= e)%Q
       | PInf | NaN => True
       | NInf => False
       end) /\
    (expires = None ->
     forall at_, isInviteUsable invite at_ = true <-> at_ <= now + DEFAULT_INVITE_TTL_MS) /\
    ((forall i earlier, lookupDoc (surveyInvites db) i = Some earlier ->
        tokenHash earlier <> hashToken inviteToken) ->
     getInviteByToken inviteToken db' = (db', inr (Some (inviteId, invite)))).
Proof.
  intros H. unfold createInvite in H.
  apply bind_inr in H as (db1 & user & H1 & H).
  apply requireAppUser_inr in H1 as (-> & Hid & Huser).
  apply bind_inr in H as (db1 & survey & H1 & H). unfold Store.get in H1.
  injection H1 as <- <-. cbn [tget t_surveys] in H.
  destruct (lookupDoc (surveys db) surveyId) as [survey|] eqn:Hsurvey; [|discriminate H].
  apply bind_inr in H as (db1 & u & H1 & H). unfold lift in H1.
  assert (Hacts : actsOn db identity survey).
  { destruct (assertSurveyOwnerOrAdmin user survey) as [e|[]] eqn:Hassert; [discriminate H1|].
    by eapply assertSurveyOwnerOrAdmin_inr. }
  assert (db1 = db) as ->
    by (destruct (assertSurveyOwnerOrAdmin user survey); by injection H1 as <-).
  clear H1.
  apply bind_inr in H as (db1 & version & H1 & H). unfold Store.get in H1.
  injection H1 as <- <-. cbn [tget t_surveyVersions] in H.
  destruct (lookupDoc (surveyVersions db) surveyVersionId) as [version|] eqn:Hversion;
    [|discriminate H].
  cbn [from_option] in H.
  destruct (bool_decide (ver_surveyId version = surveyId)) eqn:Hof; [|discriminate H].
  apply bool_decide_eq_true_1 in Hof. cbn [negb] in H. cbv zeta in H.
  apply bind_inr in H as (db1 & newId & H1 & H).
  set (invite := mkInvite _ _ _ _ _ _ _ _ _ _) in H1.
  assert (Hins : surveyInvites db1 = surveyInvites db ++ [Some invite] /\
                 newId = length (surveyInvites db))
    by (unfold Store.insert in H1; by injection H1 as <- <-).
  destruct Hins as [Hinvites ->]. clear H1.
  assert (Hresult : (inviteId, token) = (length (surveyInvites db), inviteToken)).
  { repeat (apply bind_inr in H as (? & ? & _ & H)). by injection H as _ <- <-. }
  injection Hresult as -> ->.
  frame_of t_surveyInvites H. cbn [tget t_surveyInvites] in Hframe.
  rewrite Hinvites in Hframe.
  split; [done|]. split; [by exists survey, version|].
  exists invite. split; [done|]. split; [done|].
  split; [done|]. split; [done|]. split; [done|]. split; [done|]. split; [done|].
  split; [done|].
  assert (Husable : forall at_,
            isInviteUsable invite at_ =
            negb (num_lt (default (ofZ (now + DEFAULT_INVITE_TTL_MS)) expires) (ofZ at_))).
  { intros at_. unfold isInviteUsable.
    cbn [inv_status expiresAt maxCompletions completionCount invite].
    rewrite bool_decide_eq_true_2 by done. cbn [negb]. rewrite capReached_fresh.
    by destruct (num_lt _ (ofZ at_)). }
  assert (Hwhen : forall at_,
            isInviteUsable invite at_ = true <->
            match default (ofZ (now + DEFAULT_INVITE_TTL_MS)) expires with
            | Fin e => (inject_Z at_ <= e)%Q
            | PInf | NaN => True
            | NInf => False
            end).
  { intros at_. rewrite Husable.
    destruct (default (ofZ (now + DEFAULT_INVITE_TTL_MS)) expires) as [e| | |];
      cbn [num_lt ofZ negb]; try done.
    unfold Qlt_bool. rewrite negb_involutive. apply Qle_bool_iff. }
  split; [done|]. split; [done|]. split.
  - intros -> at_. rewrite Hwhen. cbn [default ofZ]. by rewrite <- Zle_Qle.
  - intros Hfresh. unfold getInviteByToken, bind, Store.collect.
    cbn [tget t_surveyInvites]. rewrite Hframe.
    assert (Hrows : List.filter (fun d => String.eqb (tokenHash (snd d)) (hashToken inviteToken))
                      (docs (surveyInvites db ++ [Some invite]))
                    = [(length (surveyInvites db), invite)]).
    { unfold docs.
      assert (Hgen : forall T n,
                (forall i earlier, lookupDoc T i = Some earlier ->
                   tokenHash earlier <> hashToken inviteToken) ->
                List.filter (fun d => String.eqb (tokenHash (snd d)) (hashToken inviteToken))
                  (docsFrom n (T ++ [Some invite])) = [((n + length T)%nat, invite)]).
      { induction T as [|o T IH]; intros n HT.
        - cbn. rewrite String.eqb_refl. by rewrite Nat.add_0_r.
        - assert (HT' : forall i earlier, lookupDoc T i = Some earlier ->
                          tokenHash earlier <> hashToken inviteToken)
            by (intros i earlier Hi; by apply (HT (S i) earlier)).
          destruct o as [x|]; cbn [app docsFrom List.filter snd length].
          + pose proof (HT 0%nat x eq_refl) as Hx. apply String.eqb_neq in Hx. rewrite Hx.
            rewrite IH by done. f_equal. f_equal. lia.
          + rewrite IH by done. f_equal. f_equal. lia. }
      by rewrite Hgen. }
    by rewrite Hrows.
Qed.

End InviteFacts.

Lemma createInvite_returns_witness :
  Invites.createInvite (js := Samples.plainStrings) (crypto := Samples.tagCrypto)
    (consts := Samples.sampleConstants) (Some "user_1") 1709300000000 "inv_cap" 0%nat 0%nat
    None (Some (Fin (3 # 2))) Samples.sampleDb
    = (Samples.capInvited, inr (0%nat, "inv_cap")) /\
  exists invite,
    surveyInvites Samples.capInvited = surveyInvites Samples.sampleDb ++ [Some invite] /\
    inv_status invite = inv_active /\ completionCount invite = 0.
Proof.
  assert (Hrun : Invites.createInvite (js := Samples.plainStrings)
                   (crypto := Samples.tagCrypto) (consts := Samples.sampleConstants)
                   (Some "user_1") 1709300000000 "inv_cap" 0%nat 0%nat None
                   (Some (Fin (3 # 2))) Samples.sampleDb
                 = (Samples.capInvited, inr (0%nat, "inv_cap")))
    by (vm_compute; reflexivity).
  split; [exact Hrun|].
  destruct (@createInvite_returns Samples.plainStrings Samples.tagCrypto
              Samples.sampleConstants (Some "user_1") 1709300000000 "inv_cap" 0%nat 0%nat
              None (Some (Fin (3 # 2))) Samples.sampleDb Samples.capInvited 0%nat "inv_cap"
              Hrun)
    as (_ & _ & invite & Hrows & _ & _ & _ & _ & Hstatus & Hcount & _).
  exists invite. split; [exact Hrows|]. split; [exact Hstatus|exact Hcount].
Defined.

(** ** Starting and resuming a session *)

Section Start.
Context `{lux : Luxon} `{zod : ZodNumber} `{re : RegExpEngine} `{crypto : Utils.Crypto}
        `{js : JsStrings}.

Import Utils Respondent.

Lemma getInviteByToken_db (inviteToken : string) (db db' : Db)
    (r : Result (option (Doc SurveyInvite))) :
  getInviteByToken inviteToken db = (db', r) -> db' = db.
Proof.
  unfold getInviteByToken, bind, Store.collect. intros H. by apply unique_db in H.
Qed.

Lemma getInviteByToken_Some (inviteToken : string) (db db' : Db) (d : Doc SurveyInvite) :
  getInviteByToken inviteToken db = (db', inr (Some d)) ->
  lookupDoc (surveyInvites db) (fst d) = Some (snd d) /\
  tokenHash (snd d) = hashToken inviteToken.
Proof.
  unfold getInviteByToken, bind, Store.collect. intros H%unique_elem.
  apply (collect_spec _ (fun i => String.eqb (tokenHash i) (hashToken inviteToken))) in H
    as [Hd Hp].
  split; [done|]. by apply String.eqb_eq.
Qed.

(** The session [findCandidate] hands back is a live session of the
    respondent on the invite that is not completed. *)
Lemma findCandidate_inr (inviteId : Id) (key : string) (priorSessionId : option string)
    (db db' : Db) (candidate : option (Doc SurveySession)) :
  findCandidate inviteId key priorSessionId db = (db', inr candidate) ->
  db' = db /\
  forall d, candidate = Some d ->
    lookupDoc (surveySessions db) (fst d) = Some (snd d) /\
    respondentKey (snd d) = key /\ ses_status (snd d) <> completed /\
    ses_inviteId (snd d) = inviteId.
Proof.
  unfold findCandidate. cbv zeta.
  set (mine := fun d : Doc SurveySession =>
                 String.eqb (respondentKey (snd d)) key
                 && negb (bool_decide (ses_status (snd d) = completed))).
  assert (Hmine : forall d, mine d = true ->
            respondentKey (snd d) = key /\ ses_status (snd d) <> completed).
  { intros d [Hk Hs]%andb_prop. apply String.eqb_eq in Hk. apply negb_true_iff in Hs.
    by apply bool_decide_eq_false_1 in Hs. }
  intros H. apply bind_inr in H as (db1 & prior & H1 & H).
  assert (Hprior : db1 = db /\
            forall d, prior = Some d ->
              lookupDoc (surveySessions db) (fst d) = Some (snd d) /\
              ses_inviteId (snd d) = inviteId /\ mine d = true).
  { destruct priorSessionId as [p|]; [|by injection H1 as <- <-].
    destruct (String.eqb p EmptyString); [by injection H1 as <- <-|].
    apply bind_inr in H1 as (db2 & rows & H2 & H1). unfold Store.collect in H2.
    injection H2 as <- <-.
    apply bind_inr in H1 as (db2 & found & H2 & H1). pose proof (unique_db _ _ _ _ H2) as ->.
    injection H1 as <- <-. split; [done|]. intros d Hd.
    destruct found as [d'|]; [|done]. fold (mine d') in Hd.
    destruct (bool_decide (ses_inviteId (snd d') = inviteId) && mine d') eqn:Hok; [|done].
    injection Hd as ->. apply andb_prop in Hok as [Hinv Hm].
    apply bool_decide_eq_true_1 in Hinv.
    apply unique_elem in H2.
    apply (collect_spec _ (fun s => String.eqb (sessionPublicId s) p)) in H2 as [Hl _].
    done. }
  destruct Hprior as [-> Hprior].
  destruct prior as [d|].
  - injection H as <- <-. split; [done|]. intros d' [= <-].
    destruct (Hprior d eq_refl) as (Hl & Hinv & Hm). apply Hmine in Hm as [? ?]. done.
  - apply bind_inr in H as (db2 & byInvite & H2 & H). unfold Store.collect in H2.
    injection H2 as <- <-. injection H as <- <-. split; [done|]. intros d Hd.
    apply List.find_some in Hd as [Hin Hm]. apply List.filter_In in Hin as [Hl Hinv].
    apply list_elem_of_In in Hl. destruct d as [i s]. apply docs_spec in Hl.
    apply bool_decide_eq_true_1 in Hinv.
    apply Hmine in Hm as [? ?]. done.
Qed.

Lemma isInviteUsable_true (invite : SurveyInvite) (now : Z) :
  isInviteUsable invite now = true ->
  inv_status invite = inv_active /\
  capReached (completionCount invite) invite = false /\
  activeButExpired invite now = false.
Proof.
  unfold isInviteUsable, capReached, activeButExpired.
  destruct (bool_decide (inv_status invite = inv_active)) eqn:Hactive; [|done].
  apply bool_decide_eq_true_1 in Hactive. cbn [negb andb].
  destruct (match expiresAt invite with Some e => num_lt e (ofZ now) | None => false end); [done|].
  by destruct (num_le (maxCompletions invite) (ofZ (completionCount invite))).
Qed.

(** A session is started or resumed only on the invite that the token
    finds, and only when it is usable. *)
Lemma start_needs_usable (now : Z) (uuid inviteToken key : string)
    (priorSessionId : option string) (db db' : Db) (r : string * SessionStatus * Progress) :
  startOrResumeSession now uuid inviteToken key priorSessionId db = (db', inr r) ->
  exists found,
    getInviteByToken inviteToken db = (db, inr (Some found)) /\
    isInviteUsable (snd found) now = true.
Proof.
  intros H. unfold startOrResumeSession in H.
  destruct ((strlen key <? 12) || (256 <? strlen key)); [discriminate H|].
  apply bind_inr in H as (db1 & found & H1 & H).
  pose proof (getInviteByToken_db _ _ _ _ H1) as ->.
  destruct found as [[inviteId invite]|]; [|discriminate H].
  exists (inviteId, invite). split; [done|]. cbn [snd].
  destruct (activeButExpired invite now).
  { apply bind_inr in H as (db1 & u & _ & H). discriminate H. }
  apply bind_inr in H as (db1 & u & _ & H).
  by destruct (isInviteUsable invite now).
Qed.

(** What a session that is started or resumed has found and written. *)
Lemma startOrResumeSession_inr (now : Z) (uuid inviteToken key : string)
    (priorSessionId : option string) (db db' : Db) (publicId : string)
    (status : SessionStatus) (progress : Progress) :
  startOrResumeSession now uuid inviteToken key priorSessionId db
    = (db', inr (publicId, status, progress)) ->
  12 <= strlen key <= 256 /\
  status = in_progress /\
  surveyInvites db' = surveyInvites db /\
  exists inviteId invite sessionId session,
    lookupDoc (surveyInvites db) inviteId = Some invite /\
    tokenHash invite = hashToken inviteToken /\
    isInviteUsable invite now = true /\
    lookupDoc (surveySessions db') sessionId = Some session /\
    sessionPublicId session = publicId /\ ses_status session = in_progress /\
    respondentKey session = key /\ ses_inviteId session = inviteId /\
    lastActivityAt session = now /\
    (forall other, other <> sessionId ->
       lookupDoc (surveySessions db') other = lookupDoc (surveySessions db) other) /\
    match lookupDoc (surveySessions db) sessionId with
    | Some earlier =>
        session = touchSession in_progress now earlier /\ ses_status earlier <> completed
    | None =>
        session = mkSession uuid (inv_surveyId invite) (inv_surveyVersionId invite)
                    inviteId key in_progress now now None ∅
    end.
Proof.
  intros H. unfold startOrResumeSession in H.
  destruct ((strlen key <? 12) || (256 <? strlen key)) eqn:Hkey; [discriminate H|].
  apply orb_false_elim in Hkey as [Hlo%Z.ltb_ge Hhi%Z.ltb_ge].
  apply bind_inr in H as (db1 & found & H1 & H).
  pose proof (getInviteByToken_db _ _ _ _ H1) as ->.
  destruct found as [[inviteId invite]|]; [|discriminate H].
  apply getInviteByToken_Some in H1 as [Hinvite Hhash]. cbn [fst snd] in Hinvite, Hhash.
  destruct (activeButExpired invite now).
  { apply bind_inr in H as (db1 & u & _ & H). discriminate H. }
  apply bind_inr in H as (db1 & u & H1 & H).
  destruct (isInviteUsable invite now) eqn:Husable; [|discriminate H]. cbn [negb] in H.
  destruct (isInviteUsable_true _ _ Husable) as (Hactive & Hcap & _).
  rewrite Hcap, andb_false_r in H1. injection H1 as <- _.
  apply bind_inr in H as (db1 & version & H1 & H). unfold Store.get in H1.
  injection H1 as <- _. destruct version as [version|]; [|discriminate H].
  apply bind_inr in H as (db1 & candidate & H1 & H).
  apply findCandidate_inr in H1 as [-> Hcand].
  split; [lia|].
  destruct candidate as [[sessionId c]|].
  - destruct (Hcand _ eq_refl) as (Hc & Hmine & Hopen & Hof). cbn [fst snd] in *.
    cbv zeta in H.
    assert (Hto : (if isDormant (ses_status c) then in_progress else ses_status c)
                  = in_progress) by (by destruct (ses_status c)).
    rewrite Hto in H.
    assert (Hresult : (publicId, status) = (sessionPublicId c, in_progress)).
    { repeat (apply bind_inr in H as (? & ? & _ & H)). by injection H as _ <- <- _. }
    injection Hresult as -> ->.
    frame_of t_surveyInvites H. cbn [tget t_surveyInvites] in Hframe.
    apply bind_inr in H as (db1 & u1 & H1 & H).
    assert (Hpatch : surveySessions db1 =
                       <[sessionId := Some (touchSession in_progress now c)]>
                         (surveySessions db)).
    { unfold Store.patch in H1. cbn [tget t_surveySessions] in H1. rewrite Hc in H1.
      by injection H1 as <- _. }
    clear H1. frame_of t_surveySessions H. cbn [tget t_surveySessions] in Hframe0.
    rewrite Hpatch in Hframe0.
    split; [done|]. split; [done|].
    exists inviteId, invite, sessionId, (touchSession in_progress now c).
    split; [done|]. split; [done|]. split; [done|].
    split. { rewrite Hframe0. apply lookupDoc_set_eq. by eapply lookupDoc_lt. }
    split; [done|]. split; [done|]. split; [done|]. split; [done|]. split; [done|].
    split. { intros other Hother. rewrite Hframe0. by apply lookupDoc_set_ne. }
    by rewrite Hc.
  - assert (Hresult : (publicId, status) = (uuid, in_progress)).
    { repeat (apply bind_inr in H as (? & ? & _ & H)). by injection H as _ <- <- _. }
    injection Hresult as -> ->.
    frame_of t_surveyInvites H. cbn [tget t_surveyInvites] in Hframe.
    apply bind_inr in H as (db1 & sessionId & H1 & H).
    set (session := mkSession _ _ _ _ _ _ _ _ _ _) in H1.
    assert (Hins : surveySessions db1 = surveySessions db ++ [Some session] /\
                   sessionId = length (surveySessions db))
      by (unfold Store.insert in H1; by injection H1 as <- <-).
    destruct Hins as [Hins ->]. clear H1.
    frame_of t_surveySessions H. cbn [tget t_surveySessions] in Hframe0.
    rewrite Hins in Hframe0.
    split; [done|]. split; [done|].
    exists inviteId, invite, (length (surveySessions db)), session.
    split; [done|]. split; [done|]. split; [done|].
    split. { rewrite Hframe0. apply lookupDoc_app_new. }
    split; [done|]. split; [done|]. split; [done|]. split; [done|]. split; [done|].
    assert (Hnone : lookupDoc (surveySessions db) (length (surveySessions db)) = None)
      by (unfold lookupDoc; by rewrite lookup_ge_None_2).
    split; [|by rewrite Hnone].
    intros other Hother. rewrite Hframe0. unfold lookupDoc.
    destruct (decide (other < length (surveySessions db))%nat).
    + by rewrite lookup_app_l.
    + rewrite lookup_app_r by lia.
      destruct (other - length (surveySessions db))%nat as [|k] eqn:Hk; [lia|].
      cbn. by rewrite lookup_ge_None_2 by lia.
Qed.

(** [startOrResumeSession], when it returns: the respondent key has
    between 12 and 256 characters; the token is the one of an invite
    that is usable at that time, and no invite is written; the session
    handed back is in progress, belongs to the respondent and to the
    invite, and was active just now.  It is the only session written:
    either a session of the respondent on this invite that was not
    completed, resumed with its draft, or a new session with the drawn
    id and an empty draft. *)
Theorem startOrResumeSession_returns (now : Z) (uuid inviteToken key : string)
    (priorSessionId : option string) (db db' : Db) (publicId : string)
    (status : SessionStatus) (progress : Progress) :
  startOrResumeSession now uuid inviteToken key priorSessionId db
    = (db', inr (publicId, status, progress)) ->
  12 <= strlen key <= 256 /\
  status = in_progress /\
  surveyInvites db' = surveyInvites db /\
  exists inviteId invite sessionId session,
    lookupDoc (surveyInvites db) inviteId = Some invite /\
    tokenHash invite = hashToken inviteToken /\
    isInviteUsable invite now = true /\
    lookupDoc (surveySessions db') sessionId = Some session /\
    sessionPublicId session = publicId /\ ses_status session = in_progress /\
    respondentKey session = key /\ ses_inviteId session = inviteId /\
    lastActivityAt session = now /\
    (forall other, other <> sessionId ->
       lookupDoc (surveySessions db') other = lookupDoc (surveySessions db) other) /\
    match lookupDoc (surveySessions db) sessionId with
    | Some earlier =>
        session = touchSession in_progress now earlier /\ ses_status earlier <> completed
    | None =>
        session = mkSession uuid (inv_surveyId invite) (inv_surveyVersionId invite)
                    inviteId key in_progress now now None ∅
    end.
Proof. apply startOrResumeSession_inr. Qed.

End Start.

Lemma startOrResumeSession_returns_witness :
  exists progress,
    Respondent.startOrResumeSession (lux := Samples.calendarLuxon)
      (crypto := Samples.tagCrypto) (js := Samples.plainStrings)
      1709300000000 "uuid-1" "inv_cap" "respondent-aaaa" None Samples.capInvited
      = (Samples.sampleStarted, inr ("uuid-1", in_progress, progress)) /\
    surveyInvites Samples.sampleStarted = surveyInvites Samples.capInvited.
Proof.
  eexists.
  assert (Hrun : Respondent.startOrResumeSession (lux := Samples.calendarLuxon)
                   (crypto := Samples.tagCrypto) (js := Samples.plainStrings)
                   1709300000000 "uuid-1" "inv_cap" "respondent-aaaa" None
                   Samples.capInvited
                 = (Samples.sampleStarted, inr ("uuid-1", in_progress, _)))
    by (vm_compute; reflexivity).
  split; [exact Hrun|].
  exact (proj1 (proj2 (proj2
           (@startOrResumeSession_returns Samples.calendarLuxon Samples.tagCrypto
              Samples.plainStrings 1709300000000 "uuid-1" "inv_cap" "respondent-aaaa" None
              Samples.capInvited Samples.sampleStarted "uuid-1" in_progress _ Hrun)))).
Defined.
(** ** Revoking an invite *)

Section Revoke.
Context `{js : JsStrings} `{consts : Constants}.

Import Utils Invites.

(** What a revocation that returns has found and written. *)
Lemma revokeInvite_effect (identity : option string) (now : Z) (inviteId : Id)
    (db db' : Db) (u : unit) :
  revokeInvite identity now inviteId db = (db', inr u) ->
  exists invite survey,
    lookupDoc (surveyInvites db) inviteId = Some invite /\
    lookupDoc (surveys db) (inv_surveyId invite) = Some survey /\
    actsOn db identity survey /\
    surveyInvites db' =
      <[inviteId :=
          Some (mkInvite (inv_surveyId invite) (inv_surveyVersionId invite) (tokenHash invite)
                  inv_revoked (maxCompletions invite) (completionCount invite)
                  (expiresAt invite) (inv_createdByUserId invite) (inv_createdAt invite)
                  (Some now))]> (surveyInvites db) /\
    surveySessions db' = surveySessions db.
Proof.
  intros H. unfold revokeInvite in H.
  apply bind_inr in H as (db1 & user & H1 & H).
  apply requireAppUser_inr in H1 as (-> & Hid & Huser).
  apply bind_inr in H as (db1 & invite & H1 & H). unfold Store.get in H1.
  injection H1 as <- <-. cbn [tget t_surveyInvites] in H.
  destruct (lookupDoc (surveyInvites db) inviteId) as [invite|] eqn:Hinvite; [|discriminate H].
  apply bind_inr in H as (db1 & survey & H1 & H). unfold Store.get in H1.
  injection H1 as <- <-. cbn [tget t_surveys] in H.
  destruct (lookupDoc (surveys db) (inv_surveyId invite)) as [survey|] eqn:Hsurvey;
    [|discriminate H].
  apply bind_inr in H as (db1 & u1 & H1 & H). unfold lift in H1.
  assert (Hacts : actsOn db identity survey).
  { destruct (assertSurveyOwnerOrAdmin user survey) as [e|[]] eqn:Hassert; [discriminate H1|].
    by eapply assertSurveyOwnerOrAdmin_inr. }
  assert (db1 = db) as ->
    by (destruct (assertSurveyOwnerOrAdmin user survey); by injection H1 as <-).
  clear H1.
  frame_of t_surveySessions H. cbn [tget t_surveySessions] in Hframe.
  apply bind_inr in H as (db1 & u2 & H1 & H).
  set (revoked := mkInvite (inv_surveyId invite) (inv_surveyVersionId invite)
                    (tokenHash invite) inv_revoked (maxCompletions invite)
                    (completionCount invite) (expiresAt invite) (inv_createdByUserId invite)
                    (inv_createdAt invite) (Some now)).
  assert (Hpatch : surveyInvites db1 = <[inviteId := Some revoked]> (surveyInvites db)).
  { unfold Store.patch in H1. cbn [tget t_surveyInvites] in H1. rewrite Hinvite in H1.
    by injection H1 as <- _. }
  clear H1. frame_of t_surveyInvites H. cbn [tget t_surveyInvites] in Hframe0.
  rewrite Hpatch in Hframe0.
  by exists invite, survey.
Qed.

End Revoke.

(** ** Saving an answer *)

Lemma omap_get_ofEntries_Some {V} (entries : list (string * V)) (k : string) (v : V) :
  OMap.get k (OMap.ofEntries entries) = Some v -> (k, v) ∈ entries.
Proof.
  unfold OMap.ofEntries.
  assert (Hgen : forall m e,
            e ∈ fold_left (fun m e => OMap.set (fst e) (snd e) m) entries m ->
            e ∈ m \/ e ∈ entries).
  { induction entries as [|x entries IH]; intros m e He; [by left|].
    cbn [fold_left] in He. destruct (IH _ _ He) as [Hin|Hin].
    - apply omap_set_elem in Hin as [->|Hin]; [|by left].
      right. destruct x. apply list_elem_of_here.
    - right. by apply list_elem_of_further. }
  intros Hget%omap_get_In%list_elem_of_In.
  destruct (Hgen _ _ Hget) as [Hnil|Hin]; [by apply elem_of_nil in Hnil|done].
Qed.

Section Save.
Context `{lux : Luxon} `{zod : ZodNumber} `{re : RegExpEngine} `{crypto : Utils.Crypto}
        `{js : JsStrings}.

Import Utils Respondent.

(** An answer that is saved is saved in the only session of the id,
    which was not completed; no other session and no invite is
    written. *)
Lemma saveAnswer_effect (now : Z) (publicId fieldId : string) (value : Answer)
    (db db' : Db) (r : Z * SessionStatus) :
  saveAnswer now publicId fieldId value db = (db', inr r) ->
  surveyInvites db' = surveyInvites db /\
  exists sessionId session saved,
    List.filter (fun d => String.eqb (sessionPublicId (snd d)) publicId)
      (docs (surveySessions db)) = [(sessionId, session)] /\
    ses_status session <> completed /\
    surveySessions db' = <[sessionId := Some saved]> (surveySessions db).
Proof.
  intros H. unfold saveAnswer in H.
  apply bind_inr in H as (db1 & rows & H1 & H).
  unfold Store.collect in H1. injection H1 as <- Hrows.
  apply bind_inr in H as (db1 & found & H1 & H).
  pose proof (unique_db _ _ _ _ H1) as ->.
  destruct found as [[sessionId session]|]; [|discriminate H].
  apply unique_Some in H1. rewrite <- Hrows in H1. cbn [tget t_surveySessions] in H1.
  clear Hrows rows.
  assert (Hsession : lookupDoc (surveySessions db) sessionId = Some session).
  { assert (Hin : In (sessionId, session)
                    (List.filter (fun d => String.eqb (sessionPublicId (snd d)) publicId)
                       (docs (surveySessions db)))) by (rewrite H1; by left).
    apply List.filter_In in Hin as [Hin Hp]. by apply list_elem_of_In, docs_spec in Hin. }
  destruct (bool_decide (ses_status session = completed)) eqn:Hdone; [discriminate H|].
  apply bool_decide_eq_false_1 in Hdone.
  apply bind_inr in H as (db1 & version & H2 & H).
  unfold Store.get in H2. injection H2 as <- Hversion.
  destruct version as [version|]; [|discriminate H].
  destruct (OMap.get fieldId (getFieldMap version)) as [field|]; [|discriminate H].
  apply bind_inr in H as (db1 & u1 & H2 & H). unfold lift in H2. injection H2 as <- _.
  cbv zeta in H.
  apply bind_inr in H as (db1 & u2 & H2 & H). unfold lift in H2. injection H2 as <- _.
  assert (Hnext : (if isDormant (ses_status session) then in_progress else ses_status session)
                  = in_progress) by (by destruct (ses_status session)).
  rewrite Hnext in H.
  frame_of t_surveyInvites H. cbn [tget t_surveyInvites] in Hframe.
  split; [done|].
  apply bind_inr in H as (db1 & u3 & H2 & H). frame_of t_surveySessions H2.
  cbn [tget t_surveySessions] in Hframe0. clear H2.
  apply bind_inr in H as (db2 & u4 & H2 & H).
  set (saved := saveDraft (<[fieldId := value]> (answersDraft session)) in_progress now session).
  assert (Hpatch : surveySessions db2 = <[sessionId := Some saved]> (surveySessions db)).
  { unfold Store.patch in H2. cbn [tget t_surveySessions] in H2.
    rewrite Hframe0, Hsession in H2. by injection H2 as <- _. }
  clear H2. frame_of t_surveySessions H. cbn [tget t_surveySessions] in Hframe1.
  exists sessionId, session, saved. split; [done|]. split; [done|].
  by rewrite Hframe1.
Qed.

(** [saveAnswer], when it returns: the session was not completed, the
    field is one of the version of the session and accepts the value;
    the session is in progress and was active just now, and its draft
    is the earlier draft with the value at the field, so that
    [getSessionSnapshot] reads the value back; the percentage handed
    back is the progress of the new draft.  No invite and no response
    is written. *)
Theorem saveAnswer_round_trip (now : Z) (publicId fieldId : string) (value : Answer)
    (db db' : Db) (percent : Z) (status : SessionStatus) :
  saveAnswer now publicId fieldId value db = (db', inr (percent, status)) ->
  status = in_progress /\
  surveyInvites db' = surveyInvites db /\ surveyResponses db' = surveyResponses db /\
  exists before after version field,
    getSessionSnapshot publicId db = (db, inr (Some before)) /\
    getSessionSnapshot publicId db' = (db', inr (Some after)) /\
    snap_status before <> completed /\
    lookupDoc (surveyVersions db) (snap_surveyVersionId before) = Some version /\
    field ∈ fields version /\ id field = fieldId /\
    Zod.validateAnswerWithZod field (Some value) = inr None /\
    snap_answersDraft after = <[fieldId := value]> (snap_answersDraft before) /\
    snap_answersDraft after !! fieldId = Some value /\
    snap_status after = in_progress /\ snap_lastActivityAt after = now /\
    snap_startedAt after = snap_startedAt before /\
    percent = progressPercent (calculateProgress (fields version) (snap_answersDraft after)).
Proof.
  intros H. unfold saveAnswer in H.
  apply bind_inr in H as (db1 & rows & H1 & H).
  unfold Store.collect in H1. injection H1 as <- Hrows.
  apply bind_inr in H as (db1 & found & H1 & H).
  pose proof (unique_db _ _ _ _ H1) as ->.
  destruct found as [[sessionId session]|]; [|discriminate H].
  apply unique_Some in H1. rewrite <- Hrows in H1. cbn [tget t_surveySessions] in H1.
  clear Hrows rows.
  assert (Hsession : lookupDoc (surveySessions db) sessionId = Some session /\
                     String.eqb (sessionPublicId session) publicId = true).
  { assert (Hin : In (sessionId, session)
                    (List.filter (fun d => String.eqb (sessionPublicId (snd d)) publicId)
                       (docs (surveySessions db)))) by (rewrite H1; by left).
    apply List.filter_In in Hin as [Hin Hp]. by apply list_elem_of_In, docs_spec in Hin. }
  destruct Hsession as [Hsession Hpublic].
  destruct (bool_decide (ses_status session = completed)) eqn:Hdone; [discriminate H|].
  apply bool_decide_eq_false_1 in Hdone.
  apply bind_inr in H as (db1 & version & H2 & H).
  unfold Store.get in H2. injection H2 as <- Hversion. cbn [tget t_surveyVersions] in Hversion.
  destruct version as [version|]; [|discriminate H].
  destruct (OMap.get fieldId (getFieldMap version)) as [field|] eqn:Hfield; [|discriminate H].
  apply omap_get_ofEntries_Some in Hfield.
  apply list_elem_of_fmap in Hfield as (field' & [= Hid ->] & Hfield).
  apply bind_inr in H as (db1 & u1 & H2 & H). unfold lift in H2. injection H2 as <- Hvalid.
  assert (Hok : Zod.validateAnswerWithZod field' (Some value) = inr None).
  { unfold validateAnswerForField in Hvalid.
    by destruct (Zod.validateAnswerWithZod field' (Some value)) as [e|[issue|]]. }
  clear Hvalid. cbv zeta in H.
  apply bind_inr in H as (db1 & u2 & H2 & H). unfold lift in H2. injection H2 as <- _.
  assert (Hnext : (if isDormant (ses_status session) then in_progress else ses_status session)
                  = in_progress) by (by destruct (ses_status session)).
  rewrite Hnext in H.
  assert (Hresult : (percent, status) =
            (progressPercent
               (calculateProgress (fields version)
                  (<[fieldId := value]> (answersDraft session))), in_progress)).
  { repeat (apply bind_inr in H as (? & ? & _ & H)). by injection H as _ <- <-. }
  injection Hresult as -> ->.
  frame_of t_surveyInvites H. frame_of t_surveyResponses H.
  apply bind_inr in H as (db1 & u3 & H2 & H). frame_of t_surveySessions H2.
  cbn [tget t_surveySessions] in Hframe1. clear H2.
  apply bind_inr in H as (db2 & u4 & H2 & H).
  set (saved := saveDraft (<[fieldId := value]> (answersDraft session)) in_progress now session).
  assert (Hpatch : surveySessions db2 = <[sessionId := Some saved]> (surveySessions db)).
  { unfold Store.patch in H2. cbn [tget t_surveySessions] in H2.
    rewrite Hframe1, Hsession in H2. by injection H2 as <- _. }
  clear H2. frame_of t_surveySessions H. cbn [tget t_surveySessions] in Hframe2.
  rewrite Hpatch in Hframe2.
  assert (Hafter : List.filter (fun d => String.eqb (sessionPublicId (snd d)) publicId)
                     (docs (surveySessions db')) = [(sessionId, saved)]).
  { rewrite Hframe2.
    by apply (collect_set_only (fun s => String.eqb (sessionPublicId s) publicId)
                (surveySessions db) sessionId session). }
  split; [done|]. split; [done|]. split; [done|].
  eexists _, _, version, field'.
  split. { unfold getSessionSnapshot, bind at 1, Store.collect. cbn [tget t_surveySessions].
           rewrite H1. reflexivity. }
  split. { unfold getSessionSnapshot, bind at 1, Store.collect. cbn [tget t_surveySessions].
           rewrite Hafter. reflexivity. }
  cbn [snap_status snap_surveyVersionId snap_answersDraft snap_lastActivityAt
       snap_startedAt saved saveDraft ses_status ses_surveyVersionId answersDraft
       lastActivityAt startedAt].
  split; [done|]. split; [done|]. split; [done|]. split; [done|]. split; [done|].
  split; [done|]. split; [apply lookup_insert_eq|]. done.
Qed.

End Save.

Lemma saveAnswer_round_trip_witness :
  exists percent after,
    Respondent.saveAnswer (lux := Samples.calendarLuxon) (zod := Samples.zod4)
      (re := Samples.permissiveRegExp) 1709300030000 "uuid-1" "q0" (AStr "yes")
      Samples.sampleStarted = (Samples.sampleSaved, inr (percent, in_progress)) /\
    Respondent.getSessionSnapshot "uuid-1" Samples.sampleSaved
      = (Samples.sampleSaved, inr (Some after)) /\
    Respondent.snap_answersDraft after !! "q0" = Some (AStr "yes").
Proof.
  eexists.
  assert (Hrun : Respondent.saveAnswer (lux := Samples.calendarLuxon) (zod := Samples.zod4)
                   (re := Samples.permissiveRegExp) 1709300030000 "uuid-1" "q0" (AStr "yes")
                   Samples.sampleStarted = (Samples.sampleSaved, inr (_, in_progress)))
    by (vm_compute; reflexivity).
  destruct (@saveAnswer_round_trip Samples.calendarLuxon Samples.zod4
              Samples.permissiveRegExp 1709300030000 "uuid-1" "q0" (AStr "yes")
              Samples.sampleStarted Samples.sampleSaved _ in_progress Hrun)
    as (_ & _ & _ & before & after & version & field & _ & Hafter & _ & _ & _ & _ & _ & _
        & Hvalue & _).
  exists after. split; [exact Hrun|]. split; [exact Hafter|exact Hvalue].
Defined.

(** ** The sweeps move quiet sessions only *)

Section Sweeps.
Context `{lux : Luxon} `{consts : Constants} `{rt : QueryRuntime}.

Import Sessions.

Lemma transitionSession_run (sessionId : Id) (toStatus : SessionStatus) (why : string)
    (at_ : Z) (db : Db) (s : SurveySession) :
  lookupDoc (surveySessions db) sessionId = Some s ->
  surveySessions (fst (transitionSession sessionId toStatus why at_ db)) = surveySessions db \/
  surveySessions (fst (transitionSession sessionId toStatus why at_ db)) =
    <[sessionId := Some (moveSession toStatus at_ s)]> (surveySessions db).
Proof.
  intros Hs.
  assert (Hgen : forall out, transitionSession sessionId toStatus why at_ db = out ->
            surveySessions (fst out) = surveySessions db \/
            surveySessions (fst out) =
              <[sessionId := Some (moveSession toStatus at_ s)]> (surveySessions db)).
  { intros out Hout. unfold transitionSession in Hout. unfold bind at 1, Store.get in Hout.
    cbn [tget t_surveySessions] in Hout. rewrite Hs in Hout.
    destruct (bool_decide (ses_status s = toStatus)); [subst out; by left|]. right.
    cbv zeta in Hout. unfold bind at 1, Store.patch in Hout.
    cbn [tget t_surveySessions] in Hout. rewrite Hs in Hout. cbv beta iota in Hout.
    subst out.
    lazymatch goal with
    | |- surveySessions (fst (?c ?d)) = _ =>
        assert (Hk : keepsTable t_surveySessions c) by keeps;
        change (surveySessions (fst (c d))) with (tget t_surveySessions (fst (c d)));
        rewrite (Hk d)
    end.
    done. }
  by apply Hgen.
Qed.

Lemma moveSession_twice (toStatus : SessionStatus) (at_ : Z) (s : SurveySession) :
  moveSession toStatus at_ (moveSession toStatus at_ s) = moveSession toStatus at_ s.
Proof. unfold moveSession. cbn. by destruct (bool_decide (toStatus = completed)). Qed.

Lemma quietSessions_quiet (status : SessionStatus) (cutoff : Z) (n : JsNum) (db : Db) :
  fst (quietSessions status cutoff n db) = db /\
  forall l, snd (quietSessions status cutoff n db) = inr l ->
    forall d, d ∈ l ->
      lookupDoc (surveySessions db) (fst d) = Some (snd d) /\
      ses_status (snd d) = status /\ lastActivityAt (snd d) < cutoff.
Proof.
  unfold quietSessions, bind, lift, Store.collect, ret.
  destruct (takeCount n) as [e|count]; cbn [fst snd]; [by split|].
  split; [done|]. intros l [= <-] d Hd.
  apply subseteq_take in Hd. rewrite sortBy_Permutation in Hd.
  rewrite list_elem_of_In, List.filter_In, <- list_elem_of_In in Hd. destruct Hd as [Hin Hp].
  destruct d as [i s]. apply docs_spec in Hin.
  split; [done|]. apply andb_prop in Hp as [Hst Hquiet].
  apply bool_decide_eq_true_1 in Hst. by apply Z.ltb_lt in Hquiet.
Qed.

Lemma sweep_quiet (target : SessionStatus) (sources : list SessionStatus) (why : string)
    (cutoff now : Z) (T0 : Table SurveySession) (sessions : list (Doc SurveySession)) :
  (forall d, d ∈ sessions ->
     exists s0, lookupDoc T0 (fst d) = Some s0 /\ ses_status s0 ∈ sources /\
                lastActivityAt s0 < cutoff) ->
  forall (processed : Z) (db : Db),
    sessionsRel (quietMove target sources cutoff now) T0 (surveySessions db) ->
    sessionsRel (quietMove target sources cutoff now) T0
      (surveySessions (fst (sweep target why now sessions db))) .
Proof.
  unfold sweep. generalize 0 as processed.
  induction sessions as [|x rest IH]; intros processed Hsrc _ db Hrel; [done|].
  cbn [forEach]. unfold bind at 1.
  assert (Hstep : sessionsRel (quietMove target sources cutoff now) T0
            (surveySessions (fst (transitionSession (fst x) target why now db)))).
  { destruct (Hsrc x) as (s0 & Hs0 & Hin & Hquiet); [by left|].
    destruct (Hrel _ _ Hs0) as (s1 & Hs1 & Hmove).
    destruct (transitionSession_run (fst x) target why now db s1 Hs1) as [->| ->]; [done|].
    intros j s Hj. destruct (Hrel j s Hj) as (s2 & Hs2 & HP).
    destruct (decide (fst x = j)) as [<-|Hne].
    - exists (moveSession target now s1).
      rewrite lookupDoc_set_eq by (by eapply lookupDoc_lt). split; [done|].
      rewrite Hs0 in Hj. injection Hj as <-. right. split; [done|]. split; [done|].
      destruct Hmove as [->|(_ & _ & ->)]; [done|apply moveSession_twice].
    - exists s2. by rewrite lookupDoc_set_ne. }
  unfold bind at 1.
  destruct (transitionSession (fst x) target why now db) as [db1 [e|transitioned]];
    cbn [fst] in *; [done|].
  unfold ret at 1. apply (IH _ ltac:(intros d Hd; apply Hsrc; by right) 0); done.
Qed.

(** What the idle sweep does before the runtime commits or rolls back. *)
Lemma markIdleBatch_quiet (now : Z) (limit : option JsNum) (db : Db) :
  sessionsRel (quietMove idle [in_progress] (now - IDLE_THRESHOLD_MS) now)
    (surveySessions db) (surveySessions (fst (markIdleBatch now limit db))).
Proof.
  unfold markIdleBatch. cbv zeta. unfold bind at 1.
  destruct (quietSessions_quiet in_progress (now - IDLE_THRESHOLD_MS) (batchLimit limit) db)
    as [Hdb Hrows].
  destruct (quietSessions _ _ _ db) as [db1 [e|sessions]]; cbn [fst snd] in *; subst db1.
  { apply sessionsRel_refl. by left. }
  apply sweep_quiet; [|exact 0|].
  + intros d Hd. destruct (Hrows sessions eq_refl d Hd) as (Hl & Hst & Hquiet).
    exists (snd d). split; [done|]. split; [|done]. rewrite Hst. by left.
  + apply sessionsRel_refl. by left.
Qed.

(** What the abandon sweep does before the runtime commits or rolls back. *)
Lemma markAbandonedBatch_quiet (now : Z) (limit : option JsNum) (db : Db) :
  sessionsRel (quietMove abandoned [idle; in_progress] (now - ABANDONED_THRESHOLD_MS) now)
    (surveySessions db) (surveySessions (fst (markAbandonedBatch now limit db))).
Proof.
  unfold markAbandonedBatch. cbv zeta. unfold bind at 1.
  destruct (quietSessions_quiet idle (now - ABANDONED_THRESHOLD_MS) (batchLimit limit) db)
    as [Hdb Hrows].
  destruct (quietSessions idle _ _ db) as [db1 [e|idleSessions]];
    cbn [fst snd] in *; subst db1.
  { apply sessionsRel_refl. by left. }
  unfold bind at 1.
  set (remaining := num_max _ _).
  assert (Hmore : exists r,
            (if num_gt remaining (ofZ 0)
             then quietSessions in_progress (now - ABANDONED_THRESHOLD_MS) remaining
             else ret []) db = (db, r) /\
            forall l, r = inr l -> forall d, d ∈ l ->
              lookupDoc (surveySessions db) (fst d) = Some (snd d) /\
              ses_status (snd d) = in_progress /\
              lastActivityAt (snd d) < now - ABANDONED_THRESHOLD_MS).
  { destruct (num_gt remaining (ofZ 0)).
    - destruct (quietSessions_quiet in_progress (now - ABANDONED_THRESHOLD_MS) remaining db)
        as [Hdb' Hrows'].
      destruct (quietSessions in_progress _ _ db) as [db1 r]; cbn [fst snd] in *; subst db1.
      by exists r.
    - exists (inr []). split; [done|]. intros l [= <-] d Hd. by apply elem_of_nil in Hd. }
  destruct Hmore as (r & -> & Hrows').
  destruct r as [e|inProgressSessions]; cbn [fst].
  { apply sessionsRel_refl. by left. }
  apply sweep_quiet; [|exact 0|].
  + intros d [Hd|Hd]%elem_of_app.
    * destruct (Hrows idleSessions eq_refl d Hd) as (Hl & Hst & Hquiet).
      exists (snd d). split; [done|]. split; [|done]. rewrite Hst. by left.
    * destruct (Hrows' inProgressSessions eq_refl d Hd) as (Hl & Hst & Hquiet).
      exists (snd d). split; [done|]. split; [|done]. rewrite Hst. right. by left.
  + apply sessionsRel_refl. by left.
Qed.

(** The idle sweep moves only sessions in progress that have been
    quiet since before [now - IDLE_THRESHOLD_MS], and the abandon sweep
    only idle sessions and sessions in progress quiet since before
    [now - ABANDONED_THRESHOLD_MS].  A session that is moved takes the
    new status and [now] as the time of its last activity and keeps its
    other fields; every other session is left as it is, and no session
    is deleted. *)
Theorem sweeps_move_quiet (now : Z) (limit : option JsNum) (db : Db) :
  sessionsRel (quietMove idle [in_progress] (now - IDLE_THRESHOLD_MS) now)
    (surveySessions db) (surveySessions (commit (markIdleBatch now limit) db)) /\
  sessionsRel (quietMove abandoned [idle; in_progress] (now - ABANDONED_THRESHOLD_MS) now)
    (surveySessions db) (surveySessions (commit (markAbandonedBatch now limit) db)).
Proof.
  split; apply sessionsRel_commit; try (by left).
  - apply markIdleBatch_quiet.
  - apply markAbandonedBatch_quiet.
Qed.

End Sweeps.

(** ** What a rebuild leaves alone *)

Section RebuildFrame.
Context `{lux : Luxon} `{fmt : NumberFormat} `{txt : TextInsights}.

Import Materialization.

(** A rebuild of one day of one survey that returns has written the
    rollup tables only: users, surveys, versions, invites, sessions,
    responses, transitions, live counters, outbox and audit log are as
    before.  In the rollup tables the rows of every other day and of
    every other survey are as before, in the same order; and without
    [includeTextInsights] the table of text insights is as before. *)
Theorem rebuild_isolated (now : Z) (surveyId : Id) (dateKey : string)
    (includeTextInsights : bool) (db db1 : Db) :
  rebuildDailyMaterializedAnalytics now surveyId dateKey includeTextInsights db = (db1, inr tt) ->
  exists nd,
    normalizeDateKey dateKey = inr nd /\
    (appUsers db1 = appUsers db /\ surveys db1 = surveys db /\
     surveyVersions db1 = surveyVersions db /\ surveyInvites db1 = surveyInvites db /\
     surveySessions db1 = surveySessions db /\ surveyResponses db1 = surveyResponses db /\
     sessionTransitions db1 = sessionTransitions db /\
     surveyMetricsDaily db1 = surveyMetricsDaily db /\
     analyticsOutbox db1 = analyticsOutbox db /\ auditLogs db1 = auditLogs db) /\
    rowsWhere (fun r => negb (analyticsOfDay surveyId nd r)) (surveyAnalyticsDaily db1) =
      rowsWhere (fun r => negb (analyticsOfDay surveyId nd r)) (surveyAnalyticsDaily db) /\
    rowsWhere (fun r => negb (fieldRowOfDay surveyId nd r)) (surveyFieldAnalyticsDaily db1) =
      rowsWhere (fun r => negb (fieldRowOfDay surveyId nd r)) (surveyFieldAnalyticsDaily db) /\
    rowsWhere (fun r => negb (bucketRowOfDay surveyId nd r)) (surveyAnswerBucketsDaily db1) =
      rowsWhere (fun r => negb (bucketRowOfDay surveyId nd r)) (surveyAnswerBucketsDaily db) /\
    rowsWhere (fun r => negb (textRowOfDay surveyId nd r)) (surveyTextInsightsDaily db1) =
      rowsWhere (fun r => negb (textRowOfDay surveyId nd r)) (surveyTextInsightsDaily db) /\
    (includeTextInsights = false -> surveyTextInsightsDaily db1 = surveyTextInsightsDaily db).
Proof.
  intros Hrun.
  destruct (rebuild_returns _ _ _ _ _ _ Hrun) as (nd & responses & metrics & Hnd & Hresp & Huniq).
  destruct (rebuild_run now surveyId dateKey includeTextInsights db nd responses metrics
              Hnd Hresp Huniq)
    as (Ta & Tf & Tb & Tt & Hdb & (_ & Ha) & (_ & Hf & _) & (_ & Hb & _) & Ht).
  rewrite Hdb in Hrun. injection Hrun as <-.
  exists nd. split; [done|]. split; [by repeat split|].
  cbn [surveyAnalyticsDaily surveyFieldAnalyticsDaily surveyAnswerBucketsDaily
       surveyTextInsightsDaily tset t_surveyAnalyticsDaily t_surveyFieldAnalyticsDaily
       t_surveyAnswerBucketsDaily t_surveyTextInsightsDaily].
  split; [done|]. split; [done|]. split; [done|].
  destruct includeTextInsights.
  - destruct Ht as [_ Ht]. split; [done|]. discriminate.
  - subst Tt. by split.
Qed.

End RebuildFrame.

Lemma rebuild_isolated_witness :
  rebuildDailyMaterializedAnalytics
    (lux := Samples.calendarLuxon) (fmt := Samples.decimalFormat)
    (txt := Samples.verbatimInsights) Samples.sampleNow 0 Samples.sampleDay false
    Samples.sampleDb = (Samples.sampleRebuilt, inr tt) /\
  surveyResponses Samples.sampleRebuilt = surveyResponses Samples.sampleDb /\
  surveyMetricsDaily Samples.sampleRebuilt = surveyMetricsDaily Samples.sampleDb.
Proof.
  assert (Hrun : rebuildDailyMaterializedAnalytics
                   (lux := Samples.calendarLuxon) (fmt := Samples.decimalFormat)
                   (txt := Samples.verbatimInsights) Samples.sampleNow 0 Samples.sampleDay false
                   Samples.sampleDb = (Samples.sampleRebuilt, inr tt))
    by (vm_compute; reflexivity).
  split; [exact Hrun|].
  destruct (@rebuild_isolated Samples.calendarLuxon Samples.decimalFormat
              Samples.verbatimInsights Samples.sampleNow 0%nat Samples.sampleDay false
              Samples.sampleDb Samples.sampleRebuilt Hrun)
    as (nd & _ & (_ & _ & _ & _ & _ & Hres & _ & Hmet & _) & _).
  split; [exact Hres|exact Hmet].
Defined.

(** ** The buckets of a breakdown *)

Section Buckets.
Context `{js : JsStrings}.

Import Analytics.

Lemma bucketTotal_app (l1 l2 : list Bucket) :
  bucketTotal (l1 ++ l2) = bucketTotal l1 + bucketTotal l2.
Proof.
  unfold bucketTotal. induction l1 as [|b l1 IH]; cbn [app foldr]; [done|]. rewrite IH. lia.
Qed.

Lemma bucketTotal_one (b : Bucket) : bucketTotal [b] = bk_count b.
Proof. unfold bucketTotal. cbn [foldr]. lia. Qed.

Lemma bucketTotal_Permutation (l1 l2 : list Bucket) :
  l1 ≡ₚ l2 -> bucketTotal l1 = bucketTotal l2.
Proof.
  unfold bucketTotal.
  induction 1 as [|b l1 l2 _ IH|b1 b2 l|l1 l2 l3 _ IH1 _ IH2]; cbn [foldr];
    [done| | |congruence].
  - by rewrite IH.
  - lia.
Qed.

Lemma bucketTotal_fold (l : list Bucket) (init : Z) :
  fold_left (fun sum row => sum + bk_count row) l init = init + bucketTotal l.
Proof.
  unfold bucketTotal.
  revert init. induction l as [|b l IH]; intros init; cbn [fold_left foldr]; [lia|].
  rewrite IH. lia.
Qed.

Lemma bucketTotal_zero (l : list Bucket) :
  (forall b, b ∈ l -> bk_count b = 0) -> bucketTotal l = 0.
Proof.
  unfold bucketTotal. induction l as [|b l IH]; intros Hl; cbn [foldr]; [done|].
  rewrite (Hl b) by apply list_elem_of_here. rewrite IH; [done|].
  intros b' Hb'. apply Hl. by apply list_elem_of_further.
Qed.

Lemma bucketTotal_nonneg (l : list Bucket) :
  (forall b, b ∈ l -> 0 <= bk_count b) -> 0 <= bucketTotal l.
Proof.
  unfold bucketTotal. induction l as [|b l IH]; intros Hl; cbn [foldr]; [done|].
  pose proof (Hl b ltac:(apply list_elem_of_here)).
  assert (0 <= foldr (fun b acc => bk_count b + acc) 0 l)
    by (apply IH; intros b' Hb'; apply Hl; by apply list_elem_of_further).
  lia.
Qed.

(** The two loops of [normalizeBucketRows] append buckets of count
    zero, after which every key has a bucket. *)
Lemma padMissing_spec (labelOf : string -> string) (keys : list string) :
  forall buckets, exists added,
    padMissing labelOf keys buckets = buckets ++ added /\
    (forall b, b ∈ added -> bk_count b = 0) /\
    (forall k, k ∈ keys -> k ∈ map bk_key (buckets ++ added)).
Proof.
  unfold padMissing. induction keys as [|k keys IH]; intros buckets.
  { exists []. rewrite app_nil_r. split; [done|]. split; by intros ? ?%elem_of_nil. }
  cbn [fold_left].
  destruct (existsb (fun b => String.eqb (bk_key b) k) buckets) eqn:Hk.
  - destruct (IH buckets) as (added & Heq & Hzero & Hkeys).
    exists added. split; [done|]. split; [done|].
    intros k' [->|Hk']%elem_of_cons; [|by apply Hkeys].
    apply existsb_exists in Hk as (b & Hb & Heqb). apply String.eqb_eq in Heqb.
    apply list_elem_of_fmap. exists b. split; [done|].
    apply elem_of_app. left. by apply list_elem_of_In.
  - destruct (IH (buckets ++ [mkBucket k (labelOf k) 0])) as (added & Heq & Hzero & Hkeys).
    exists (mkBucket k (labelOf k) 0 :: added). rewrite Heq, <- app_assoc. split; [done|].
    split.
    + intros b [->|Hb]%elem_of_cons; [done|by apply Hzero].
    + intros k' [->|Hk']%elem_of_cons.
      * apply list_elem_of_fmap. exists (mkBucket k (labelOf k) 0). split; [done|].
        apply elem_of_app. right. apply list_elem_of_here.
      * specialize (Hkeys k' Hk'). by rewrite <- app_assoc in Hkeys.
Qed.

(** [normalizeBucketRows] on buckets without negative counts keeps the
    sum of the counts and returns no negative count.  For a select
    field every option has a bucket in the result, and for a rating
    each of the five ratings, with count zero when it had none, and no
    bucket is dropped; for the other kinds the result has at most
    twenty buckets. *)
Theorem normalizeBucketRows_total (kind : FieldKind) (optionOrder : list string)
    (optionLabels : list (string * string)) (buckets : list Bucket) :
  (forall b, b ∈ buckets -> 0 <= bk_count b) ->
  let result := normalizeBucketRows kind optionOrder optionLabels buckets in
  bucketTotal result = bucketTotal buckets /\
  (forall b, b ∈ result -> 0 <= bk_count b) /\
  match kind with
  | single_select | multi_select =>
      (forall k, k ∈ optionOrder -> k ∈ map bk_key result) /\
      (forall b, b ∈ buckets -> b ∈ result)
  | rating_1_5 =>
      (forall k, k ∈ ["1"; "2"; "3"; "4"; "5"] -> k ∈ map bk_key result) /\
      (forall b, b ∈ buckets -> b ∈ result)
  | _ => (length result <= 20)%nat
  end.
Proof.
  intros Hnonneg. cbv zeta.
  assert (Hpad : forall labelOf keys cmp,
            let result := sortBy cmp (padMissing labelOf keys buckets) in
            bucketTotal result = bucketTotal buckets /\
            (forall b, b ∈ result -> 0 <= bk_count b) /\
            (forall k, k ∈ keys -> k ∈ map bk_key result) /\
            (forall b, b ∈ buckets -> b ∈ result)).
  { intros labelOf keys cmp. cbv zeta.
    destruct (padMissing_spec labelOf keys buckets) as (added & -> & Hzero & Hkeys).
    pose proof (sortBy_Permutation cmp (buckets ++ added)) as Hperm.
    split; [|split; [|split]].
    - rewrite (bucketTotal_Permutation _ _ Hperm), bucketTotal_app, (bucketTotal_zero added Hzero).
      lia.
    - intros b Hb. rewrite Hperm in Hb. apply elem_of_app in Hb as [Hb|Hb]; [by apply Hnonneg|].
      by rewrite (Hzero b Hb).
    - intros k Hk. rewrite Hperm. by apply Hkeys.
    - intros b Hb. rewrite Hperm. apply elem_of_app. by left. }
  assert (Hfree : forall cmp,
            let normalized := sortBy cmp buckets in
            let result :=
              if (20 <? length normalized)%nat then
                let top := take 19 normalized in
                let otherCount :=
                  fold_left (fun sum row => sum + bk_count row) (drop 19 normalized) 0 in
                if 0 <? otherCount then top ++ [mkBucket "__other__" "Other" otherCount]
                else top
              else normalized in
            bucketTotal result = bucketTotal buckets /\
            (forall b, b ∈ result -> 0 <= bk_count b) /\ (length result <= 20)%nat).
  { intros cmp. cbv zeta. pose proof (sortBy_Permutation cmp buckets) as Hperm.
    set (normalized := sortBy cmp buckets) in *.
    assert (Hn : forall b, b ∈ normalized -> 0 <= bk_count b)
      by (intros b Hb; rewrite Hperm in Hb; by apply Hnonneg).
    destruct (Nat.ltb_spec 20 (length normalized)) as [Hlong|Hshort].
    - rewrite bucketTotal_fold, Z.add_0_l.
      assert (Hrest : 0 <= bucketTotal (drop 19 normalized)).
      { apply bucketTotal_nonneg. intros b Hb. apply Hn. by eapply subseteq_drop. }
      assert (Hsplit : bucketTotal normalized =
                bucketTotal (take 19 normalized) + bucketTotal (drop 19 normalized))
        by (by rewrite <- bucketTotal_app, take_drop).
      rewrite <- (bucketTotal_Permutation _ _ Hperm), Hsplit.
      destruct (Z.ltb_spec 0 (bucketTotal (drop 19 normalized))) as [Hpos|Hzero].
      + split; [|split].
        * rewrite bucketTotal_app, bucketTotal_one. cbn [bk_count]. lia.
        * intros b [Hb|Hb]%elem_of_app; [apply Hn; by eapply subseteq_take|].
          apply list_elem_of_singleton in Hb as ->. cbn [bk_count]. lia.
        * rewrite length_app, length_take. cbn [length]. lia.
      + split; [lia|]. split; [intros b Hb; apply Hn; by eapply subseteq_take|].
        rewrite length_take. lia.
    - split; [by apply bucketTotal_Permutation|]. split; [done|lia]. }
  unfold normalizeBucketRows.
  destruct kind;
    first [ destruct (Hfree (fun a b => if bk_count b - bk_count a =? 0
                                        then localeCompare (bk_label a) (bk_label b)
                                        else bk_count b - bk_count a))
              as (Htotal & Hpos & Hlen); by repeat split
          | idtac ].
  - destruct (Hpad (fun k => default k (OMap.get k optionLabels)) optionOrder
                (fun a b => indexOf (bk_key a) optionOrder - indexOf (bk_key b) optionOrder))
      as (Htotal & Hpos & Hkeys & Hkeep).
    by repeat split.
  - destruct (Hpad (fun k => default k (OMap.get k optionLabels)) optionOrder
                (fun a b => indexOf (bk_key a) optionOrder - indexOf (bk_key b) optionOrder))
      as (Htotal & Hpos & Hkeys & Hkeep).
    by repeat split.
  - destruct (Hpad (fun k => k) ["1"; "2"; "3"; "4"; "5"]
                (fun a b => num_sign (num_sub (stringToNumber (bk_key a))
                                              (stringToNumber (bk_key b)))))
      as (Htotal & Hpos & Hkeys & Hkeep).
    by repeat split.
Qed.

End Buckets.

Lemma normalizeBucketRows_total_witness :
  let buckets := [Analytics.mkBucket "blue" "Blue" 2] in
  (forall b, b ∈ buckets -> 0 <= Analytics.bk_count b) /\
  bucketTotal (Analytics.normalizeBucketRows (js := Samples.plainStrings) single_select
                 ["red"; "blue"] [] buckets) = 2.
Proof.
  cbv zeta.
  assert (Hnonneg : forall b, b ∈ [Analytics.mkBucket "blue" "Blue" 2] ->
                      0 <= Analytics.bk_count b).
  { intros b Hb. apply list_elem_of_singleton in Hb. subst b. simpl. lia. }
  split; [exact Hnonneg|].
  etrans; [exact (proj1 (@normalizeBucketRows_total Samples.plainStrings single_select
                           ["red"; "blue"] [] _ Hnonneg))|].
  reflexivity.
Defined.

(** ** The CSV export *)

Section Csv.
Context `{lux : Luxon} `{fmt : NumberFormat} `{js : JsStrings} `{consts : Constants}.

Import Analytics Materialization.

Lemma enforceCsvRowLimit_inr (rowCount : Z) (u : unit) :
  enforceCsvRowLimit rowCount = inr u -> rowCount <= ANALYTICS_MAX_CSV_ROWS.
Proof.
  unfold enforceCsvRowLimit. destruct (Z.ltb_spec ANALYTICS_MAX_CSV_ROWS rowCount); [done|].
  intros _. lia.
Qed.

(** An export that returns is a rectangular table of at most
    [ANALYTICS_MAX_CSV_ROWS] rows: every row has one cell for each
    column of the header.  The funnel and the scoring report have one
    row for each day of the range, in order, that starts with the
    day. *)
Theorem getSurveyCsvExport_shape (identity : option string) (surveyId : Id)
    (from to : string) (report : CsvReport) (db : Db) (csv : CsvExport) :
  snd (getSurveyCsvExport identity surveyId from to report db) = inr csv ->
  (forall row, row ∈ csv_rows csv -> length row = length (csv_headers csv)) /\
  Z.of_nat (length (csv_rows csv)) <= ANALYTICS_MAX_CSV_ROWS /\
  exists range,
    queryRange from to = inr range /\
    (report <> report_answer_breakdown ->
     map (fun row => default "" (head row)) (csv_rows csv) = dayKeys range).
Proof.
  intros H.
  destruct (getSurveyCsvExport identity surveyId from to report db) as [db' r] eqn:Hrun.
  cbn [snd] in H. subst r. unfold getSurveyCsvExport in Hrun.
  apply bind_inr in Hrun as (db1 & access & _ & H).
  destruct (snd access); [|discriminate H].
  apply bind_inr in H as (db2 & range & H1 & H). unfold lift in H1. injection H1 as _ Hrange.
  destruct report.
  - apply bind_inr in H as (db3 & trendRows & _ & H). cbv zeta in H.
    apply bind_inr in H as (db4 & u & H1 & H). unfold lift in H1. injection H1 as _ Hlimit.
    apply enforceCsvRowLimit_inr in Hlimit. injection H as _ <-.
    cbn [csv_rows csv_headers]. split; [|split; [done|]].
    + by intros row (dateKey & -> & _)%list_elem_of_fmap.
    + exists range. split; [done|]. intros _. rewrite map_map. cbn. by rewrite map_id.
  - apply bind_inr in H as (db3 & trendRows & _ & H). cbv zeta in H.
    apply bind_inr in H as (db4 & u & H1 & H). unfold lift in H1. injection H1 as _ Hlimit.
    apply enforceCsvRowLimit_inr in Hlimit. injection H as _ <-.
    cbn [csv_rows csv_headers]. split; [|split; [done|]].
    + by intros row (dateKey & -> & _)%list_elem_of_fmap.
    + exists range. split; [done|]. intros _. rewrite map_map. cbn. by rewrite map_id.
  - apply bind_inr in H as (db3 & breakdownRows & _ & H). cbv zeta in H.
    apply bind_inr in H as (db4 & u & H1 & H). unfold lift in H1. injection H1 as _ Hlimit.
    apply enforceCsvRowLimit_inr in Hlimit. injection H as _ <-.
    cbn [csv_rows csv_headers]. split; [|split; [done|]].
    + intros row Hrow. apply list_elem_of_In, in_flat_map in Hrow as (field & _ & Hrow).
      by apply list_elem_of_In, list_elem_of_fmap in Hrow as (bucket & -> & _).
    + exists range. by split.
Qed.

End Csv.

Lemma getSurveyCsvExport_shape_witness :
  exists csv,
    snd (Analytics.getSurveyCsvExport (lux := Samples.calendarLuxon)
           (fmt := Samples.decimalFormat) (js := Samples.plainStrings)
           (consts := Samples.sampleConstants) (Some "user_1") 0%nat "2024-02-29"
           Samples.sampleDay Analytics.report_funnel Samples.sampleRebuilt) = inr csv /\
    length (Analytics.csv_rows csv) = 2%nat /\
    forall row, row ∈ Analytics.csv_rows csv ->
      length row = length (Analytics.csv_headers csv).
Proof.
  eexists.
  assert (Hrun : snd (Analytics.getSurveyCsvExport (lux := Samples.calendarLuxon)
           (fmt := Samples.decimalFormat) (js := Samples.plainStrings)
           (consts := Samples.sampleConstants) (Some "user_1") 0%nat "2024-02-29"
           Samples.sampleDay Analytics.report_funnel Samples.sampleRebuilt) = inr _)
    by (vm_compute; reflexivity).
  split; [exact Hrun|]. split; [reflexivity|].
  exact (proj1 (@getSurveyCsvExport_shape Samples.calendarLuxon Samples.decimalFormat
                  Samples.plainStrings Samples.sampleConstants (Some "user_1") 0%nat
                  "2024-02-29" Samples.sampleDay Analytics.report_funnel
                  Samples.sampleRebuilt _ Hrun)).
Defined.

Lemma submitSession_whole_cap_witness :
  exists invite',
    lookupDoc
      (surveyInvites
         (commit (Respondent.submitSession (lux := Samples.calendarLuxon)
                    (zod := Samples.zod4) (re := Samples.permissiveRegExp)
                    1709300000000 "s-open")
            Samples.sampleSessionsDb)) 0%nat = Some invite' /\
    completionCount invite' = 2 /\ completionCount invite' <= 5.
Proof.
  eexists.
  assert (Hafter : lookupDoc
            (surveyInvites
               (commit (Respondent.submitSession (lux := Samples.calendarLuxon)
                          (zod := Samples.zod4) (re := Samples.permissiveRegExp)
                          1709300000000 "s-open")
                  Samples.sampleSessionsDb)) 0%nat = Some _)
    by (vm_compute; reflexivity).
  split; [exact Hafter|]. split; [reflexivity|].
  refine (proj1 (proj2 (@submitSession_whole_cap Samples.calendarLuxon Samples.zod4
            Samples.permissiveRegExp 1709300000000 "s-open" Samples.sampleSessionsDb 0%nat
            (mkInvite 0 0 "h:inv_1" inv_active (ofZ 5) 1 None 0 1709000000000 None)
            _ 5 _ _ _ Hafter))).
  - reflexivity.
  - reflexivity.
  - simpl. lia.
Defined.

(** ** Text answers are graded up to case and surrounding white space *)

Section NormalizeText.

Import Scoring.

Lemma isWhite_lowerChar (c : ascii) : isWhite (lowerChar c) = isWhite c.
Proof. by destruct c as [[] [] [] [] [] [] [] []]. Qed.

Lemma lowerChar_twice (c : ascii) : lowerChar (lowerChar c) = lowerChar c.
Proof. by destruct c as [[] [] [] [] [] [] [] []]. Qed.

Lemma toLowerCase_twice (s : string) : toLowerCase (toLowerCase s) = toLowerCase s.
Proof. induction s as [|c s IH]; cbn; [done|]. by rewrite lowerChar_twice, IH. Qed.

Lemma toLowerCase_trimStart (s : string) :
  toLowerCase (trimStart s) = trimStart (toLowerCase s).
Proof.
  induction s as [|c s IH]; cbn [trimStart toLowerCase]; [done|].
  rewrite isWhite_lowerChar. by destruct (isWhite c).
Qed.

Lemma toLowerCase_trimEnd (s : string) :
  toLowerCase (trimEnd s) = trimEnd (toLowerCase s).
Proof.
  induction s as [|c s IH]; cbn [trimEnd toLowerCase]; [done|].
  rewrite <- IH, isWhite_lowerChar.
  destruct (trimEnd s) as [|d r]; cbn [toLowerCase]; [|done]. by destruct (isWhite c).
Qed.

Lemma trimEnd_twice (s : string) : trimEnd (trimEnd s) = trimEnd s.
Proof.
  induction s as [|c s IH]; cbn [trimEnd]; [done|].
  destruct (trimEnd s) as [|d r] eqn:Hr.
  - destruct (isWhite c) eqn:Hc; cbn [trimEnd]; [done|]. by rewrite Hc.
  - cbn [trimEnd]. cbn [trimEnd] in IH. by rewrite IH.
Qed.

Lemma trimStart_trimEnd (s : string) :
  trimStart (trimEnd (trimStart s)) = trimEnd (trimStart s).
Proof.
  induction s as [|c s IH]; cbn [trimStart]; [done|].
  destruct (isWhite c) eqn:Hc; [done|]. cbn [trimEnd].
  destruct (trimEnd s) as [|d r]; [rewrite Hc|]; cbn [trimStart]; by rewrite Hc.
Qed.

Lemma trim_twice (s : string) : trim (trim s) = trim s.
Proof. unfold trim. by rewrite trimStart_trimEnd, trimEnd_twice. Qed.

(** [normalizeText] gives the same text when it is applied again, so a
    text answer is graded as its normalised form is: a question with an
    exact text gives the same verdict on an answer and on the answer
    without its surrounding white space and in lower case. *)
Theorem normalizeText_grading (s : string) :
  normalizeText (normalizeText s) = normalizeText s /\
  forall field expected,
    correctness field = Some (text_exact expected) ->
    evaluateFieldCorrectness field (Some (AStr (normalizeText s))) =
    evaluateFieldCorrectness field (Some (AStr s)).
Proof.
  assert (Hidem : normalizeText (normalizeText s) = normalizeText s).
  { unfold normalizeText, trim.
    by rewrite <- toLowerCase_trimStart, <- toLowerCase_trimEnd, toLowerCase_twice,
         trimStart_trimEnd, trimEnd_twice. }
  split; [done|]. intros field expected Hfield. unfold evaluateFieldCorrectness.
  by rewrite Hfield, Hidem.
Qed.

End NormalizeText.

(** ** Every transition is logged *)

Global Instance transitions_other_sessions : OtherTable t_sessionTransitions t_surveySessions.
Proof. by intros T db. Qed.
Global Instance transitions_other_metrics : OtherTable t_sessionTransitions t_surveyMetricsDaily.
Proof. by intros T db. Qed.
Global Instance transitions_other_analytics :
  OtherTable t_sessionTransitions t_surveyAnalyticsDaily.
Proof. by intros T db. Qed.
Global Instance transitions_other_outbox : OtherTable t_sessionTransitions t_analyticsOutbox.
Proof. by intros T db. Qed.

Section Transition.
Context `{lux : Luxon} `{consts : Constants} `{rt : QueryRuntime}.

Import Sessions.

(** [transitionSession] and the internal mutation [transitionState]
    on top of it return [true] exactly when they have moved a session:
    [false] means that nothing at all was written, because the session
    does not exist or is in the target status already; [true] means
    that the session had another status, has been moved as
    [moveSession] says, and that exactly one row was added to the log
    of transitions, from the earlier status to the new one with the
    reason and the time given.  Invites and responses are never
    written. *)
Theorem transitionSession_logged (sessionId : Id) (toStatus : SessionStatus) (why : string)
    (at_ : Z) (db db' : Db) (moved : bool) :
  transitionSession sessionId toStatus why at_ db = (db', inr moved) ->
  transitionState at_ sessionId toStatus why db = (db', inr moved) /\
  surveyInvites db' = surveyInvites db /\ surveyResponses db' = surveyResponses db /\
  if moved then
    exists session,
      lookupDoc (surveySessions db) sessionId = Some session /\
      ses_status session <> toStatus /\
      surveySessions db' =
        <[sessionId := Some (moveSession toStatus at_ session)]> (surveySessions db) /\
      sessionTransitions db' =
        sessionTransitions db ++
        [Some (mkTransition sessionId (ses_surveyId session) (Some (ses_status session))
                 toStatus why at_)]
  else
    db' = db /\
    (lookupDoc (surveySessions db) sessionId = None \/
     ses_status <$> lookupDoc (surveySessions db) sessionId = Some toStatus).
Proof.
  intros H. split; [exact H|]. unfold transitionSession in H.
  frame_of t_surveyInvites H. frame_of t_surveyResponses H.
  split; [done|]. split; [done|]. clear Hframe Hframe0.
  apply bind_inr in H as (db1 & found & H1 & H). unfold Store.get in H1.
  injection H1 as <- <-. cbn [tget t_surveySessions] in H.
  destruct (lookupDoc (surveySessions db) sessionId) as [session|] eqn:Hsession.
  2:{ injection H as <- <-. split; [done|]. by left. }
  destruct (bool_decide (ses_status session = toStatus)) eqn:Hsame.
  { apply bool_decide_eq_true_1 in Hsame. injection H as <- <-. split; [done|].
    right. cbn. by rewrite Hsame. }
  apply bool_decide_eq_false_1 in Hsame. cbv zeta in H.
  assert (Hmoved : moved = true).
  { repeat (apply bind_inr in H as (? & ? & _ & H)). by injection H as _ <-. }
  subst moved.
  apply bind_inr in H as (db1 & u1 & H1 & H).
  assert (Hpatch : surveySessions db1 =
                     <[sessionId := Some (moveSession toStatus at_ session)]>
                       (surveySessions db) /\
                   sessionTransitions db1 = sessionTransitions db).
  { unfold Store.patch in H1. cbn [tget t_surveySessions] in H1. rewrite Hsession in H1.
    by injection H1 as <- _. }
  destruct Hpatch as [Hsessions Hlog]. clear H1.
  frame_of t_surveySessions H. cbn [tget t_surveySessions] in Hframe.
  apply bind_inr in H as (db2 & u2 & H1 & H).
  assert (Hwrite : sessionTransitions db2 =
                     sessionTransitions db1 ++
                     [Some (mkTransition sessionId (ses_surveyId session)
                              (Some (ses_status session)) toStatus why at_)]).
  { unfold Domain.writeTransition, bind, Store.insert, ret in H1. by injection H1 as <- _. }
  clear H1. frame_of t_sessionTransitions H. cbn [tget t_sessionTransitions] in Hframe0.
  exists session. split; [done|]. split; [done|]. split; [congruence|].
  rewrite Hframe0, Hwrite. by rewrite Hlog.
Qed.

End Transition.

Lemma transitionSession_logged_witness :
  exists db',
    Sessions.transitionSession (lux := Samples.calendarLuxon) 1%nat idle "idle_timeout"
      1709300000000 Samples.sampleSessionsDb = (db', inr true) /\
    length (sessionTransitions db') = S (length (sessionTransitions Samples.sampleSessionsDb)).
Proof.
  eexists.
  assert (Hrun : Sessions.transitionSession (lux := Samples.calendarLuxon) 1%nat idle
                   "idle_timeout" 1709300000000 Samples.sampleSessionsDb = (_, inr true))
    by (vm_compute; reflexivity).
  split; [exact Hrun|].
  destruct (@transitionSession_logged Samples.calendarLuxon 1%nat idle "idle_timeout"
              1709300000000 Samples.sampleSessionsDb _ true Hrun)
    as (_ & _ & _ & session & _ & _ & _ & Hlog).
  rewrite Hlog, length_app. cbn [length]. lia.
Defined.

(** ** What lasts: completed sessions and revoked invites *)

Lemma commit_cases {A} (c : M A) (db : Db) :
  commit c db = db \/ exists db' a, c db = (db', inr a) /\ commit c db = db'.
Proof.
  unfold commit, mutation. destruct (c db) as [db' [e|a]]; [by left|].
  right. by exists db', a.
Qed.

Lemma commit_keeps {B A} (t : TableRef B) (c : M A) (db : Db) :
  keepsTable t c -> tget t (commit c db) = tget t db.
Proof.
  intros Hk. destruct (commit_cases c db) as [->|(db' & a & Hrun & ->)]; [done|].
  specialize (Hk db). by rewrite Hrun in Hk.
Qed.

Lemma keeps_forEach {B A S} (t : TableRef B) (step : S -> A -> M S) (l : list A) :
  (forall s x, keepsTable t (step s x)) -> forall s, keepsTable t (forEach step l s).
Proof.
  intros Hstep. induction l as [|x rest IH]; intros s; cbn [forEach].
  - apply keeps_ret.
  - apply keeps_bind; [apply Hstep|apply IH].
Qed.

Section Lasting.
Context `{lux : Luxon} `{zod : ZodNumber} `{re : RegExpEngine} `{crypto : Utils.Crypto}
        `{js : JsStrings} `{consts : Constants} `{rt : QueryRuntime}.

Import Utils Invites Respondent Sessions.

Lemma only_session (publicId : string) (T : Table SurveySession) (i j : Id)
    (s s' : SurveySession) :
  List.filter (fun d => String.eqb (sessionPublicId (snd d)) publicId) (docs T) = [(i, s)] ->
  lookupDoc T j = Some s' -> sessionPublicId s' = publicId -> j = i /\ s' = s.
Proof.
  intros Honly Hj Hpublic.
  assert (Hin : (j, s') ∈
            List.filter (fun d => String.eqb (sessionPublicId (snd d)) publicId) (docs T)).
  { apply list_elem_of_In, List.filter_In. split.
    - by apply list_elem_of_In, docs_spec.
    - cbn. rewrite Hpublic. apply String.eqb_refl. }
  rewrite Honly in Hin. apply list_elem_of_singleton in Hin. by injection Hin as -> ->.
Qed.

Lemma only_session_lookup (publicId : string) (T : Table SurveySession) (i : Id)
    (s : SurveySession) :
  List.filter (fun d => String.eqb (sessionPublicId (snd d)) publicId) (docs T) = [(i, s)] ->
  lookupDoc T i = Some s /\ sessionPublicId s = publicId.
Proof.
  intros Honly.
  assert (Hin : In (i, s)
            (List.filter (fun d => String.eqb (sessionPublicId (snd d)) publicId) (docs T)))
    by (rewrite Honly; by left).
  apply List.filter_In in Hin as [Hin Hp]. apply list_elem_of_In, docs_spec in Hin.
  split; [done|]. by apply String.eqb_eq in Hp.
Qed.

(** The sweeps and [transitionState] write no invite. *)
Lemma transitionSession_keeps_invites (sessionId : Id) (toStatus : SessionStatus)
    (why : string) (at_ : Z) :
  keepsTable t_surveyInvites (transitionSession sessionId toStatus why at_).
Proof. unfold transitionSession. keeps. Qed.

Lemma quietSessions_keeps_invites (status : SessionStatus) (cutoff : Z) (n : JsNum) :
  keepsTable t_surveyInvites (quietSessions status cutoff n).
Proof. unfold quietSessions. keeps. Qed.

Lemma sweep_keeps_invites (toStatus : SessionStatus) (why : string) (now : Z)
    (sessions : list (Doc SurveySession)) :
  keepsTable t_surveyInvites (sweep toStatus why now sessions).
Proof.
  unfold sweep. apply keeps_forEach. intros processed session.
  apply keeps_bind; [apply transitionSession_keeps_invites|intros ?; apply keeps_ret].
Qed.

(** One operation on sessions leaves a completed session completed,
    unless it is a [transitionState] towards another status. *)
Lemma completed_stays (op : SessionOp) (db : Db) (i : Id) (s : SurveySession) :
  leavesCompleted op = true ->
  lookupDoc (surveySessions db) i = Some s -> ses_status s = completed ->
  exists s', lookupDoc (surveySessions (runSessionOp op db)) i = Some s' /\
             sessionPublicId s' = sessionPublicId s /\ ses_status s' = completed.
Proof.
  intros Hop Hs Hdone.
  assert (Hsame : forall db', surveySessions db' = surveySessions db ->
            exists s', lookupDoc (surveySessions db') i = Some s' /\
                       sessionPublicId s' = sessionPublicId s /\ ses_status s' = completed)
    by (intros db' ->; by exists s).
  assert (Hquiet : forall target sources cutoff now T,
            completed ∉ sources ->
            sessionsRel (quietMove target sources cutoff now) (surveySessions db) T ->
            exists s', lookupDoc T i = Some s' /\
                       sessionPublicId s' = sessionPublicId s /\ ses_status s' = completed).
  { intros target sources cutoff now T Hnot Hrel.
    destruct (Hrel i s Hs) as (s' & Hs' & [->|(Hin & _)]); [by exists s|].
    rewrite Hdone in Hin. by destruct Hnot. }
  destruct op as [now uuid inviteToken key prior|now publicId fieldId value|now publicId
                 |now sessionId toStatus why|now limit|now limit]; cbn [runSessionOp].
  - destruct (commit_cases (startOrResumeSession now uuid inviteToken key prior) db)
      as [->|(db' & [[publicId status] progress] & Hrun & ->)]; [by exists s|].
    apply startOrResumeSession_inr in Hrun
      as (_ & _ & _ & inviteId & invite & sessionId & session & _ & _ & _ & _ & _ & _ & _
          & _ & _ & Hother & Hearlier).
    destruct (decide (i = sessionId)) as [->|Hne].
    + rewrite Hs in Hearlier. by destruct Hearlier as [_ Hopen].
    + rewrite (Hother i Hne). by exists s.
  - destruct (commit_cases (saveAnswer now publicId fieldId value) db)
      as [->|(db' & r & Hrun & ->)]; [by exists s|].
    apply saveAnswer_effect in Hrun
      as (_ & sessionId & session & saved & Honly & Hopen & ->).
    apply only_session_lookup in Honly as [Hsession _].
    destruct (decide (sessionId = i)) as [->|Hne]; [congruence|].
    rewrite lookupDoc_set_ne by done. by exists s.
  - destruct (commit_cases (submitSession now publicId) db)
      as [->|(db' & r & Hrun & ->)]; [by exists s|].
    apply submitSession_effect in Hrun
      as (sessionId & session & version & Honly & Hopen & _ & _ & _ & _ & _ & ->).
    apply only_session_lookup in Honly as [Hsession _].
    destruct (decide (sessionId = i)) as [->|Hne]; [congruence|].
    rewrite lookupDoc_set_ne by done. by exists s.
  - cbn [leavesCompleted] in Hop. apply bool_decide_eq_true_1 in Hop as ->.
    unfold transitionState.
    destruct (commit_cases (transitionSession sessionId completed why now) db)
      as [->|(db' & r & Hrun & ->)]; [by exists s|].
    assert (Hdb' : db' = fst (transitionSession sessionId completed why now db))
      by (by rewrite Hrun).
    destruct (lookupDoc (surveySessions db) sessionId) as [s1|] eqn:Hs1.
    + destruct (transitionSession_run sessionId completed why now db s1 Hs1) as [Heq|Heq];
        rewrite <- Hdb' in Heq; [by apply Hsame|].
      rewrite Heq. destruct (decide (sessionId = i)) as [->|Hne].
      * rewrite lookupDoc_set_eq by (by eapply lookupDoc_lt).
        exists (moveSession completed now s1). split; [done|].
        rewrite Hs in Hs1. by injection Hs1 as <-.
      * rewrite lookupDoc_set_ne by done. by exists s.
    + destruct (transitionSession_writes sessionId completed why now db)
        as [Heq|(j & s0 & s' & Hj & [-> _] & _)]; [|congruence].
      rewrite <- Hdb' in Heq. by apply Hsame.
  - apply (Hquiet idle [in_progress] (now - IDLE_THRESHOLD_MS) now).
    + by intros [=]%list_elem_of_singleton.
    + apply sessionsRel_commit; [by left|apply markIdleBatch_quiet].
  - apply (Hquiet abandoned [idle; in_progress] (now - ABANDONED_THRESHOLD_MS) now).
    + intros Hin. repeat (apply elem_of_cons in Hin as [[=]|Hin]). by apply elem_of_nil in Hin.
    + apply sessionsRel_commit; [by left|apply markAbandonedBatch_quiet].
Qed.

Lemma completed_lasts (ops : list SessionOp) :
  forallb leavesCompleted ops = true ->
  forall (db : Db) (i : Id) (s : SurveySession),
    lookupDoc (surveySessions db) i = Some s -> ses_status s = completed ->
    exists s', lookupDoc (surveySessions (runSessionOps ops db)) i = Some s' /\
               sessionPublicId s' = sessionPublicId s /\ ses_status s' = completed.
Proof.
  induction ops as [|op ops IH]; intros Hops db i s Hs Hdone; [by exists s|].
  cbn [forallb] in Hops. apply andb_prop in Hops as [Hop Hops].
  destruct (completed_stays op db i s Hop Hs Hdone) as (s1 & Hs1 & Hpublic & Hdone1).
  destruct (IH Hops (runSessionOp op db) i s1 Hs1 Hdone1) as (s' & Hs' & Hpublic' & Hdone').
  exists s'. split; [done|]. split; [congruence|done].
Qed.

(** A session is submitted once, and for good.  After a submission
    that returned, every later submission and every later answer for
    the same session is refused with [SESSION_COMPLETED] and writes
    nothing.  And whatever operations on sessions follow, in any number
    and order ([startOrResumeSession], [saveAnswer], [submitSession],
    the two sweeps, [transitionState] towards completed), the session
    is still there under its id, completed, and no submission and no
    answer for it returns.  A [transitionState] towards another status
    is left out: it is the one mutation that reopens a completed
    session. *)
Theorem submitSession_once (now : Z) (publicId : string) (db db' : Db) (r : Id * Z) :
  submitSession now publicId db = (db', inr r) ->
  (forall later,
     submitSession later publicId db' = (db', inl (ConvexError "SESSION_COMPLETED")) /\
     forall fieldId value,
       saveAnswer later publicId fieldId value db'
         = (db', inl (ConvexError "SESSION_COMPLETED"))) /\
  exists sessionId,
    forall ops : list SessionOp,
      forallb leavesCompleted ops = true ->
      (exists current,
         lookupDoc (surveySessions (runSessionOps ops db')) sessionId = Some current /\
         sessionPublicId current = publicId /\ ses_status current = completed) /\
      forall later db2,
        (forall r2, submitSession later publicId (runSessionOps ops db') <> (db2, inr r2)) /\
        (forall fieldId value r2,
           saveAnswer later publicId fieldId value (runSessionOps ops db') <> (db2, inr r2)).
Proof.
  intros H.
  apply submitSession_effect in H
    as (sessionId & session & version & Honly & _ & _ & _ & _ & _ & _ & Hses).
  pose proof (only_session_lookup _ _ _ _ Honly) as [Hsession Hpublic].
  split.
  { apply (completed_frozen publicId db' sessionId (completeSession now session)); [|done].
    rewrite Hses.
    apply (collect_set_only (fun s => String.eqb (sessionPublicId s) publicId)
             (surveySessions db) sessionId session); [exact Honly|].
    cbn. rewrite Hpublic. apply String.eqb_refl. }
  exists sessionId. intros ops Hops.
  assert (Hnow : lookupDoc (surveySessions db') sessionId = Some (completeSession now session))
    by (rewrite Hses; apply lookupDoc_set_eq; by eapply lookupDoc_lt).
  destruct (completed_lasts ops Hops db' sessionId _ Hnow eq_refl)
    as (current & Hcurrent & Hsame & Hdone).
  assert (Hid : sessionPublicId current = publicId) by (by rewrite Hsame).
  split; [by exists current|].
  intros later db2. split.
  - intros r2 Hrun. apply submitSession_effect in Hrun
      as (i & s & _ & Honly' & Hopen & _).
    destruct (only_session _ _ _ _ _ _ Honly' Hcurrent Hid) as [_ ->]. done.
  - intros fieldId value r2 Hrun. apply saveAnswer_effect in Hrun
      as (_ & i & s & saved & Honly' & Hopen & _).
    destruct (only_session _ _ _ _ _ _ Honly' Hcurrent Hid) as [_ ->]. done.
Qed.

(** One operation leaves a revoked invite revoked, with its hash. *)
Lemma revoked_stays (op : InviteOp) (db : Db) (j : Id) (invite : SurveyInvite) :
  lookupDoc (surveyInvites db) j = Some invite -> inv_status invite = inv_revoked ->
  exists invite', lookupDoc (surveyInvites (runInviteOp op db)) j = Some invite' /\
                  inv_status invite' = inv_revoked /\ tokenHash invite' = tokenHash invite.
Proof.
  intros Hinvite Hrevoked.
  assert (Hsame : forall db', surveyInvites db' = surveyInvites db ->
            exists invite', lookupDoc (surveyInvites db') j = Some invite' /\
                            inv_status invite' = inv_revoked /\
                            tokenHash invite' = tokenHash invite)
    by (intros db' ->; by exists invite).
  destruct op as [identity now inviteToken surveyId surveyVersionId expires cap
                 |identity now inviteId|op]; cbn [runInviteOp].
  - destruct (commit_cases (createInvite identity now inviteToken surveyId surveyVersionId
                              expires cap) db)
      as [->|(db' & r & Hrun & ->)]; [by exists invite|].
    apply createInvite_appends in Hrun as (new & ->).
    rewrite lookupDoc_app_old by (by eapply lookupDoc_lt). by exists invite.
  - destruct (commit_cases (revokeInvite identity now inviteId) db)
      as [->|(db' & u & Hrun & ->)]; [by exists invite|].
    apply revokeInvite_effect in Hrun as (found & survey & Hfound & _ & _ & -> & _).
    destruct (decide (inviteId = j)) as [->|Hne].
    + rewrite lookupDoc_set_eq by (by eapply lookupDoc_lt).
      eexists. split; [done|]. cbn. split; [done|]. congruence.
    + rewrite lookupDoc_set_ne by done. by exists invite.
  - destruct op as [now uuid inviteToken key prior|now publicId fieldId value|now publicId
                   |now sessionId toStatus why|now limit|now limit]; cbn [runSessionOp].
    + destruct (commit_cases (startOrResumeSession now uuid inviteToken key prior) db)
        as [->|(db' & [[publicId status] progress] & Hrun & ->)]; [by exists invite|].
      apply startOrResumeSession_inr in Hrun as (_ & _ & Hinvites & _). by apply Hsame.
    + destruct (commit_cases (saveAnswer now publicId fieldId value) db)
        as [->|(db' & r & Hrun & ->)]; [by exists invite|].
      apply saveAnswer_effect in Hrun as (Hinvites & _). by apply Hsame.
    + destruct (commit_cases (submitSession now publicId) db)
        as [->|(db' & r & Hrun & ->)]; [by exists invite|].
      apply submitSession_returns in Hrun
        as (sessionId & session & used & _ & Hused & Hactive & _ & ->).
      destruct (decide (ses_inviteId session = j)) as [Heq|Hne].
      * rewrite Heq, Hinvite in Hused. injection Hused as <-. congruence.
      * rewrite lookupDoc_set_ne by done. by exists invite.
    + apply Hsame.
      apply (commit_keeps t_surveyInvites). apply transitionSession_keeps_invites.
    + apply Hsame. apply (commit_keeps t_surveyInvites).
      unfold markIdleBatch. cbv zeta.
      apply keeps_bind; [apply quietSessions_keeps_invites|intros ?; apply sweep_keeps_invites].
    + apply Hsame. apply (commit_keeps t_surveyInvites).
      unfold markAbandonedBatch. cbv zeta.
      apply keeps_bind; [apply quietSessions_keeps_invites|intros ?].
      apply keeps_bind; [|intros ?; apply sweep_keeps_invites].
      destruct (num_gt _ _); [apply quietSessions_keeps_invites|apply keeps_ret].
Qed.

Lemma revoked_lasts (ops : list InviteOp) :
  forall (db : Db) (j : Id) (invite : SurveyInvite),
    lookupDoc (surveyInvites db) j = Some invite -> inv_status invite = inv_revoked ->
    exists invite', lookupDoc (surveyInvites (runInviteOps ops db)) j = Some invite' /\
                    inv_status invite' = inv_revoked /\ tokenHash invite' = tokenHash invite.
Proof.
  induction ops as [|op ops IH]; intros db j invite Hinvite Hrevoked; [by exists invite|].
  destruct (revoked_stays op db j invite Hinvite Hrevoked) as (i1 & Hi1 & Hr1 & Hh1).
  destruct (IH (runInviteOp op db) j i1 Hi1 Hr1) as (i2 & Hi2 & Hr2 & Hh2).
  exists i2. split; [done|]. split; [done|congruence].
Qed.

(** [revokeInvite], when it returns: the caller is an admin or the
    creator of the survey of the invite; the invite, and no other, is
    written: it is revoked at that time and keeps its other fields.
    From then on it stays revoked: whatever mutations of invites and
    sessions follow, in any number and order ([createInvite],
    [revokeInvite], [startOrResumeSession], [saveAnswer],
    [submitSession], [transitionState], the two sweeps), the invite is
    still there with its hash and revoked, it is not usable at any
    time, no token with its hash starts or resumes a session, and no
    session of it is submitted. *)
Theorem revokeInvite_returns (identity : option string) (now : Z) (inviteId : Id)
    (db db' : Db) (u : unit) :
  revokeInvite identity now inviteId db = (db', inr u) ->
  exists invite survey revoked,
    lookupDoc (surveyInvites db) inviteId = Some invite /\
    lookupDoc (surveys db) (inv_surveyId invite) = Some survey /\
    actsOn db identity survey /\
    revoked = mkInvite (inv_surveyId invite) (inv_surveyVersionId invite) (tokenHash invite)
                inv_revoked (maxCompletions invite) (completionCount invite)
                (expiresAt invite) (inv_createdByUserId invite) (inv_createdAt invite)
                (Some now) /\
    surveyInvites db' = <[inviteId := Some revoked]> (surveyInvites db) /\
    surveySessions db' = surveySessions db /\
    (forall at_, isInviteUsable revoked at_ = false /\
                 inviteStateFromInvite (Some revoked) at_ = state_revoked) /\
    forall ops : list InviteOp,
      (exists current,
         lookupDoc (surveyInvites (runInviteOps ops db')) inviteId = Some current /\
         inv_status current = inv_revoked /\ tokenHash current = tokenHash invite /\
         forall at_, isInviteUsable current at_ = false /\
                     inviteStateFromInvite (Some current) at_ = state_revoked) /\
      (forall later uuid inviteToken key priorSessionId db2 r,
         hashToken inviteToken = tokenHash invite ->
         startOrResumeSession later uuid inviteToken key priorSessionId
           (runInviteOps ops db') <> (db2, inr r)) /\
      (forall later publicId sessionId session db2 r,
         lookupDoc (surveySessions (runInviteOps ops db')) sessionId = Some session ->
         sessionPublicId session = publicId -> ses_inviteId session = inviteId ->
         submitSession later publicId (runInviteOps ops db') <> (db2, inr r)).
Proof.
  intros H.
  apply revokeInvite_effect in H as (invite & survey & Hinvite & Hsurvey & Hacts & Hnew & Hses).
  set (revoked := mkInvite _ _ _ _ _ _ _ _ _ _) in Hnew.
  assert (Hrevoked : lookupDoc (surveyInvites db') inviteId = Some revoked).
  { rewrite Hnew. apply lookupDoc_set_eq. by eapply lookupDoc_lt. }
  assert (Hunusable : forall current, inv_status current = inv_revoked ->
            forall at_, isInviteUsable current at_ = false /\
                        inviteStateFromInvite (Some current) at_ = state_revoked).
  { intros current Hst at_. unfold isInviteUsable, inviteStateFromInvite. by rewrite Hst. }
  exists invite, survey, revoked.
  split; [done|]. split; [done|]. split; [done|]. split; [done|]. split; [done|].
  split; [done|]. split; [by apply Hunusable|].
  intros ops.
  destruct (revoked_lasts ops db' inviteId revoked Hrevoked eq_refl)
    as (current & Hcurrent & Hst & Hhash).
  cbn [tokenHash revoked] in Hhash.
  split; [exists current; split; [done|]; split; [done|]; split; [done|];
          by apply Hunusable|].
  split.
  - intros later uuid inviteToken key priorSessionId db2 r Htoken Hstart.
    apply start_needs_usable in Hstart as ([i found] & Hfound & Husable).
    unfold getInviteByToken, bind, Store.collect in Hfound.
    pose proof (unique_Some _ _ _ _ Hfound) as Hrows.
    assert (Hin : (inviteId, current) ∈
              List.filter (fun d => String.eqb (tokenHash (snd d)) (hashToken inviteToken))
                (docs (tget t_surveyInvites (runInviteOps ops db')))).
    { apply list_elem_of_In, List.filter_In. split.
      - apply list_elem_of_In, docs_spec. exact Hcurrent.
      - cbn. rewrite Htoken, Hhash. apply String.eqb_refl. }
    rewrite Hrows in Hin. apply list_elem_of_singleton in Hin. injection Hin as <- <-.
    cbn [snd] in Husable. by rewrite (proj1 (Hunusable _ Hst later)) in Husable.
  - intros later publicId sessionId session db2 r Hsession Hpublic Hof Hsubmit.
    apply submitSession_effect in Hsubmit
      as (sessionId' & session' & version & Honly & _ & (inv & Hinv & Husable) & _).
    destruct (only_session _ _ _ _ _ _ Honly Hsession Hpublic) as [_ ->].
    rewrite Hof, Hcurrent in Hinv. injection Hinv as <-.
    by rewrite (proj1 (Hunusable _ Hst later)) in Husable.
Qed.

End Lasting.

Lemma submitSession_once_witness :
  let ops := [OpMarkAbandoned 1709400000000 None;
              OpStartOrResume 1709400060000 "uuid-2" "inv_cap" "respondent-aaaa" None;
              OpTransitionState 1709400120000 0%nat completed "manual"] in
  let later :=
    runSessionOps (lux := Samples.calendarLuxon) (zod := Samples.zod4)
      (re := Samples.permissiveRegExp) (crypto := Samples.tagCrypto)
      (js := Samples.plainStrings) (consts := Samples.sampleConstants)
      (rt := Samples.strictTake) ops Samples.sampleSubmitted in
  Respondent.submitSession (lux := Samples.calendarLuxon) (zod := Samples.zod4)
    (re := Samples.permissiveRegExp) 1709300000000 "uuid-1" Samples.sampleStarted
    = (Samples.sampleSubmitted, inr (2%nat, 1709300000000)) /\
  Respondent.submitSession (lux := Samples.calendarLuxon) (zod := Samples.zod4)
    (re := Samples.permissiveRegExp) 1709300060000 "uuid-1" Samples.sampleSubmitted
    = (Samples.sampleSubmitted, inl (ConvexError "SESSION_COMPLETED")) /\
  forall db2 r2,
    Respondent.submitSession (lux := Samples.calendarLuxon) (zod := Samples.zod4)
      (re := Samples.permissiveRegExp) 1709400180000 "uuid-1" later <> (db2, inr r2).
Proof.
  cbv zeta.
  assert (Hrun : Respondent.submitSession (lux := Samples.calendarLuxon) (zod := Samples.zod4)
                   (re := Samples.permissiveRegExp) 1709300000000 "uuid-1"
                   Samples.sampleStarted
                 = (Samples.sampleSubmitted, inr (2%nat, 1709300000000)))
    by (vm_compute; reflexivity).
  split; [exact Hrun|].
  destruct (@submitSession_once Samples.calendarLuxon Samples.zod4
              Samples.permissiveRegExp Samples.tagCrypto Samples.plainStrings
              Samples.sampleConstants Samples.strictTake 1709300000000 "uuid-1"
              Samples.sampleStarted Samples.sampleSubmitted _ Hrun)
    as [Hnow [sessionId Hlast]].
  split; [exact (proj1 (Hnow 1709300060000))|].
  intros db2 r2.
  exact (proj1 (proj2 (Hlast [OpMarkAbandoned 1709400000000 None;
                               OpStartOrResume 1709400060000 "uuid-2" "inv_cap"
                                 "respondent-aaaa" None;
                               OpTransitionState 1709400120000 0%nat completed "manual"]
                          eq_refl) 1709400180000 db2) r2).
Defined.

(** The exception is there: the internal mutation [transitionState]
    takes the completed session back to in progress, and the session is
    then submitted a second time. *)
Lemma transitionState_reopens :
  let reopened :=
    runSessionOps (lux := Samples.calendarLuxon) (zod := Samples.zod4)
      (re := Samples.permissiveRegExp) (crypto := Samples.tagCrypto)
      (js := Samples.plainStrings) (consts := Samples.sampleConstants)
      (rt := Samples.strictTake)
      [OpTransitionState 1709400120000 0%nat in_progress "manual"] Samples.sampleSubmitted in
  ses_status <$> lookupDoc (surveySessions Samples.sampleSubmitted) 0%nat = Some completed /\
  ses_status <$> lookupDoc (surveySessions reopened) 0%nat = Some in_progress /\
  snd (Respondent.submitSession (lux := Samples.calendarLuxon) (zod := Samples.zod4)
         (re := Samples.permissiveRegExp) 1709400180000 "uuid-1" reopened)
    = inr (3%nat, 1709400180000).
Proof. cbv zeta. repeat split; vm_compute; reflexivity. Qed.

Lemma revokeInvite_returns_witness :
  let ops := [OpCreateInvite (Some "user_1") 1709300090000 "inv_new" 0%nat 0%nat None None;
              OpOnSession (OpMarkIdle 1709300100000 None);
              OpRevokeInvite (Some "user_1") 1709300110000 0%nat] in
  let later :=
    runInviteOps (lux := Samples.calendarLuxon) (zod := Samples.zod4)
      (re := Samples.permissiveRegExp) (crypto := Samples.tagCrypto)
      (js := Samples.plainStrings) (consts := Samples.sampleConstants)
      (rt := Samples.strictTake) ops Samples.sampleRevoked in
  Invites.revokeInvite (js := Samples.plainStrings) (Some "user_1") 1709300060000 0%nat
    Samples.capInvited = (Samples.sampleRevoked, inr tt) /\
  forall db2 r,
    Respondent.startOrResumeSession (lux := Samples.calendarLuxon)
      (crypto := Samples.tagCrypto) (js := Samples.plainStrings)
      1709300120000 "uuid-9" "inv_cap" "respondent-aaaa" None later
    <> (db2, inr r).
Proof.
  cbv zeta.
  assert (Hrun : Invites.revokeInvite (js := Samples.plainStrings) (Some "user_1")
                   1709300060000 0%nat Samples.capInvited
                 = (Samples.sampleRevoked, inr tt)) by (vm_compute; reflexivity).
  split; [exact Hrun|]. intros db2 r.
  destruct (@revokeInvite_returns Samples.calendarLuxon Samples.zod4
              Samples.permissiveRegExp Samples.tagCrypto Samples.plainStrings
              Samples.sampleConstants Samples.strictTake
              (Some "user_1") 1709300060000 0%nat Samples.capInvited Samples.sampleRevoked
              tt Hrun)
    as (invite & survey & revoked & Hinvite & _ & _ & _ & _ & _ & _ & Hlast).
  apply (proj1 (proj2 (Hlast _))).
  vm_compute in Hinvite. injection Hinvite as <-. reflexivity.
Defined.
